(** * Iridium modem driver: protocol engine (Modem.c) and API layer (ModemAPI.c)

    A shallow embedding of the two cooperating state machines of the driver,
    and the properties of the driver's specification checked against it.

    The C globals of each module become the fields of a record; every C
    function becomes a Rocq function that takes the record and returns the
    updated record (together with the C return value when there is one).
    Whatever the driver reads from outside itself during one call (clock,
    power lines, file system answers, ...) is gathered in the record [Env]. *)

From Stdlib Require Import ZArith List Bool Lia String Ascii.
Import ListNotations.
Open Scope Z_scope.

(** ** Machine integers

    [BYTE] is 8 bits, [WORD] 16 bits and [DWORD] 32 bits, all unsigned; they
    are kept as [Z] and every narrowing conversion is written out. *)

Definition to_BYTE (z : Z) : Z := z mod 256.
Definition to_WORD (z : Z) : Z := z mod 65536.
Definition HIBYTE (w : Z) : Z := Z.shiftr w 8 mod 256.
Definition LOBYTE (w : Z) : Z := Z.land w 255.

(** The target is a big-endian 68k: a [WORD] overlaid on two bytes has the
    first byte as its high half (this is how [RxMsg.rxMsg.wRxMsgLen] and
    [WORD_BUFF.wData] read the bytes stored through [pbyRxMsg] / [byData]). *)
Definition WORD_of_bytes (b0 b1 : Z) : Z := b0 * 256 + b1.

(** C strings are lists of character codes without the terminating NUL. *)
Definition str (s : string) : list Z :=
  map (fun c => Z.of_nat (nat_of_ascii c)) (list_ascii_of_string s).

Definition CARRIAGE_RETURN : Z := 13.
Definition LINE_FEED : Z := 10.
Definition NUL : Z := 0.

(** Modelled from the spec: MAX_CMD_LINE_LEN, declared in a header that is not
    among the sources; the spec gives the size of the line buffer as 256. *)
Definition MAX_CMD_LINE_LEN : Z := 256.

(** Modelled from the spec: MAX_FILE_LEN (FileUtils.h is not among the
    sources).  The comments of SendWriteBinaryMsgCmd give the limit of a
    mobile-originated message as 1960 bytes. *)
Definition MAX_FILE_LEN : Z := 1960.

(** Modelled from the spec: MAX_RX_FILE_LEN (not among the sources); the spec
    bounds [mt_length] by 1890. *)
Definition MAX_RX_FILE_LEN : Z := 1890.

Definition WORD_SIZE : Z := 2.
Definition IMEI_SIZE : Z := 16.
Definition MODEM_SW_VER_SIZE : Z := 8.
Definition STANDARD_RSP_TIMEOUT : Z := 5000.
Definition SATELLITE_RSP_TIMEOUT : Z := 65000.

(** Modelled from the spec: MAX_CFG_DOWNLOAD_SIZE (CISAPI.h is not among the
    sources); only its being a fixed cap matters. *)
Definition MAX_CFG_DOWNLOAD_SIZE : Z := 4096.

(** ** Lists used as C arrays *)

Fixpoint list_set {A : Type} (i : nat) (v : A) (l : list A) : list A :=
  match l, i with
  | [], _ => []
  | _ :: t, O => v :: t
  | h :: t, S j => h :: list_set j v t
  end.

(** [arr[i] = v]; a store outside the array is dropped. *)
Definition array_set {A : Type} (l : list A) (i : Z) (v : A) : list A :=
  if (i <? 0) then l else list_set (Z.to_nat i) v l.

Definition array_get (l : list Z) (i : Z) : Z :=
  if (i <? 0) then 0 else nth (Z.to_nat i) l 0.

(** [MemCpy( dst, src, n )] into an array already holding [dst]. *)
Definition MemCpy (dst src : list Z) (n : Z) : list Z :=
  firstn (Z.to_nat n) src ++ skipn (Z.to_nat n) dst.

Definition zeros (n : Z) : list Z := repeat 0 (Z.to_nat n).

(** ** Timers

    Modelled from the spec: the timer module (timer.h) is not among the
    sources; the spec describes each timer as a single-shot scalar deadline.
    A stopped timer is [None]; a running one holds its deadline. *)

Definition TIMERHANDLE : Type := option Z.

Definition StartTimer (now lapse : Z) : TIMERHANDLE := Some (now + lapse).
Definition ResetTimer (now lapse : Z) : TIMERHANDLE := Some (now + lapse).
Definition StopTimer : TIMERHANDLE := None.
Definition TimerExpired (now : Z) (t : TIMERHANDLE) : bool :=
  match t with
  | Some deadline => deadline <=? now
  | None => false
  end.

(** ** Enumerations of Modem.h and Modem.c *)

(** Modelled from the spec: AT_CMD_STATES is declared in ATInterface.h, which
    is not among the sources; the enumerators are the ones Modem.c and
    ModemAPI.c use, in the order the spec lists them. *)
Inductive AT_CMD_STATES : Type :=
| AT_CMD_POWERED_DOWN
| AT_CMD_INITTING
| AT_CMD_IDLE
| AT_CMD_SENDING
| AT_CMD_RCVING
| AT_CMD_PGMING
| AT_CMD_SUCCESS
| AT_CMD_FAILED
| AT_CMD_TIMED_OUT.

Inductive SUB_STATES : Type :=
| SUBSTATE_NONE
| SEND_IMEI_CMD
| SEND_MT_ALERT_CMD
| SEND_MT_ALERT_RSP
| SEND_SBD_AUTOREG_CMD
| SEND_SBD_AUTOREG_RSP
| SEND_SBD_DOWNLOAD_CMD
| SEND_TEXT_MSG
| SEND_READY_CMD
| SEND_DATA
| SEND_INITIATE_TRANSFER_CMD
| SEND_CLEAR_BUF_CMD
| SEND_STATUS_CMD
| SEND_CREG_CMD
| SEND_CSQ_CMD
| SEND_MAILBOX_CHECK_CMD
| GET_MAILBOX_CHECK_RSP
| SEND_MODEM_STATE_CMD
| SEND_HANGUP_CALL_CMD
| SEND_MODEM_VER_CMD
| HANDLE_FINAL_RSP
| SEND_CIS_PORT_CMD
| SEND_CIS_RINGER_STATE_CMD
| SEND_CIS_RELAY_STATE_CMD
| SEND_CIS_DOWNLOAD_CONFIG_CMD
| CIS_DOWNLOAD_CONFIG
| SEND_CIS_VERSION_QUERY_CMD
| START_CIS_PGMING_CMD
| CIS_PGMING_CMD
| CIS_PGMING_RSP
| GET_DATA.

Inductive AT_CMD_LIST : Type :=
| AT_CMD_SBD_ALERT
| AT_CMD_SBD_AUTO_REG
| AT_CMD_NETWORK_REG
| AT_CMD_SIGNAL_STRENGTH
| AT_CMD_SERIAL_NBR
| AT_CMD_SBD_WRITE_TEXT
| AT_CMD_SBD_WRITE_BIN
| AT_CMD_SBD_READ_BIN
| AT_CMD_SBD_CURRENT_CALL_STATUS
| AT_CMD_SBD_CLEAR_MO_BUFF
| AT_CMD_REVISION
| AT_CMD_HANGUP
| AT_CMD_SBD_STATUS
| AT_CMD_SBD_INITIATE_SESSION
| AT_CMD_SBD_INITIATE_ALERT_SESSION.

(** The enumerator's value; SendCommand compares it with
    AT_CMD_SBD_INITIATE_SESSION. *)
Definition AT_CMD_value (c : AT_CMD_LIST) : Z :=
  match c with
  | AT_CMD_SBD_ALERT => 0
  | AT_CMD_SBD_AUTO_REG => 1
  | AT_CMD_NETWORK_REG => 2
  | AT_CMD_SIGNAL_STRENGTH => 3
  | AT_CMD_SERIAL_NBR => 4
  | AT_CMD_SBD_WRITE_TEXT => 5
  | AT_CMD_SBD_WRITE_BIN => 6
  | AT_CMD_SBD_READ_BIN => 7
  | AT_CMD_SBD_CURRENT_CALL_STATUS => 8
  | AT_CMD_SBD_CLEAR_MO_BUFF => 9
  | AT_CMD_REVISION => 10
  | AT_CMD_HANGUP => 11
  | AT_CMD_SBD_STATUS => 12
  | AT_CMD_SBD_INITIATE_SESSION => 13
  | AT_CMD_SBD_INITIATE_ALERT_SESSION => 14
  end.

Definition AT_CMDS (c : AT_CMD_LIST) : list Z :=
  match c with
  | AT_CMD_SBD_ALERT => str "AT+SBDMTA=0" ++ [CARRIAGE_RETURN]
  | AT_CMD_SBD_AUTO_REG => str "AT+SBDAREG=1" ++ [CARRIAGE_RETURN]
  | AT_CMD_NETWORK_REG => str "AT+CREG?" ++ [CARRIAGE_RETURN]
  | AT_CMD_SIGNAL_STRENGTH => str "AT+CSQF" ++ [CARRIAGE_RETURN]
  | AT_CMD_SERIAL_NBR => str "AT+CGSN" ++ [CARRIAGE_RETURN]
  | AT_CMD_SBD_WRITE_TEXT => str "AT+SBDWT="
  | AT_CMD_SBD_WRITE_BIN => str "AT+SBDWB="
  | AT_CMD_SBD_READ_BIN => str "AT+SBDRB" ++ [CARRIAGE_RETURN]
  | AT_CMD_SBD_CURRENT_CALL_STATUS => str "AT+CLCC" ++ [CARRIAGE_RETURN]
  | AT_CMD_SBD_CLEAR_MO_BUFF => str "AT+SBDD0" ++ [CARRIAGE_RETURN]
  | AT_CMD_REVISION => str "AT+CGMR" ++ [CARRIAGE_RETURN]
  | AT_CMD_HANGUP => str "AT+CHUP" ++ [CARRIAGE_RETURN]
  | AT_CMD_SBD_STATUS => str "AT+SBDSX" ++ [CARRIAGE_RETURN]
  | AT_CMD_SBD_INITIATE_SESSION => str "AT+SBDIX" ++ [CARRIAGE_RETURN; LINE_FEED]
  | AT_CMD_SBD_INITIATE_ALERT_SESSION => str "AT+SBDIXA" ++ [CARRIAGE_RETURN; LINE_FEED]
  end.

Inductive AT_RSP_LIST : Type :=
| AT_RSP_SBD_WRITE_BIN_READY
| AT_RSP_SBD_READ_TEXT_OK
| AT_RSP_SBD_READ_BIN_OK
| AT_RSP_SBD_INITIATE_SESSION
| AT_RSP_SBD_STATUS
| AT_RSP_SBD_XFER_BUFF_MO_TO_MT_OK
| AT_RSP_CSQ
| AT_RSP_CALL_STATUS
| AT_RSP_CREG
| AT_RSP_SBDREG
| AT_RSP_REVISION.

Definition AT_RSPS (r : AT_RSP_LIST) : list Z :=
  match r with
  | AT_RSP_SBD_WRITE_BIN_READY => str "READY" ++ [CARRIAGE_RETURN]
  | AT_RSP_SBD_READ_TEXT_OK => str "+SBDRT:" ++ [CARRIAGE_RETURN; LINE_FEED]
  | AT_RSP_SBD_READ_BIN_OK => str "0" ++ [CARRIAGE_RETURN]
  | AT_RSP_SBD_INITIATE_SESSION => str "+SBDIX:"
  | AT_RSP_SBD_STATUS => str "+SBDSX:"
  | AT_RSP_SBD_XFER_BUFF_MO_TO_MT_OK =>
      str "SBMT: Outbound SBM Copied to Inbound SBM: Osize = 5, Isize = 5"
        ++ [CARRIAGE_RETURN; LINE_FEED] ++ str "0" ++ [CARRIAGE_RETURN]
  | AT_RSP_CSQ => str "+CSQF:"
  | AT_RSP_CALL_STATUS => str "+CLCC:"
  | AT_RSP_CREG => str "+CREG:"
  | AT_RSP_SBDREG => str "+SBDREG:"
  | AT_RSP_REVISION => str "Call Processor Version: "
  end.

Inductive CIS_CMD_LIST : Type :=
| CIS_CMD_RELAY_1_OFF
| CIS_CMD_RELAY_1_ON
| CIS_CMD_RELAY_1_STATUS
| CIS_CMD_RELAY_2_OFF
| CIS_CMD_RELAY_2_ON
| CIS_CMD_RELAY_2_STATUS
| CIS_CMD_RINGER_OFF
| CIS_CMD_RINGER_ON
| CIS_CMD_RINGER_STATUS
| CIS_CMD_RESET
| CIS_CMD_DOWNLOAD_CONFIG
| CIS_CMD_VERSION_CHECK
| CIS_CMD_LOAD_FLASH
| CIS_CMD_CANCEL_LOAD_FLASH
| CIS_CMD_F1
| CIS_CMD_F4.

Definition CIS_CMDS (c : CIS_CMD_LIST) : list Z :=
  match c with
  | CIS_CMD_RELAY_1_OFF => str "set relay 0 0"
  | CIS_CMD_RELAY_1_ON => str "set relay 0 1"
  | CIS_CMD_RELAY_1_STATUS => str "set relay 0" ++ [CARRIAGE_RETURN]
  | CIS_CMD_RELAY_2_OFF => str "set relay 1 0"
  | CIS_CMD_RELAY_2_ON => str "set relay 1 1"
  | CIS_CMD_RELAY_2_STATUS => str "set relay 1" ++ [CARRIAGE_RETURN]
  | CIS_CMD_RINGER_OFF => str "set ringer 1"
  | CIS_CMD_RINGER_ON => str "set ringer 0"
  | CIS_CMD_RINGER_STATUS => str "set ringer" ++ [CARRIAGE_RETURN]
  | CIS_CMD_RESET => str "reset"
  | CIS_CMD_DOWNLOAD_CONFIG => str "download config" ++ [CARRIAGE_RETURN; LINE_FEED]
  | CIS_CMD_VERSION_CHECK => str "~"
  | CIS_CMD_LOAD_FLASH => str "reload flash"
  | CIS_CMD_CANCEL_LOAD_FLASH => str "c" ++ [CARRIAGE_RETURN]
  | CIS_CMD_F1 => [27; 79; 80]
  | CIS_CMD_F4 => [27; 79; 83]
  end.

Inductive CIS_RSP_LIST : Type :=
| CIS_RSP_RINGER_OFF
| CIS_RSP_RINGER_ON
| CIS_RSP_RELAY_1_OFF
| CIS_RSP_RELAY_1_ON
| CIS_RSP_RELAY_2_OFF
| CIS_RSP_RELAY_2_ON
| CIS_RSP_VERSION_CHECK.

Definition CIS_RSPS (r : CIS_RSP_LIST) : list Z :=
  match r with
  | CIS_RSP_RINGER_OFF => str "Ringer(s) Off"
  | CIS_RSP_RINGER_ON => str "Ringer(s) On"
  | CIS_RSP_RELAY_1_OFF => str "Relay[0] Off"
  | CIS_RSP_RELAY_1_ON => str "Relay[0] On"
  | CIS_RSP_RELAY_2_OFF => str "Relay[1] Off"
  | CIS_RSP_RELAY_2_ON => str "Relay[1] On"
  | CIS_RSP_VERSION_CHECK => str "20400000 1B010000"
  end.

(** StringLen of a table entry, as InitModem stores it in AT_CMDLEN,
    CIS_CMDLEN and CIS_RSPLEN (each a BYTE). *)
Definition StringLen (s : list Z) : Z := Z.of_nat (List.length s).
Definition AT_CMDLEN (c : AT_CMD_LIST) : Z := to_BYTE (StringLen (AT_CMDS c)).
Definition CIS_CMDLEN (c : CIS_CMD_LIST) : Z := to_BYTE (StringLen (CIS_CMDS c)).
Definition CIS_RSPLEN (r : CIS_RSP_LIST) : Z := to_BYTE (StringLen (CIS_RSPS r)).

Inductive CALL_STATUS_RSP : Type :=
| AT_RSP_ACTIVE_CALL_STATUS
| AT_RSP_HELD_CALL_STATUS
| AT_RSP_DIALING_CALL_STATUS
| AT_RSP_INVALID_CALL_STATUS
| AT_RSP_INCOMING_CALL_STATUS
| AT_RSP_WAITING_CALL_STATUS
| AT_RSP_IDLE_CALL_STATUS
| CALL_STATUS_WAITING_FOR_RSP.

(** MAILBOXCHECK_RSP is a BYTE that the SBDIX parser fills with whatever
    number the modem sent, so it stays a number here. *)
Definition NO_MSG : Z := 0.
Definition SUCCESSFUL_MSG : Z := 1.
Definition FAILED_MSG : Z := 2.

Inductive MODEM_RESPONSES : Type :=
| MR_FAILED
| MR_SUCCESS
| MR_WAITING
| MR_NO_RESP.

Inductive MODEM_ERROR_CODE_RSP : Type :=
| MEC_NONE
| MEC_ERROR
| MEC_HW_ERROR
| MEC_RX_BUFFER_OVERFLOW
| MEC_RSP_TIMED_OUT
| MEC_TX_BIN_DATA_TIMEOUT
| MEC_TX_BIN_DATA_BAD_CHECKSUM
| MEC_TX_BIN_DATA_BAD_SIZE
| MEC_SBDI_GSS_TIMEOUT
| MEC_SBDI_GSS_Q_FULL
| MEC_SBDI_MO_SEGMENT_ERR
| MEC_SBDI_INCOMPLETE_SESSION
| MEC_SBDI_SEGMENT_SIZE_ERR
| MEC_SBDI_GSS_ACCESS_DENIED
| MEC_SBDI_SBD_BLOCKED
| MEC_SBDI_ISU_TIMEOUT
| MEC_SBDI_RF_DROP
| MEC_SBDI_PROTOCOL_ERR
| MEC_SBDI_NO_NETWORK_SERVICE
| MEC_SBDI_ISU_BUSY
| MEC_SBDI_FAIL
| MEC_CLEAR_MODEM_BUFFER_ERROR
| MEC_FILE_OPEN_ERR
| MEC_FILE_READ_ERR
| MEC_FILE_WRITE_ERR
| MEC_TRUNCATED_FILE
| MEC_SBDS_SUCESS
| MEC_SBDS_NO_TX_MSG
| MEC_SBDS_TX_MSG_PENDING
| MEC_SBDS_NO_RX_MSG
| MEC_SBDS_RX_MSG_PENDING
| MEC_CREG_NOT_REGISTERED
| MEC_CREG_REGISTERED_HOME
| MEC_CREG_SEARCHING
| MEC_CREG_DENIED
| MEC_CREG_UNKNOWN
| MEC_CREG_REGISTERED_ROAMING
| MEC_CSQ_ERROR
| MEC_ACTIVE_CALL_STATUS
| MEC_HELD_CALL_STATUS
| MEC_DIALING_CALL_STATUS
| MEC_INCOMING_CALL_STATUS
| MEC_WAITING_CALL_STATUS
| MEC_IDLE_CALL_STATUS
| MEC_RX_NO_MSG_WAITING
| MEC_RX_BAD_CHECKSUM
| MEC_RX_BAD_FILELENGTH
| MEC_MODEM_POWERED_DOWN
| MEC_CIS_RINGER_OFF
| MEC_CIS_RINGER_ON
| MEC_CIS_RELAY1_OFF
| MEC_CIS_RELAY1_ON
| MEC_CIS_RELAY2_OFF
| MEC_CIS_RELAY2_ON.

Inductive MTMDIR_RETURN_TYPE : Type :=
| BUFFER_ONLY
| COPY_PORT3
| SAVE_TO_FILE.

(** The two routings of the shared UART (CISAPI.h). *)
Inductive CIS_PORT : Type :=
| DATA_PORT
| PROGRAMMING_PORT.

Definition RELAY_1 : Z := 0.
Definition RELAY_2 : Z := 1.
Definition FALSE : Z := 0.
Definition TRUE : Z := 1.
Definition BOOL_of (b : bool) : Z := if b then TRUE else FALSE.

(** ** The log recorder, seen from the driver

    SystemLog.h is not among the sources and ModemLog.c only formats and
    stores; the driver's calls are kept as a list of events.  The event of a
    ModemLog call carries the error code of the engine that ModemLog fetches
    for its line ([subErrorCode = GetErrorCodeRsp()]). *)

Inductive SYS_LOG_CODE : Type :=
| SYS_LOG_SBD_BLOCKED
| SYS_LOG_CIS_FW_ERROR
| SYS_LOG_REMOTE_CONFIG_FAILED_CISCFG
| SYS_LOG_MODEM_INITITIALIZED
| SYS_LOG_IRIDIUM_ERROR
| SYS_LOG_FILE_CANNOT_BE_OPENED_OR_CREATED
| SYS_LOG_FILE_CANNOT_BE_READ
| SYS_LOG_FILE_CANNOT_BE_WRITTEN
| SYS_LOG_FILE_CANNOT_BE_DELETED
| SYS_LOG_FILE_DELETED.

(** The texts handed to SystemLog: a file name followed by the message of a
    code, or the literal "Modem communications error detected - power
    cycling CIS" of HandleTimeouts. *)
Inductive SYS_LOG_TEXT : Type :=
| GetSysLogMsg (c : SYS_LOG_CODE)
| Modem_communications_error.

Inductive MODEMLOG_ERR_CODE : Type :=
| MODEMLOG_MODEM_IS_POWERED
| MODEMLOG_MODEM_POWERED_DOWN
| MODEMLOG_SEND_SUCCESSFUL
| MODEMLOG_SEND_ENABLED
| MODEMLOG_SEND_FAILURE
| MODEMLOG_SEND_DISABLED
| MODEMLOG_SEND
| MODEMLOG_RETRY_SEND
| MODEMLOG_RECEIVE
| MODEMLOG_RECEIVE_SUCCESSFUL
| MODEMLOG_RECEIVE_FAILURE
| MODEMLOG_UNEXPECTED_RSP
| MODEMLOG_MOVE_FAILURE
| MODEMLOG_DELETE_FAILURE
| MODEMLOG_COPY_SUCCESS
| MODEMLOG_COPY_FAILURE
| MODEMLOG_MAILBOXCHECK_SUCCESS
| MODEMLOG_MAILBOXCHECK_FAILURE
| MODEMLOG_SIGNALSTRENGTH_FAILURE
| MODEMLOG_HUNG_UP_CALL_SUCCESS
| MODEMLOG_HUNG_UP_CALL_FAILURE
| MODEMLOG_PHONE_OFF_HOOK
| MODEMLOG_PHONE_BACK_ON_HOOK
| MODEMLOG_INCOMING_CALL
| MODEMLOG_INCOMING_CALL_COMPLETE.

Inductive LogEvent : Type :=
| ReportSystemLogError (c : SYS_LOG_CODE)
| SystemLog (text : SYS_LOG_TEXT)
| RecordModemLogError (c : MODEMLOG_ERR_CODE)
| ModemLog (c : MODEMLOG_ERR_CODE) (subErrorCode : MODEM_ERROR_CODE_RSP).

(** ** The environment of one call

    Everything the driver reads from outside during one call.  The clock and
    the lines are sampled once per call; the file-system entries are the
    answers for the file the call works on. *)

(** What the switch and the directory sweep of DefineMsgTypeDestPath make of
    a mobile-terminated type.  The type constants (MsgHandler.h) and the
    directory enumerations (FileUtils.h) are not among the sources, so the
    classification comes from the environment; the effects on the driver of
    each class are modelled in [DefineMsgTypeDestPath] below. *)
Inductive MT_TYPE_CLASS : Type :=
| MT_POWER_CYCLE_MODEM                  (* calls ResetModem *)
| MT_DOWNLOAD_CIS_CONFIG                (* calls UploadCISConfig *)
| MT_SYSTEM_ACTION                      (* any other action type: BUFFER_ONLY *)
| MT_ROUTED (copy_to_port3 : bool).     (* COPY_PORT3 or SAVE_TO_FILE *)

Record Env : Type := Build_Env {
  now : Z;                              (* the clock read by the timer module *)
  IsModemRunning : bool;
  CISPowered : bool;
  ReadModemPortDSRLine : bool;
  ReadModemPortRILine : bool;
  PowerCycleModem : bool;               (* result of the power manager *)
  PowerCycleCIS : bool;
  GetCISConfigLine : option (list Z);   (* next configuration line, or NULL *)
  GetIMEICopy : list Z;
  FileLength : Z;
  fileOpen_ok : bool;
  fileRead : list Z;                    (* the bytes fileRead can deliver *)
  fileWrite_ok : bool;
  FileCpy_ok : bool;
  deleteFile_ok : bool;
  MarkFileAsSent_ok : bool;
  MarkFileAsError_ok : bool;
  SortAscending : option (list Z);      (* oldest file of the outbox, or NULL *)
  priorityFlag : Z;                     (* first character of the file name *)
  CreateSystemLogBuffer : list Z;
  SYSLOG_MSG_SIZE : Z;
  mt_class : Z -> MT_TYPE_CLASS;
  notify_relay : option bool;           (* the state the RS422 notification
                                           policy wants for TXT_MSG_RELAY *)
  queue_overwrites : bool               (* what AddDataToQueue does with a full
                                           ring: overwrite, or refuse *)
}.

(** InVoiceCall (ModemAPI.c): only the DSR line is looked at. *)
Definition InVoiceCall (env : Env) : bool :=
  if ReadModemPortDSRLine env then true else false.

(** ** State of the protocol engine (the globals of Modem.c) *)

Record MODEM_INFO_STRUCT : Type := Build_modemInfo {
  byMOStatus : Z;  (* BYTE *)
  byMTStatus : Z;  (* MAILBOXCHECK_RSP, a BYTE *)
  szMOMSN : list Z;  (* char[STR_SIZE], as text *)
  szMTMSN : list Z;  (* char[STR_SIZE], as text *)
  wMTLength : Z;  (* WORD *)
  byMTQueueNbr : Z;  (* BYTE *)
  byRAFlag : Z;  (* BYTE *)
  dwTxMsgLen : Z;  (* DWORD *)
  iSignalStrength : Z;  (* short *)
  cmdEnum : CIS_CMD_LIST;
  byCallStatus : CALL_STATUS_RSP;
  bRingersOn : Z;  (* BOOL *)
  bRelayOn1 : Z;  (* bRelayOn[RELAY_1] *)
  bRelayOn2 : Z;  (* bRelayOn[RELAY_2] *)
  byCurrRelayNbr : Z  (* BYTE *)
}.

Definition set_byMOStatus (v : Z) (r : MODEM_INFO_STRUCT) : MODEM_INFO_STRUCT :=
  Build_modemInfo v (byMTStatus r) (szMOMSN r) (szMTMSN r) (wMTLength r) (byMTQueueNbr r) (byRAFlag r) (dwTxMsgLen r) (iSignalStrength r) (cmdEnum r) (byCallStatus r) (bRingersOn r) (bRelayOn1 r) (bRelayOn2 r) (byCurrRelayNbr r).
Definition set_byMTStatus (v : Z) (r : MODEM_INFO_STRUCT) : MODEM_INFO_STRUCT :=
  Build_modemInfo (byMOStatus r) v (szMOMSN r) (szMTMSN r) (wMTLength r) (byMTQueueNbr r) (byRAFlag r) (dwTxMsgLen r) (iSignalStrength r) (cmdEnum r) (byCallStatus r) (bRingersOn r) (bRelayOn1 r) (bRelayOn2 r) (byCurrRelayNbr r).
Definition set_szMOMSN (v : list Z) (r : MODEM_INFO_STRUCT) : MODEM_INFO_STRUCT :=
  Build_modemInfo (byMOStatus r) (byMTStatus r) v (szMTMSN r) (wMTLength r) (byMTQueueNbr r) (byRAFlag r) (dwTxMsgLen r) (iSignalStrength r) (cmdEnum r) (byCallStatus r) (bRingersOn r) (bRelayOn1 r) (bRelayOn2 r) (byCurrRelayNbr r).
Definition set_szMTMSN (v : list Z) (r : MODEM_INFO_STRUCT) : MODEM_INFO_STRUCT :=
  Build_modemInfo (byMOStatus r) (byMTStatus r) (szMOMSN r) v (wMTLength r) (byMTQueueNbr r) (byRAFlag r) (dwTxMsgLen r) (iSignalStrength r) (cmdEnum r) (byCallStatus r) (bRingersOn r) (bRelayOn1 r) (bRelayOn2 r) (byCurrRelayNbr r).
Definition set_wMTLength (v : Z) (r : MODEM_INFO_STRUCT) : MODEM_INFO_STRUCT :=
  Build_modemInfo (byMOStatus r) (byMTStatus r) (szMOMSN r) (szMTMSN r) v (byMTQueueNbr r) (byRAFlag r) (dwTxMsgLen r) (iSignalStrength r) (cmdEnum r) (byCallStatus r) (bRingersOn r) (bRelayOn1 r) (bRelayOn2 r) (byCurrRelayNbr r).
Definition set_byMTQueueNbr (v : Z) (r : MODEM_INFO_STRUCT) : MODEM_INFO_STRUCT :=
  Build_modemInfo (byMOStatus r) (byMTStatus r) (szMOMSN r) (szMTMSN r) (wMTLength r) v (byRAFlag r) (dwTxMsgLen r) (iSignalStrength r) (cmdEnum r) (byCallStatus r) (bRingersOn r) (bRelayOn1 r) (bRelayOn2 r) (byCurrRelayNbr r).
Definition set_byRAFlag (v : Z) (r : MODEM_INFO_STRUCT) : MODEM_INFO_STRUCT :=
  Build_modemInfo (byMOStatus r) (byMTStatus r) (szMOMSN r) (szMTMSN r) (wMTLength r) (byMTQueueNbr r) v (dwTxMsgLen r) (iSignalStrength r) (cmdEnum r) (byCallStatus r) (bRingersOn r) (bRelayOn1 r) (bRelayOn2 r) (byCurrRelayNbr r).
Definition set_dwTxMsgLen (v : Z) (r : MODEM_INFO_STRUCT) : MODEM_INFO_STRUCT :=
  Build_modemInfo (byMOStatus r) (byMTStatus r) (szMOMSN r) (szMTMSN r) (wMTLength r) (byMTQueueNbr r) (byRAFlag r) v (iSignalStrength r) (cmdEnum r) (byCallStatus r) (bRingersOn r) (bRelayOn1 r) (bRelayOn2 r) (byCurrRelayNbr r).
Definition set_iSignalStrength (v : Z) (r : MODEM_INFO_STRUCT) : MODEM_INFO_STRUCT :=
  Build_modemInfo (byMOStatus r) (byMTStatus r) (szMOMSN r) (szMTMSN r) (wMTLength r) (byMTQueueNbr r) (byRAFlag r) (dwTxMsgLen r) v (cmdEnum r) (byCallStatus r) (bRingersOn r) (bRelayOn1 r) (bRelayOn2 r) (byCurrRelayNbr r).
Definition set_cmdEnum (v : CIS_CMD_LIST) (r : MODEM_INFO_STRUCT) : MODEM_INFO_STRUCT :=
  Build_modemInfo (byMOStatus r) (byMTStatus r) (szMOMSN r) (szMTMSN r) (wMTLength r) (byMTQueueNbr r) (byRAFlag r) (dwTxMsgLen r) (iSignalStrength r) v (byCallStatus r) (bRingersOn r) (bRelayOn1 r) (bRelayOn2 r) (byCurrRelayNbr r).
Definition set_byCallStatus (v : CALL_STATUS_RSP) (r : MODEM_INFO_STRUCT) : MODEM_INFO_STRUCT :=
  Build_modemInfo (byMOStatus r) (byMTStatus r) (szMOMSN r) (szMTMSN r) (wMTLength r) (byMTQueueNbr r) (byRAFlag r) (dwTxMsgLen r) (iSignalStrength r) (cmdEnum r) v (bRingersOn r) (bRelayOn1 r) (bRelayOn2 r) (byCurrRelayNbr r).
Definition set_bRingersOn (v : Z) (r : MODEM_INFO_STRUCT) : MODEM_INFO_STRUCT :=
  Build_modemInfo (byMOStatus r) (byMTStatus r) (szMOMSN r) (szMTMSN r) (wMTLength r) (byMTQueueNbr r) (byRAFlag r) (dwTxMsgLen r) (iSignalStrength r) (cmdEnum r) (byCallStatus r) v (bRelayOn1 r) (bRelayOn2 r) (byCurrRelayNbr r).
Definition set_bRelayOn1 (v : Z) (r : MODEM_INFO_STRUCT) : MODEM_INFO_STRUCT :=
  Build_modemInfo (byMOStatus r) (byMTStatus r) (szMOMSN r) (szMTMSN r) (wMTLength r) (byMTQueueNbr r) (byRAFlag r) (dwTxMsgLen r) (iSignalStrength r) (cmdEnum r) (byCallStatus r) (bRingersOn r) v (bRelayOn2 r) (byCurrRelayNbr r).
Definition set_bRelayOn2 (v : Z) (r : MODEM_INFO_STRUCT) : MODEM_INFO_STRUCT :=
  Build_modemInfo (byMOStatus r) (byMTStatus r) (szMOMSN r) (szMTMSN r) (wMTLength r) (byMTQueueNbr r) (byRAFlag r) (dwTxMsgLen r) (iSignalStrength r) (cmdEnum r) (byCallStatus r) (bRingersOn r) (bRelayOn1 r) v (byCurrRelayNbr r).
Definition set_byCurrRelayNbr (v : Z) (r : MODEM_INFO_STRUCT) : MODEM_INFO_STRUCT :=
  Build_modemInfo (byMOStatus r) (byMTStatus r) (szMOMSN r) (szMTMSN r) (wMTLength r) (byMTQueueNbr r) (byRAFlag r) (dwTxMsgLen r) (iSignalStrength r) (cmdEnum r) (byCallStatus r) (bRingersOn r) (bRelayOn1 r) (bRelayOn2 r) v.

Record Engine : Type := Build_Engine {
  ATCmdState : AT_CMD_STATES;
  subState : SUB_STATES;
  errorCodeRsp : MODEM_ERROR_CODE_RSP;
  byRxBuffer : list Z;  (* BYTE[MAX_CMD_LINE_LEN] *)
  wRxIndex : Z;  (* WORD *)
  bPrevVoiceState : bool;
  thRespTimeOut : TIMERHANDLE;
  thCISRespTimeOut : TIMERHANDLE;
  RxMsg : list Z;  (* U_MODEM_RX_STRUCT, as pbyRxMsg *)
  wCalculatedCheckSum : Z;  (* WORD *)
  modemInfo : MODEM_INFO_STRUCT;
  byBinMsgBuffer : list Z;  (* BYTE[MAX_FILE_LEN] *)
  szIMEI : list Z;
  szModemSWVersion : list Z;
  bHaveIMEI : bool;
  wSatelliteTimeout : Z;  (* WORD *)
  wRxDataCount : Z;  (* static of GetRxBinaryDataBufferRsp *)
  bFoundFirstEOL : bool;  (* static of GetDualResponse *)
  dwIndex : Z;  (* static of CaptureCISOutput *)
  rxq : list Z;  (* serial receive queue, oldest byte first *)
  tx : list Z;  (* bytes handed to ModemPortSendBuffer, oldest first *)
  cisPort : CIS_PORT;  (* port routing set by SetCISPort *)
  log : list LogEvent  (* system-log and modem-log entries, oldest first *)
}.

Definition set_ATCmdState (v : AT_CMD_STATES) (r : Engine) : Engine :=
  Build_Engine v (subState r) (errorCodeRsp r) (byRxBuffer r) (wRxIndex r) (bPrevVoiceState r) (thRespTimeOut r) (thCISRespTimeOut r) (RxMsg r) (wCalculatedCheckSum r) (modemInfo r) (byBinMsgBuffer r) (szIMEI r) (szModemSWVersion r) (bHaveIMEI r) (wSatelliteTimeout r) (wRxDataCount r) (bFoundFirstEOL r) (dwIndex r) (rxq r) (tx r) (cisPort r) (log r).
Definition set_subState (v : SUB_STATES) (r : Engine) : Engine :=
  Build_Engine (ATCmdState r) v (errorCodeRsp r) (byRxBuffer r) (wRxIndex r) (bPrevVoiceState r) (thRespTimeOut r) (thCISRespTimeOut r) (RxMsg r) (wCalculatedCheckSum r) (modemInfo r) (byBinMsgBuffer r) (szIMEI r) (szModemSWVersion r) (bHaveIMEI r) (wSatelliteTimeout r) (wRxDataCount r) (bFoundFirstEOL r) (dwIndex r) (rxq r) (tx r) (cisPort r) (log r).
Definition set_errorCodeRsp (v : MODEM_ERROR_CODE_RSP) (r : Engine) : Engine :=
  Build_Engine (ATCmdState r) (subState r) v (byRxBuffer r) (wRxIndex r) (bPrevVoiceState r) (thRespTimeOut r) (thCISRespTimeOut r) (RxMsg r) (wCalculatedCheckSum r) (modemInfo r) (byBinMsgBuffer r) (szIMEI r) (szModemSWVersion r) (bHaveIMEI r) (wSatelliteTimeout r) (wRxDataCount r) (bFoundFirstEOL r) (dwIndex r) (rxq r) (tx r) (cisPort r) (log r).
Definition set_byRxBuffer (v : list Z) (r : Engine) : Engine :=
  Build_Engine (ATCmdState r) (subState r) (errorCodeRsp r) v (wRxIndex r) (bPrevVoiceState r) (thRespTimeOut r) (thCISRespTimeOut r) (RxMsg r) (wCalculatedCheckSum r) (modemInfo r) (byBinMsgBuffer r) (szIMEI r) (szModemSWVersion r) (bHaveIMEI r) (wSatelliteTimeout r) (wRxDataCount r) (bFoundFirstEOL r) (dwIndex r) (rxq r) (tx r) (cisPort r) (log r).
Definition set_wRxIndex (v : Z) (r : Engine) : Engine :=
  Build_Engine (ATCmdState r) (subState r) (errorCodeRsp r) (byRxBuffer r) v (bPrevVoiceState r) (thRespTimeOut r) (thCISRespTimeOut r) (RxMsg r) (wCalculatedCheckSum r) (modemInfo r) (byBinMsgBuffer r) (szIMEI r) (szModemSWVersion r) (bHaveIMEI r) (wSatelliteTimeout r) (wRxDataCount r) (bFoundFirstEOL r) (dwIndex r) (rxq r) (tx r) (cisPort r) (log r).
Definition set_bPrevVoiceState (v : bool) (r : Engine) : Engine :=
  Build_Engine (ATCmdState r) (subState r) (errorCodeRsp r) (byRxBuffer r) (wRxIndex r) v (thRespTimeOut r) (thCISRespTimeOut r) (RxMsg r) (wCalculatedCheckSum r) (modemInfo r) (byBinMsgBuffer r) (szIMEI r) (szModemSWVersion r) (bHaveIMEI r) (wSatelliteTimeout r) (wRxDataCount r) (bFoundFirstEOL r) (dwIndex r) (rxq r) (tx r) (cisPort r) (log r).
Definition set_thRespTimeOut (v : TIMERHANDLE) (r : Engine) : Engine :=
  Build_Engine (ATCmdState r) (subState r) (errorCodeRsp r) (byRxBuffer r) (wRxIndex r) (bPrevVoiceState r) v (thCISRespTimeOut r) (RxMsg r) (wCalculatedCheckSum r) (modemInfo r) (byBinMsgBuffer r) (szIMEI r) (szModemSWVersion r) (bHaveIMEI r) (wSatelliteTimeout r) (wRxDataCount r) (bFoundFirstEOL r) (dwIndex r) (rxq r) (tx r) (cisPort r) (log r).
Definition set_thCISRespTimeOut (v : TIMERHANDLE) (r : Engine) : Engine :=
  Build_Engine (ATCmdState r) (subState r) (errorCodeRsp r) (byRxBuffer r) (wRxIndex r) (bPrevVoiceState r) (thRespTimeOut r) v (RxMsg r) (wCalculatedCheckSum r) (modemInfo r) (byBinMsgBuffer r) (szIMEI r) (szModemSWVersion r) (bHaveIMEI r) (wSatelliteTimeout r) (wRxDataCount r) (bFoundFirstEOL r) (dwIndex r) (rxq r) (tx r) (cisPort r) (log r).
Definition set_RxMsg (v : list Z) (r : Engine) : Engine :=
  Build_Engine (ATCmdState r) (subState r) (errorCodeRsp r) (byRxBuffer r) (wRxIndex r) (bPrevVoiceState r) (thRespTimeOut r) (thCISRespTimeOut r) v (wCalculatedCheckSum r) (modemInfo r) (byBinMsgBuffer r) (szIMEI r) (szModemSWVersion r) (bHaveIMEI r) (wSatelliteTimeout r) (wRxDataCount r) (bFoundFirstEOL r) (dwIndex r) (rxq r) (tx r) (cisPort r) (log r).
Definition set_wCalculatedCheckSum (v : Z) (r : Engine) : Engine :=
  Build_Engine (ATCmdState r) (subState r) (errorCodeRsp r) (byRxBuffer r) (wRxIndex r) (bPrevVoiceState r) (thRespTimeOut r) (thCISRespTimeOut r) (RxMsg r) v (modemInfo r) (byBinMsgBuffer r) (szIMEI r) (szModemSWVersion r) (bHaveIMEI r) (wSatelliteTimeout r) (wRxDataCount r) (bFoundFirstEOL r) (dwIndex r) (rxq r) (tx r) (cisPort r) (log r).
Definition set_modemInfo (v : MODEM_INFO_STRUCT) (r : Engine) : Engine :=
  Build_Engine (ATCmdState r) (subState r) (errorCodeRsp r) (byRxBuffer r) (wRxIndex r) (bPrevVoiceState r) (thRespTimeOut r) (thCISRespTimeOut r) (RxMsg r) (wCalculatedCheckSum r) v (byBinMsgBuffer r) (szIMEI r) (szModemSWVersion r) (bHaveIMEI r) (wSatelliteTimeout r) (wRxDataCount r) (bFoundFirstEOL r) (dwIndex r) (rxq r) (tx r) (cisPort r) (log r).
Definition set_byBinMsgBuffer (v : list Z) (r : Engine) : Engine :=
  Build_Engine (ATCmdState r) (subState r) (errorCodeRsp r) (byRxBuffer r) (wRxIndex r) (bPrevVoiceState r) (thRespTimeOut r) (thCISRespTimeOut r) (RxMsg r) (wCalculatedCheckSum r) (modemInfo r) v (szIMEI r) (szModemSWVersion r) (bHaveIMEI r) (wSatelliteTimeout r) (wRxDataCount r) (bFoundFirstEOL r) (dwIndex r) (rxq r) (tx r) (cisPort r) (log r).
Definition set_szIMEI (v : list Z) (r : Engine) : Engine :=
  Build_Engine (ATCmdState r) (subState r) (errorCodeRsp r) (byRxBuffer r) (wRxIndex r) (bPrevVoiceState r) (thRespTimeOut r) (thCISRespTimeOut r) (RxMsg r) (wCalculatedCheckSum r) (modemInfo r) (byBinMsgBuffer r) v (szModemSWVersion r) (bHaveIMEI r) (wSatelliteTimeout r) (wRxDataCount r) (bFoundFirstEOL r) (dwIndex r) (rxq r) (tx r) (cisPort r) (log r).
Definition set_szModemSWVersion (v : list Z) (r : Engine) : Engine :=
  Build_Engine (ATCmdState r) (subState r) (errorCodeRsp r) (byRxBuffer r) (wRxIndex r) (bPrevVoiceState r) (thRespTimeOut r) (thCISRespTimeOut r) (RxMsg r) (wCalculatedCheckSum r) (modemInfo r) (byBinMsgBuffer r) (szIMEI r) v (bHaveIMEI r) (wSatelliteTimeout r) (wRxDataCount r) (bFoundFirstEOL r) (dwIndex r) (rxq r) (tx r) (cisPort r) (log r).
Definition set_bHaveIMEI (v : bool) (r : Engine) : Engine :=
  Build_Engine (ATCmdState r) (subState r) (errorCodeRsp r) (byRxBuffer r) (wRxIndex r) (bPrevVoiceState r) (thRespTimeOut r) (thCISRespTimeOut r) (RxMsg r) (wCalculatedCheckSum r) (modemInfo r) (byBinMsgBuffer r) (szIMEI r) (szModemSWVersion r) v (wSatelliteTimeout r) (wRxDataCount r) (bFoundFirstEOL r) (dwIndex r) (rxq r) (tx r) (cisPort r) (log r).
Definition set_wSatelliteTimeout (v : Z) (r : Engine) : Engine :=
  Build_Engine (ATCmdState r) (subState r) (errorCodeRsp r) (byRxBuffer r) (wRxIndex r) (bPrevVoiceState r) (thRespTimeOut r) (thCISRespTimeOut r) (RxMsg r) (wCalculatedCheckSum r) (modemInfo r) (byBinMsgBuffer r) (szIMEI r) (szModemSWVersion r) (bHaveIMEI r) v (wRxDataCount r) (bFoundFirstEOL r) (dwIndex r) (rxq r) (tx r) (cisPort r) (log r).
Definition set_wRxDataCount (v : Z) (r : Engine) : Engine :=
  Build_Engine (ATCmdState r) (subState r) (errorCodeRsp r) (byRxBuffer r) (wRxIndex r) (bPrevVoiceState r) (thRespTimeOut r) (thCISRespTimeOut r) (RxMsg r) (wCalculatedCheckSum r) (modemInfo r) (byBinMsgBuffer r) (szIMEI r) (szModemSWVersion r) (bHaveIMEI r) (wSatelliteTimeout r) v (bFoundFirstEOL r) (dwIndex r) (rxq r) (tx r) (cisPort r) (log r).
Definition set_bFoundFirstEOL (v : bool) (r : Engine) : Engine :=
  Build_Engine (ATCmdState r) (subState r) (errorCodeRsp r) (byRxBuffer r) (wRxIndex r) (bPrevVoiceState r) (thRespTimeOut r) (thCISRespTimeOut r) (RxMsg r) (wCalculatedCheckSum r) (modemInfo r) (byBinMsgBuffer r) (szIMEI r) (szModemSWVersion r) (bHaveIMEI r) (wSatelliteTimeout r) (wRxDataCount r) v (dwIndex r) (rxq r) (tx r) (cisPort r) (log r).
Definition set_dwIndex (v : Z) (r : Engine) : Engine :=
  Build_Engine (ATCmdState r) (subState r) (errorCodeRsp r) (byRxBuffer r) (wRxIndex r) (bPrevVoiceState r) (thRespTimeOut r) (thCISRespTimeOut r) (RxMsg r) (wCalculatedCheckSum r) (modemInfo r) (byBinMsgBuffer r) (szIMEI r) (szModemSWVersion r) (bHaveIMEI r) (wSatelliteTimeout r) (wRxDataCount r) (bFoundFirstEOL r) v (rxq r) (tx r) (cisPort r) (log r).
Definition set_rxq (v : list Z) (r : Engine) : Engine :=
  Build_Engine (ATCmdState r) (subState r) (errorCodeRsp r) (byRxBuffer r) (wRxIndex r) (bPrevVoiceState r) (thRespTimeOut r) (thCISRespTimeOut r) (RxMsg r) (wCalculatedCheckSum r) (modemInfo r) (byBinMsgBuffer r) (szIMEI r) (szModemSWVersion r) (bHaveIMEI r) (wSatelliteTimeout r) (wRxDataCount r) (bFoundFirstEOL r) (dwIndex r) v (tx r) (cisPort r) (log r).
Definition set_tx (v : list Z) (r : Engine) : Engine :=
  Build_Engine (ATCmdState r) (subState r) (errorCodeRsp r) (byRxBuffer r) (wRxIndex r) (bPrevVoiceState r) (thRespTimeOut r) (thCISRespTimeOut r) (RxMsg r) (wCalculatedCheckSum r) (modemInfo r) (byBinMsgBuffer r) (szIMEI r) (szModemSWVersion r) (bHaveIMEI r) (wSatelliteTimeout r) (wRxDataCount r) (bFoundFirstEOL r) (dwIndex r) (rxq r) v (cisPort r) (log r).
Definition set_cisPort (v : CIS_PORT) (r : Engine) : Engine :=
  Build_Engine (ATCmdState r) (subState r) (errorCodeRsp r) (byRxBuffer r) (wRxIndex r) (bPrevVoiceState r) (thRespTimeOut r) (thCISRespTimeOut r) (RxMsg r) (wCalculatedCheckSum r) (modemInfo r) (byBinMsgBuffer r) (szIMEI r) (szModemSWVersion r) (bHaveIMEI r) (wSatelliteTimeout r) (wRxDataCount r) (bFoundFirstEOL r) (dwIndex r) (rxq r) (tx r) v (log r).
Definition set_log (v : list LogEvent) (r : Engine) : Engine :=
  Build_Engine (ATCmdState r) (subState r) (errorCodeRsp r) (byRxBuffer r) (wRxIndex r) (bPrevVoiceState r) (thRespTimeOut r) (thCISRespTimeOut r) (RxMsg r) (wCalculatedCheckSum r) (modemInfo r) (byBinMsgBuffer r) (szIMEI r) (szModemSWVersion r) (bHaveIMEI r) (wSatelliteTimeout r) (wRxDataCount r) (bFoundFirstEOL r) (dwIndex r) (rxq r) (tx r) (cisPort r) v.

Definition upd_modemInfo (f : MODEM_INFO_STRUCT -> MODEM_INFO_STRUCT) (s : Engine) : Engine :=
  set_modemInfo (f (modemInfo s)) s.

Definition add_log (e : LogEvent) (s : Engine) : Engine :=
  set_log (log s ++ [e]) s.

(** ** The serial transport, seen from the engine (Modemserial.c)

    The receive queue is filled by the interrupt routine between calls and
    emptied a byte at a time by [GetModemPortChar].  [tx] records what was
    handed to [ModemPortSendBuffer]; flushing the transmit queue only drops
    bytes the interrupt routine has not shifted out yet and is not modelled
    (the queues hold 4096 bytes, more than any burst the engine writes). *)

Definition GetModemPortChar (s : Engine) : option (Z * Engine) :=
  match rxq s with
  | [] => None
  | byData :: q => Some (byData, set_rxq q s)
  end.

Definition ModemPortSendBuffer (pBuffer : list Z) (wLength : Z) (s : Engine) : Engine :=
  set_tx (tx s ++ firstn (Z.to_nat wLength) pBuffer) s.

Definition FlushModemSerialRxQueue (s : Engine) : Engine := set_rxq [] s.

(** The interrupt routine queueing received bytes. *)
Definition ModemIsr_receive (bytes : list Z) (s : Engine) : Engine :=
  set_rxq (rxq s ++ bytes) s.

Definition SetCISPort (portState : CIS_PORT) (s : Engine) : Engine :=
  set_cisPort portState s.

(** ** String utilities (utils.h) *)

(** Modelled from the spec: the string library (utils.h) is not among the
    sources.  The functions are modelled on the way the parsers use them and
    on the parsed values the spec gives for its sample lines; the statements
    proved about the parsers are made on the fields these functions return. *)

(** The C string held in a buffer: the characters before the first NUL. *)
Fixpoint cstr (l : list Z) : list Z :=
  match l with
  | [] => []
  | c :: t => if c =? NUL then [] else c :: cstr t
  end.

Fixpoint prefix_eqb (p l : list Z) : bool :=
  match p, l with
  | [], _ => true
  | _ :: _, [] => false
  | x :: p', y :: l' => (x =? y) && prefix_eqb p' l'
  end.

Fixpoint find_from (p l : list Z) (i : Z) : Z :=
  match l with
  | [] => -1
  | _ :: t => if prefix_eqb p l then i else find_from p t (i + 1)
  end.

(** [FindSubStr( 0, buf, pat, len )]: index of the first occurrence of [pat]
    within the first [len] bytes of [buf], or -1. *)
Definition FindSubStr (buf pat : list Z) (len : Z) : Z :=
  find_from pat (firstn (Z.to_nat len) buf) 0.

(** [StringMidCpy( dst, src, from, to )]: the text of [src] from index [from]
    up to (not including) index [to]. *)
Definition StringMidCpy (src : list Z) (from to : Z) : list Z :=
  cstr (skipn (Z.to_nat from) (firstn (Z.to_nat to) src)).

Fixpoint split_on (sep : Z) (l : list Z) (cur : list Z) : list (list Z) :=
  match l with
  | [] => [rev cur]
  | c :: t => if c =? sep then rev cur :: split_on sep t [] else split_on sep t (c :: cur)
  end.

(** [StringTok( buf, ",", NULL )] starts a scan of [buf]; each following
    [StringTok( "", ",", dst )] copies the next field to [dst].  The k-th
    field (from 0) is [StringTok_field buf k]; a missing field is empty. *)
Definition StringTok_field (buf : list Z) (k : nat) : list Z :=
  nth k (split_on 44 buf []) [].

Fixpoint atoi_digits (l : list Z) (acc : Z) : Z :=
  match l with
  | [] => acc
  | c :: t => if (48 <=? c) && (c <=? 57) then atoi_digits t (acc * 10 + (c - 48)) else acc
  end.

Fixpoint skip_blanks (l : list Z) : list Z :=
  match l with
  | [] => []
  | c :: t => if (c =? 32) || (c =? 9) then skip_blanks t else l
  end.

(** [StringToInt]: leading blanks, an optional sign, then decimal digits. *)
Definition StringToInt (sz : list Z) : Z :=
  match skip_blanks sz with
  | 45 :: t => - atoi_digits t 0
  | 43 :: t => atoi_digits t 0
  | l => atoi_digits l 0
  end.

Fixpoint digits_of (fuel : nat) (n : Z) (acc : list Z) : list Z :=
  match fuel with
  | O => acc
  | S f =>
      let acc' := (48 + n mod 10) :: acc in
      if n / 10 =? 0 then acc' else digits_of f (n / 10) acc'
  end.

(** [IntToString( dst, value, 1 )]: the decimal text of a DWORD. *)
Definition IntToString (value : Z) : list Z := digits_of 10 value [].

(** [StringNCat( dst, src, n )]: [src] appended to [dst], the result kept
    within [n] characters. *)
Definition StringNCat (dst src : list Z) (n : Z) : list Z :=
  firstn (Z.to_nat n) (dst ++ src).

Definition list_eqb (a b : list Z) : bool :=
  if list_eq_dec Z.eq_dec a b then true else false.

(** ** Private helpers of Modem.c *)

Definition ClearBuffers (portState : CIS_PORT) (s : Engine) : Engine :=
  let s := FlushModemSerialRxQueue s in
  let s := SetCISPort portState s in
  let s := set_wRxIndex 0 s in
  set_byRxBuffer (zeros MAX_CMD_LINE_LEN) s.

Definition ClearModemInfo (s : Engine) : Engine :=
  let bRingerState := bRingersOn (modemInfo s) in
  let bFaultIndState := bRelayOn1 (modemInfo s) in
  let bTxtIndState := bRelayOn2 (modemInfo s) in
  set_modemInfo
    (Build_modemInfo 0 NO_MSG [] [] 0 0 0 0 (-1) CIS_CMD_RELAY_1_OFF
       AT_RSP_INVALID_CALL_STATUS bRingerState bFaultIndState bTxtIndState 0) s.

(** sizeof( MODEM_RX_STRUCT ): length word, checksum word, type word, data. *)
Definition MAX_RX_SIZE : Z := MAX_RX_FILE_LEN + 6.

Definition ClearRxBinaryDataVars (s : Engine) : Engine :=
  let s := set_RxMsg (zeros MAX_RX_SIZE) s in
  set_wCalculatedCheckSum 0 s.

Definition AT_RSP_SBD_STATUS_RA : Z := 1.

Definition SendCommand (env : Env) (cmd : AT_CMD_LIST) (s : Engine) : Engine :=
  let s := ClearBuffers DATA_PORT s in
  let '(cmd, dwTimerLapse) :=
    if AT_CMD_value cmd <? AT_CMD_value AT_CMD_SBD_INITIATE_SESSION
    then (cmd, STANDARD_RSP_TIMEOUT)
    else
      (if byRAFlag (modemInfo s) =? AT_RSP_SBD_STATUS_RA
       then AT_CMD_SBD_INITIATE_ALERT_SESSION
       else AT_CMD_SBD_INITIATE_SESSION,
       wSatelliteTimeout s) in
  let s := ModemPortSendBuffer (AT_CMDS cmd) (AT_CMDLEN cmd) s in
  set_thRespTimeOut (StartTimer (now env) dwTimerLapse) s.

Definition SendWriteBinaryMsgCmd (s : Engine) : Engine :=
  let szRptMsg := AT_CMDS AT_CMD_SBD_WRITE_BIN in
  let szMsgLen := IntToString (dwTxMsgLen (modemInfo s)) in
  let szRptMsg := StringNCat szRptMsg szMsgLen MAX_CMD_LINE_LEN in
  let szRptMsg := StringNCat szRptMsg [CARRIAGE_RETURN] MAX_CMD_LINE_LEN in
  let s := ClearBuffers DATA_PORT s in
  ModemPortSendBuffer szRptMsg (StringLen szRptMsg) s.

(** The 16-bit sum of SendBinaryDataBuffer's loop over the first [n] bytes. *)
Fixpoint checksum_loop (bytes : list Z) (wCheckSum : Z) : Z :=
  match bytes with
  | [] => wCheckSum
  | b :: t => checksum_loop t (to_WORD (wCheckSum + b))
  end.

Definition SendBinaryDataBuffer (env : Env) (s : Engine) : Engine :=
  let wLen := to_WORD (dwTxMsgLen (modemInfo s)) in
  let wCheckSum := checksum_loop (firstn (Z.to_nat wLen) (byBinMsgBuffer s)) 0 in
  let s := ClearBuffers DATA_PORT s in
  let byChecksum := [HIBYTE wCheckSum; LOBYTE wCheckSum] in
  let s := ModemPortSendBuffer (byBinMsgBuffer s) wLen s in
  let s := ModemPortSendBuffer byChecksum 2 s in
  set_thRespTimeOut (StartTimer (now env) STANDARD_RSP_TIMEOUT) s.

Definition SendCISPortCmd (env : Env) (s : Engine) : bool * Engine :=
  if negb (CISPowered env) then (false, s) else
  let s := ClearBuffers PROGRAMMING_PORT s in
  let cmd := cmdEnum (modemInfo s) in
  let s := ModemPortSendBuffer [CARRIAGE_RETURN] 1 s in
  let s := ModemPortSendBuffer (CIS_CMDS cmd) (CIS_CMDLEN cmd) s in
  let s := ModemPortSendBuffer [CARRIAGE_RETURN] 1 s in
  let s := set_thCISRespTimeOut (StartTimer (now env) STANDARD_RSP_TIMEOUT) s in
  let s := set_ATCmdState AT_CMD_PGMING s in
  let s := set_subState SEND_CIS_PORT_CMD s in
  (true, s).

Definition SendCISLoadConfigLineCmd (env : Env) (s : Engine) : bool * Engine :=
  match GetCISConfigLine env with
  | None => (false, s)
  | Some szCmd =>
      let s := ClearBuffers PROGRAMMING_PORT s in
      let s := ModemPortSendBuffer szCmd (StringLen szCmd) s in
      let s := set_thCISRespTimeOut (StartTimer (now env) STANDARD_RSP_TIMEOUT) s in
      let s := set_ATCmdState AT_CMD_PGMING s in
      let s := set_subState CIS_PGMING_RSP s in
      (true, s)
  end.

Definition RecoverFromBadCISCmd (env : Env) (s : Engine) : Engine :=
  let s := ModemPortSendBuffer (CIS_CMDS CIS_CMD_CANCEL_LOAD_FLASH)
             (CIS_CMDLEN CIS_CMD_CANCEL_LOAD_FLASH) s in
  set_thCISRespTimeOut (ResetTimer (now env) STANDARD_RSP_TIMEOUT) s.

(** ** Public functions of Modem.c: commands *)

Definition ResetModem (env : Env) (s : Engine) : bool * Engine :=
  if negb (InVoiceCall env) then
    if PowerCycleModem env then
      let s := set_thRespTimeOut StopTimer s in
      let s := ClearBuffers DATA_PORT s in
      let s := ClearModemInfo s in
      let s := set_ATCmdState AT_CMD_POWERED_DOWN s in
      let s := set_subState SUBSTATE_NONE s in
      let s := set_errorCodeRsp MEC_NONE s in
      (true, s)
    else (false, s)
  else (false, s).

Definition SendWriteTextMsgCmd (env : Env) (szDataBuf : list Z) (s : Engine) : bool * Engine :=
  match ATCmdState s with
  | AT_CMD_IDLE =>
      let szTextMsg := AT_CMDS AT_CMD_SBD_WRITE_TEXT in
      let szTextMsg := StringNCat szTextMsg szDataBuf (MAX_CMD_LINE_LEN - 1) in
      let szTextMsg := szTextMsg ++ [CARRIAGE_RETURN] in
      let s := ClearBuffers DATA_PORT s in
      let s := ModemPortSendBuffer szTextMsg (StringLen szTextMsg) s in
      let s := set_ATCmdState AT_CMD_SENDING s in
      let s := set_subState SEND_TEXT_MSG s in
      let s := set_thRespTimeOut (StartTimer (now env) STANDARD_RSP_TIMEOUT) s in
      (true, s)
  | _ => (false, s)
  end.

(** The file named by [szPathfileName] is the one the environment answers
    for; the name itself plays no part. *)
Definition SendBinaryFile (env : Env) (s : Engine) : bool * Engine :=
  match ATCmdState s with
  | AT_CMD_IDLE =>
      let s := upd_modemInfo (set_dwTxMsgLen (FileLength env mod 2 ^ 32)) s in
      let '(bad_size, s) :=
        if MAX_FILE_LEN <? dwTxMsgLen (modemInfo s) then
          (false, set_errorCodeRsp MEC_TRUNCATED_FILE
                    (upd_modemInfo (set_dwTxMsgLen MAX_FILE_LEN) s))
        else if dwTxMsgLen (modemInfo s) <=? 0 then
          (true, set_errorCodeRsp MEC_TX_BIN_DATA_BAD_SIZE s)
        else (false, s) in
      if bad_size then (false, s) else
      let s := set_byBinMsgBuffer (zeros MAX_FILE_LEN) s in
      if negb (fileOpen_ok env) then
        let s := set_errorCodeRsp MEC_FILE_OPEN_ERR s in
        (false, add_log (SystemLog (GetSysLogMsg SYS_LOG_FILE_CANNOT_BE_OPENED_OR_CREATED)) s)
      else
        let wLen := to_WORD (dwTxMsgLen (modemInfo s)) in
        let data := firstn (Z.to_nat wLen) (fileRead env) in
        let s := set_byBinMsgBuffer (MemCpy (byBinMsgBuffer s) data (StringLen data)) s in
        if negb (StringLen data =? wLen) then
          let s := set_errorCodeRsp MEC_FILE_READ_ERR s in
          (false, add_log (SystemLog (GetSysLogMsg SYS_LOG_FILE_CANNOT_BE_READ)) s)
        else
          let s := SendWriteBinaryMsgCmd s in
          let s := set_ATCmdState AT_CMD_SENDING s in
          let s := set_subState SEND_READY_CMD s in
          let s := set_thRespTimeOut (StartTimer (now env) STANDARD_RSP_TIMEOUT) s in
          (true, s)
  | _ => (false, s)
  end.

(** [pbyDataBuf] holds [wMsgSize] bytes. *)
Definition SendBinaryBuffer (env : Env) (pbyDataBuf : list Z) (wMsgSize : Z) (s : Engine)
  : bool * Engine :=
  match ATCmdState s with
  | AT_CMD_IDLE =>
      let s := upd_modemInfo (set_dwTxMsgLen wMsgSize) s in
      let '(bad_size, s) :=
        if MAX_FILE_LEN <? dwTxMsgLen (modemInfo s) then
          (false, set_errorCodeRsp MEC_TRUNCATED_FILE
                    (upd_modemInfo (set_dwTxMsgLen MAX_FILE_LEN) s))
        else if dwTxMsgLen (modemInfo s) <=? 0 then
          (true, set_errorCodeRsp MEC_TX_BIN_DATA_BAD_SIZE s)
        else (false, s) in
      if bad_size then (false, s) else
      let s := set_byBinMsgBuffer (zeros MAX_FILE_LEN) s in
      let s := set_byBinMsgBuffer
                 (MemCpy (byBinMsgBuffer s) pbyDataBuf (to_WORD (dwTxMsgLen (modemInfo s)))) s in
      let s := SendWriteBinaryMsgCmd s in
      let s := set_ATCmdState AT_CMD_SENDING s in
      let s := set_subState SEND_READY_CMD s in
      let s := set_thRespTimeOut (StartTimer (now env) STANDARD_RSP_TIMEOUT) s in
      (true, s)
  | _ => (false, s)
  end.

Definition CheckGateway (env : Env) (s : Engine) : bool * Engine :=
  match ATCmdState s with
  | AT_CMD_IDLE =>
      let s := SendCommand env AT_CMD_SBD_STATUS s in
      let s := set_ATCmdState AT_CMD_SENDING s in
      let s := set_subState SEND_STATUS_CMD s in
      (true, s)
  | _ => (false, s)
  end.

Definition CheckMailbox (env : Env) (s : Engine) : bool * Engine :=
  match ATCmdState s with
  | AT_CMD_IDLE =>
      let s := SendCommand env AT_CMD_SBD_CLEAR_MO_BUFF s in
      let s := set_ATCmdState AT_CMD_SENDING s in
      let s := set_subState SEND_MAILBOX_CHECK_CMD s in
      (true, s)
  | _ => (false, s)
  end.

Definition SendCSQCmd (env : Env) (s : Engine) : bool * Engine :=
  match ATCmdState s with
  | AT_CMD_IDLE =>
      let s := SendCommand env AT_CMD_SIGNAL_STRENGTH s in
      let s := set_ATCmdState AT_CMD_SENDING s in
      let s := set_subState SEND_CSQ_CMD s in
      (true, s)
  | _ => (false, s)
  end.

Definition SendReadBinaryFileCmd (env : Env) (s : Engine) : bool * Engine :=
  match ATCmdState s with
  | AT_CMD_IDLE =>
      let s := SendCommand env AT_CMD_SBD_READ_BIN s in
      let s := ClearRxBinaryDataVars s in
      let s := set_ATCmdState AT_CMD_RCVING s in
      let s := set_subState GET_DATA s in
      (true, s)
  | _ => (false, s)
  end.

Definition SendCLCCCmd (env : Env) (s : Engine) : bool * Engine :=
  match ATCmdState s with
  | AT_CMD_IDLE =>
      let s := SendCommand env AT_CMD_SBD_CURRENT_CALL_STATUS s in
      let s := upd_modemInfo (set_byCallStatus AT_RSP_INVALID_CALL_STATUS) s in
      let s := set_ATCmdState AT_CMD_SENDING s in
      let s := set_subState SEND_MODEM_STATE_CMD s in
      (true, s)
  | _ => (false, s)
  end.

Definition SendCallHangupCmd (env : Env) (s : Engine) : bool * Engine :=
  match ATCmdState s with
  | AT_CMD_IDLE =>
      let s := SendCommand env AT_CMD_HANGUP s in
      let s := set_ATCmdState AT_CMD_SENDING s in
      let s := set_subState SEND_HANGUP_CALL_CMD s in
      (true, s)
  | _ => (false, s)
  end.

Definition SendCREGCmd (env : Env) (s : Engine) : bool * Engine :=
  match ATCmdState s with
  | AT_CMD_IDLE =>
      let s := SendCommand env AT_CMD_NETWORK_REG s in
      let s := set_ATCmdState AT_CMD_SENDING s in
      let s := set_subState SEND_CREG_CMD s in
      (true, s)
  | _ => (false, s)
  end.

Definition SendDownloadCISCmd (env : Env) (s : Engine) : bool * Engine :=
  match ATCmdState s with
  | AT_CMD_IDLE | AT_CMD_POWERED_DOWN =>
      let s := upd_modemInfo (set_cmdEnum CIS_CMD_DOWNLOAD_CONFIG) s in
      let '(bRet_val, s) := SendCISPortCmd env s in
      let s := set_subState SEND_CIS_DOWNLOAD_CONFIG_CMD s in
      (bRet_val, s)
  | _ => (false, s)
  end.

Definition SendProgramCISCmd (env : Env) (s : Engine) : bool * Engine :=
  match ATCmdState s with
  | AT_CMD_IDLE | AT_CMD_POWERED_DOWN =>
      let s := upd_modemInfo (set_cmdEnum CIS_CMD_VERSION_CHECK) s in
      let '(bRet_val, s) := SendCISPortCmd env s in
      let s := set_subState SEND_CIS_VERSION_QUERY_CMD s in
      (bRet_val, s)
  | _ => (false, s)
  end.

Definition SendCISResetCmd (env : Env) (s : Engine) : bool * Engine :=
  match ATCmdState s with
  | AT_CMD_IDLE | AT_CMD_POWERED_DOWN =>
      let s := upd_modemInfo (set_cmdEnum CIS_CMD_RESET) s in
      SendCISPortCmd env s
  | _ => (false, s)
  end.

Definition SendSetRingerCmd (env : Env) (bRingerState : bool) (s : Engine) : bool * Engine :=
  match ATCmdState s with
  | AT_CMD_IDLE | AT_CMD_POWERED_DOWN =>
      let s :=
        if bRingerState then
          upd_modemInfo (set_bRingersOn TRUE) (upd_modemInfo (set_cmdEnum CIS_CMD_RINGER_ON) s)
        else
          upd_modemInfo (set_bRingersOn FALSE) (upd_modemInfo (set_cmdEnum CIS_CMD_RINGER_OFF) s) in
      SendCISPortCmd env s
  | _ => (false, s)
  end.

Definition SendGetRingerStatusCmd (env : Env) (s : Engine) : bool * Engine :=
  match ATCmdState s with
  | AT_CMD_IDLE | AT_CMD_POWERED_DOWN =>
      let s := upd_modemInfo (set_cmdEnum CIS_CMD_RINGER_STATUS) s in
      let '(bRet_val, s) := SendCISPortCmd env s in
      let s := set_subState SEND_CIS_RINGER_STATE_CMD s in
      (bRet_val, s)
  | _ => (false, s)
  end.

Definition SendSetRelayCmd (env : Env) (byRelayNbr : Z) (bRelayState : bool) (s : Engine)
  : bool * Engine :=
  match ATCmdState s with
  | AT_CMD_IDLE | AT_CMD_POWERED_DOWN =>
      if byRelayNbr =? RELAY_1 then
        let s := upd_modemInfo
                   (set_cmdEnum (if bRelayState then CIS_CMD_RELAY_1_ON else CIS_CMD_RELAY_1_OFF)) s in
        let s := upd_modemInfo (set_bRelayOn1 (BOOL_of bRelayState)) s in
        SendCISPortCmd env s
      else if byRelayNbr =? RELAY_2 then
        let s := upd_modemInfo
                   (set_cmdEnum (if bRelayState then CIS_CMD_RELAY_2_ON else CIS_CMD_RELAY_2_OFF)) s in
        let s := upd_modemInfo (set_bRelayOn2 (BOOL_of bRelayState)) s in
        SendCISPortCmd env s
      else (false, s)
  | _ => (false, s)
  end.

Definition SendGetRelayStatusCmd (env : Env) (byRelayNbr : Z) (s : Engine) : bool * Engine :=
  match ATCmdState s with
  | AT_CMD_IDLE | AT_CMD_POWERED_DOWN =>
      if byRelayNbr =? RELAY_1 then
        let s := upd_modemInfo (set_byCurrRelayNbr RELAY_1) s in
        let s := upd_modemInfo (set_cmdEnum CIS_CMD_RELAY_1_STATUS) s in
        let '(bRet_val, s) := SendCISPortCmd env s in
        let s := set_subState SEND_CIS_RELAY_STATE_CMD s in
        (bRet_val, s)
      else if byRelayNbr =? RELAY_2 then
        let s := upd_modemInfo (set_byCurrRelayNbr RELAY_2) s in
        let s := upd_modemInfo (set_cmdEnum CIS_CMD_RELAY_2_STATUS) s in
        let '(bRet_val, s) := SendCISPortCmd env s in
        let s := set_subState SEND_CIS_RELAY_STATE_CMD s in
        (bRet_val, s)
      else (false, s)
  | _ => (false, s)
  end.

Definition SetATCmdStateInit (s : Engine) : Engine :=
  let s := set_ATCmdState AT_CMD_POWERED_DOWN s in
  let s := set_subState SUBSTATE_NONE s in
  let s := ClearBuffers DATA_PORT s in
  let s := set_thRespTimeOut StopTimer s in
  set_thCISRespTimeOut StopTimer s.

Definition SetATCmdStateIdle (s : Engine) : Engine :=
  let s := set_ATCmdState AT_CMD_IDLE s in
  let s := set_subState SUBSTATE_NONE s in
  let s := ClearBuffers DATA_PORT s in
  let s := set_thRespTimeOut StopTimer s in
  set_thCISRespTimeOut StopTimer s.

(** [wSatelliteTimeout = (WORD)byTimeoutTime_in_seconds * 1000UL]: the
    product is computed in 32 bits and narrowed to the WORD it is stored in. *)
Definition SetModemCmdRspTimeInSeconds (byTimeoutTime_in_seconds : Z) (s : Engine)
  : bool * Engine :=
  (true, set_wSatelliteTimeout
           (to_WORD ((to_WORD byTimeoutTime_in_seconds * 1000) mod 2 ^ 32)) s).

Definition GetModemCmdRspTimeInSeconds (s : Engine) : Z :=
  to_BYTE (wSatelliteTimeout s / 1000).

Definition ClearModemSignalStrength (s : Engine) : Engine :=
  upd_modemInfo (set_iSignalStrength (-1)) s.

(** ** Public functions of Modem.c: accessors *)

Definition GetModemAtState (s : Engine) : AT_CMD_STATES := ATCmdState s.

Definition GetErrorCodeRsp (s : Engine) : MODEM_ERROR_CODE_RSP * Engine :=
  (errorCodeRsp s, set_errorCodeRsp MEC_NONE s).

Definition GetSBDStatus (s : Engine) : Z * Engine :=
  let MTStatus := byMTStatus (modemInfo s) in
  let s :=
    if byMTStatus (modemInfo s) =? FAILED_MSG then
      if negb (byRAFlag (modemInfo s) =? 0) then
        upd_modemInfo (set_byMTQueueNbr (to_BYTE (byMTQueueNbr (modemInfo s) + 1))) s
      else s
    else s in
  let s := upd_modemInfo (set_byMTStatus NO_MSG) s in
  let s := upd_modemInfo (set_byRAFlag 0) s in
  (MTStatus, s).

Definition GetRingerStatus (s : Engine) : Z := bRingersOn (modemInfo s).

Definition GetRelayStatus (byRelayNbr : Z) (s : Engine) : Z :=
  if byRelayNbr =? RELAY_1 then bRelayOn1 (modemInfo s) else bRelayOn2 (modemInfo s).

(** ** State of the API layer (the globals of ModemAPI.c) *)

(** Modelled from the spec: MODEM_COMMANDS is declared in ATInterface.h, which
    is not among the sources; the enumerators are the ones ModemAPI.c uses.
    NO_CMD is taken to be the enumerator of value 0, the content of the
    zero-initialised [modemQBuff]. *)
Inductive MODEM_COMMANDS : Type :=
| NO_CMD
| TXING_FILE
| TXING_BUFFER
| TXING_TEXT
| RXING_FILE
| CALL_STATUS
| MAILBOX_CHECK
| GATEWAY_CHECK
| GETTING_CSQ
| CALL_HANGUP
| RINGER_ON
| RINGER_OFF
| RELAY1_ON
| RELAY1_OFF
| RELAY2_ON
| RELAY2_OFF
| RINGER_STATUS
| RELAY1_STATUS
| RELAY2_STATUS
| RESET_CIS
| UPLOAD_CIS_CONFIG
| CONFIGURE_CIS.

Definition MODEM_COMMANDS_eq_dec (a b : MODEM_COMMANDS) : {a = b} + {a <> b}.
Proof. decide equality. Defined.

Definition MODEM_COMMANDS_eqb (a b : MODEM_COMMANDS) : bool :=
  if MODEM_COMMANDS_eq_dec a b then true else false.

Inductive MODEM_STATES : Type :=
| MODEM_POWERED_DOWN
| MODEM_INITTING
| MODEM_IDLE
| MODEM_BUSY.

Definition MDM_Q_LEN : Z := 10.
Definition DEFAULT_SBD_STATUS_DELAY : Z := 10000.
Definition DELETE_ALL_FILES : Z := 0.
Definition KEEP_ALL_FILES : Z := 42.

(** Modelled from the spec: TXT_MSG_RELAY is declared outside the sources; the
    text-message indicator is the relay ClearModemInfo saves as
    [bTxtIndState], RELAY_2. *)
Definition TXT_MSG_RELAY : Z := RELAY_2.

Record MODEM_FLAGS : Type := Build_modemFlags {
  byFileSendRetryCount : Z;  (* BYTE *)
  byFileReceiveRetryCount : Z;  (* BYTE *)
  byCSQDebounceCount : Z  (* BYTE *)
}.

Definition set_byFileSendRetryCount (v : Z) (r : MODEM_FLAGS) : MODEM_FLAGS :=
  Build_modemFlags v (byFileReceiveRetryCount r) (byCSQDebounceCount r).
Definition set_byFileReceiveRetryCount (v : Z) (r : MODEM_FLAGS) : MODEM_FLAGS :=
  Build_modemFlags (byFileSendRetryCount r) v (byCSQDebounceCount r).
Definition set_byCSQDebounceCount (v : Z) (r : MODEM_FLAGS) : MODEM_FLAGS :=
  Build_modemFlags (byFileSendRetryCount r) (byFileReceiveRetryCount r) v.

Record MODEM_OPTIONS : Type := Build_modemOptions {
  bPCMCIAError : bool;
  bCISActionComplete : bool;
  bInTransparentMode : bool;
  bPrevHookState : bool;
  bPrevRIState : bool;
  ModemCmd : MODEM_COMMANDS;
  ModemRsp : MODEM_COMMANDS -> MODEM_RESPONSES;  (* MODEM_RESPONSES[NBR_MODEM_COMMANDS] *)
  bSendingEnabled : bool;
  szPathFileBeingSent : list Z;
  modemState : MODEM_STATES;
  prevModemState : MODEM_STATES
}.

Definition set_bPCMCIAError (v : bool) (r : MODEM_OPTIONS) : MODEM_OPTIONS :=
  Build_modemOptions v (bCISActionComplete r) (bInTransparentMode r) (bPrevHookState r) (bPrevRIState r) (ModemCmd r) (ModemRsp r) (bSendingEnabled r) (szPathFileBeingSent r) (modemState r) (prevModemState r).
Definition set_bCISActionComplete (v : bool) (r : MODEM_OPTIONS) : MODEM_OPTIONS :=
  Build_modemOptions (bPCMCIAError r) v (bInTransparentMode r) (bPrevHookState r) (bPrevRIState r) (ModemCmd r) (ModemRsp r) (bSendingEnabled r) (szPathFileBeingSent r) (modemState r) (prevModemState r).
Definition set_bInTransparentMode (v : bool) (r : MODEM_OPTIONS) : MODEM_OPTIONS :=
  Build_modemOptions (bPCMCIAError r) (bCISActionComplete r) v (bPrevHookState r) (bPrevRIState r) (ModemCmd r) (ModemRsp r) (bSendingEnabled r) (szPathFileBeingSent r) (modemState r) (prevModemState r).
Definition set_bPrevHookState (v : bool) (r : MODEM_OPTIONS) : MODEM_OPTIONS :=
  Build_modemOptions (bPCMCIAError r) (bCISActionComplete r) (bInTransparentMode r) v (bPrevRIState r) (ModemCmd r) (ModemRsp r) (bSendingEnabled r) (szPathFileBeingSent r) (modemState r) (prevModemState r).
Definition set_bPrevRIState (v : bool) (r : MODEM_OPTIONS) : MODEM_OPTIONS :=
  Build_modemOptions (bPCMCIAError r) (bCISActionComplete r) (bInTransparentMode r) (bPrevHookState r) v (ModemCmd r) (ModemRsp r) (bSendingEnabled r) (szPathFileBeingSent r) (modemState r) (prevModemState r).
Definition set_ModemCmd (v : MODEM_COMMANDS) (r : MODEM_OPTIONS) : MODEM_OPTIONS :=
  Build_modemOptions (bPCMCIAError r) (bCISActionComplete r) (bInTransparentMode r) (bPrevHookState r) (bPrevRIState r) v (ModemRsp r) (bSendingEnabled r) (szPathFileBeingSent r) (modemState r) (prevModemState r).
Definition set_ModemRsp (v : MODEM_COMMANDS -> MODEM_RESPONSES) (r : MODEM_OPTIONS) : MODEM_OPTIONS :=
  Build_modemOptions (bPCMCIAError r) (bCISActionComplete r) (bInTransparentMode r) (bPrevHookState r) (bPrevRIState r) (ModemCmd r) v (bSendingEnabled r) (szPathFileBeingSent r) (modemState r) (prevModemState r).
Definition set_bSendingEnabled (v : bool) (r : MODEM_OPTIONS) : MODEM_OPTIONS :=
  Build_modemOptions (bPCMCIAError r) (bCISActionComplete r) (bInTransparentMode r) (bPrevHookState r) (bPrevRIState r) (ModemCmd r) (ModemRsp r) v (szPathFileBeingSent r) (modemState r) (prevModemState r).
Definition set_szPathFileBeingSent (v : list Z) (r : MODEM_OPTIONS) : MODEM_OPTIONS :=
  Build_modemOptions (bPCMCIAError r) (bCISActionComplete r) (bInTransparentMode r) (bPrevHookState r) (bPrevRIState r) (ModemCmd r) (ModemRsp r) (bSendingEnabled r) v (modemState r) (prevModemState r).
Definition set_modemState (v : MODEM_STATES) (r : MODEM_OPTIONS) : MODEM_OPTIONS :=
  Build_modemOptions (bPCMCIAError r) (bCISActionComplete r) (bInTransparentMode r) (bPrevHookState r) (bPrevRIState r) (ModemCmd r) (ModemRsp r) (bSendingEnabled r) (szPathFileBeingSent r) v (prevModemState r).
Definition set_prevModemState (v : MODEM_STATES) (r : MODEM_OPTIONS) : MODEM_OPTIONS :=
  Build_modemOptions (bPCMCIAError r) (bCISActionComplete r) (bInTransparentMode r) (bPrevHookState r) (bPrevRIState r) (ModemCmd r) (ModemRsp r) (bSendingEnabled r) (szPathFileBeingSent r) (modemState r) v.

Record MODEM_CONFIGURABLES : Type := Build_modemConfigurables {
  dwWaitForCalls : Z;
  dwTimeoutDelay : Z;
  dwCheckSigStrengthRate : Z;
  dwCSQDebounceDelay : Z;
  byCSQMaxDebounceRetries : Z;
  byMaxRetries : Z;
  dwRetryDelay : Z;
  szKeepFileList : list Z  (* char[MAX_PRIORITY_FLAGS] *)
}.

Definition set_dwWaitForCalls (v : Z) (r : MODEM_CONFIGURABLES) : MODEM_CONFIGURABLES :=
  Build_modemConfigurables v (dwTimeoutDelay r) (dwCheckSigStrengthRate r) (dwCSQDebounceDelay r) (byCSQMaxDebounceRetries r) (byMaxRetries r) (dwRetryDelay r) (szKeepFileList r).
Definition set_dwTimeoutDelay (v : Z) (r : MODEM_CONFIGURABLES) : MODEM_CONFIGURABLES :=
  Build_modemConfigurables (dwWaitForCalls r) v (dwCheckSigStrengthRate r) (dwCSQDebounceDelay r) (byCSQMaxDebounceRetries r) (byMaxRetries r) (dwRetryDelay r) (szKeepFileList r).
Definition set_dwCheckSigStrengthRate (v : Z) (r : MODEM_CONFIGURABLES) : MODEM_CONFIGURABLES :=
  Build_modemConfigurables (dwWaitForCalls r) (dwTimeoutDelay r) v (dwCSQDebounceDelay r) (byCSQMaxDebounceRetries r) (byMaxRetries r) (dwRetryDelay r) (szKeepFileList r).
Definition set_dwCSQDebounceDelay (v : Z) (r : MODEM_CONFIGURABLES) : MODEM_CONFIGURABLES :=
  Build_modemConfigurables (dwWaitForCalls r) (dwTimeoutDelay r) (dwCheckSigStrengthRate r) v (byCSQMaxDebounceRetries r) (byMaxRetries r) (dwRetryDelay r) (szKeepFileList r).
Definition set_byCSQMaxDebounceRetries (v : Z) (r : MODEM_CONFIGURABLES) : MODEM_CONFIGURABLES :=
  Build_modemConfigurables (dwWaitForCalls r) (dwTimeoutDelay r) (dwCheckSigStrengthRate r) (dwCSQDebounceDelay r) v (byMaxRetries r) (dwRetryDelay r) (szKeepFileList r).
Definition set_byMaxRetries (v : Z) (r : MODEM_CONFIGURABLES) : MODEM_CONFIGURABLES :=
  Build_modemConfigurables (dwWaitForCalls r) (dwTimeoutDelay r) (dwCheckSigStrengthRate r) (dwCSQDebounceDelay r) (byCSQMaxDebounceRetries r) v (dwRetryDelay r) (szKeepFileList r).
Definition set_dwRetryDelay (v : Z) (r : MODEM_CONFIGURABLES) : MODEM_CONFIGURABLES :=
  Build_modemConfigurables (dwWaitForCalls r) (dwTimeoutDelay r) (dwCheckSigStrengthRate r) (dwCSQDebounceDelay r) (byCSQMaxDebounceRetries r) (byMaxRetries r) v (szKeepFileList r).
Definition set_szKeepFileList (v : list Z) (r : MODEM_CONFIGURABLES) : MODEM_CONFIGURABLES :=
  Build_modemConfigurables (dwWaitForCalls r) (dwTimeoutDelay r) (dwCheckSigStrengthRate r) (dwCSQDebounceDelay r) (byCSQMaxDebounceRetries r) (byMaxRetries r) (dwRetryDelay r) v.

Record COMMQUEUE : Type := Build_COMMQUEUE {
  wReadIndex : Z;
  wWriteIndex : Z;
  pBuff : list MODEM_COMMANDS;  (* the ring, here modemQBuff *)
  wSize : Z
}.

Definition set_wReadIndex (v : Z) (r : COMMQUEUE) : COMMQUEUE :=
  Build_COMMQUEUE v (wWriteIndex r) (pBuff r) (wSize r).
Definition set_wWriteIndex (v : Z) (r : COMMQUEUE) : COMMQUEUE :=
  Build_COMMQUEUE (wReadIndex r) v (pBuff r) (wSize r).
Definition set_pBuff (v : list MODEM_COMMANDS) (r : COMMQUEUE) : COMMQUEUE :=
  Build_COMMQUEUE (wReadIndex r) (wWriteIndex r) v (wSize r).
Definition set_wSize (v : Z) (r : COMMQUEUE) : COMMQUEUE :=
  Build_COMMQUEUE (wReadIndex r) (wWriteIndex r) (pBuff r) v.

Record API : Type := Build_API {
  thCheckCSQ : TIMERHANDLE;
  thCheckRetryDelay : TIMERHANDLE;
  thWaitForCalls : TIMERHANDLE;
  thCheckGateway : TIMERHANDLE;
  thCheckCallStatus : TIMERHANDLE;
  thTimeout : TIMERHANDLE;
  QueuedCISCmd : COMMQUEUE;  (* its ring is modemQBuff *)
  modemFlags : MODEM_FLAGS;
  modemOptions : MODEM_OPTIONS;
  modemConfigurables : MODEM_CONFIGURABLES
}.

Definition set_thCheckCSQ (v : TIMERHANDLE) (r : API) : API :=
  Build_API v (thCheckRetryDelay r) (thWaitForCalls r) (thCheckGateway r) (thCheckCallStatus r) (thTimeout r) (QueuedCISCmd r) (modemFlags r) (modemOptions r) (modemConfigurables r).
Definition set_thCheckRetryDelay (v : TIMERHANDLE) (r : API) : API :=
  Build_API (thCheckCSQ r) v (thWaitForCalls r) (thCheckGateway r) (thCheckCallStatus r) (thTimeout r) (QueuedCISCmd r) (modemFlags r) (modemOptions r) (modemConfigurables r).
Definition set_thWaitForCalls (v : TIMERHANDLE) (r : API) : API :=
  Build_API (thCheckCSQ r) (thCheckRetryDelay r) v (thCheckGateway r) (thCheckCallStatus r) (thTimeout r) (QueuedCISCmd r) (modemFlags r) (modemOptions r) (modemConfigurables r).
Definition set_thCheckGateway (v : TIMERHANDLE) (r : API) : API :=
  Build_API (thCheckCSQ r) (thCheckRetryDelay r) (thWaitForCalls r) v (thCheckCallStatus r) (thTimeout r) (QueuedCISCmd r) (modemFlags r) (modemOptions r) (modemConfigurables r).
Definition set_thCheckCallStatus (v : TIMERHANDLE) (r : API) : API :=
  Build_API (thCheckCSQ r) (thCheckRetryDelay r) (thWaitForCalls r) (thCheckGateway r) v (thTimeout r) (QueuedCISCmd r) (modemFlags r) (modemOptions r) (modemConfigurables r).
Definition set_thTimeout (v : TIMERHANDLE) (r : API) : API :=
  Build_API (thCheckCSQ r) (thCheckRetryDelay r) (thWaitForCalls r) (thCheckGateway r) (thCheckCallStatus r) v (QueuedCISCmd r) (modemFlags r) (modemOptions r) (modemConfigurables r).
Definition set_QueuedCISCmd (v : COMMQUEUE) (r : API) : API :=
  Build_API (thCheckCSQ r) (thCheckRetryDelay r) (thWaitForCalls r) (thCheckGateway r) (thCheckCallStatus r) (thTimeout r) v (modemFlags r) (modemOptions r) (modemConfigurables r).
Definition set_modemFlags (v : MODEM_FLAGS) (r : API) : API :=
  Build_API (thCheckCSQ r) (thCheckRetryDelay r) (thWaitForCalls r) (thCheckGateway r) (thCheckCallStatus r) (thTimeout r) (QueuedCISCmd r) v (modemOptions r) (modemConfigurables r).
Definition set_modemOptions (v : MODEM_OPTIONS) (r : API) : API :=
  Build_API (thCheckCSQ r) (thCheckRetryDelay r) (thWaitForCalls r) (thCheckGateway r) (thCheckCallStatus r) (thTimeout r) (QueuedCISCmd r) (modemFlags r) v (modemConfigurables r).
Definition set_modemConfigurables (v : MODEM_CONFIGURABLES) (r : API) : API :=
  Build_API (thCheckCSQ r) (thCheckRetryDelay r) (thWaitForCalls r) (thCheckGateway r) (thCheckCallStatus r) (thTimeout r) (QueuedCISCmd r) (modemFlags r) (modemOptions r) v.

Record Driver : Type := Build_Driver {
  eng : Engine;  (* the globals of Modem.c *)
  api : API  (* the globals of ModemAPI.c *)
}.

Definition set_eng (v : Engine) (r : Driver) : Driver :=
  Build_Driver v (api r).
Definition set_api (v : API) (r : Driver) : Driver :=
  Build_Driver (eng r) v.

Definition upd_eng (f : Engine -> Engine) (d : Driver) : Driver := set_eng (f (eng d)) d.
Definition upd_api (f : API -> API) (d : Driver) : Driver := set_api (f (api d)) d.
Definition upd_options (f : MODEM_OPTIONS -> MODEM_OPTIONS) (d : Driver) : Driver :=
  upd_api (fun a => set_modemOptions (f (modemOptions a)) a) d.
Definition upd_flags (f : MODEM_FLAGS -> MODEM_FLAGS) (d : Driver) : Driver :=
  upd_api (fun a => set_modemFlags (f (modemFlags a)) a) d.
Definition upd_queue (f : COMMQUEUE -> COMMQUEUE) (d : Driver) : Driver :=
  upd_api (fun a => set_QueuedCISCmd (f (QueuedCISCmd a)) a) d.

Definition options (d : Driver) : MODEM_OPTIONS := modemOptions (api d).
Definition flags (d : Driver) : MODEM_FLAGS := modemFlags (api d).
Definition configurables (d : Driver) : MODEM_CONFIGURABLES := modemConfigurables (api d).
Definition modemQBuff (d : Driver) : list MODEM_COMMANDS := pBuff (QueuedCISCmd (api d)).

(** Run an engine function that returns a value on the driver state. *)
Definition on_eng {A : Type} (f : Engine -> A * Engine) (d : Driver) : A * Driver :=
  let '(r, e) := f (eng d) in (r, set_eng e d).

Definition api_log (e : LogEvent) (d : Driver) : Driver := upd_eng (add_log e) d.

(** A call of ModemLog (ModemLog.c) made by the driver.  ModemLog starts with
    [subErrorCode = GetErrorCodeRsp()], which hands the engine's error code
    out and resets it to MEC_NONE; the code goes into the line of the log. *)
Definition api_ModemLog (errCode : MODEMLOG_ERR_CODE) (d : Driver) : Driver :=
  let '(subErrorCode, d) := on_eng GetErrorCodeRsp d in
  api_log (ModemLog errCode subErrorCode) d.

(** [ModemRsp[cmd] = rsp] *)
Definition set_ModemRsp_at (cmd : MODEM_COMMANDS) (rsp : MODEM_RESPONSES) (o : MODEM_OPTIONS)
  : MODEM_OPTIONS :=
  set_ModemRsp (fun c => if MODEM_COMMANDS_eq_dec c cmd then rsp else ModemRsp o c) o.

(** ** The queue module (not among the sources)

    Modelled from the spec: AddDataToQueue and GetDataFromQueue work on a ring
    of [wSize] slots with a read and a write index; the ring is empty when
    the two indices are equal (the test HandleQueuedCommands makes).  What
    AddDataToQueue does when the ring is full is not known: the environment
    says whether it overwrites or refuses. *)

(** Modelled from the spec: the ring is full when one more store would make
    the write index meet the read index (a ring of [wSize] slots that is
    empty when the two are equal holds [wSize - 1] entries). *)
Definition queue_full (q : COMMQUEUE) : bool :=
  (wWriteIndex q + 1) mod wSize q =? wReadIndex q.

(** Modelled from the spec: AddDataToQueue (the queue module is not among the
    sources) stores at the write index and moves it on by one; a full ring
    is overwritten or left alone, as the environment says. *)
Definition AddDataToQueue (env : Env) (data : MODEM_COMMANDS) (q : COMMQUEUE) : COMMQUEUE :=
  if queue_full q && negb (queue_overwrites env) then q else
  let q := set_pBuff (array_set (pBuff q) (wWriteIndex q) data) q in
  set_wWriteIndex ((wWriteIndex q + 1) mod wSize q) q.

(** Modelled from the spec: GetDataFromQueue (the queue module is not among
    the sources) hands out the entry at the read index and moves it on by
    one. *)
Definition GetDataFromQueue (q : COMMQUEUE) : MODEM_COMMANDS * COMMQUEUE :=
  let data := nth (Z.to_nat (wReadIndex q)) (pBuff q) NO_CMD in
  (data, set_wReadIndex ((wReadIndex q + 1) mod wSize q) q).

(** The static initialiser [{ 0, 0, modemQBuff, MDM_Q_LEN }] over the zeroed
    [modemQBuff]. *)
Definition QueuedCISCmd_init : COMMQUEUE :=
  Build_COMMQUEUE 0 0 (repeat NO_CMD (Z.to_nat MDM_Q_LEN)) MDM_Q_LEN.

(** ** Private helpers of ModemAPI.c used by the commands *)

Definition in_queue_buffer (cmd : MODEM_COMMANDS) (buff : list MODEM_COMMANDS) : bool :=
  existsb (MODEM_COMMANDS_eqb cmd) (firstn (Z.to_nat MDM_Q_LEN) buff).

Definition AddNewDataToQueue (env : Env) (Modemcommand : MODEM_COMMANDS) (d : Driver) : Driver :=
  if in_queue_buffer Modemcommand (modemQBuff d) then d else
  let d := upd_queue (AddDataToQueue env Modemcommand) d in
  upd_options (set_ModemRsp_at Modemcommand MR_WAITING) d.

Definition SetModemStateBusy (cmd : MODEM_COMMANDS) (d : Driver) : Driver :=
  let d := upd_options (fun o => set_prevModemState (modemState o) o) d in
  let d := upd_options (set_modemState MODEM_BUSY) d in
  let d := upd_options (set_ModemCmd cmd) d in
  upd_options (fun o => set_ModemRsp_at (ModemCmd o) MR_WAITING o) d.

Definition WaitForIncommingCalls (env : Env) (d : Driver) : Driver :=
  if bSendingEnabled (options d) then
    let d := upd_options (set_bSendingEnabled false) d in
    upd_api (set_thWaitForCalls (StartTimer (now env) (dwWaitForCalls (configurables d)))) d
  else d.

Definition idle_or_powered_down (d : Driver) : bool :=
  match modemState (options d) with
  | MODEM_IDLE | MODEM_POWERED_DOWN => true
  | _ => false
  end.

(** ** Public functions of ModemAPI.c: aux-board commands *)

Definition UploadCISConfig (env : Env) (d : Driver) : bool * Driver :=
  let d := upd_options (set_bCISActionComplete false) d in
  let '(sent, d) :=
    if idle_or_powered_down d then on_eng (SendDownloadCISCmd env) d else (false, d) in
  if sent then (true, SetModemStateBusy UPLOAD_CIS_CONFIG d)
  else (false, AddNewDataToQueue env UPLOAD_CIS_CONFIG d).

Definition ProgramCIS (env : Env) (d : Driver) : bool * Driver :=
  let d := upd_options (set_bCISActionComplete false) d in
  let '(sent, d) :=
    if idle_or_powered_down d then on_eng (SendProgramCISCmd env) d else (false, d) in
  if sent then (true, SetModemStateBusy CONFIGURE_CIS d)
  else (false, AddNewDataToQueue env CONFIGURE_CIS d).

Definition SaveCISCurrentState (env : Env) (d : Driver) : Driver :=
  let d := if negb (GetRingerStatus (eng d) =? 0)
           then AddNewDataToQueue env RINGER_ON d else AddNewDataToQueue env RINGER_OFF d in
  let d := if negb (GetRelayStatus RELAY_1 (eng d) =? 0)
           then AddNewDataToQueue env RELAY1_ON d else AddNewDataToQueue env RELAY1_OFF d in
  if negb (GetRelayStatus RELAY_2 (eng d) =? 0)
  then AddNewDataToQueue env RELAY2_ON d else AddNewDataToQueue env RELAY2_OFF d.

Definition ResetCIS (env : Env) (d : Driver) : bool * Driver :=
  let '(sent, d) :=
    if idle_or_powered_down d then on_eng (SendCISResetCmd env) d else (false, d) in
  if sent then
    let d := SaveCISCurrentState env d in
    let d := SetModemStateBusy RESET_CIS d in
    (* PowerCycleModem(): the power manager is outside the driver *)
    (true, d)
  else (false, AddNewDataToQueue env RESET_CIS d).

Definition TogglePhoneRinger (env : Env) (bRingerOn : bool) (d : Driver) : bool * Driver :=
  let mdmCmd := if bRingerOn then RINGER_ON else RINGER_OFF in
  let '(sent, d) :=
    if idle_or_powered_down d then on_eng (SendSetRingerCmd env bRingerOn) d else (false, d) in
  if sent then (true, SetModemStateBusy mdmCmd d)
  else (false, AddNewDataToQueue env mdmCmd d).

Definition SendPhoneRingerStatusCmd (env : Env) (d : Driver) : bool * Driver :=
  let '(sent, d) :=
    if idle_or_powered_down d then on_eng (SendGetRingerStatusCmd env) d else (false, d) in
  if sent then (true, SetModemStateBusy RINGER_STATUS d)
  else (false, AddNewDataToQueue env RINGER_STATUS d).

Definition ToggleRelayState (env : Env) (byRelayNbr : Z) (bRelayState : bool) (d : Driver)
  : bool * Driver :=
  let mdmCmd :=
    if byRelayNbr =? RELAY_1 then (if bRelayState then RELAY1_ON else RELAY1_OFF)
    else if byRelayNbr =? RELAY_2 then (if bRelayState then RELAY2_ON else RELAY2_OFF)
    else NO_CMD in
  let '(sent, d) :=
    if idle_or_powered_down d then on_eng (SendSetRelayCmd env byRelayNbr bRelayState) d
    else (false, d) in
  if sent then (true, SetModemStateBusy mdmCmd d)
  else (false, AddNewDataToQueue env mdmCmd d).

Definition SendOutputRelayStatusCmd (env : Env) (byRelayNbr : Z) (d : Driver) : bool * Driver :=
  let mdmCmd := if byRelayNbr =? RELAY_1 then RELAY1_STATUS else RELAY2_STATUS in
  let '(sent, d) :=
    if idle_or_powered_down d then on_eng (SendGetRelayStatusCmd env byRelayNbr) d
    else (false, d) in
  if sent then (true, SetModemStateBusy mdmCmd d)
  else (false, AddNewDataToQueue env mdmCmd d).

Definition HangupCall (env : Env) (d : Driver) : bool * Driver :=
  let '(sent, d) := on_eng (SendCallHangupCmd env) d in
  if sent then (true, SetModemStateBusy CALL_HANGUP d)
  else (false, AddNewDataToQueue env CALL_HANGUP d).

(** The head of HandleQueuedCommands: the command at the read index is
    taken and its slot cleared,
    [mdmCmds = GetDataFromQueue( &QueuedCISCmd ); modemQBuff[wBackupReadIndex] = NO_CMD;] *)
Definition HandleQueuedCommands_take (d : Driver) : MODEM_COMMANDS * Driver :=
  let wBackupReadIndex := wReadIndex (QueuedCISCmd (api d)) in
  let '(mdmCmds, q) := GetDataFromQueue (QueuedCISCmd (api d)) in
  let d := upd_queue (fun _ => q) d in
  (mdmCmds,
   upd_queue (fun q => set_pBuff (array_set (pBuff q) wBackupReadIndex NO_CMD) q) d).

Definition HandleQueuedCommands (env : Env) (d : Driver) : bool * Driver :=
  if wWriteIndex (QueuedCISCmd (api d)) =? wReadIndex (QueuedCISCmd (api d)) then (false, d) else
  let '(mdmCmds, d) := HandleQueuedCommands_take d in
  match mdmCmds with
  | RINGER_ON => (true, snd (TogglePhoneRinger env true d))
  | RINGER_OFF => (true, snd (TogglePhoneRinger env false d))
  | RELAY1_ON => (true, snd (ToggleRelayState env RELAY_1 true d))
  | RELAY1_OFF => (true, snd (ToggleRelayState env RELAY_1 false d))
  | RELAY2_ON => (true, snd (ToggleRelayState env RELAY_2 true d))
  | RELAY2_OFF => (true, snd (ToggleRelayState env RELAY_2 false d))
  | RINGER_STATUS => (true, snd (SendPhoneRingerStatusCmd env d))
  | RELAY1_STATUS => (true, snd (SendOutputRelayStatusCmd env RELAY_1 d))
  | RELAY2_STATUS => (true, snd (SendOutputRelayStatusCmd env RELAY_2 d))
  | RESET_CIS => (true, snd (ResetCIS env d))
  | CONFIGURE_CIS => (true, snd (ProgramCIS env d))
  | UPLOAD_CIS_CONFIG => (true, snd (UploadCISConfig env d))
  | CALL_HANGUP =>
      match modemState (options d) with
      | MODEM_POWERED_DOWN => (false, d)
      | _ => (true, snd (HangupCall env d))
      end
  | _ => (false, d)
  end.

(** ** Response analysers of Modem.c *)

Abbreviation AT_RSP_OK := 48 (only parsing).                          (* '0' *)
Abbreviation AT_RSP_ERROR := 52 (only parsing).                       (* '4' *)
Abbreviation AT_RSP_SBD_CLEAR_FAIL := 49 (only parsing).              (* '1' *)
Abbreviation AT_RSP_SBD_WRITE_BIN_TIMEOUT := 49 (only parsing).       (* '1' *)
Abbreviation AT_RSP_SBD_WRITE_BIN_BAD_CHECKSUM := 50 (only parsing).  (* '2' *)
Abbreviation AT_RSP_SBD_WRITE_BIN_BAD_SIZE := 51 (only parsing).      (* '3' *)

Abbreviation AT_RSP_SBDI_SUCCESS := 0 (only parsing).
Abbreviation AT_RSP_SBDI_SUCCESS_TRUNC := 1 (only parsing).
Abbreviation AT_RSP_SBDI_SUCCESS_NO_LU := 2 (only parsing).
Abbreviation AT_RSP_SBDI_SUCCESS_RFU_1 := 3 (only parsing).
Abbreviation AT_RSP_SBDI_SUCCESS_RFU_2 := 4 (only parsing).
Abbreviation AT_RSP_SBDI_FAILURE_RFU_1 := 5 (only parsing).
Abbreviation AT_RSP_SBDI_FAILURE_RFU_2 := 6 (only parsing).
Abbreviation AT_RSP_SBDI_FAILURE_RFU_3 := 7 (only parsing).
Abbreviation AT_RSP_SBDI_FAILURE_RFU_4 := 8 (only parsing).
Abbreviation AT_RSP_SBDI_FAILURE_RFU_5 := 9 (only parsing).
Abbreviation AT_RSP_SBDI_FAILURE_TIMEOUT := 10 (only parsing).
Abbreviation AT_RSP_SBDI_FAILURE_Q_FULL := 11 (only parsing).
Abbreviation AT_RSP_SBDI_FAILURE_MO_ERROR := 12 (only parsing).
Abbreviation AT_RSP_SBDI_FAILURE_INCOMPLETE_SESSION := 13 (only parsing).
Abbreviation AT_RSP_SBDI_FAILURE_INVALID_SIZE := 14 (only parsing).
Abbreviation AT_RSP_SBDI_FAILURE_ACCESS_DENIED := 15 (only parsing).
Abbreviation AT_RSP_SBDI_FAILURE_SBD_BLOCKED := 16 (only parsing).
Abbreviation AT_RSP_SBDI_FAILURE_NO_RSP := 17 (only parsing).
Abbreviation AT_RSP_SBDI_FAILURE_NO_CONNECTION := 18 (only parsing).
Abbreviation AT_RSP_SBDI_FAILURE_NO_LINK := 19 (only parsing).
Abbreviation AT_RSP_SBDI_FAILURE_RFU_6 := 20 (only parsing).
Abbreviation AT_RSP_SBDI_FAILURE_RFU_7 := 21 (only parsing).
Abbreviation AT_RSP_SBDI_FAILURE_RFU_8 := 22 (only parsing).
Abbreviation AT_RSP_SBDI_FAILURE_RFU_9 := 23 (only parsing).
Abbreviation AT_RSP_SBDI_FAILURE_RFU_10 := 24 (only parsing).
Abbreviation AT_RSP_SBDI_FAILURE_RFU_11 := 25 (only parsing).
Abbreviation AT_RSP_SBDI_FAILURE_RFU_12 := 26 (only parsing).
Abbreviation AT_RSP_SBDI_FAILURE_RFU_13 := 27 (only parsing).
Abbreviation AT_RSP_SBDI_FAILURE_RFU_14 := 28 (only parsing).
Abbreviation AT_RSP_SBDI_FAILURE_RFU_15 := 29 (only parsing).
Abbreviation AT_RSP_SBDI_FAILURE_RFU_16 := 30 (only parsing).
Abbreviation AT_RSP_SBDI_FAILURE_RFU_17 := 31 (only parsing).
Abbreviation AT_RSP_SBDI_FAILURE_NO_NETWORK := 32 (only parsing).
Abbreviation AT_RSP_SBDI_FAILURE_RFU_18 := 33 (only parsing).
Abbreviation AT_RSP_SBDI_FAILURE_RFU_19 := 34 (only parsing).
Abbreviation AT_RSP_SBDI_FAILURE_BUSY := 35 (only parsing).
Abbreviation AT_RSP_SBDI_FAILURE_RFU_20 := 36 (only parsing).

Abbreviation AT_RSP_CREG_NOT_REG := 0 (only parsing).
Abbreviation AT_RSP_CREG_REG_HOME := 1 (only parsing).
Abbreviation AT_RSP_CREG_SEARCHING := 2 (only parsing).
Abbreviation AT_RSP_CREG_DENIED := 3 (only parsing).
Abbreviation AT_RSP_CREG_UNKNOWN := 4 (only parsing).
Abbreviation AT_RSP_CREG_REG_ROAMING := 5 (only parsing).

Abbreviation AT_RSP_CSQ_LEVEL_0 := 0 (only parsing).
Abbreviation AT_RSP_CSQ_LEVEL_1 := 1 (only parsing).
Abbreviation AT_RSP_CSQ_LEVEL_2 := 2 (only parsing).
Abbreviation AT_RSP_CSQ_LEVEL_3 := 3 (only parsing).
Abbreviation AT_RSP_CSQ_LEVEL_4 := 4 (only parsing).
Abbreviation AT_RSP_CSQ_LEVEL_5 := 5 (only parsing).

Abbreviation PROG_CIS_MANUFACTURER_ERROR := 77 (only parsing).   (* 'M' *)
Abbreviation PROG_CIS_OUT_OF_FLASH_ERROR := 79 (only parsing).   (* 'O' *)
Abbreviation PROG_CIS_PAGE_ERASE_ERROR := 69 (only parsing).     (* 'E' *)
Abbreviation PROG_CIS_PROG_PAGE_ERROR := 101 (only parsing).     (* 'e' *)
Abbreviation PROG_CIS_BAD_FORMAT_ERROR := 70 (only parsing).     (* 'F' *)
Abbreviation PROG_CIS_BAD_HW_ID_ERROR := 72 (only parsing).      (* 'H' *)
Abbreviation PROG_CIS_BAD_CHECKSUM_ERROR := 78 (only parsing).   (* 'N' *)
Abbreviation PROG_CIS_BAD_CHAR_RXD_ERROR := 110 (only parsing).  (* 'n' *)
Abbreviation PROG_CIS_BLOCK_PASSED := 97 (only parsing).         (* 'a' *)
Abbreviation PROG_CIS_UPLOAD_SUCCESSFUL := 67 (only parsing).    (* 'C' *)

(** The body of GetResponseBuffer's loop, run over the bytes pending in the
    receive queue. *)
Fixpoint GetResponseBuffer_loop (EOL : Z) (pending : list Z) (s : Engine) : bool * Engine :=
  match pending with
  | [] => (false, set_rxq [] s)
  | byRxByte :: pending' =>
      let s :=
        if MAX_CMD_LINE_LEN <=? wRxIndex s then
          set_wRxIndex 0 (set_errorCodeRsp MEC_RX_BUFFER_OVERFLOW s)
        else s in
      if byRxByte =? EOL then
        let s := set_byRxBuffer (array_set (byRxBuffer s) (wRxIndex s) NUL) s in
        let s := set_wRxIndex (wRxIndex s + 1) s in
        (true, set_rxq pending' s)
      else
        let s := set_byRxBuffer (array_set (byRxBuffer s) (wRxIndex s) byRxByte) s in
        let s := set_wRxIndex (wRxIndex s + 1) s in
        GetResponseBuffer_loop EOL pending' s
  end.

Definition GetResponseBuffer (EOL : Z) (s : Engine) : bool * Engine :=
  GetResponseBuffer_loop EOL (rxq s) s.

Definition GetLastRsp (s : Engine) : MODEM_RESPONSES * Engine :=
  match GetModemPortChar s with
  | Some (byResponse, s) =>
      match byResponse with
      | AT_RSP_OK => (MR_SUCCESS, s)
      | AT_RSP_SBD_CLEAR_FAIL => (MR_FAILED, set_errorCodeRsp MEC_CLEAR_MODEM_BUFFER_ERROR s)
      | AT_RSP_ERROR => (MR_FAILED, set_errorCodeRsp MEC_ERROR s)
      | _ => (MR_WAITING, s)
      end
  | None => (MR_WAITING, s)
  end.

Definition GetWriteBinaryMsgRsp (s : Engine) : MODEM_RESPONSES * Engine :=
  let '(complete, s) := GetResponseBuffer LINE_FEED s in
  if negb complete then (MR_WAITING, s) else
  if -1 <? FindSubStr (byRxBuffer s) (AT_RSPS AT_RSP_SBD_WRITE_BIN_READY) (wRxIndex s)
  then (MR_SUCCESS, s) else
  match array_get (byRxBuffer s) 0 with
  | AT_RSP_OK => (MR_SUCCESS, s)
  | AT_RSP_SBD_WRITE_BIN_TIMEOUT => (MR_FAILED, set_errorCodeRsp MEC_TX_BIN_DATA_TIMEOUT s)
  | AT_RSP_SBD_WRITE_BIN_BAD_CHECKSUM =>
      (MR_FAILED, set_errorCodeRsp MEC_TX_BIN_DATA_BAD_CHECKSUM s)
  | AT_RSP_SBD_WRITE_BIN_BAD_SIZE => (MR_FAILED, set_errorCodeRsp MEC_TX_BIN_DATA_BAD_SIZE s)
  | _ => (MR_WAITING, s)
  end.

(** The text after the header [hdr] of the line assembled in [byRxBuffer],
    when the header is there: FindSubStr followed by StringMidCpy. *)
Definition response_after_header (hdr : list Z) (s : Engine) : option (list Z) :=
  let wRspHdrSize := StringLen hdr in
  let iHeaderIndex := FindSubStr (byRxBuffer s) hdr (wRxIndex s) in
  if -1 <? iHeaderIndex then
    Some (StringMidCpy (byRxBuffer s) (wRspHdrSize + to_WORD iHeaderIndex) (wRxIndex s))
  else None.

Definition GetInitiateSBDSessionRsp (s : Engine) : MODEM_RESPONSES * Engine :=
  let '(complete, s) := GetResponseBuffer LINE_FEED s in
  if negb complete then (MR_WAITING, s) else
  match response_after_header (AT_RSPS AT_RSP_SBD_INITIATE_SESSION) s with
  | Some szRspBuffer =>
      let szMOStatus := StringTok_field szRspBuffer 0 in
      let s := upd_modemInfo (set_szMOMSN (StringTok_field szRspBuffer 1)) s in
      let szMTStatus := StringTok_field szRspBuffer 2 in
      let s := upd_modemInfo (set_szMTMSN (StringTok_field szRspBuffer 3)) s in
      let szMTLength := StringTok_field szRspBuffer 4 in
      let szMTQueueNbr := StringTok_field szRspBuffer 5 in
      let s := upd_modemInfo (set_byMOStatus (to_BYTE (StringToInt szMOStatus))) s in
      let s := upd_modemInfo (set_byMTStatus (to_BYTE (StringToInt szMTStatus))) s in
      match byMOStatus (modemInfo s) with
      | AT_RSP_SBDI_SUCCESS
      | AT_RSP_SBDI_SUCCESS_TRUNC
      | AT_RSP_SBDI_SUCCESS_NO_LU
      | AT_RSP_SBDI_SUCCESS_RFU_1
      | AT_RSP_SBDI_SUCCESS_RFU_2 =>
          let s := upd_modemInfo (set_wMTLength (to_WORD (StringToInt szMTLength))) s in
          let s := upd_modemInfo (set_byMTQueueNbr (to_BYTE (StringToInt szMTQueueNbr))) s in
          (MR_SUCCESS, s)
      | AT_RSP_SBDI_FAILURE_TIMEOUT => (MR_FAILED, set_errorCodeRsp MEC_SBDI_GSS_TIMEOUT s)
      | AT_RSP_SBDI_FAILURE_Q_FULL => (MR_FAILED, set_errorCodeRsp MEC_SBDI_GSS_Q_FULL s)
      | AT_RSP_SBDI_FAILURE_MO_ERROR => (MR_FAILED, set_errorCodeRsp MEC_SBDI_MO_SEGMENT_ERR s)
      | AT_RSP_SBDI_FAILURE_INCOMPLETE_SESSION =>
          (MR_FAILED, set_errorCodeRsp MEC_SBDI_INCOMPLETE_SESSION s)
      | AT_RSP_SBDI_FAILURE_INVALID_SIZE =>
          (MR_FAILED, set_errorCodeRsp MEC_SBDI_SEGMENT_SIZE_ERR s)
      | AT_RSP_SBDI_FAILURE_ACCESS_DENIED =>
          (MR_FAILED, set_errorCodeRsp MEC_SBDI_GSS_ACCESS_DENIED s)
      | AT_RSP_SBDI_FAILURE_SBD_BLOCKED =>
          let s := set_errorCodeRsp MEC_SBDI_SBD_BLOCKED s in
          (MR_FAILED, add_log (ReportSystemLogError SYS_LOG_SBD_BLOCKED) s)
      | AT_RSP_SBDI_FAILURE_NO_RSP => (MR_FAILED, set_errorCodeRsp MEC_SBDI_ISU_TIMEOUT s)
      | AT_RSP_SBDI_FAILURE_NO_CONNECTION => (MR_FAILED, set_errorCodeRsp MEC_SBDI_RF_DROP s)
      | AT_RSP_SBDI_FAILURE_NO_LINK => (MR_FAILED, set_errorCodeRsp MEC_SBDI_PROTOCOL_ERR s)
      | AT_RSP_SBDI_FAILURE_RFU_1
      | AT_RSP_SBDI_FAILURE_RFU_2
      | AT_RSP_SBDI_FAILURE_RFU_3
      | AT_RSP_SBDI_FAILURE_RFU_4
      | AT_RSP_SBDI_FAILURE_RFU_5
      | AT_RSP_SBDI_FAILURE_RFU_6
      | AT_RSP_SBDI_FAILURE_RFU_7
      | AT_RSP_SBDI_FAILURE_RFU_8
      | AT_RSP_SBDI_FAILURE_RFU_9
      | AT_RSP_SBDI_FAILURE_RFU_10
      | AT_RSP_SBDI_FAILURE_RFU_11
      | AT_RSP_SBDI_FAILURE_RFU_12
      | AT_RSP_SBDI_FAILURE_RFU_13
      | AT_RSP_SBDI_FAILURE_RFU_14
      | AT_RSP_SBDI_FAILURE_RFU_15
      | AT_RSP_SBDI_FAILURE_RFU_16
      | AT_RSP_SBDI_FAILURE_RFU_17
      | AT_RSP_SBDI_FAILURE_RFU_18
      | AT_RSP_SBDI_FAILURE_RFU_19
      | AT_RSP_SBDI_FAILURE_RFU_20 => (MR_FAILED, set_errorCodeRsp MEC_SBDI_FAIL s)
      | AT_RSP_SBDI_FAILURE_NO_NETWORK =>
          (MR_FAILED, set_errorCodeRsp MEC_SBDI_NO_NETWORK_SERVICE s)
      | AT_RSP_SBDI_FAILURE_BUSY => (MR_FAILED, set_errorCodeRsp MEC_SBDI_ISU_BUSY s)
      | _ => (MR_WAITING, s)
      end
  | None => (MR_WAITING, s)
  end.

Definition GetReqCurrCallStatusRsp (s : Engine) : MODEM_RESPONSES * Engine :=
  let '(complete, s) := GetResponseBuffer LINE_FEED s in
  if negb complete then (MR_WAITING, s) else
  match response_after_header (AT_RSPS AT_RSP_CALL_STATUS) s with
  | Some szRspBuffer =>
      match to_BYTE (StringToInt szRspBuffer) with
      | 0 => (MR_SUCCESS, upd_modemInfo (set_byCallStatus AT_RSP_ACTIVE_CALL_STATUS)
                            (set_errorCodeRsp MEC_ACTIVE_CALL_STATUS s))
      | 1 => (MR_SUCCESS, upd_modemInfo (set_byCallStatus AT_RSP_HELD_CALL_STATUS)
                            (set_errorCodeRsp MEC_HELD_CALL_STATUS s))
      | 2 => (MR_FAILED, upd_modemInfo (set_byCallStatus AT_RSP_DIALING_CALL_STATUS)
                           (set_errorCodeRsp MEC_DIALING_CALL_STATUS s))
      | 4 => (MR_SUCCESS, upd_modemInfo (set_byCallStatus AT_RSP_INCOMING_CALL_STATUS)
                            (set_errorCodeRsp MEC_INCOMING_CALL_STATUS s))
      | 5 => (MR_SUCCESS, upd_modemInfo (set_byCallStatus AT_RSP_WAITING_CALL_STATUS)
                            (set_errorCodeRsp MEC_WAITING_CALL_STATUS s))
      | 6 => (MR_SUCCESS, upd_modemInfo (set_byCallStatus AT_RSP_IDLE_CALL_STATUS) s)
      | _ => (MR_WAITING, s)
      end
  | None => (MR_WAITING, s)
  end.

Definition GetSBDStatusRsp (s : Engine) : MODEM_RESPONSES * Engine :=
  let '(complete, s) := GetResponseBuffer LINE_FEED s in
  if negb complete then (MR_WAITING, s) else
  match response_after_header (AT_RSPS AT_RSP_SBD_STATUS) s with
  | Some szRspBuffer =>
      let szMOFlag := StringTok_field szRspBuffer 0 in
      let s := upd_modemInfo (set_szMOMSN (StringTok_field szRspBuffer 1)) s in
      let szMTFlag := StringTok_field szRspBuffer 2 in
      let s := upd_modemInfo (set_szMTMSN (StringTok_field szRspBuffer 3)) s in
      let szRAFlag := StringTok_field szRspBuffer 4 in
      let szQueued := StringTok_field szRspBuffer 5 in
      let s := upd_modemInfo (set_byRAFlag (to_BYTE (StringToInt szRAFlag))) s in
      let byQueuedMsgs := to_BYTE (StringToInt szQueued) in
      if (byRAFlag (modemInfo s) =? AT_RSP_SBD_STATUS_RA)
         || negb (byMTQueueNbr (modemInfo s) =? 0)
      then (MR_SUCCESS, s)
      else if negb (byQueuedMsgs =? 0) then
        (MR_SUCCESS, upd_modemInfo (set_byMTQueueNbr byQueuedMsgs) s)
      else (MR_FAILED, s)
  | None => (MR_WAITING, s)
  end.

Definition GetCREGRsp (s : Engine) : MODEM_RESPONSES * Engine :=
  let '(complete, s) := GetResponseBuffer LINE_FEED s in
  if negb complete then (MR_WAITING, s) else
  match response_after_header (AT_RSPS AT_RSP_CREG) s with
  | Some szRspBuffer =>
      let szStatus := StringTok_field szRspBuffer 1 in
      match to_WORD (StringToInt szStatus) with
      | AT_RSP_CREG_NOT_REG => (MR_FAILED, set_errorCodeRsp MEC_CREG_NOT_REGISTERED s)
      | AT_RSP_CREG_REG_HOME => (MR_SUCCESS, set_errorCodeRsp MEC_CREG_REGISTERED_HOME s)
      | AT_RSP_CREG_SEARCHING => (MR_SUCCESS, set_errorCodeRsp MEC_CREG_SEARCHING s)
      | AT_RSP_CREG_DENIED => (MR_SUCCESS, set_errorCodeRsp MEC_CREG_DENIED s)
      | AT_RSP_CREG_UNKNOWN => (MR_SUCCESS, set_errorCodeRsp MEC_CREG_UNKNOWN s)
      | AT_RSP_CREG_REG_ROAMING => (MR_SUCCESS, set_errorCodeRsp MEC_CREG_REGISTERED_ROAMING s)
      | _ => (MR_WAITING, s)
      end
  | None => (MR_WAITING, s)
  end.

Definition GetCSQRsp (s : Engine) : MODEM_RESPONSES * Engine :=
  let '(complete, s) := GetResponseBuffer LINE_FEED s in
  if negb complete then
    if (0 <? wRxIndex s) && list_eqb (cstr (byRxBuffer s)) (str "4")
    then (MR_FAILED, set_errorCodeRsp MEC_ERROR s)
    else (MR_WAITING, s)
  else
  match response_after_header (AT_RSPS AT_RSP_CSQ) s with
  | Some szRspBuffer =>
      match to_BYTE (StringToInt szRspBuffer) with
      | AT_RSP_CSQ_LEVEL_0 => (MR_FAILED, upd_modemInfo (set_iSignalStrength 0) s)
      | AT_RSP_CSQ_LEVEL_1 => (MR_SUCCESS, upd_modemInfo (set_iSignalStrength 1) s)
      | AT_RSP_CSQ_LEVEL_2 => (MR_SUCCESS, upd_modemInfo (set_iSignalStrength 2) s)
      | AT_RSP_CSQ_LEVEL_3 => (MR_SUCCESS, upd_modemInfo (set_iSignalStrength 3) s)
      | AT_RSP_CSQ_LEVEL_4 => (MR_SUCCESS, upd_modemInfo (set_iSignalStrength 4) s)
      | AT_RSP_CSQ_LEVEL_5 => (MR_SUCCESS, upd_modemInfo (set_iSignalStrength 5) s)
      | _ => (MR_WAITING, s)
      end
  | None => (MR_WAITING, s)
  end.

Definition ERROR_IMEI : list Z := str "000000000000000".

Definition GetIMEIRsp (s : Engine) : MODEM_RESPONSES * Engine :=
  let '(complete, s) := GetResponseBuffer CARRIAGE_RETURN s in
  if negb complete then (MR_WAITING, s) else
  if IMEI_SIZE <=? wRxIndex s then
    let s := set_szIMEI (cstr (firstn (Z.to_nat IMEI_SIZE) (byRxBuffer s))) s in
    (* SetIMEICopy, when the copy differs, writes the EEPROM only *)
    (MR_SUCCESS, set_bHaveIMEI true s)
  else (MR_FAILED, set_szIMEI ERROR_IMEI s).

(** [for( ; wRxIndex < 145; wRxIndex++ ) if( !GetModemPortChar() ) break;] *)
Fixpoint drain_revision (pending : list Z) (s : Engine) : Engine :=
  match pending with
  | [] => set_rxq [] s
  | _ :: pending' =>
      if wRxIndex s <? 145
      then drain_revision pending' (set_wRxIndex (wRxIndex s + 1) s)
      else set_rxq pending s
  end.

Definition GetModemVerRsp (s : Engine) : MODEM_RESPONSES * Engine :=
  let '(complete, s) := GetResponseBuffer CARRIAGE_RETURN s in
  if negb complete then (MR_WAITING, s) else
  let hdr := AT_RSPS AT_RSP_REVISION in
  let wRspHdrSize := StringLen hdr in
  let iHeaderIndex := FindSubStr (byRxBuffer s) hdr (wRxIndex s) in
  if -1 <? iHeaderIndex then
    let from := wRspHdrSize + to_WORD iHeaderIndex in
    let s := set_szModemSWVersion
               (StringMidCpy (byRxBuffer s) from (from + MODEM_SW_VER_SIZE)) s in
    (MR_SUCCESS, drain_revision (rxq s) s)
  else (MR_FAILED, s).

Fixpoint GetDualResponse_loop (FirstEOL SecondEOL : Z) (pending : list Z) (s : Engine)
  : bool * Engine :=
  match pending with
  | [] => (false, set_rxq [] s)
  | byRxByte :: pending' =>
      let s := set_byRxBuffer (array_set (byRxBuffer s) (wRxIndex s) byRxByte) s in
      let s := set_wRxIndex (wRxIndex s + 1) s in
      let s :=
        if MAX_CMD_LINE_LEN <=? wRxIndex s then
          set_wRxIndex 0 (set_errorCodeRsp MEC_RX_BUFFER_OVERFLOW s)
        else s in
      if bFoundFirstEOL s then
        if byRxByte =? SecondEOL then
          let s := set_byRxBuffer (array_set (byRxBuffer s) (wRxIndex s) NUL) s in
          let s := set_wRxIndex (wRxIndex s + 1) s in
          let s := set_bFoundFirstEOL false s in
          (true, set_rxq pending' s)
        else GetDualResponse_loop FirstEOL SecondEOL pending' s
      else
        if byRxByte =? FirstEOL then
          let s := set_wRxIndex 0 s in
          let s := set_bFoundFirstEOL true s in
          GetDualResponse_loop FirstEOL SecondEOL pending' s
        else GetDualResponse_loop FirstEOL SecondEOL pending' s
  end.

Definition GetDualResponse (FirstEOL SecondEOL : Z) (s : Engine) : bool * Engine :=
  GetDualResponse_loop FirstEOL SecondEOL (rxq s) s.

Definition GetCISPortRsp (s : Engine) : MODEM_RESPONSES * Engine :=
  let cmd := cmdEnum (modemInfo s) in
  let '(complete, s) :=
    GetDualResponse 58 (array_get (CIS_CMDS cmd) (CIS_CMDLEN cmd - 1)) s in
  if negb complete then (MR_WAITING, s) else
  let iHeaderIndex :=
    FindSubStr (byRxBuffer s) (CIS_CMDS cmd) (StringLen (cstr (byRxBuffer s))) in
  if -1 <? iHeaderIndex then (MR_SUCCESS, s) else (MR_FAILED, s).

(** One of the two tests the ringer and relay analysers make on each byte:
    on a match of [byRxByte] with [rsp[wRxIndex]] the byte is blanked and the
    index advanced; a full match ends the analysis with [done]. *)
Definition match_status_char (rsp : CIS_RSP_LIST) (done : Engine -> Engine)
  (byRxByte : Z) (s : Engine) : option Engine * (Z * Engine) :=
  if byRxByte =? array_get (CIS_RSPS rsp) (wRxIndex s) then
    let s := set_wRxIndex (wRxIndex s + 1) s in
    if wRxIndex s =? CIS_RSPLEN rsp then (Some (done s), (255, s))
    else (None, (255, s))
  else (None, (byRxByte, s)).

Definition overflow_check (s : Engine) : Engine :=
  if MAX_CMD_LINE_LEN <=? wRxIndex s then
    set_wRxIndex 0 (set_errorCodeRsp MEC_RX_BUFFER_OVERFLOW s)
  else s.

Fixpoint status_loop (off on : CIS_RSP_LIST) (done_off done_on : Engine -> Engine)
  (pending : list Z) (s : Engine) : MODEM_RESPONSES * Engine :=
  match pending with
  | [] => (MR_WAITING, set_rxq [] s)
  | byRxByte :: pending' =>
      match match_status_char off done_off byRxByte s with
      | (Some s, _) => (MR_SUCCESS, set_rxq pending' s)
      | (None, (byRxByte, s)) =>
          match match_status_char on done_on byRxByte s with
          | (Some s, _) => (MR_SUCCESS, set_rxq pending' s)
          | (None, (_, s)) => status_loop off on done_off done_on pending' (overflow_check s)
          end
      end
  end.

Definition GetRingerStatusRsp (s : Engine) : MODEM_RESPONSES * Engine :=
  status_loop CIS_RSP_RINGER_OFF CIS_RSP_RINGER_ON
    (fun s => upd_modemInfo (set_bRingersOn FALSE) (set_errorCodeRsp MEC_CIS_RINGER_OFF s))
    (fun s => upd_modemInfo (set_bRingersOn TRUE) (set_errorCodeRsp MEC_CIS_RINGER_ON s))
    (rxq s) s.

Definition GetRelayStatusRsp (s : Engine) : MODEM_RESPONSES * Engine :=
  if byCurrRelayNbr (modemInfo s) =? RELAY_1 then
    status_loop CIS_RSP_RELAY_1_OFF CIS_RSP_RELAY_1_ON
      (fun s => upd_modemInfo (set_bRelayOn1 FALSE) (set_errorCodeRsp MEC_CIS_RELAY1_OFF s))
      (fun s => upd_modemInfo (set_bRelayOn1 TRUE) (set_errorCodeRsp MEC_CIS_RELAY1_ON s))
      (rxq s) s
  else if byCurrRelayNbr (modemInfo s) =? RELAY_2 then
    status_loop CIS_RSP_RELAY_2_OFF CIS_RSP_RELAY_2_ON
      (fun s => upd_modemInfo (set_bRelayOn2 FALSE) (set_errorCodeRsp MEC_CIS_RELAY2_OFF s))
      (fun s => upd_modemInfo (set_bRelayOn2 TRUE) (set_errorCodeRsp MEC_CIS_RELAY2_ON s))
      (rxq s) s
  else
    (* [default: return MR_FAILED] is reached once a byte has been read *)
    match GetModemPortChar s with
    | Some (_, s) => (MR_FAILED, s)
    | None => (MR_WAITING, s)
    end.

Fixpoint CaptureCISOutput_loop (pending : list Z) (s : Engine) : bool * Engine :=
  match pending with
  | [] =>
      if dwIndex s <? MAX_CFG_DOWNLOAD_SIZE then (false, set_rxq [] s)
      else (true, set_rxq [] (set_dwIndex 0 s))
  | _ :: pending' =>
      if dwIndex s <? MAX_CFG_DOWNLOAD_SIZE
      then CaptureCISOutput_loop pending' (set_dwIndex (dwIndex s + 1) s)
      else (true, set_rxq pending (set_dwIndex 0 s))
  end.

(** The bytes go to the buffer of ReceiveNewCISConfig, outside the driver. *)
Definition CaptureCISOutput (s : Engine) : bool * Engine :=
  CaptureCISOutput_loop (rxq s) s.

Definition GetCISVersionStatusRsp (s : Engine) : MODEM_RESPONSES * Engine :=
  let '(complete, s) := GetResponseBuffer CARRIAGE_RETURN s in
  if negb complete then (MR_WAITING, s) else
  if -1 <? FindSubStr (byRxBuffer s) (CIS_RSPS CIS_RSP_VERSION_CHECK) (wRxIndex s)
  then (MR_SUCCESS, s) else (MR_FAILED, s).

(** ** Mobile-terminated messages (GetRxBinaryDataBufferRsp)

    The analyser calls back into the API layer (UploadCISConfig,
    ToggleRelayState), so it works on the state of both modules. *)

(** [RxMsg.rxMsg.wRxMsgLen] and its assignment, through the byte overlay. *)
Definition wRxMsgLen (s : Engine) : Z :=
  WORD_of_bytes (array_get (RxMsg s) 0) (array_get (RxMsg s) 1).

Definition set_wRxMsgLen (v : Z) (s : Engine) : Engine :=
  set_RxMsg (array_set (array_set (RxMsg s) 0 (HIBYTE v)) 1 (LOBYTE v)) s.

(** [RxMsg.rxMsg.MTMessage.wMTType], the second word of the message. *)
Definition wMTType (s : Engine) : Z :=
  WORD_of_bytes (array_get (RxMsg s) 4) (array_get (RxMsg s) 5).

(** The switch and the sweep of DefineMsgTypeDestPath: the class of the type
    comes from the environment, the calls into the driver are made here. *)
Definition DefineMsgTypeDestPath (env : Env) (d : Driver) : MTMDIR_RETURN_TYPE * Driver :=
  match mt_class env (wMTType (eng d)) with
  | MT_POWER_CYCLE_MODEM => (BUFFER_ONLY, upd_eng (fun s => snd (ResetModem env s)) d)
  | MT_DOWNLOAD_CIS_CONFIG => (BUFFER_ONLY, snd (UploadCISConfig env d))
  | MT_SYSTEM_ACTION => (BUFFER_ONLY, d)
  | MT_ROUTED true => (COPY_PORT3, d)
  | MT_ROUTED false => (SAVE_TO_FILE, d)
  end.

(** The receive loop: bytes are taken while fewer than [wMTLength + 4] have
    been stored; the bytes of index 2 .. wMTLength + 1 enter the sum.  The
    code does not compare the count with the size of RxMsg: for
    [wMTLength + 4 > MAX_RX_SIZE] it stores past the end of the union, which
    C leaves undefined.  [array_set] drops such a store, so the model follows
    the code only while [wMTLength + 4 <= MAX_RX_SIZE]; what is proved of a
    read below is stated under that bound. *)
Fixpoint GetRxBinaryData_loop (pending : list Z) (s : Engine) : bool * Engine :=
  let more := wRxDataCount s <? wMTLength (modemInfo s) + WORD_SIZE * 2 in
  match pending with
  | [] => (negb more, set_rxq [] s)
  | byRxData :: pending' =>
      if more then
        let s :=
          if (WORD_SIZE <=? wRxDataCount s)
             && (wRxDataCount s <? wMTLength (modemInfo s) + WORD_SIZE)
          then set_wCalculatedCheckSum (to_WORD (wCalculatedCheckSum s + byRxData)) s
          else s in
        let s := set_RxMsg (array_set (RxMsg s) (wRxDataCount s) byRxData) s in
        let s := set_wRxDataCount (to_WORD (wRxDataCount s + 1)) s in
        GetRxBinaryData_loop pending' s
      else (true, set_rxq pending s)
  end.

(** The length and checksum tests made once all bytes are in. *)
Definition GetRxBinaryData_check (s : Engine) : MODEM_RESPONSES * Engine :=
  let modemResponse := MR_SUCCESS in
  let rxChecksum :=
    WORD_of_bytes (array_get (RxMsg s) (wRxDataCount s - 2))
                  (array_get (RxMsg s) (wRxDataCount s - 1)) in
  let '(modemResponse, s) :=
    if wRxMsgLen s =? 0 then
      let s := set_errorCodeRsp MEC_RX_NO_MSG_WAITING s in
      (MR_FAILED, add_log (RecordModemLogError MODEMLOG_RECEIVE_FAILURE) s)
    else if MAX_RX_FILE_LEN <? wRxMsgLen s then
      let s := set_errorCodeRsp MEC_RX_BAD_FILELENGTH s in
      (modemResponse, set_wRxMsgLen (wMTLength (modemInfo s)) s)
    else (modemResponse, s) in
  let '(modemResponse, s) :=
    if negb (wCalculatedCheckSum s =? rxChecksum) then
      (MR_FAILED, set_errorCodeRsp MEC_RX_BAD_CHECKSUM s)
    else (modemResponse, s) in
  let s := set_wRxDataCount 0 s in
  let s :=
    if negb (wRxMsgLen s =? wMTLength (modemInfo s))
    then set_wRxMsgLen (wMTLength (modemInfo s)) s else s in
  (modemResponse, s).

(** Saving the message and the notification that follows (the body of the
    cases COPY_PORT3 and SAVE_TO_FILE). *)
Definition GetRxBinaryData_save (env : Env) (mtmReturn : MTMDIR_RETURN_TYPE)
  (modemResponse : MODEM_RESPONSES) (d : Driver) : MODEM_RESPONSES * Driver :=
  let '(modemResponse, d) :=
    if negb (fileOpen_ok env) then
      let d := upd_eng (set_errorCodeRsp MEC_FILE_OPEN_ERR) d in
      (MR_FAILED, api_log (SystemLog (GetSysLogMsg SYS_LOG_FILE_CANNOT_BE_OPENED_OR_CREATED)) d)
    else if negb (fileWrite_ok env) then
      let d := upd_eng (set_errorCodeRsp MEC_FILE_WRITE_ERR) d in
      (MR_FAILED, api_log (SystemLog (GetSysLogMsg SYS_LOG_FILE_CANNOT_BE_WRITTEN)) d)
    else (modemResponse, d) in
  let d :=
    match modemResponse with
    | MR_SUCCESS =>
        let d := api_ModemLog MODEMLOG_RECEIVE_SUCCESSFUL d in
        match mtmReturn with
        | COPY_PORT3 =>
            if FileCpy_ok env then api_ModemLog MODEMLOG_COPY_SUCCESS d
            else api_ModemLog MODEMLOG_COPY_FAILURE d
        | _ => d
        end
    | _ => api_ModemLog MODEMLOG_RECEIVE_FAILURE d
    end in
  let d :=
    match notify_relay env with
    | Some bOn =>
        if negb (GetRelayStatus TXT_MSG_RELAY (eng d) =? BOOL_of bOn)
        then snd (ToggleRelayState env TXT_MSG_RELAY bOn d) else d
    | None => d
    end in
  (modemResponse, d).

Definition GetRxBinaryDataBufferRsp (env : Env) (d : Driver) : MODEM_RESPONSES * Driver :=
  let '(complete, s) := GetRxBinaryData_loop (rxq (eng d)) (eng d) in
  let d := set_eng s d in
  if negb complete then (MR_WAITING, d) else
  let d := upd_eng (fun s => snd (GetLastRsp s)) d in
  let '(modemResponse, s) := GetRxBinaryData_check (eng d) in
  let d := set_eng s d in
  let '(modemResponse, d) :=
    if negb (wMTLength (modemInfo (eng d)) =? 0) then
      let '(mtmReturn, d) := DefineMsgTypeDestPath env d in
      match mtmReturn with
      | COPY_PORT3 | SAVE_TO_FILE => GetRxBinaryData_save env mtmReturn modemResponse d
      | BUFFER_ONLY =>
          match modemResponse with
          | MR_SUCCESS => (modemResponse, api_ModemLog MODEMLOG_RECEIVE_SUCCESSFUL d)
          | _ => (modemResponse, api_ModemLog MODEMLOG_RECEIVE_FAILURE d)
          end
      end
    else (modemResponse, d) in
  let d := upd_eng (upd_modemInfo (set_wMTLength 0)) d in
  (modemResponse, d).

(** ** The engine's tick (UpdateModemState) *)

(** [if( !IsModemRunning() )]: loss of modem power. *)
Definition UpdateModemState_modem_power (env : Env) (s : Engine) : Engine :=
  if negb (IsModemRunning env) then
    match ATCmdState s with
    | AT_CMD_PGMING => s
    | _ =>
        let s := ClearBuffers DATA_PORT s in
        let s := ClearModemInfo s in
        let s := ClearRxBinaryDataVars s in
        let s := set_thRespTimeOut StopTimer s in
        let s := set_ATCmdState AT_CMD_POWERED_DOWN s in
        let s := set_subState SUBSTATE_NONE s in
        set_errorCodeRsp MEC_NONE s
    end
  else s.

(** [if( TimerExpired( thRespTimeOut ) )]: the modem did not answer. *)
Definition UpdateModemState_rsp_timeout (env : Env) (s : Engine) : Engine :=
  if TimerExpired (now env) (thRespTimeOut s) then
    let s := SetCISPort DATA_PORT s in
    let s :=
      match subState s with
      | SEND_STATUS_CMD => upd_modemInfo (set_byMTStatus FAILED_MSG) s
      | _ => s
      end in
    let s :=
      match subState s with
      | SEND_STATUS_CMD | SEND_CSQ_CMD => s
      | _ => set_errorCodeRsp MEC_RSP_TIMED_OUT s
      end in
    let s := set_ATCmdState AT_CMD_TIMED_OUT s in
    set_thRespTimeOut StopTimer s
  else s.

(** [if( !CISPowered() )]: loss of aux-board power. *)
Definition UpdateModemState_cis_power (env : Env) (s : Engine) : Engine :=
  if negb (CISPowered env) then
    match ATCmdState s with
    | AT_CMD_PGMING =>
        let s := ClearBuffers DATA_PORT s in
        let s := ClearModemInfo s in
        let s := ClearRxBinaryDataVars s in
        let s := set_thCISRespTimeOut StopTimer s in
        let s := set_ATCmdState AT_CMD_POWERED_DOWN s in
        let s := set_subState SUBSTATE_NONE s in
        set_errorCodeRsp MEC_NONE s
    | _ => s
    end
  else s.

(** [if( TimerExpired( thCISRespTimeOut ) )]: the aux board did not answer. *)
Definition UpdateModemState_cis_timeout (env : Env) (s : Engine) : Engine :=
  if TimerExpired (now env) (thCISRespTimeOut s) then
    let s := set_errorCodeRsp MEC_RSP_TIMED_OUT s in
    let s := set_ATCmdState AT_CMD_TIMED_OUT s in
    let s := SetCISPort DATA_PORT s in
    set_thCISRespTimeOut StopTimer s
  else s.

(** The off-hook test made before each initialisation command: [true] when
    initialisation pauses. *)
Definition voice_call_gate (env : Env) (s : Engine) : bool * Engine :=
  if InVoiceCall env then
    if negb (bPrevVoiceState s) then
      (true, set_bPrevVoiceState true (add_log (RecordModemLogError MODEMLOG_PHONE_OFF_HOOK) s))
    else (true, s)
  else if bPrevVoiceState s then
    (false, set_bPrevVoiceState false
              (add_log (RecordModemLogError MODEMLOG_PHONE_BACK_ON_HOOK) s))
  else (false, s).

Definition UpdateModemState_POWERED_DOWN (env : Env) (s : Engine) : Engine :=
  if IsModemRunning env then
    let '(paused, s) := voice_call_gate env s in
    if paused then s else
    let s := SendCommand env AT_CMD_SERIAL_NBR s in
    let s := set_ATCmdState AT_CMD_INITTING s in
    set_subState SEND_IMEI_CMD s
  else s.

Definition UpdateModemState_INITTING (env : Env) (s : Engine) : Engine :=
  match subState s with
  | SEND_IMEI_CMD =>
      let '(CmdResponse, s) := GetIMEIRsp s in
      match CmdResponse with
      | MR_SUCCESS => set_subState SEND_MT_ALERT_CMD (set_thRespTimeOut StopTimer s)
      | MR_FAILED => set_ATCmdState AT_CMD_FAILED (set_thRespTimeOut StopTimer s)
      | _ => s
      end
  | SEND_MT_ALERT_CMD =>
      let '(paused, s) := voice_call_gate env s in
      if paused then s else
      let '(_, s) := GetLastRsp s in
      let s := SendCommand env AT_CMD_SBD_ALERT s in
      set_subState SEND_MT_ALERT_RSP s
  | SEND_MT_ALERT_RSP =>
      let '(CmdResponse, s) := GetLastRsp s in
      match CmdResponse with
      | MR_SUCCESS => set_subState SEND_SBD_AUTOREG_CMD (set_thRespTimeOut StopTimer s)
      | MR_FAILED => set_subState SEND_MT_ALERT_CMD (set_thRespTimeOut StopTimer s)
      | _ => s
      end
  | SEND_SBD_AUTOREG_CMD =>
      let '(paused, s) := voice_call_gate env s in
      if paused then s else
      let s := SendCommand env AT_CMD_SBD_AUTO_REG s in
      set_subState SEND_SBD_AUTOREG_RSP s
  | SEND_SBD_AUTOREG_RSP =>
      let '(CmdResponse, s) := GetLastRsp s in
      match CmdResponse with
      | MR_SUCCESS => set_subState SEND_SBD_DOWNLOAD_CMD (set_thRespTimeOut StopTimer s)
      | MR_FAILED => set_subState SEND_SBD_AUTOREG_CMD (set_thRespTimeOut StopTimer s)
      | _ => s
      end
  | SEND_SBD_DOWNLOAD_CMD =>
      let '(paused, s) := voice_call_gate env s in
      if paused then s else
      let s := SendCommand env AT_CMD_SBD_INITIATE_SESSION s in
      set_subState SEND_INITIATE_TRANSFER_CMD s
  | SEND_INITIATE_TRANSFER_CMD =>
      let '(CmdResponse, s) := GetInitiateSBDSessionRsp s in
      match CmdResponse with
      | MR_SUCCESS => set_subState HANDLE_FINAL_RSP s
      | MR_FAILED => set_subState SEND_SBD_DOWNLOAD_CMD (set_thRespTimeOut StopTimer s)
      | _ => s
      end
  | HANDLE_FINAL_RSP =>
      let '(CmdResponse, s) := GetLastRsp s in
      match CmdResponse with
      | MR_SUCCESS =>
          let s := set_thRespTimeOut StopTimer s in
          let s := SendCommand env AT_CMD_REVISION s in
          set_subState SEND_MODEM_VER_CMD s
      | MR_FAILED => set_subState SEND_SBD_DOWNLOAD_CMD (set_thRespTimeOut StopTimer s)
      | _ => s
      end
  | SEND_MODEM_VER_CMD =>
      let '(CmdResponse, s) := GetModemVerRsp s in
      match CmdResponse with
      | MR_SUCCESS => set_ATCmdState AT_CMD_SUCCESS (set_thRespTimeOut StopTimer s)
      | MR_FAILED =>
          let s := set_thRespTimeOut StopTimer s in
          let s := SendCommand env AT_CMD_REVISION s in
          set_subState SEND_MODEM_VER_CMD s
      | _ => s
      end
  | _ => s
  end.

(** [ATCmdState = AT_CMD_FAILED; StopTimer( thRespTimeOut );] *)
Definition fail_command (s : Engine) : Engine :=
  set_thRespTimeOut StopTimer (set_ATCmdState AT_CMD_FAILED s).

(** The common shape of the SENDING cases: success moves to [next], failure
    fails the command. *)
Definition on_response (r : MODEM_RESPONSES * Engine) (next : SUB_STATES) : Engine :=
  match r with
  | (MR_SUCCESS, s) => set_subState next s
  | (MR_FAILED, s) => fail_command s
  | (_, s) => s
  end.

Definition UpdateModemState_SENDING (env : Env) (s : Engine) : Engine :=
  match subState s with
  | SUBSTATE_NONE => s
  | SEND_TEXT_MSG =>
      let '(CmdResponse, s) := GetLastRsp s in
      match CmdResponse with
      | MR_SUCCESS =>
          if InVoiceCall env then
            let s :=
              if negb (bPrevVoiceState s) then
                set_bPrevVoiceState true
                  (add_log (RecordModemLogError MODEMLOG_PHONE_OFF_HOOK) s)
              else s in
            (* falls through to the MR_FAILED case *)
            fail_command s
          else
            let s :=
              if bPrevVoiceState s then
                set_bPrevVoiceState false
                  (add_log (RecordModemLogError MODEMLOG_PHONE_BACK_ON_HOOK) s)
              else s in
            let s := SendCommand env AT_CMD_SBD_INITIATE_SESSION s in
            set_subState SEND_INITIATE_TRANSFER_CMD s
      | MR_FAILED => fail_command s
      | _ => s
      end
  | SEND_READY_CMD =>
      let '(CmdResponse, s) := GetWriteBinaryMsgRsp s in
      match CmdResponse with
      | MR_SUCCESS => set_subState SEND_DATA (SendBinaryDataBuffer env s)
      | MR_FAILED => fail_command s
      | _ => s
      end
  | SEND_DATA => on_response (GetLastRsp s) SEND_TEXT_MSG
  | SEND_INITIATE_TRANSFER_CMD => on_response (GetInitiateSBDSessionRsp s) HANDLE_FINAL_RSP
  | SEND_MODEM_STATE_CMD => on_response (GetReqCurrCallStatusRsp s) HANDLE_FINAL_RSP
  | SEND_CLEAR_BUF_CMD => on_response (GetLastRsp s) HANDLE_FINAL_RSP
  | SEND_STATUS_CMD => on_response (GetSBDStatusRsp s) HANDLE_FINAL_RSP
  | SEND_CREG_CMD => on_response (GetCREGRsp s) HANDLE_FINAL_RSP
  | SEND_CSQ_CMD => on_response (GetCSQRsp s) HANDLE_FINAL_RSP
  | SEND_MAILBOX_CHECK_CMD => on_response (GetLastRsp s) SEND_TEXT_MSG
  | SEND_HANGUP_CALL_CMD
  | HANDLE_FINAL_RSP =>
      let '(CmdResponse, s) := GetLastRsp s in
      match CmdResponse with
      | MR_SUCCESS => set_thRespTimeOut StopTimer (set_ATCmdState AT_CMD_SUCCESS s)
      | MR_FAILED => fail_command s
      | _ => s
      end
  | _ => s
  end.

Definition UpdateModemState_RCVING (env : Env) (d : Driver) : Driver :=
  match subState (eng d) with
  | GET_DATA =>
      let '(CmdResponse, d) := GetRxBinaryDataBufferRsp env d in
      match CmdResponse with
      | MR_SUCCESS =>
          upd_eng (fun s => set_thRespTimeOut StopTimer (set_ATCmdState AT_CMD_SUCCESS s)) d
      | MR_FAILED => upd_eng fail_command d
      | _ => d
      end
  | _ => d
  end.

(** The end of an aux-board exchange:
    [SetCISPort( DATA_PORT ); ATCmdState = result; StopTimer( thCISRespTimeOut );] *)
Definition end_cis_exchange (result : AT_CMD_STATES) (s : Engine) : Engine :=
  let s := SetCISPort DATA_PORT s in
  let s := set_ATCmdState result s in
  set_thCISRespTimeOut StopTimer s.

Definition on_cis_response (r : MODEM_RESPONSES * Engine) : Engine :=
  match r with
  | (MR_SUCCESS, s) => end_cis_exchange AT_CMD_SUCCESS s
  | (MR_FAILED, s) => end_cis_exchange AT_CMD_FAILED s
  | (_, s) => s
  end.

Definition UpdateModemState_PGMING (env : Env) (s : Engine) : Engine :=
  match subState s with
  | SEND_CIS_PORT_CMD => on_cis_response (GetCISPortRsp s)
  | SEND_CIS_RINGER_STATE_CMD => on_cis_response (GetRingerStatusRsp s)
  | SEND_CIS_RELAY_STATE_CMD => on_cis_response (GetRelayStatusRsp s)
  | SEND_CIS_DOWNLOAD_CONFIG_CMD =>
      let '(CmdResponse, s) := GetCISPortRsp s in
      match CmdResponse with
      | MR_SUCCESS =>
          let s := set_thCISRespTimeOut (ResetTimer (now env) SATELLITE_RSP_TIMEOUT) s in
          set_subState CIS_DOWNLOAD_CONFIG s
      | MR_FAILED => end_cis_exchange AT_CMD_FAILED s
      | _ => s
      end
  | CIS_DOWNLOAD_CONFIG =>
      let '(captured, s) := CaptureCISOutput s in
      if captured then end_cis_exchange AT_CMD_SUCCESS s else s
  | SEND_CIS_VERSION_QUERY_CMD =>
      let '(CmdResponse, s) := GetCISVersionStatusRsp s in
      match CmdResponse with
      | MR_SUCCESS =>
          let s := upd_modemInfo (set_cmdEnum CIS_CMD_LOAD_FLASH) s in
          let '(_, s) := SendCISPortCmd env s in
          set_subState START_CIS_PGMING_CMD s
      | MR_FAILED =>
          let s := SetCISPort DATA_PORT s in
          let s := add_log (ReportSystemLogError SYS_LOG_CIS_FW_ERROR) s in
          let s := set_ATCmdState AT_CMD_FAILED s in
          set_thCISRespTimeOut StopTimer s
      | _ => s
      end
  | START_CIS_PGMING_CMD =>
      let '(CmdResponse, s) := GetCISPortRsp s in
      match CmdResponse with
      | MR_SUCCESS => set_subState CIS_PGMING_CMD s
      | MR_FAILED =>
          let s := SetCISPort DATA_PORT s in
          let s := add_log (ReportSystemLogError SYS_LOG_REMOTE_CONFIG_FAILED_CISCFG) s in
          let s := set_ATCmdState AT_CMD_FAILED s in
          set_thCISRespTimeOut StopTimer s
      | _ => s
      end
  | CIS_PGMING_CMD =>
      let '(sent, s) := SendCISLoadConfigLineCmd env s in
      if negb sent then end_cis_exchange AT_CMD_SUCCESS s else s
  | CIS_PGMING_RSP =>
      match GetModemPortChar s with
      | None => s
      | Some (byRxByte, s) =>
          match byRxByte with
          | PROG_CIS_BAD_CHECKSUM_ERROR
          | PROG_CIS_BAD_CHAR_RXD_ERROR
          | PROG_CIS_BAD_FORMAT_ERROR =>
              let s := RecoverFromBadCISCmd env s in
              let s := upd_modemInfo (set_cmdEnum CIS_CMD_LOAD_FLASH) s in
              let '(_, s) := SendCISPortCmd env s in
              set_subState START_CIS_PGMING_CMD s
          | PROG_CIS_MANUFACTURER_ERROR
          | PROG_CIS_OUT_OF_FLASH_ERROR
          | PROG_CIS_PAGE_ERASE_ERROR
          | PROG_CIS_PROG_PAGE_ERROR
          | PROG_CIS_BAD_HW_ID_ERROR =>
              let s := SetCISPort DATA_PORT s in
              let s := add_log (ReportSystemLogError SYS_LOG_REMOTE_CONFIG_FAILED_CISCFG) s in
              let s := set_ATCmdState AT_CMD_FAILED s in
              set_thCISRespTimeOut StopTimer s
          | PROG_CIS_BLOCK_PASSED =>
              match GetModemPortChar s with
              | Some (PROG_CIS_UPLOAD_SUCCESSFUL, s) => end_cis_exchange AT_CMD_SUCCESS s
              | Some (_, s) => set_subState CIS_PGMING_CMD s
              | None => set_subState CIS_PGMING_CMD s
              end
          | _ => s
          end
      end
  | _ => s
  end.

(** The four tests made at the head of every tick. *)
Definition UpdateModemState_supervise (env : Env) (s : Engine) : Engine :=
  let s := UpdateModemState_modem_power env s in
  let s := UpdateModemState_rsp_timeout env s in
  let s := UpdateModemState_cis_power env s in
  UpdateModemState_cis_timeout env s.

Definition UpdateModemState (env : Env) (d : Driver) : Driver :=
  let d := upd_eng (UpdateModemState_supervise env) d in
  match ATCmdState (eng d) with
  | AT_CMD_POWERED_DOWN => upd_eng (UpdateModemState_POWERED_DOWN env) d
  | AT_CMD_INITTING => upd_eng (UpdateModemState_INITTING env) d
  | AT_CMD_IDLE => d
  | AT_CMD_SENDING => upd_eng (UpdateModemState_SENDING env) d
  | AT_CMD_RCVING => UpdateModemState_RCVING env d
  | AT_CMD_PGMING => upd_eng (UpdateModemState_PGMING env) d
  | AT_CMD_FAILED | AT_CMD_SUCCESS => d
  | AT_CMD_TIMED_OUT => d
  end.

(** ** Private functions of ModemAPI.c *)

Definition GetMailboxStatus (env : Env) (d : Driver) : bool * Driver :=
  let '(MTStatus, d) := on_eng GetSBDStatus d in
  if MTStatus =? SUCCESSFUL_MSG then
    let '(sent, d) := on_eng (SendReadBinaryFileCmd env) d in
    if sent then
      let d := api_ModemLog MODEMLOG_RECEIVE d in
      (true, SetModemStateBusy RXING_FILE d)
    else (false, d)
  else (false, d).

Inductive FILE_SEND_OPTIONS : Type :=
| NOT_SENDING
| WAITING_TO_SEND
| SENDING_FILE.

(** The tail of SendFileToModem, from [SendBinaryFile( szPathFileBeingSent )]. *)
Definition SendFileToModem_send (env : Env) (d : Driver) : FILE_SEND_OPTIONS * Driver :=
  let '(sent, d) := on_eng (SendBinaryFile env) d in
  if sent then (SENDING_FILE, SetModemStateBusy TXING_FILE d)
  else if deleteFile_ok env then
    (NOT_SENDING, api_log (SystemLog (GetSysLogMsg SYS_LOG_FILE_DELETED)) d)
  else (NOT_SENDING, api_log (SystemLog (GetSysLogMsg SYS_LOG_FILE_CANNOT_BE_DELETED)) d).

(** SendFileToModem after the PCMCIA test. *)
Definition SendFileToModem_file (env : Env) (d : Driver) : FILE_SEND_OPTIONS * Driver :=
  if byFileSendRetryCount (flags d) =? 0 then
    let d := upd_options (set_szPathFileBeingSent []) d in
    match SortAscending env with
    | None => (NOT_SENDING, d)
    | Some path =>
        let d := upd_options (set_szPathFileBeingSent path) d in
        let d := api_ModemLog MODEMLOG_SEND d in
        SendFileToModem_send env d
    end
  else
    if negb (TimerExpired (now env) (thCheckRetryDelay (api d))) then (WAITING_TO_SEND, d) else
    let d := upd_api (set_thCheckRetryDelay StopTimer) d in
    let d := api_ModemLog MODEMLOG_RETRY_SEND d in
    SendFileToModem_send env d.

Definition SendFileToModem (env : Env) (d : Driver) : FILE_SEND_OPTIONS * Driver :=
  if bPCMCIAError (options d) then
    let '(sent, d) :=
      on_eng (SendBinaryBuffer env (CreateSystemLogBuffer env) (to_WORD (SYSLOG_MSG_SIZE env))) d in
    if sent then
      let d := SetModemStateBusy TXING_BUFFER d in
      (SENDING_FILE, upd_options (set_bPCMCIAError false) d)
    else SendFileToModem_file env d
  else SendFileToModem_file env d.

Definition SendCallStatusCmd (env : Env) (d : Driver) : bool * Driver :=
  if negb (TimerExpired (now env) (thCheckCallStatus (api d))) then (false, d) else
  let '(sent, d) := on_eng (SendCLCCCmd env) d in
  if sent then
    let d := SetModemStateBusy CALL_STATUS d in
    (true, upd_api (set_thCheckCallStatus (ResetTimer (now env) DEFAULT_SBD_STATUS_DELAY)) d)
  else (false, d).

Definition CleanUpOnUnexpectedRsp (d : Driver) : Driver :=
  api_log (RecordModemLogError MODEMLOG_UNEXPECTED_RSP) d.

Definition HandleTimeouts (env : Env) (atCmdState : AT_CMD_STATES) (d : Driver) : Driver :=
  let rearm :=
    upd_api (set_thTimeout (ResetTimer (now env) (dwTimeoutDelay (configurables d)))) in
  match atCmdState with
  | AT_CMD_TIMED_OUT =>
      if TimerExpired (now env) (thTimeout (api d)) then
        let d :=
          if negb (InVoiceCall env) then
            let d := api_log (SystemLog Modem_communications_error) d in
            if negb (PowerCycleCIS env) then AddNewDataToQueue env RESET_CIS d else d
          else d in
        rearm d
      else d
  | _ => rearm d
  end.

(** [++counter < limit] on a BYTE counter. *)
Definition incr_BYTE (v : Z) : Z := to_BYTE (v + 1).

(** The disposal of a file that was sent (TXING_FILE, AT_CMD_SUCCESS): only
    the log entries, and the error code that ModemLog takes with each of
    its entries, are part of the driver's state. *)
Definition dispose_sent_file (env : Env) (d : Driver) : Driver :=
  let keep := szKeepFileList (configurables d) in
  if array_get keep 0 =? DELETE_ALL_FILES then
    if negb (deleteFile_ok env) then api_ModemLog MODEMLOG_DELETE_FAILURE d else d
  else
    let bKeepFile := existsb (Z.eqb (priorityFlag env)) (cstr (firstn 36 keep)) in
    if bKeepFile || (array_get keep 0 =? KEEP_ALL_FILES) then
      if negb (MarkFileAsSent_ok env) then
        let d := api_ModemLog MODEMLOG_MOVE_FAILURE d in
        if deleteFile_ok env then api_log (SystemLog (GetSysLogMsg SYS_LOG_FILE_DELETED)) d
        else api_log (SystemLog (GetSysLogMsg SYS_LOG_FILE_CANNOT_BE_DELETED)) d
      else d
    else if negb (deleteFile_ok env) then api_ModemLog MODEMLOG_DELETE_FAILURE d
    else d.

(** [if( !GetMailboxStatus() ) { WaitForIncommingCalls(); modemState = MODEM_IDLE; }] *)
Definition wait_unless_mailbox (env : Env) (d : Driver) : Driver :=
  let '(pending, d) := GetMailboxStatus env d in
  if pending then d else
  upd_options (set_modemState MODEM_IDLE) (WaitForIncommingCalls env d).

(** The end of an aux-board command: back to the state it was sent from. *)
Definition return_from_cis_cmd (d : Driver) : Driver :=
  let d := upd_options (set_ModemCmd NO_CMD) d in
  let d := upd_options (fun o => set_modemState (prevModemState o) o) d in
  match modemState (options d) with
  | MODEM_IDLE => d
  | _ => upd_eng SetATCmdStateInit d
  end.

Definition CleanUpOnIdle (env : Env) (atCmdState : AT_CMD_STATES) (d : Driver) : Driver :=
  let d :=
    upd_options
      (fun o => set_ModemRsp_at (ModemCmd o)
                  (match atCmdState with AT_CMD_SUCCESS => MR_SUCCESS | _ => MR_FAILED end) o) d in
  let d := HandleTimeouts env atCmdState d in
  match ModemCmd (options d) with
  | RXING_FILE =>
      let d := upd_options (set_ModemCmd NO_CMD) d in
      let d := upd_options (set_modemState MODEM_IDLE) d in
      let finish d :=
        upd_flags (set_byFileReceiveRetryCount 0) (WaitForIncommingCalls env d) in
      match atCmdState with
      | AT_CMD_TIMED_OUT =>
          let d := api_log (RecordModemLogError MODEMLOG_RECEIVE_FAILURE) d in
          let d := upd_flags (fun f => set_byFileReceiveRetryCount
                                         (incr_BYTE (byFileReceiveRetryCount f)) f) d in
          if byFileReceiveRetryCount (flags d) <? byMaxRetries (configurables d) then
            let '(sent, d) := on_eng (SendReadBinaryFileCmd env) d in
            if sent then
              SetModemStateBusy RXING_FILE (api_ModemLog MODEMLOG_RECEIVE d)
            else d
          else finish d
      | _ => finish d
      end
  | TXING_FILE =>
      match atCmdState with
      | AT_CMD_SUCCESS =>
          let d := upd_flags (set_byFileSendRetryCount 0) d in
          let d := upd_options (set_ModemCmd NO_CMD) d in
          let d := api_ModemLog MODEMLOG_SEND_SUCCESSFUL d in
          let d := dispose_sent_file env d in
          if InVoiceCall env then
            let d := upd_options (set_modemState MODEM_IDLE) d in
            snd (HangupCall env d)
          else wait_unless_mailbox env d
      | _ =>
          let d := upd_options (set_modemState MODEM_IDLE) d in
          let d := upd_options (set_ModemCmd NO_CMD) d in
          let d := upd_flags (fun f => set_byFileSendRetryCount
                                         (incr_BYTE (byFileSendRetryCount f)) f) d in
          if byFileSendRetryCount (flags d) <? byMaxRetries (configurables d) then
            upd_api (set_thCheckRetryDelay
                       (StartTimer (now env) (dwRetryDelay (configurables d)))) d
          else
            let d := upd_flags (set_byFileSendRetryCount 0) d in
            let d := WaitForIncommingCalls env d in
            if MarkFileAsError_ok env then api_ModemLog MODEMLOG_SEND_FAILURE d
            else
              let d := api_ModemLog MODEMLOG_MOVE_FAILURE d in
              if deleteFile_ok env then api_log (SystemLog (GetSysLogMsg SYS_LOG_FILE_DELETED)) d
              else api_log (SystemLog (GetSysLogMsg SYS_LOG_FILE_CANNOT_BE_DELETED)) d
      end
  | TXING_BUFFER
  | TXING_TEXT =>
      let d := upd_options (set_ModemCmd NO_CMD) d in
      match atCmdState with
      | AT_CMD_SUCCESS =>
          if InVoiceCall env then
            let d := upd_options (set_modemState MODEM_IDLE) d in
            snd (HangupCall env d)
          else wait_unless_mailbox env d
      | _ => wait_unless_mailbox env d
      end
  | CALL_STATUS =>
      let d := upd_options (set_ModemCmd NO_CMD) d in
      let d := upd_options (set_modemState MODEM_IDLE) d in
      WaitForIncommingCalls env d
  | MAILBOX_CHECK =>
      let d := upd_options (set_ModemCmd NO_CMD) d in
      let d :=
        match atCmdState with
        | AT_CMD_SUCCESS => api_log (RecordModemLogError MODEMLOG_MAILBOXCHECK_SUCCESS) d
        | _ => api_log (RecordModemLogError MODEMLOG_MAILBOXCHECK_FAILURE) d
        end in
      wait_unless_mailbox env d
  | GATEWAY_CHECK =>
      let d := upd_options (set_ModemCmd NO_CMD) d in
      let d := upd_options (set_modemState MODEM_IDLE) d in
      match atCmdState with
      | AT_CMD_SUCCESS =>
          let '(sent, d) := on_eng (CheckMailbox env) d in
          if sent then SetModemStateBusy MAILBOX_CHECK d else d
      | _ => d
      end
  | GETTING_CSQ =>
      let d := upd_options (set_ModemCmd NO_CMD) d in
      let d := upd_options (set_modemState MODEM_IDLE) d in
      match atCmdState with
      | AT_CMD_SUCCESS => upd_flags (set_byCSQDebounceCount 0) d
      | _ =>
          let d := upd_flags (fun f => set_byCSQDebounceCount
                                         (incr_BYTE (byCSQDebounceCount f)) f) d in
          if byCSQDebounceCount (flags d) <? byCSQMaxDebounceRetries (configurables d) then
            upd_api (set_thCheckCSQ
                       (ResetTimer (now env) (dwCSQDebounceDelay (configurables d)))) d
          else
            let d := upd_flags (set_byCSQDebounceCount 0) d in
            let d := upd_eng ClearModemSignalStrength d in
            let d := api_log (RecordModemLogError MODEMLOG_SIGNALSTRENGTH_FAILURE) d in
            api_log (ReportSystemLogError SYS_LOG_IRIDIUM_ERROR) d
      end
  | CALL_HANGUP =>
      let d := upd_options (set_ModemCmd NO_CMD) d in
      let d := upd_options (set_modemState MODEM_IDLE) d in
      let d := WaitForIncommingCalls env d in
      match atCmdState with
      | AT_CMD_SUCCESS => api_log (RecordModemLogError MODEMLOG_HUNG_UP_CALL_SUCCESS) d
      | _ => api_log (RecordModemLogError MODEMLOG_HUNG_UP_CALL_FAILURE) d
      end
  | RINGER_ON
  | RINGER_OFF
  | RELAY1_ON
  | RELAY1_OFF
  | RELAY2_ON
  | RELAY2_OFF
  | RINGER_STATUS
  | RELAY1_STATUS
  | RELAY2_STATUS
  | RESET_CIS =>
      let d :=
        match atCmdState with
        | AT_CMD_SUCCESS => d
        | _ => AddNewDataToQueue env (ModemCmd (options d)) d
        end in
      return_from_cis_cmd d
  | UPLOAD_CIS_CONFIG =>
      let d := upd_options (set_bCISActionComplete true) d in
      return_from_cis_cmd d
  | CONFIGURE_CIS =>
      let d :=
        match atCmdState with
        | AT_CMD_SUCCESS => d
        | _ => api_log (ReportSystemLogError SYS_LOG_REMOTE_CONFIG_FAILED_CISCFG) d
        end in
      let d := upd_options (set_bCISActionComplete true) d in
      (* PowerCycleCIS(): the power manager is outside the driver *)
      return_from_cis_cmd d
  | NO_CMD => d
  end.

(** ** The API layer's tick (ProcessModemStateMachine) *)

Definition reset_ModemRsp (d : Driver) : Driver :=
  upd_options (set_ModemRsp (fun _ => MR_NO_RESP)) d.

(** [SetATCmdStateInit(); modemState = MODEM_INITTING;] with the log entry of
    the unexpected cases. *)
Definition revert_to_init (unexpected : bool) (d : Driver) : Driver :=
  let d := upd_eng SetATCmdStateInit d in
  let d := if unexpected then CleanUpOnUnexpectedRsp d else d in
  upd_options (set_modemState MODEM_INITTING) d.

Definition Process_INITTING (env : Env) (atCmdState : AT_CMD_STATES) (d : Driver) : Driver :=
  match atCmdState with
  | AT_CMD_INITTING => d
  | AT_CMD_SUCCESS =>
      let d := upd_eng SetATCmdStateIdle d in
      let d := upd_options (set_modemState MODEM_IDLE) d in
      let d := upd_options (set_prevModemState MODEM_IDLE) d in
      let d := upd_options (set_ModemCmd NO_CMD) d in
      let d := upd_flags (fun _ => Build_modemFlags 0 0 0) d in
      let d := upd_api (set_thCheckRetryDelay StopTimer) d in
      let d := upd_api (set_thCheckCSQ (StartTimer (now env) 0)) d in
      let d := upd_api (set_thCheckGateway (StartTimer (now env) DEFAULT_SBD_STATUS_DELAY)) d in
      let d := upd_api (set_thCheckCallStatus (StartTimer (now env) DEFAULT_SBD_STATUS_DELAY)) d in
      let d := upd_api (set_thTimeout
                          (ResetTimer (now env) (dwTimeoutDelay (configurables d)))) d in
      let d := AddNewDataToQueue env RINGER_STATUS d in
      let d := AddNewDataToQueue env RELAY1_STATUS d in
      let d := AddNewDataToQueue env RELAY2_STATUS d in
      let d := reset_ModemRsp d in
      api_log (ReportSystemLogError SYS_LOG_MODEM_INITITIALIZED) d
  | AT_CMD_FAILED
  | AT_CMD_TIMED_OUT =>
      let '(pending, d) := GetMailboxStatus env d in
      if pending then d else
      let d := HandleTimeouts env atCmdState d in
      revert_to_init false d
  | _ => revert_to_init false d
  end.

(** The edges of the hook and ring-indicator lines, logged once each. *)
Definition Process_IDLE_edges (env : Env) (d : Driver) : Driver :=
  let d :=
    if bPrevHookState (options d) then
      let d := api_log (RecordModemLogError MODEMLOG_PHONE_BACK_ON_HOOK) d in
      upd_options (set_bPrevHookState false) d
    else d in
  if ReadModemPortRILine env then
    if negb (bPrevRIState (options d)) then
      let d := api_log (RecordModemLogError MODEMLOG_INCOMING_CALL) d in
      upd_options (set_bPrevRIState true) d
    else d
  else if bPrevRIState (options d) then
    let d := api_log (RecordModemLogError MODEMLOG_INCOMING_CALL_COMPLETE) d in
    upd_options (set_bPrevRIState false) d
  else d.

(** [if( TimerExpired( thCheckCSQ ) ) { if( SendCSQCmd() ) { ...; break; } }]:
    [true] when the probe was dispatched (the [break]). *)
Definition Process_IDLE_csq (env : Env) (d : Driver) : bool * Driver :=
  if TimerExpired (now env) (thCheckCSQ (api d)) then
    let '(sent, d) := on_eng (SendCSQCmd env) d in
    if sent then
      let d := SetModemStateBusy GETTING_CSQ d in
      (true, upd_api (set_thCheckCSQ
                        (ResetTimer (now env) (dwCheckSigStrengthRate (configurables d)))) d)
    else (false, d)
  else (false, d).

(** [if( modemOptions.bSendingEnabled ) { ... }]: a file, or else the
    gateway check. *)
Definition Process_IDLE_send (env : Env) (d : Driver) : Driver :=
  if bSendingEnabled (options d) then
    let '(sending, d) := SendFileToModem env d in
    match sending with
    | SENDING_FILE => d
    | _ =>
        if TimerExpired (now env) (thCheckGateway (api d)) then
          let '(sent, d) := on_eng (CheckGateway env) d in
          if sent then
            let d := SetModemStateBusy GATEWAY_CHECK d in
            upd_api (set_thCheckGateway (ResetTimer (now env) DEFAULT_SBD_STATUS_DELAY)) d
          else d
        else d
    end
  else d.

(** The work of the IDLE state once the engine is known to be idle too and
    the queued commands have had their turn. *)
Definition Process_IDLE_work (env : Env) (d : Driver) : Driver :=
  let '(pending, d) := GetMailboxStatus env d in
  if pending then d else
  if InVoiceCall env then
    let '(_, d) := SendCallStatusCmd env d in
    if negb (bPrevHookState (options d)) then
      let d := api_log (RecordModemLogError MODEMLOG_PHONE_OFF_HOOK) d in
      upd_options (set_bPrevHookState true) d
    else d
  else
  let d := Process_IDLE_edges env d in
  let '(csq_sent, d) := Process_IDLE_csq env d in
  if csq_sent then d else
  Process_IDLE_send env d.

Definition Process_IDLE (env : Env) (atCmdState : AT_CMD_STATES) (d : Driver) : Driver :=
  let d :=
    match atCmdState with
    | AT_CMD_IDLE =>
        let '(_, d) := HandleQueuedCommands env d in
        if TimerExpired (now env) (thWaitForCalls (api d)) then
          let d := upd_api (set_thWaitForCalls StopTimer) d in
          upd_options (set_bSendingEnabled true) d
        else d
    | _ => revert_to_init true d
    end in
  match modemState (options d) with
  | MODEM_IDLE => Process_IDLE_work env d
  | _ => d
  end.

Definition Process_BUSY (env : Env) (atCmdState : AT_CMD_STATES) (d : Driver) : Driver :=
  match atCmdState with
  | AT_CMD_TIMED_OUT
  | AT_CMD_SUCCESS
  | AT_CMD_FAILED =>
      let d := upd_eng SetATCmdStateIdle d in
      let d := upd_options (set_modemState MODEM_IDLE) d in
      CleanUpOnIdle env atCmdState d
  | AT_CMD_SENDING
  | AT_CMD_RCVING
  | AT_CMD_PGMING => d
  | _ => revert_to_init true d
  end.

Definition Process_POWERED_DOWN (env : Env) (atCmdState : AT_CMD_STATES) (d : Driver) : Driver :=
  match atCmdState with
  | AT_CMD_INITTING =>
      let d := api_log (RecordModemLogError MODEMLOG_MODEM_IS_POWERED) d in
      upd_options (set_modemState MODEM_INITTING) d
  | AT_CMD_POWERED_DOWN =>
      let '(_, d) := HandleQueuedCommands env d in
      let d := upd_api (set_thCheckCSQ StopTimer) d in
      let d := upd_api (set_thCheckRetryDelay StopTimer) d in
      let d := upd_api (set_thCheckGateway StopTimer) d in
      let d := upd_api (set_thCheckCallStatus StopTimer) d in
      upd_api (set_thTimeout (ResetTimer (now env) (dwTimeoutDelay (configurables d)))) d
  | AT_CMD_TIMED_OUT =>
      let d := upd_options (fun o => set_modemState (prevModemState o) o) d in
      match modemState (options d) with
      | MODEM_IDLE => d
      | _ => upd_eng SetATCmdStateInit d
      end
  | _ => revert_to_init true d
  end.

Definition ProcessModemStateMachine (env : Env) (d : Driver) : Driver :=
  if bInTransparentMode (options d) then d else
  let d := UpdateModemState env d in
  let atCmdState := GetModemAtState (eng d) in
  let d :=
    match atCmdState, modemState (options d) with
    | AT_CMD_POWERED_DOWN, MODEM_POWERED_DOWN => d
    | AT_CMD_POWERED_DOWN, _ =>
        let d := upd_options (set_modemState MODEM_POWERED_DOWN) d in
        let d := api_log (RecordModemLogError MODEMLOG_MODEM_POWERED_DOWN) d in
        reset_ModemRsp d
    | _, _ => d
    end in
  match modemState (options d) with
  | MODEM_INITTING => Process_INITTING env atCmdState d
  | MODEM_IDLE => Process_IDLE env atCmdState d
  | MODEM_BUSY => Process_BUSY env atCmdState d
  | MODEM_POWERED_DOWN => Process_POWERED_DOWN env atCmdState d
  end.

(** ** Public functions of ModemAPI.c: sending *)

Definition DisableReportSending (d : Driver) : Driver :=
  let d :=
    if bSendingEnabled (options d)
    then api_log (RecordModemLogError MODEMLOG_SEND_DISABLED) d else d in
  let d := upd_options (set_bSendingEnabled false) d in
  upd_api (set_thWaitForCalls StopTimer) d.

Definition EnableReportSending (d : Driver) : Driver :=
  let d :=
    if negb (bSendingEnabled (options d))
    then api_log (RecordModemLogError MODEMLOG_SEND_ENABLED) d else d in
  upd_options (set_bSendingEnabled true) d.

(** [szDataBuf = None] is the NULL pointer. *)
Definition SendTextMsgToModem (env : Env) (szDataBuf : option (list Z)) (wMsgLen : Z) (d : Driver)
  : bool * Driver :=
  match modemState (options d) with
  | MODEM_IDLE =>
      if InVoiceCall env then (false, d) else
      if wMsgLen =? 0 then
        let '(sent, d) := on_eng (CheckMailbox env) d in
        if sent then (true, SetModemStateBusy MAILBOX_CHECK d) else (false, d)
      else
        match szDataBuf with
        | None | Some [] => (false, d)
        | Some text =>
            let '(sent, d) := on_eng (SendWriteTextMsgCmd env text) d in
            if sent then (true, SetModemStateBusy TXING_TEXT d) else (false, d)
        end
  | _ => (false, d)
  end.

Definition SendBinMsgToModem (env : Env) (byDataBuf : option (list Z)) (wMsgLen : Z) (d : Driver)
  : bool * Driver :=
  match modemState (options d) with
  | MODEM_IDLE =>
      if InVoiceCall env then (false, d) else
      if wMsgLen =? 0 then
        let '(sent, d) := on_eng (CheckMailbox env) d in
        if sent then (true, SetModemStateBusy MAILBOX_CHECK d) else (false, d)
      else
        match byDataBuf with
        | None => (false, d)
        | Some bytes =>
            let '(sent, d) := on_eng (SendBinaryBuffer env bytes wMsgLen) d in
            if sent then (true, SetModemStateBusy TXING_BUFFER d) else (false, d)
        end
  | _ => (false, d)
  end.

(** ** Initialisation *)

(** Modelled from the spec: NO_FAULT and REPORT_FAULT (FaultHandler.h is not
    among the sources).  The spec calls NO_FAULT a non-Boolean sentinel
    stored in a Boolean cache; the two values are placeholders and nothing
    proved below depends on them. *)
Definition NO_FAULT : Z := 2.
Definition REPORT_FAULT : Z := 3.

(** The statics of Modem.c before InitModem runs: all zero.  [cisPort] is
    whatever the hardware holds; InitModem sets it. *)
Definition Engine_statics : Engine :=
  Build_Engine AT_CMD_POWERED_DOWN SUBSTATE_NONE MEC_NONE (zeros MAX_CMD_LINE_LEN) 0 false
    StopTimer StopTimer (zeros MAX_RX_SIZE) 0
    (Build_modemInfo 0 NO_MSG [] [] 0 0 0 0 0 CIS_CMD_RELAY_1_OFF AT_RSP_ACTIVE_CALL_STATUS
       FALSE FALSE FALSE 0)
    (zeros MAX_FILE_LEN) [] [] false 0 0 false 0 [] [] DATA_PORT [].

Definition InitModem (s : Engine) : Engine :=
  let s := set_subState SUBSTATE_NONE s in
  let s := set_errorCodeRsp MEC_NONE s in
  let s := set_bPrevVoiceState false s in
  let s := upd_modemInfo (set_bRingersOn TRUE) s in
  let s := upd_modemInfo (set_bRelayOn1 NO_FAULT) s in
  let s := upd_modemInfo (set_bRelayOn2 FALSE) s in
  let s := ClearBuffers DATA_PORT s in
  let s := ClearModemInfo s in
  let s := ClearRxBinaryDataVars s in
  let s := set_szModemSWVersion [] s in
  let s := set_szIMEI ERROR_IMEI s in
  let s := set_bHaveIMEI false s in
  let s := set_wSatelliteTimeout SATELLITE_RSP_TIMEOUT s in
  let s := set_thRespTimeOut StopTimer s in
  let s := set_thCISRespTimeOut StopTimer s in
  set_ATCmdState AT_CMD_POWERED_DOWN s.

Definition SetFaultLightOn (s : Engine) : Engine :=
  upd_modemInfo (set_bRelayOn1 REPORT_FAULT) s.

Definition DEFAULT_WAIT_FOR_CALLS : Z := 45000.
Definition DEFAULT_TIMEOUT_DELAY : Z := 10 * 60000.
Definition DEFAULT_SIGSTRENGTH_POLL_RATE : Z := 150000.
Definition DEFAULT_SIGNAL_CHECK_DELAY : Z := 25000.
Definition DEFAULT_CSQ_DEBOUNCE_RETRIES : Z := 3.
Definition DEFAULT_RETRY_COUNT : Z := 5.
Definition DEFAULT_RETRY_DELAY : Z := 3000.

(** The statics of ModemAPI.c before InitModemAPI runs. *)
Definition API_statics : API :=
  Build_API StopTimer StopTimer StopTimer StopTimer StopTimer StopTimer QueuedCISCmd_init
    (Build_modemFlags 0 0 0)
    (Build_modemOptions false false false false false NO_CMD (fun _ => MR_FAILED) false []
       MODEM_POWERED_DOWN MODEM_POWERED_DOWN)
    (Build_modemConfigurables 0 0 0 0 0 0 0 (zeros 36)).

Definition InitModemAPI (env : Env) (d : Driver) : Driver :=
  let d := upd_eng InitModem d in
  let d := upd_api (fun a =>
             set_modemConfigurables
               (Build_modemConfigurables DEFAULT_WAIT_FOR_CALLS DEFAULT_TIMEOUT_DELAY
                  DEFAULT_SIGSTRENGTH_POLL_RATE DEFAULT_SIGNAL_CHECK_DELAY
                  DEFAULT_CSQ_DEBOUNCE_RETRIES DEFAULT_RETRY_COUNT DEFAULT_RETRY_DELAY
                  (repeat DELETE_ALL_FILES 36)) a) d in
  let d := upd_flags (fun _ => Build_modemFlags 0 0 0) d in
  let d := upd_options (set_bSendingEnabled false) d in
  let d := upd_options (set_bPCMCIAError false) d in
  let d := upd_options (set_bCISActionComplete false) d in
  let d := upd_options (set_bInTransparentMode false) d in
  let d := upd_options (set_bPrevHookState false) d in
  let d := upd_options (set_bPrevRIState false) d in
  let d := upd_options (set_ModemCmd NO_CMD) d in
  let d := reset_ModemRsp d in
  let d := upd_options (set_szPathFileBeingSent []) d in
  let d := upd_api (set_thTimeout (StartTimer (now env) (dwTimeoutDelay (configurables d)))) d in
  match GetModemAtState (eng d) with
  | AT_CMD_POWERED_DOWN =>
      upd_options (set_prevModemState MODEM_POWERED_DOWN)
        (upd_options (set_modemState MODEM_POWERED_DOWN) d)
  | _ =>
      upd_options (set_prevModemState MODEM_INITTING)
        (upd_options (set_modemState MODEM_INITTING) d)
  end.

(** The driver when the application starts calling it. *)
Definition Driver_at_boot (env : Env) : Driver :=
  InitModemAPI env (Build_Driver Engine_statics API_statics).

(** ** The commands of the engine as one type

    For statements that range over every dispatch operation, and over
    sequences of calls. *)

Inductive DISPATCH : Type :=
| Call_SendWriteTextMsgCmd (szDataBuf : list Z)
| Call_SendBinaryFile
| Call_SendBinaryBuffer (pbyDataBuf : list Z) (wMsgSize : Z)
| Call_CheckGateway
| Call_CheckMailbox
| Call_SendCSQCmd
| Call_SendReadBinaryFileCmd
| Call_SendCLCCCmd
| Call_SendCallHangupCmd
| Call_SendCREGCmd
| Call_SendDownloadCISCmd
| Call_SendProgramCISCmd
| Call_SendCISResetCmd
| Call_SendSetRingerCmd (bRingerState : bool)
| Call_SendGetRingerStatusCmd
| Call_SendSetRelayCmd (byRelayNbr : Z) (bRelayState : bool)
| Call_SendGetRelayStatusCmd (byRelayNbr : Z).

Definition dispatch (env : Env) (op : DISPATCH) (s : Engine) : bool * Engine :=
  match op with
  | Call_SendWriteTextMsgCmd szDataBuf => SendWriteTextMsgCmd env szDataBuf s
  | Call_SendBinaryFile => SendBinaryFile env s
  | Call_SendBinaryBuffer pbyDataBuf wMsgSize => SendBinaryBuffer env pbyDataBuf wMsgSize s
  | Call_CheckGateway => CheckGateway env s
  | Call_CheckMailbox => CheckMailbox env s
  | Call_SendCSQCmd => SendCSQCmd env s
  | Call_SendReadBinaryFileCmd => SendReadBinaryFileCmd env s
  | Call_SendCLCCCmd => SendCLCCCmd env s
  | Call_SendCallHangupCmd => SendCallHangupCmd env s
  | Call_SendCREGCmd => SendCREGCmd env s
  | Call_SendDownloadCISCmd => SendDownloadCISCmd env s
  | Call_SendProgramCISCmd => SendProgramCISCmd env s
  | Call_SendCISResetCmd => SendCISResetCmd env s
  | Call_SendSetRingerCmd bRingerState => SendSetRingerCmd env bRingerState s
  | Call_SendGetRingerStatusCmd => SendGetRingerStatusCmd env s
  | Call_SendSetRelayCmd byRelayNbr bRelayState => SendSetRelayCmd env byRelayNbr bRelayState s
  | Call_SendGetRelayStatusCmd byRelayNbr => SendGetRelayStatusCmd env byRelayNbr s
  end.

(** The commands addressed to the aux board. *)
Definition is_aux_dispatch (op : DISPATCH) : bool :=
  match op with
  | Call_SendDownloadCISCmd
  | Call_SendProgramCISCmd
  | Call_SendCISResetCmd
  | Call_SendSetRingerCmd _
  | Call_SendGetRingerStatusCmd
  | Call_SendSetRelayCmd _ _
  | Call_SendGetRelayStatusCmd _ => true
  | _ => false
  end.

(** The engine states in which the spec lets a command be dispatched. *)
Definition admits (op : DISPATCH) (st : AT_CMD_STATES) : bool :=
  match st with
  | AT_CMD_IDLE => true
  | AT_CMD_POWERED_DOWN => is_aux_dispatch op
  | _ => false
  end.

(** A command is in flight while the engine works on it. *)
Definition command_in_flight (st : AT_CMD_STATES) : bool :=
  match st with
  | AT_CMD_INITTING | AT_CMD_SENDING | AT_CMD_RCVING | AT_CMD_PGMING => true
  | _ => false
  end.

(** What can happen to the engine between two observations: a dispatch call,
    a tick, bytes arriving from the device, or one of the acknowledgements
    of the upper layer. *)
Inductive EVENT : Type :=
| Ev_dispatch (env : Env) (op : DISPATCH)
| Ev_tick (env : Env)
| Ev_reply (bytes : list Z)
| Ev_SetATCmdStateIdle
| Ev_SetATCmdStateInit
| Ev_ResetModem (env : Env).

Definition step (ev : EVENT) (d : Driver) : Driver :=
  match ev with
  | Ev_dispatch env op => upd_eng (fun s => snd (dispatch env op s)) d
  | Ev_tick env => UpdateModemState env d
  | Ev_reply bytes => upd_eng (ModemIsr_receive bytes) d
  | Ev_SetATCmdStateIdle => upd_eng SetATCmdStateIdle d
  | Ev_SetATCmdStateInit => upd_eng SetATCmdStateInit d
  | Ev_ResetModem env => upd_eng (fun s => snd (ResetModem env s)) d
  end.

Definition run (evs : list EVENT) (d : Driver) : Driver :=
  fold_left (fun d ev => step ev d) evs d.

(** ** Sample environments and states, for the examples *)

(** Modem and aux board powered, no call, every external request granted,
    nothing in the outbox, clock at [t]. *)
Definition Env_calm (t : Z) : Env :=
  Build_Env t true true false false true true None ERROR_IMEI 0 true [] true true true true
    true None 0 [] 0 (fun _ => MT_SYSTEM_ACTION) None false.

(** The engine idle after initialisation, as SetATCmdStateIdle leaves it. *)
Definition Engine_idle : Engine := SetATCmdStateIdle (InitModem Engine_statics).

(** Both layers idle, background timers stopped. *)
Definition Driver_idle : Driver :=
  let d := Driver_at_boot (Env_calm 0) in
  let d := upd_eng SetATCmdStateIdle d in
  let d := upd_options (set_modemState MODEM_IDLE) d in
  let d := upd_options (set_prevModemState MODEM_IDLE) d in
  upd_api (set_thTimeout StopTimer) d.

(** ** Public functions of Modem.c: the remaining accessors *)

(** Until the modem has answered AT+CGSN the copy kept in the EEPROM is
    handed out. *)
Definition GetIMEI (env : Env) (s : Engine) : list Z :=
  if negb (bHaveIMEI s) then GetIMEICopy env else szIMEI s.

Definition GetModemSignalStrength (s : Engine) : Z := iSignalStrength (modemInfo s).

Definition GetCallStatus (s : Engine) : CALL_STATUS_RSP := byCallStatus (modemInfo s).

Definition GetModemCmdRspTime : Z := STANDARD_RSP_TIMEOUT.

Definition GetTimeoutCount : Z := 0.

Definition GetModemSWVersion (s : Engine) : list Z := szModemSWVersion s.

Definition GetMOMSN (s : Engine) : list Z := szMOMSN (modemInfo s).

Definition GetMTMSN (s : Engine) : list Z := szMTMSN (modemInfo s).

(** Obsolete: the list of time-outs is ignored. *)
Definition SetModemCmdRspTime (pdwTimeoutTime : option (list Z)) (s : Engine) : bool * Engine :=
  (true, s).

(** ** Public functions of ModemAPI.c: settings and status *)

Definition upd_configurables (f : MODEM_CONFIGURABLES -> MODEM_CONFIGURABLES) (d : Driver)
  : Driver :=
  upd_api (fun a => set_modemConfigurables (f (modemConfigurables a)) a) d.

Definition IsModemSendingEnabled (d : Driver) : bool := bSendingEnabled (options d).

Definition GetTextMsgRspFromModem (d : Driver) : MODEM_RESPONSES :=
  ModemRsp (options d) TXING_TEXT.

Definition GetBinMsgRspFromModem (d : Driver) : MODEM_RESPONSES :=
  ModemRsp (options d) TXING_BUFFER.

Definition GetCurrentModemState (d : Driver) : MODEM_STATES := modemState (options d).

(** The settings given in seconds are kept in milliseconds; the product is a
    DWORD. *)
Definition to_DWORD (z : Z) : Z := z mod 2 ^ 32.

Definition SetSignalStrengthPollRate (dwPollRateInSeconds : Z) (d : Driver) : Driver :=
  if negb (dwPollRateInSeconds =? 0) then
    upd_configurables (set_dwCheckSigStrengthRate (to_DWORD (dwPollRateInSeconds * 1000))) d
  else d.

Definition GetSignalStrengthPollRate (d : Driver) : Z :=
  dwCheckSigStrengthRate (configurables d) / 1000.

Definition SetCSQRetryCount (byCSQRetryCount : Z) (d : Driver) : Driver :=
  upd_configurables (set_byCSQMaxDebounceRetries byCSQRetryCount) d.

Definition GetCSQRetryCount (d : Driver) : Z := byCSQMaxDebounceRetries (configurables d).

Definition SetCSQRetryDelay (dwCSQRetryDelayInSeconds : Z) (d : Driver) : Driver :=
  if negb (dwCSQRetryDelayInSeconds =? 0) then
    upd_configurables (set_dwCSQDebounceDelay (to_DWORD (dwCSQRetryDelayInSeconds * 1000))) d
  else d.

Definition GetCSQRetryDelay (d : Driver) : Z := dwCSQDebounceDelay (configurables d) / 1000.

Definition SetMsgRetryCount (byRetryCount : Z) (d : Driver) : Driver :=
  if negb (byRetryCount =? 0) then upd_configurables (set_byMaxRetries byRetryCount) d else d.

Definition GetMsgRetryCount (d : Driver) : Z := byMaxRetries (configurables d).

Definition SetMsgRetryDelay (dwRetryDelay : Z) (d : Driver) : Driver :=
  upd_configurables (set_dwRetryDelay (to_DWORD (dwRetryDelay * 1000))) d.

Definition GetMsgRetryDelay (d : Driver) : Z := dwRetryDelay (configurables d) / 1000.

Definition SetModemIncomingCallDelay (dwCallDelayInSeconds : Z) (d : Driver) : Driver :=
  upd_configurables (set_dwWaitForCalls (to_DWORD (dwCallDelayInSeconds * 1000))) d.

Definition GetModemIncomingCallDelay (d : Driver) : Z := dwWaitForCalls (configurables d) / 1000.

Definition DEFAULT_DIALING_DELAY : Z := 15.

(** Obsolete: nothing is stored. *)
Definition SetModemDialingDelay (dwDialingDelayInSeconds : Z) (d : Driver) : Driver := d.

Definition GetModemDialingDelay (d : Driver) : Z := DEFAULT_DIALING_DELAY.

Definition SetModemTimeoutWait (dwTimeoutDelayInSeconds : Z) (d : Driver) : Driver :=
  upd_configurables (set_dwTimeoutDelay (to_DWORD (dwTimeoutDelayInSeconds * 1000))) d.

Definition GetModemTimeoutWait (d : Driver) : Z := dwTimeoutDelay (configurables d) / 1000.

Definition ReportPCMCIAError (bErrorWithPCMCIACard : bool) (d : Driver) : Driver :=
  upd_options (set_bPCMCIAError bErrorWithPCMCIACard) d.

Definition IsCISActionComplete (d : Driver) : bool := bCISActionComplete (options d).

Definition GetPhoneRingerStatus (d : Driver) : MODEM_RESPONSES :=
  ModemRsp (options d) RINGER_STATUS.

Definition GetOutputRelayStatus (byRelayNbr : Z) (d : Driver) : MODEM_RESPONSES :=
  let mdmCmd := if byRelayNbr =? RELAY_1 then RELAY1_STATUS else RELAY2_STATUS in
  ModemRsp (options d) mdmCmd.

Definition GetModemCmdRsp (mdmCmd : MODEM_COMMANDS) (d : Driver) : MODEM_RESPONSES :=
  ModemRsp (options d) mdmCmd.

Definition EnteredTransparentModemMode (bMode : bool) (d : Driver) : Driver :=
  upd_options (set_bInTransparentMode bMode) d.

(** ** The modem log (ModemLog.c)

    The module keeps a table of the last codes logged, each with the number
    of times it was seen and the time of the last one, and appends a line of
    text to the log file for every entry.  The text of a line is put together
    by the string library from the pieces gathered in [MODEMLOG_LINE].
    Codes raised where the file system cannot be used are parked in a ring
    (the queue module, as for the aux-board commands) and logged later, one
    per call of MonitorModemLogErrors. *)

Module ModemLogC.

Definition BUFFERED_DATA_SIZE : Z := 15.

(** The enumerators of ModemLog.h that ModemLog itself tests. *)
Definition MODEMLOG_START_CODES : Z := 0.
Definition MODEMLOG_SEND_SUCCESSFUL : Z := 3.
Definition MODEMLOG_RECEIVE_SUCCESSFUL : Z := 10.
Definition MODEMLOG_NBR_CODES : Z := 28.

Record MODEMLOG_STRUCT : Type := Build_MODEMLOG_STRUCT {
  dwDateTimeStamp : Z;  (* DWORD *)
  byModemLogErrEnum : Z;  (* BYTE *)
  byFrequency : Z  (* BYTE *)
}.

(** What a line of the log file is made of: date and time, signal level,
    file name, the texts of the code and of the engine's error code, and the
    sequence number added to the two success entries. *)
Record MODEMLOG_LINE : Type := Build_MODEMLOG_LINE {
  line_date_time : list Z;
  line_signal : Z;
  line_file : list Z;
  line_code : Z;
  line_sub_code : MODEM_ERROR_CODE_RSP;
  line_msn : option (list Z)
}.

Inductive LOG_FILE_ENTRY : Type :=
| LogFileHeader
| LogLine (l : MODEMLOG_LINE).

(** What one call reads from outside the driver. *)
Record LogEnv : Type := Build_LogEnv {
  GetGpsTime : Z;
  GetCurrentDateTimeStr : list Z;
  log_fileOpen_ok : bool
}.

(** The ring of parked codes: [RecordQueue] over [byRecordQBuff]. *)
Record RECORDQUEUE : Type := Build_RECORDQUEUE {
  rq_wReadIndex : Z;
  rq_wWriteIndex : Z;
  byRecordQBuff : list Z  (* QUEUE_BUFF[RECORD_Q_LEN] *)
}.

Record Module_state : Type := Build_Module_state {
  bDisplayModemLogErrors : bool;
  bufferedErrs : list MODEMLOG_STRUCT;  (* [BUFFERED_DATA_SIZE] *)
  wBufferedIndex : Z;  (* WORD *)
  RecordQueue : RECORDQUEUE;
  mtce_port : list MODEMLOG_LINE;  (* lines sent to the maintenance port *)
  modem_log : list LOG_FILE_ENTRY  (* the log file, oldest entry first *)
}.

Definition set_bDisplayModemLogErrors (v : bool) (m : Module_state) : Module_state :=
  Build_Module_state v (bufferedErrs m) (wBufferedIndex m) (RecordQueue m) (mtce_port m)
    (modem_log m).
Definition set_bufferedErrs (v : list MODEMLOG_STRUCT) (m : Module_state) : Module_state :=
  Build_Module_state (bDisplayModemLogErrors m) v (wBufferedIndex m) (RecordQueue m)
    (mtce_port m) (modem_log m).
Definition set_wBufferedIndex (v : Z) (m : Module_state) : Module_state :=
  Build_Module_state (bDisplayModemLogErrors m) (bufferedErrs m) v (RecordQueue m)
    (mtce_port m) (modem_log m).
Definition set_RecordQueue (v : RECORDQUEUE) (m : Module_state) : Module_state :=
  Build_Module_state (bDisplayModemLogErrors m) (bufferedErrs m) (wBufferedIndex m) v
    (mtce_port m) (modem_log m).
Definition set_mtce_port (v : list MODEMLOG_LINE) (m : Module_state) : Module_state :=
  Build_Module_state (bDisplayModemLogErrors m) (bufferedErrs m) (wBufferedIndex m)
    (RecordQueue m) v (modem_log m).
Definition set_modem_log (v : list LOG_FILE_ENTRY) (m : Module_state) : Module_state :=
  Build_Module_state (bDisplayModemLogErrors m) (bufferedErrs m) (wBufferedIndex m)
    (RecordQueue m) (mtce_port m) v.

Definition RECORD_Q_LEN : Z := MODEMLOG_NBR_CODES.

(** Modelled from the spec: the queue module, as in [AddDataToQueue] and
    [GetDataFromQueue] above, here on a ring of codes.  [overwrites] says
    what the module does with a full ring. *)
Definition rq_full (q : RECORDQUEUE) : bool :=
  (rq_wWriteIndex q + 1) mod RECORD_Q_LEN =? rq_wReadIndex q.

Definition rq_AddDataToQueue (overwrites : bool) (data : Z) (q : RECORDQUEUE) : RECORDQUEUE :=
  if rq_full q && negb overwrites then q else
  Build_RECORDQUEUE (rq_wReadIndex q) ((rq_wWriteIndex q + 1) mod RECORD_Q_LEN)
    (array_set (byRecordQBuff q) (rq_wWriteIndex q) data).

Definition rq_GetDataFromQueue (q : RECORDQUEUE) : Z * RECORDQUEUE :=
  (nth (Z.to_nat (rq_wReadIndex q)) (byRecordQBuff q) 0,
   Build_RECORDQUEUE ((rq_wReadIndex q + 1) mod RECORD_Q_LEN) (rq_wWriteIndex q)
     (byRecordQBuff q)).

(** [InitQueue( pRecordQueue, byRecordQBuff, RECORD_Q_LEN )] over the zeroed
    static buffer. *)
Definition RecordQueue_init : RECORDQUEUE :=
  Build_RECORDQUEUE 0 0 (repeat 0 (Z.to_nat RECORD_Q_LEN)).

Definition NEXT_INDEX (aIndex : Z) : Z :=
  if BUFFERED_DATA_SIZE <=? aIndex + 1 then 0 else aIndex + 1.

(** Nothing is written when the file cannot be opened. *)
Definition WriteMdmLogFile (env : LogEnv) (szStr : LOG_FILE_ENTRY) (m : Module_state)
  : Module_state :=
  if negb (log_fileOpen_ok env) then m else set_modem_log (modem_log m ++ [szStr]) m.

Definition empty_entry : MODEMLOG_STRUCT := Build_MODEMLOG_STRUCT 0 0 0.

Definition ModemLogInit (env : LogEnv) (m : Module_state) : Module_state :=
  let m := set_bDisplayModemLogErrors false m in
  let m := set_wBufferedIndex (BUFFERED_DATA_SIZE - 1) m in
  let m := set_RecordQueue RecordQueue_init m in
  let m := set_bufferedErrs (repeat empty_entry (Z.to_nat BUFFERED_DATA_SIZE)) m in
  WriteMdmLogFile env LogFileHeader m.

(** The search loop of ModemLog: the first index below BUFFERED_DATA_SIZE
    whose entry holds [errCode]. *)
Fixpoint find_code (errCode : Z) (l : list MODEMLOG_STRUCT) (byIndex : Z) : option Z :=
  match l with
  | [] => None
  | e :: t =>
      if byModemLogErrEnum e =? errCode then Some byIndex
      else find_code errCode t (byIndex + 1)
  end.

(** The table part of ModemLog: the entry of a code already there is counted
    up and stamped; a new code takes the slot after the current one. *)
Definition ModemLog_buffer (env : LogEnv) (errCode : Z) (m : Module_state) : Module_state :=
  match find_code errCode (firstn (Z.to_nat BUFFERED_DATA_SIZE) (bufferedErrs m)) 0 with
  | Some byIndex =>
      let e := nth (Z.to_nat byIndex) (bufferedErrs m) empty_entry in
      let e := Build_MODEMLOG_STRUCT (GetGpsTime env) (byModemLogErrEnum e)
                 (to_BYTE (byFrequency e + 1)) in
      set_bufferedErrs (array_set (bufferedErrs m) byIndex e) m
  | None =>
      let m := set_wBufferedIndex (NEXT_INDEX (wBufferedIndex m)) m in
      set_bufferedErrs
        (array_set (bufferedErrs m) (wBufferedIndex m)
           (Build_MODEMLOG_STRUCT (GetGpsTime env) errCode 1)) m
  end.

(** ModemLog reads the engine's error code through GetErrorCodeRsp, which
    clears it.  (The engine's codes are an inductive type here, so the test
    [subErrorCode >= NBR_ERR_CODES] never fires.)  MODEMLOG_ERR_CODE is a
    BYTE: [errCode] is a number from 0 to 255. *)
Definition ModemLog (env : LogEnv) (szFileName : list Z) (errCode : Z)
  (s : Engine) (m : Module_state) : Engine * Module_state :=
  let '(subErrorCode, s) := GetErrorCodeRsp s in
  let errCode := if MODEMLOG_NBR_CODES <=? errCode then MODEMLOG_START_CODES else errCode in
  let m := ModemLog_buffer env errCode m in
  let msn :=
    if errCode =? MODEMLOG_SEND_SUCCESSFUL then Some (GetMOMSN s)
    else if errCode =? MODEMLOG_RECEIVE_SUCCESSFUL then Some (GetMTMSN s)
    else None in
  let line := Build_MODEMLOG_LINE (GetCurrentDateTimeStr env) (GetModemSignalStrength s)
                szFileName errCode subErrorCode msn in
  let m := if bDisplayModemLogErrors m then set_mtce_port (mtce_port m ++ [line]) m else m in
  (s, WriteMdmLogFile env (LogLine line) m).

(** A code already in the ring's buffer is not parked again. *)
Definition RecordModemLogError (overwrites : bool) (errCode : Z) (m : Module_state)
  : Module_state :=
  if existsb (Z.eqb errCode) (firstn (Z.to_nat RECORD_Q_LEN) (byRecordQBuff (RecordQueue m)))
  then m
  else set_RecordQueue (rq_AddDataToQueue overwrites errCode (RecordQueue m)) m.

(** The oldest parked code is taken, its slot cleared, and the entry made.
    The file name NO_RPT of such an entry is declared outside the sources
    and is a parameter here. *)
Definition MonitorModemLogErrors (NO_RPT : list Z) (env : LogEnv) (s : Engine)
  (m : Module_state) : Engine * Module_state :=
  if negb (rq_wWriteIndex (RecordQueue m) =? rq_wReadIndex (RecordQueue m)) then
    let wBackupReadIndex := rq_wReadIndex (RecordQueue m) in
    let '(wLogErrorCode, q) := rq_GetDataFromQueue (RecordQueue m) in
    let q := Build_RECORDQUEUE (rq_wReadIndex q) (rq_wWriteIndex q)
               (array_set (byRecordQBuff q) wBackupReadIndex MODEMLOG_START_CODES) in
    let m := set_RecordQueue q m in
    ModemLog env NO_RPT (to_BYTE wLogErrorCode) s m
  else (s, m).

Definition DisplayModemLogErrors (bDisplay : bool) (m : Module_state) : Module_state :=
  set_bDisplayModemLogErrors bDisplay m.

Definition GetModemLogErrDisplayStatus (m : Module_state) : bool := bDisplayModemLogErrors m.

(** [*ErrCodeEnum] comes in as an index (negative: the current one) and goes
    out as the code found there; the result is the index, the code, its count
    and its time.  An index past the table reads outside it: [None]. *)
Definition GetModemLogErr (ErrCodeEnum : Z) (m : Module_state) : option (Z * Z * Z * Z) :=
  let CurrentCode := if ErrCodeEnum <? 0 then wBufferedIndex m else ErrCodeEnum in
  match nth_error (bufferedErrs m) (Z.to_nat CurrentCode) with
  | Some e => Some (CurrentCode, byModemLogErrEnum e, byFrequency e, dwDateTimeStamp e)
  | None => None
  end.

End ModemLogC.

(** ** The serial port and the control lines (Modemserial.c)

    The file works on the registers of the 68332: the serial control
    registers SCCR0 and SCCR1 and the host service request registers HSRR0
    and HSRR1 of the TPU, whose channels drive the control lines.  A register
    is taken to hold the last value written to it. *)

Module ModemSerial.

Record Registers : Type := Build_Registers {
  QSMCR : Z;
  QILR : Z;
  QIVR : Z;
  SCCR0 : Z;  (* WORD *)
  SCCR1 : Z;  (* WORD *)
  HSRR0 : Z;  (* WORD *)
  HSRR1 : Z  (* WORD *)
}.

Definition set_SCCR0 (v : Z) (r : Registers) : Registers :=
  Build_Registers (QSMCR r) (QILR r) (QIVR r) v (SCCR1 r) (HSRR0 r) (HSRR1 r).
Definition set_SCCR1 (v : Z) (r : Registers) : Registers :=
  Build_Registers (QSMCR r) (QILR r) (QIVR r) (SCCR0 r) v (HSRR0 r) (HSRR1 r).
Definition set_HSRR0 (v : Z) (r : Registers) : Registers :=
  Build_Registers (QSMCR r) (QILR r) (QIVR r) (SCCR0 r) (SCCR1 r) v (HSRR1 r).
Definition set_HSRR1 (v : Z) (r : Registers) : Registers :=
  Build_Registers (QSMCR r) (QILR r) (QIVR r) (SCCR0 r) (SCCR1 r) (HSRR0 r) v.

(** The enumerations of modemserial.h. *)
Definition PARITY_NONE : Z := 0.
Definition PARITY_EVEN : Z := 1.
Definition PARITY_ODD : Z := 2.
Definition PARITY_MARK : Z := 3.
Definition PARITY_SPACE : Z := 4.

Definition NO_FLOW_CNTL : Z := 0.
Definition XON_XOFF_FLOW_CNTL : Z := 1.
Definition RTS_CTS_FLOW_CNTL : Z := 2.

Record SERIAL_CFG : Type := Build_SERIAL_CFG {
  dwSpeed : Z;  (* DWORD *)
  wDataBits : Z;
  wParity : Z;
  wStopBits : Z;
  wFlowCntl : Z
}.

Definition InitModemSerialPorts (r : Registers) : Registers :=
  Build_Registers 0x008F 0x05 0x42 (SCCR0 r) (SCCR1 r) (HSRR0 r) (HSRR1 r).

Section Clock.

(** The system clock and the bit rates are declared outside the sources. *)
Variable SYS_CLOCK : Z.
Variables BIT_RATE_1200 BIT_RATE_2400 BIT_RATE_4800 BIT_RATE_9600 : Z.
Variables BIT_RATE_19200 BIT_RATE_38400 BIT_RATE_57600 BIT_RATE_115200 : Z.

(** The speed is written before the rest of the configuration is looked at;
    a speed whose product with 32 is zero (as a DWORD) divides by zero:
    [None].  The queues are flushed before the port is enabled; the receive
    queue is the engine's [rxq]. *)
Definition OpenModemSerialPort (cfgInfo : SERIAL_CFG) (r : Registers) (s : Engine)
  : option (bool * Registers * Engine) :=
  if (dwSpeed cfgInfo * 32) mod 2 ^ 32 =? 0 then None else
  let r := set_SCCR0 (to_WORD (SYS_CLOCK / ((dwSpeed cfgInfo * 32) mod 2 ^ 32))) r in
  let data_bits :=
    if wDataBits cfgInfo =? 9 then Some 0x0200
    else if wDataBits cfgInfo =? 8 then Some 0x0000
    else None in
  match data_bits with
  | None => Some (false, r, s)
  | Some wSettings =>
      let parity :=
        if wParity cfgInfo =? PARITY_NONE then Some wSettings
        else if wParity cfgInfo =? PARITY_EVEN then Some (Z.lor wSettings 0x0400)
        else if wParity cfgInfo =? PARITY_ODD then Some (Z.lor wSettings 0x0C00)
        else None in
      match parity with
      | None => Some (false, r, s)
      | Some wSettings =>
          let enabled :=
            Some (true, set_SCCR1 (Z.lor wSettings 0x002C) r, FlushModemSerialRxQueue s) in
          if wFlowCntl cfgInfo =? NO_FLOW_CNTL then enabled
          else if wFlowCntl cfgInfo =? XON_XOFF_FLOW_CNTL then Some (false, r, s)
          else if wFlowCntl cfgInfo =? RTS_CTS_FLOW_CNTL then enabled
          else Some (false, r, s)
      end
  end.

(** The fields of [cfgInfo] that the function does not assign keep what the
    caller put there.  A zero in SCCR0 divides by zero: [None]. *)
Definition GetModemSerialPortSettings (cfgInfo : SERIAL_CFG) (r : Registers)
  : option SERIAL_CFG :=
  let wSettings := Z.land (SCCR1 r) 0xFFD3 in
  let wRegisterSpeed := SCCR0 r in
  if (wRegisterSpeed * 32) mod 2 ^ 32 =? 0 then None else
  let dwBitRate := SYS_CLOCK / ((wRegisterSpeed * 32) mod 2 ^ 32) in
  let speed :=
    if (BIT_RATE_1200 <=? dwBitRate) && (dwBitRate <? BIT_RATE_2400) then BIT_RATE_1200
    else if (BIT_RATE_2400 <=? dwBitRate) && (dwBitRate <? BIT_RATE_4800) then BIT_RATE_2400
    else if (BIT_RATE_4800 <=? dwBitRate) && (dwBitRate <? BIT_RATE_9600) then BIT_RATE_4800
    else if (BIT_RATE_9600 <=? dwBitRate) && (dwBitRate <? BIT_RATE_19200) then BIT_RATE_9600
    else if (BIT_RATE_19200 <=? dwBitRate) && (dwBitRate <? BIT_RATE_38400) then BIT_RATE_19200
    else if (BIT_RATE_38400 <=? dwBitRate) && (dwBitRate <? BIT_RATE_57600) then BIT_RATE_38400
    else if (BIT_RATE_57600 <=? dwBitRate) && (dwBitRate <? BIT_RATE_115200)
    then BIT_RATE_57600
    else if BIT_RATE_115200 <=? dwBitRate then BIT_RATE_115200
    else dwSpeed cfgInfo in
  let stop_bits := if Z.land wSettings 0x0200 =? 0x0200 then 2 else 1 in
  let parity :=
    if Z.land wSettings 0x0400 =? 0x0400 then
      if Z.land wSettings 0x0C00 =? 0x0C00 then PARITY_ODD else PARITY_EVEN
    else PARITY_NONE in
  Some (Build_SERIAL_CFG speed 8 parity stop_bits (wFlowCntl cfgInfo)).

End Clock.

(** The control lines are driven through the host service request bits of
    their TPU channels: two bits a channel. *)
Definition SetModemPortRTSLow (r : Registers) : Registers :=
  let r := set_HSRR1 (Z.land (HSRR1 r) 0xDFFF) r in
  set_HSRR1 (Z.lor (HSRR1 r) 0x1000) r.

Definition SetModemPortRTSHigh (r : Registers) : Registers :=
  let r := set_HSRR1 (Z.lor (HSRR1 r) 0x2000) r in
  set_HSRR1 (Z.land (HSRR1 r) 0xEFFF) r.

Definition SetModemPortDTRLow (r : Registers) : Registers :=
  let r := set_HSRR0 (Z.land (HSRR0 r) 0xFFF7) r in
  set_HSRR0 (Z.lor (HSRR0 r) 0x0004) r.

Definition SetModemPortDTRHigh (r : Registers) : Registers :=
  let r := set_HSRR0 (Z.lor (HSRR0 r) 0x0008) r in
  set_HSRR0 (Z.land (HSRR0 r) 0xFFFB) r.

Definition SetModemPortTXLow (r : Registers) : Registers :=
  let r := set_HSRR0 (Z.land (HSRR0 r) 0xFFFD) r in
  set_HSRR0 (Z.lor (HSRR0 r) 0x0001) r.

Definition SetModemPortTXHigh (r : Registers) : Registers :=
  let r := set_HSRR0 (Z.lor (HSRR0 r) 0x0002) r in
  set_HSRR0 (Z.land (HSRR0 r) 0xFFFE) r.

Definition SetCISPowerLow (r : Registers) : Registers :=
  let r := set_HSRR0 (Z.lor (HSRR0 r) 0x0020) r in
  set_HSRR0 (Z.land (HSRR0 r) 0xFFEF) r.

Definition SetCISPowerHigh (r : Registers) : Registers :=
  let r := set_HSRR0 (Z.land (HSRR0 r) 0xFFDF) r in
  set_HSRR0 (Z.lor (HSRR0 r) 0x0010) r.

End ModemSerial.

(** * Predicates and scenarios used by the properties *)

(** An analyser reads the receive queue into its buffers; it does not touch
    the command state, the routing, the timers or the transmitted bytes. *)
Definition keeps (s s' : Engine) : Prop :=
  ATCmdState s' = ATCmdState s
  /\ subState s' = subState s
  /\ cisPort s' = cisPort s
  /\ thRespTimeOut s' = thRespTimeOut s
  /\ thCISRespTimeOut s' = thCISRespTimeOut s
  /\ tx s' = tx s.

(** What a test leaves when it fires: the exchange is over (timed out or
    powered down) and the routing is on the modem. *)
Definition exchange_ended (s : Engine) : Prop :=
  (ATCmdState s = AT_CMD_TIMED_OUT \/ ATCmdState s = AT_CMD_POWERED_DOWN)
  /\ cisPort s = DATA_PORT.




(** The routing is on the aux board only while the engine is in PGMING. *)
Definition routing_ok (s : Engine) : Prop :=
  ATCmdState s = AT_CMD_PGMING \/ cisPort s = DATA_PORT.

(** A ringer query is sent at time 0 and never answered: the tick at 5000 ms
    ends the exchange by time-out, with the routing back on the modem. *)
Definition Driver_waiting_for_ringer_status : Driver :=
  upd_eng (fun s => snd (SendGetRingerStatusCmd (Env_calm 0) s)) Driver_idle.

(** A line of text as the modem sends it, ended by CR LF. *)
Definition text_line (s : string) : list Z := str s ++ [CARRIAGE_RETURN; LINE_FEED].


(** A mailbox check is answered by [+SBDIX: 0, 00123, 0, 00042, 0, 0]; the
    upper layer acknowledges, a gateway check is dispatched, and the modem's
    answer [line] is in the receive queue. *)
Definition Engine_with_SBDSX_answer (line : string) : Engine :=
  eng (run [Ev_dispatch (Env_calm 0) Call_CheckMailbox;
            Ev_reply [AT_RSP_OK; CARRIAGE_RETURN; AT_RSP_OK; CARRIAGE_RETURN];
            Ev_tick (Env_calm 10); Ev_tick (Env_calm 11); Ev_tick (Env_calm 12);
            Ev_reply (text_line "+SBDIX: 0, 00123, 0, 00042, 0, 0" ++ [AT_RSP_OK; CARRIAGE_RETURN]);
            Ev_tick (Env_calm 20); Ev_tick (Env_calm 21);
            Ev_SetATCmdStateIdle;
            Ev_dispatch (Env_calm 30) Call_CheckGateway;
            Ev_reply (text_line line)]
           Driver_idle).

(** Following the spec's words: [sum = (Σ P_i) mod 2^16], sent high byte
    first. *)
Definition spec_checksum (P : list Z) : Z := fold_right Z.add 0 P mod 2 ^ 16.

(** The two bytes of that sum, as the modem transports them. *)
Definition spec_checksum_bytes (P : list Z) : list Z :=
  [spec_checksum P / 256; spec_checksum P mod 256].










(** A step of the IDLE work that dispatches nothing. *)
Definition quiet (d d' : Driver) : Prop :=
  modemState (options d') = modemState (options d)
  /\ thCheckCSQ (api d') = thCheckCSQ (api d)
  /\ configurables d' = configurables d
  /\ bSendingEnabled (options d') = bSendingEnabled (options d)
  /\ ATCmdState (eng d') = ATCmdState (eng d).

(** The state left by the dispatch of [cmd]. *)
Definition busy_with (cmd : MODEM_COMMANDS) (d' : Driver) : Prop :=
  modemState (options d') = MODEM_BUSY /\ ModemCmd (options d') = cmd.

(** What the tick of the engine leaves of the API layer (it may queue a
    command for the aux board). *)
Definition api_kept (d d' : Driver) : Prop :=
  modemState (options d') = modemState (options d)
  /\ ModemCmd (options d') = ModemCmd (options d)
  /\ bSendingEnabled (options d') = bSendingEnabled (options d)
  /\ thCheckCSQ (api d') = thCheckCSQ (api d)
  /\ thWaitForCalls (api d') = thWaitForCalls (api d)
  /\ configurables d' = configurables d.

(** Both layers idle with sending disabled, the poll timer started at time 0
    with a lapse of 0 and no command in the queue of the aux board. *)
Definition Driver_idle_sending_disabled : Driver :=
  upd_api (set_thCheckCSQ (StartTimer 0 0)) Driver_idle.

(** No command other than NO_CMD (an empty slot) is in the ring twice. *)
Definition no_duplicates (l : list MODEM_COMMANDS) : Prop :=
  forall i j, (i < j < List.length l)%nat ->
    nth i l NO_CMD <> NO_CMD -> nth i l NO_CMD <> nth j l NO_CMD.

(** A well-formed ring of the aux board's commands: MDM_Q_LEN slots, both
    indices inside it, no command in two slots. *)
Definition queue_ok (q : COMMQUEUE) : Prop :=
  List.length (pBuff q) = Z.to_nat MDM_Q_LEN
  /\ no_duplicates (pBuff q)
  /\ wSize q = MDM_Q_LEN
  /\ 0 <= wReadIndex q < MDM_Q_LEN
  /\ 0 <= wWriteIndex q < MDM_Q_LEN.

(** The same, for the ring of the API layer (QueuedCISCmd). *)
Definition queue_inv (d : Driver) : Prop := queue_ok (QueuedCISCmd (api d)).

(** What the application can do with the driver: the periodic call of the
    state machine, the entry points of ModemAPI.h with their arguments and
    the world they meet, and bytes arriving on the serial line. *)
Inductive API_CALL : Type :=
| Api_ProcessModemStateMachine (env : Env)
| Api_received (bytes : list Z)
| Api_UploadCISConfig (env : Env)
| Api_ProgramCIS (env : Env)
| Api_ResetCIS (env : Env)
| Api_TogglePhoneRinger (env : Env) (bRingerOn : bool)
| Api_SendPhoneRingerStatusCmd (env : Env)
| Api_ToggleRelayState (env : Env) (byRelayNbr : Z) (bRelayState : bool)
| Api_SendOutputRelayStatusCmd (env : Env) (byRelayNbr : Z)
| Api_HangupCall (env : Env)
| Api_SendTextMsgToModem (env : Env) (szDataBuf : option (list Z)) (wMsgLen : Z)
| Api_SendBinMsgToModem (env : Env) (byDataBuf : option (list Z)) (wMsgLen : Z)
| Api_EnableReportSending
| Api_DisableReportSending.

(** The effect of one call on both layers. *)
Definition api_step (c : API_CALL) (d : Driver) : Driver :=
  match c with
  | Api_ProcessModemStateMachine env => ProcessModemStateMachine env d
  | Api_received bytes => upd_eng (ModemIsr_receive bytes) d
  | Api_UploadCISConfig env => snd (UploadCISConfig env d)
  | Api_ProgramCIS env => snd (ProgramCIS env d)
  | Api_ResetCIS env => snd (ResetCIS env d)
  | Api_TogglePhoneRinger env b => snd (TogglePhoneRinger env b d)
  | Api_SendPhoneRingerStatusCmd env => snd (SendPhoneRingerStatusCmd env d)
  | Api_ToggleRelayState env n b => snd (ToggleRelayState env n b d)
  | Api_SendOutputRelayStatusCmd env n => snd (SendOutputRelayStatusCmd env n d)
  | Api_HangupCall env => snd (HangupCall env d)
  | Api_SendTextMsgToModem env txt len => snd (SendTextMsgToModem env txt len d)
  | Api_SendBinMsgToModem env buf len => snd (SendBinMsgToModem env buf len d)
  | Api_EnableReportSending => EnableReportSending d
  | Api_DisableReportSending => DisableReportSending d
  end.

(** The calls of a list, first to last. *)
Definition api_run (calls : list API_CALL) (d : Driver) : Driver :=
  fold_left (fun d c => api_step c d) calls d.



(** ** Runs, rings and lines: what the further properties speak of *)

(** What an accepted modem command leaves behind. *)
Definition modem_exchange_started (env : Env) (s' : Engine) : Prop :=
  thRespTimeOut s' = StartTimer (now env) STANDARD_RSP_TIMEOUT
  /\ (ATCmdState s' = AT_CMD_SENDING \/ ATCmdState s' = AT_CMD_RCVING)
  /\ cisPort s' = DATA_PORT
  /\ rxq s' = []
  /\ wRxIndex s' = 0.

(** What an accepted aux-board command leaves behind. *)
Definition aux_exchange_started (env : Env) (s' : Engine) : Prop :=
  thCISRespTimeOut s' = StartTimer (now env) STANDARD_RSP_TIMEOUT
  /\ ATCmdState s' = AT_CMD_PGMING
  /\ cisPort s' = PROGRAMMING_PORT
  /\ rxq s' = []
  /\ wRxIndex s' = 0.

(** The codes of a run in the order of their first appearance. *)
Definition distinct_codes (l : list Z) : list Z :=
  fold_left (fun acc c => if in_dec Z.eq_dec c acc then acc else acc ++ [c]) l [].

(** A run of ModemLog calls, each with what it reads from outside, its file
    name and its code. *)
Definition ModemLog_all (calls : list (ModemLogC.LogEnv * list Z * Z))
  (sm : Engine * ModemLogC.Module_state) : Engine * ModemLogC.Module_state :=
  fold_left (fun sm (call : ModemLogC.LogEnv * list Z * Z) =>
               let '(env, szFileName, errCode) := call in
               ModemLogC.ModemLog env szFileName errCode (fst sm) (snd sm)) calls sm.

(** The codes of a run, in the order of the calls. *)
Definition codes_of (calls : list (ModemLogC.LogEnv * list Z * Z)) : list Z := map snd calls.

(** How often [c] was logged in a run, and the GPS time of the last call that
    logged it. *)
Definition times_logged (c : Z) (calls : list (ModemLogC.LogEnv * list Z * Z)) : Z :=
  Z.of_nat (count_occ Z.eq_dec (codes_of calls) c).

Definition last_stamp (c : Z) (calls : list (ModemLogC.LogEnv * list Z * Z)) : Z :=
  fold_left (fun acc (call : ModemLogC.LogEnv * list Z * Z) =>
               if snd call =? c then ModemLogC.GetGpsTime (fst (fst call)) else acc)
    calls 0.

(** The entry the table holds for a code after a run. *)
Definition entry_after (calls : list (ModemLogC.LogEnv * list Z * Z)) (c : Z)
  : ModemLogC.MODEMLOG_STRUCT :=
  ModemLogC.Build_MODEMLOG_STRUCT (last_stamp c calls) c (times_logged c calls mod 256).

(** The table after a run that fits: the codes in the order of their first
    appearance, each with its entry, then the slots never used. *)
Definition table_after (calls : list (ModemLogC.LogEnv * list Z * Z))
  (m : ModemLogC.Module_state) : Prop :=
  let ds := distinct_codes (codes_of calls) in
  List.length (ModemLogC.bufferedErrs m) = 15%nat
  /\ ModemLogC.wBufferedIndex m = (Z.of_nat (List.length ds) + 14) mod 15
  /\ (forall k, (k < List.length ds)%nat ->
        nth k (ModemLogC.bufferedErrs m) ModemLogC.empty_entry = entry_after calls (nth k ds 0))
  /\ (forall k, (List.length ds <= k < 15)%nat ->
        nth k (ModemLogC.bufferedErrs m) ModemLogC.empty_entry = ModemLogC.empty_entry).

(** A module state before ModemLogInit. *)
Definition Module_state_raw : ModemLogC.Module_state :=
  ModemLogC.Build_Module_state true [] 0 (ModemLogC.Build_RECORDQUEUE 0 0 []) [] [].

(** A call at GPS time [t] with the log file at hand. *)
Definition LogEnv_at (t : Z) : ModemLogC.LogEnv := ModemLogC.Build_LogEnv t [] true.

(** Codes parked one after the other, and calls of MonitorModemLogErrors one
    after the other. *)
Definition RecordModemLogError_all (overwrites : bool) (codes : list Z)
  (m : ModemLogC.Module_state) : ModemLogC.Module_state :=
  fold_left (fun m c => ModemLogC.RecordModemLogError overwrites c m) codes m.

Definition MonitorModemLogErrors_all (NO_RPT : list Z) (envs : list ModemLogC.LogEnv)
  (sm : Engine * ModemLogC.Module_state) : Engine * ModemLogC.Module_state :=
  fold_left (fun sm env => ModemLogC.MonitorModemLogErrors NO_RPT env (fst sm) (snd sm))
    envs sm.

(** The codes of the lines of the log file, oldest first. *)
Definition logged_codes (l : list ModemLogC.LOG_FILE_ENTRY) : list Z :=
  flat_map (fun e => match e with
                     | ModemLogC.LogFileHeader => []
                     | ModemLogC.LogLine line => [ModemLogC.line_code line]
                     end) l.

(** Nothing is parked: the two indices meet inside the ring and every slot
    holds MODEMLOG_START_CODES. *)
Definition ring_idle (m : ModemLogC.Module_state) : Prop :=
  let q := ModemLogC.RecordQueue m in
  0 <= ModemLogC.rq_wReadIndex q < ModemLogC.RECORD_Q_LEN
  /\ ModemLogC.rq_wWriteIndex q = ModemLogC.rq_wReadIndex q
  /\ ModemLogC.byRecordQBuff q = repeat 0 (Z.to_nat ModemLogC.RECORD_Q_LEN).

(** The ring holds the codes [P], oldest first, and nothing else. *)
Definition ring_holds (q : ModemLogC.RECORDQUEUE) (P : list Z) : Prop :=
  let r := ModemLogC.rq_wReadIndex q in
  let buf := ModemLogC.byRecordQBuff q in
  0 <= r < 28
  /\ ModemLogC.rq_wWriteIndex q = (r + Z.of_nat (List.length P)) mod 28
  /\ List.length buf = 28%nat
  /\ (forall k, (k < List.length P)%nat ->
        nth (Z.to_nat ((r + Z.of_nat k) mod 28)) buf 0 = nth k P 0)
  /\ (forall i, (i < 28)%nat ->
        (forall k, (k < List.length P)%nat -> i <> Z.to_nat ((r + Z.of_nat k) mod 28)) ->
        nth i buf 0 = 0)
  /\ NoDup P
  /\ Forall (fun c => 0 < c < 28) P.

(** The two host service request bits of a line, high bit first. *)
Definition line_request (h lo : Z) : bool * bool := (Z.testbit h (lo + 1), Z.testbit h lo).

(** [f] writes the request [v] of the line at bits [lo + 1] and [lo] of one
    register (HSRR1 if [on_HSRR1], else HSRR0), keeps the other bits of this
    16-bit register and keeps every other register. *)
Definition drives_line (f : ModemSerial.Registers -> ModemSerial.Registers)
  (on_HSRR1 : bool) (lo : Z) (v : bool * bool) : Prop :=
  forall r,
    let get := if on_HSRR1 then ModemSerial.HSRR1 else ModemSerial.HSRR0 in
    let set := if on_HSRR1 then ModemSerial.set_HSRR1 else ModemSerial.set_HSRR0 in
    line_request (get (f r)) lo = v
    /\ (forall n, 0 <= n < 16 -> n <> lo -> n <> lo + 1 ->
          Z.testbit (get (f r)) n = Z.testbit (get r) n)
    /\ f r = set (get (f r)) r.

(** Sample configuration and registers. *)
Definition SERIAL_CFG_9E : ModemSerial.SERIAL_CFG :=
  ModemSerial.Build_SERIAL_CFG 19200 9 ModemSerial.PARITY_EVEN 1 ModemSerial.RTS_CTS_FLOW_CNTL.

Definition Registers_zero : ModemSerial.Registers := ModemSerial.Build_Registers 0 0 0 0 0 0 0.

(** The commands sent to the modem whose answer CleanUpOnIdle settles. *)
Definition settled_by_CleanUpOnIdle (cmd : MODEM_COMMANDS) : bool :=
  match cmd with
  | TXING_FILE | TXING_BUFFER | TXING_TEXT | CALL_STATUS | MAILBOX_CHECK | GATEWAY_CHECK
  | GETTING_CSQ | CALL_HANGUP => true
  | _ => false
  end.

(** The modem without power, everything else calm. *)
Definition Env_modem_off (t : Z) : Env :=
  Build_Env t false true false false true true None ERROR_IMEI 0 true [] true true true true
    true None 0 [] 0 (fun _ => MT_SYSTEM_ACTION) None false.

(** * Properties *)

(** ** Satellite response time (C10) *)

Lemma wSatelliteTimeout_set (t : Z) (s : Engine) :
  0 <= t <= 255 ->
  wSatelliteTimeout (snd (SetModemCmdRspTimeInSeconds t s)) = (t * 1000) mod 65536.
Proof.
  intros Ht. unfold SetModemCmdRspTimeInSeconds, to_WORD. cbn [snd].
  unfold set_wSatelliteTimeout. cbn [wSatelliteTimeout].
  rewrite (Z.mod_small t 65536) by lia.
  rewrite (Z.mod_small (t * 1000) (2 ^ 32)) by lia.
  reflexivity.
Qed.

(** C10, as the code has it: the time-out is stored as [(t * 1000) mod 2^16]
    milliseconds; reading it back gives [t] exactly for [t] in 0..65, and
    for every [t] in 66..255 the stored value is smaller than [t * 1000] and
    reads back as at most 65 seconds, never as [t]. *)
Theorem C10_rsp_time_round_trip (t : Z) (s : Engine) :
  0 <= t <= 255 ->
  let s' := snd (SetModemCmdRspTimeInSeconds t s) in
  wSatelliteTimeout s' = (t * 1000) mod 65536
  /\ (GetModemCmdRspTimeInSeconds s' = t <-> t <= 65)
  /\ (66 <= t ->
      wSatelliteTimeout s' < t * 1000
      /\ GetModemCmdRspTimeInSeconds s' <= 65
      /\ GetModemCmdRspTimeInSeconds s' <> t).
Proof.
  intros Ht s'.
  assert (Hw : wSatelliteTimeout s' = (t * 1000) mod 65536)
    by (apply wSatelliteTimeout_set; exact Ht).
  assert (Hrange : 0 <= (t * 1000) mod 65536 < 65536)
    by (apply Z.mod_pos_bound; lia).
  assert (Hget : GetModemCmdRspTimeInSeconds s' = ((t * 1000) mod 65536) / 1000).
  { unfold GetModemCmdRspTimeInSeconds, to_BYTE. rewrite Hw.
    apply Z.mod_small. split.
    - apply Z.div_pos; lia.
    - apply Z.div_lt_upper_bound; lia. }
  assert (Hle : ((t * 1000) mod 65536) / 1000 <= 65).
  { apply Z.lt_succ_r. apply Z.div_lt_upper_bound; lia. }
  split; [exact Hw|]. split.
  - rewrite Hget. split.
    + intros Heq. lia.
    + intros Hsmall. rewrite Z.mod_small by lia. apply Z.div_mul. lia.
  - intros Hbig. rewrite Hget, Hw. split; [|split].
    + assert (65536 <= t * 1000) by lia.
      pose proof (Z.mod_pos_bound (t * 1000) 65536 ltac:(lia)). lia.
    + exact Hle.
    + lia.
Qed.

(** The round trip at the default of 65 seconds. *)
Lemma C10_rsp_time_round_trip_witness :
  0 <= 65 <= 255
  /\ wSatelliteTimeout (snd (SetModemCmdRspTimeInSeconds 65 Engine_idle)) = (65 * 1000) mod 65536
  /\ (GetModemCmdRspTimeInSeconds (snd (SetModemCmdRspTimeInSeconds 65 Engine_idle)) = 65
      <-> 65 <= 65).
Proof.
  split; [lia|].
  destruct (C10_rsp_time_round_trip 65 Engine_idle ltac:(lia)) as [Hw [Hrt _]].
  split; [exact Hw | exact Hrt].
Defined.

(** C10 as claimed fails at 67 seconds: the stored time-out is 1464 ms, which
    is not below one second. *)
Lemma C10_stored_value_not_below_one_second :
  66 <= 67 <= 255
  /\ wSatelliteTimeout (snd (SetModemCmdRspTimeInSeconds 67 Engine_idle)) = 1464
  /\ ~ wSatelliteTimeout (snd (SetModemCmdRspTimeInSeconds 67 Engine_idle)) < 1000.
Proof.
  split; [lia|]. split; [reflexivity|].
  vm_compute. intros H. discriminate H.
Qed.

(** ** One command in flight (C1) *)

Lemma dispatch_refused (env : Env) (op : DISPATCH) (s : Engine) :
  admits op (ATCmdState s) = false -> dispatch env op s = (false, s).
Proof.
  intros Hadm.
  destruct op; cbn [dispatch];
    unfold SendWriteTextMsgCmd, SendBinaryFile, SendBinaryBuffer, CheckGateway, CheckMailbox,
      SendCSQCmd, SendReadBinaryFileCmd, SendCLCCCmd, SendCallHangupCmd, SendCREGCmd,
      SendDownloadCISCmd, SendProgramCISCmd, SendCISResetCmd, SendSetRingerCmd,
      SendGetRingerStatusCmd, SendSetRelayCmd, SendGetRelayStatusCmd;
    destruct (ATCmdState s); cbn in Hadm; try discriminate Hadm; reflexivity.
Qed.

Lemma in_flight_not_admitted (op : DISPATCH) (st : AT_CMD_STATES) :
  command_in_flight st = true -> admits op st = false.
Proof. destruct st; cbn; intros H; try discriminate H; reflexivity. Qed.

(** C1: after any sequence of calls, ticks and replies, a dispatch made in a
    state the spec does not admit (anything but IDLE, or POWERED_DOWN for the
    aux commands) returns FALSE and leaves the engine exactly as it was; a
    dispatch that returns TRUE was made in an admitting state; hence while a
    command is in flight no second one is sent. *)
Theorem C1_one_command_in_flight (evs : list EVENT) (d0 : Driver) (env : Env) (op : DISPATCH) :
  let s := eng (run evs d0) in
  (admits op (ATCmdState s) = false -> dispatch env op s = (false, s))
  /\ (fst (dispatch env op s) = true -> admits op (ATCmdState s) = true)
  /\ (command_in_flight (ATCmdState s) = true ->
      dispatch env op s = (false, s) /\ tx (snd (dispatch env op s)) = tx s).
Proof.
  intros s. split; [|split].
  - apply dispatch_refused.
  - intros Hok. destruct (admits op (ATCmdState s)) eqn:Hadm; [reflexivity|].
    rewrite (dispatch_refused env op s Hadm) in Hok. discriminate Hok.
  - intros Hfl. pose proof (in_flight_not_admitted op _ Hfl) as Hadm.
    rewrite (dispatch_refused env op s Hadm). split; reflexivity.
Qed.

(** A CSQ probe is dispatched from idle; the gateway check asked for while it
    is in flight is refused and nothing changes. *)
Lemma C1_one_command_in_flight_witness :
  let s := eng (run [Ev_dispatch (Env_calm 0) Call_SendCSQCmd] Driver_idle) in
  command_in_flight (ATCmdState s) = true
  /\ dispatch (Env_calm 1) Call_CheckGateway s = (false, s).
Proof.
  intros s.
  assert (Hfl : command_in_flight (ATCmdState s) = true) by reflexivity.
  split; [exact Hfl|].
  exact (proj1 (proj2 (proj2
           (C1_one_command_in_flight [Ev_dispatch (Env_calm 0) Call_SendCSQCmd] Driver_idle
              (Env_calm 1) Call_CheckGateway)) Hfl)).
Defined.

(** ** What the response analysers leave alone *)

Lemma keeps_refl (s : Engine) : keeps s s.
Proof. unfold keeps. repeat split; reflexivity. Qed.

Lemma keeps_trans (s1 s2 s3 : Engine) : keeps s1 s2 -> keeps s2 s3 -> keeps s1 s3.
Proof.
  unfold keeps. intros (A1 & A2 & A3 & A4 & A5 & A6) (B1 & B2 & B3 & B4 & B5 & B6).
  repeat split; congruence.
Qed.

Ltac keeps_now := unfold keeps; cbn; repeat split; reflexivity.

Ltac break_match :=
  match goal with
  | |- context [match ?x with _ => _ end] => destruct x eqn:?
  end.

Lemma GetModemPortChar_keeps (s : Engine) (b : Z) (s' : Engine) :
  GetModemPortChar s = Some (b, s') -> keeps s s'.
Proof.
  unfold GetModemPortChar. destruct (rxq s); intros H; inversion H; subst. keeps_now.
Qed.

Lemma GetResponseBuffer_loop_keeps (EOL : Z) (pending : list Z) :
  forall s, keeps s (snd (GetResponseBuffer_loop EOL pending s)).
Proof.
  induction pending as [|b q IH]; intros s; cbn [GetResponseBuffer_loop].
  - keeps_now.
  - destruct (MAX_CMD_LINE_LEN <=? wRxIndex s); destruct (b =? EOL);
      first [ keeps_now | eapply keeps_trans; [|apply IH]; keeps_now ].
Qed.

Lemma GetResponseBuffer_keeps (EOL : Z) (s : Engine) :
  keeps s (snd (GetResponseBuffer EOL s)).
Proof. apply GetResponseBuffer_loop_keeps. Qed.

Lemma GetLastRsp_keeps (s : Engine) : keeps s (snd (GetLastRsp s)).
Proof.
  unfold GetLastRsp. destruct (GetModemPortChar s) as [[b s1]|] eqn:E; [|apply keeps_refl].
  apply GetModemPortChar_keeps in E.
  repeat break_match; cbn [snd]; try exact E; (eapply keeps_trans; [exact E|]; keeps_now).
Qed.

(** The pattern of every line analyser: after GetResponseBuffer, a decision
    that changes nothing [keeps] is about. *)
Ltac line_analyser EOL s :=
  let c := fresh "complete" in
  let s1 := fresh "s" in
  let E := fresh "E" in
  let K := fresh "K" in
  pose proof (GetResponseBuffer_keeps EOL s) as K;
  destruct (GetResponseBuffer EOL s) as [c s1] eqn:E; cbn [snd] in K;
  destruct c; cbn [negb];
  repeat break_match; cbn [snd];
  first [ exact K | eapply keeps_trans; [exact K|]; keeps_now ].

Lemma GetWriteBinaryMsgRsp_keeps (s : Engine) : keeps s (snd (GetWriteBinaryMsgRsp s)).
Proof. unfold GetWriteBinaryMsgRsp. line_analyser LINE_FEED s. Qed.

Lemma GetInitiateSBDSessionRsp_keeps (s : Engine) :
  keeps s (snd (GetInitiateSBDSessionRsp s)).
Proof. unfold GetInitiateSBDSessionRsp. line_analyser LINE_FEED s. Qed.

Lemma GetReqCurrCallStatusRsp_keeps (s : Engine) :
  keeps s (snd (GetReqCurrCallStatusRsp s)).
Proof. unfold GetReqCurrCallStatusRsp. line_analyser LINE_FEED s. Qed.

Lemma GetSBDStatusRsp_keeps (s : Engine) : keeps s (snd (GetSBDStatusRsp s)).
Proof. unfold GetSBDStatusRsp. line_analyser LINE_FEED s. Qed.

Lemma GetCREGRsp_keeps (s : Engine) : keeps s (snd (GetCREGRsp s)).
Proof. unfold GetCREGRsp. line_analyser LINE_FEED s. Qed.

Lemma GetCSQRsp_keeps (s : Engine) : keeps s (snd (GetCSQRsp s)).
Proof. unfold GetCSQRsp. line_analyser LINE_FEED s. Qed.

Lemma GetIMEIRsp_keeps (s : Engine) : keeps s (snd (GetIMEIRsp s)).
Proof. unfold GetIMEIRsp. line_analyser CARRIAGE_RETURN s. Qed.

Lemma GetCISVersionStatusRsp_keeps (s : Engine) :
  keeps s (snd (GetCISVersionStatusRsp s)).
Proof. unfold GetCISVersionStatusRsp. line_analyser CARRIAGE_RETURN s. Qed.

Lemma drain_revision_keeps (pending : list Z) : forall s, keeps s (drain_revision pending s).
Proof.
  induction pending as [|b q IH]; intros s; cbn [drain_revision].
  - keeps_now.
  - destruct (wRxIndex s <? 145); [eapply keeps_trans; [|apply IH]|]; keeps_now.
Qed.

Lemma GetModemVerRsp_keeps (s : Engine) : keeps s (snd (GetModemVerRsp s)).
Proof.
  unfold GetModemVerRsp.
  pose proof (GetResponseBuffer_keeps CARRIAGE_RETURN s) as K.
  destruct (GetResponseBuffer CARRIAGE_RETURN s) as [c s1] eqn:E; cbn [snd] in K.
  destruct c; cbn [negb]; [|exact K].
  break_match; cbn [snd]; [|exact K].
  eapply keeps_trans; [exact K|]. eapply keeps_trans; [|apply drain_revision_keeps]. keeps_now.
Qed.

Lemma GetDualResponse_loop_keeps (e1 e2 : Z) (pending : list Z) :
  forall s, keeps s (snd (GetDualResponse_loop e1 e2 pending s)).
Proof.
  induction pending as [|b q IH]; intros s; cbn [GetDualResponse_loop].
  - keeps_now.
  - repeat break_match; cbn [snd];
      first [ keeps_now | eapply keeps_trans; [|apply IH]; keeps_now ].
Qed.

Lemma GetCISPortRsp_keeps (s : Engine) : keeps s (snd (GetCISPortRsp s)).
Proof.
  unfold GetCISPortRsp, GetDualResponse.
  match goal with
  | |- context [GetDualResponse_loop ?a ?b ?q ?s0] =>
      pose proof (GetDualResponse_loop_keeps a b q s0) as K;
      destruct (GetDualResponse_loop a b q s0) as [c s1] eqn:E
  end.
  cbn [snd] in K. destruct c; cbn [negb]; repeat break_match; cbn [snd]; exact K.
Qed.

Lemma overflow_check_keeps (s : Engine) : keeps s (overflow_check s).
Proof. unfold overflow_check. break_match; keeps_now. Qed.

Lemma match_status_char_keeps (rsp : CIS_RSP_LIST) (done : Engine -> Engine) (b : Z)
  (s : Engine) :
  (forall s0, keeps s0 (done s0)) ->
  (forall s', fst (match_status_char rsp done b s) = Some s' -> keeps s s')
  /\ keeps s (snd (snd (match_status_char rsp done b s))).
Proof.
  intros Hdone. unfold match_status_char.
  destruct (b =? array_get (CIS_RSPS rsp) (wRxIndex s)); cbn [fst snd].
  - assert (K : keeps s (set_wRxIndex (wRxIndex s + 1) s)) by keeps_now.
    break_match; cbn [fst snd]; split; try exact K.
    + intros s' H. inversion H; subst. eapply keeps_trans; [exact K|apply Hdone].
    + intros s' H. discriminate H.
  - split; [intros s' H; discriminate H | apply keeps_refl].
Qed.

Lemma status_loop_keeps (off on : CIS_RSP_LIST) (done_off done_on : Engine -> Engine) :
  (forall s, keeps s (done_off s)) ->
  (forall s, keeps s (done_on s)) ->
  forall pending s, keeps s (snd (status_loop off on done_off done_on pending s)).
Proof.
  intros Hoff Hon. induction pending as [|b q IH]; intros s; cbn [status_loop].
  - keeps_now.
  - destruct (match_status_char_keeps off done_off b s Hoff) as [A1 A2].
    destruct (match_status_char off done_off b s) as [[s1|] [b1 s2]]; cbn [fst snd] in A1, A2.
    + cbn [snd]. eapply keeps_trans; [apply A1; reflexivity|]. keeps_now.
    + destruct (match_status_char_keeps on done_on b1 s2 Hon) as [B1 B2].
      destruct (match_status_char on done_on b1 s2) as [[s3|] [b3 s4]]; cbn [fst snd] in B1, B2.
      * cbn [snd]. eapply keeps_trans; [exact A2|].
        eapply keeps_trans; [apply B1; reflexivity|]. keeps_now.
      * eapply keeps_trans; [exact A2|]. eapply keeps_trans; [exact B2|].
        eapply keeps_trans; [apply overflow_check_keeps|]. apply IH.
Qed.

Lemma GetRingerStatusRsp_keeps (s : Engine) : keeps s (snd (GetRingerStatusRsp s)).
Proof.
  unfold GetRingerStatusRsp. apply status_loop_keeps; intros s0; keeps_now.
Qed.

Lemma GetRelayStatusRsp_keeps (s : Engine) : keeps s (snd (GetRelayStatusRsp s)).
Proof.
  unfold GetRelayStatusRsp.
  destruct (byCurrRelayNbr (modemInfo s) =? RELAY_1);
    [apply status_loop_keeps; intros s0; keeps_now|].
  destruct (byCurrRelayNbr (modemInfo s) =? RELAY_2);
    [apply status_loop_keeps; intros s0; keeps_now|].
  destruct (GetModemPortChar s) as [[b s1]|] eqn:E; cbn [snd]; [|apply keeps_refl].
  eapply GetModemPortChar_keeps; exact E.
Qed.

Lemma CaptureCISOutput_loop_keeps (pending : list Z) :
  forall s, keeps s (snd (CaptureCISOutput_loop pending s)).
Proof.
  induction pending as [|b q IH]; intros s; cbn [CaptureCISOutput_loop].
  - break_match; keeps_now.
  - break_match; cbn [snd]; [eapply keeps_trans; [|apply IH]|]; keeps_now.
Qed.

Lemma CaptureCISOutput_keeps (s : Engine) : keeps s (snd (CaptureCISOutput s)).
Proof. apply CaptureCISOutput_loop_keeps. Qed.

(** ** The four tests at the head of a tick *)

Lemma UpdateModemState_modem_power_result (env : Env) (s : Engine) :
  UpdateModemState_modem_power env s = s
  \/ exchange_ended (UpdateModemState_modem_power env s).
Proof.
  unfold UpdateModemState_modem_power, exchange_ended.
  destruct (IsModemRunning env); cbn [negb]; [left; reflexivity|].
  destruct (ATCmdState s); first [ left; reflexivity | right; split; [right|]; reflexivity ].
Qed.

Lemma UpdateModemState_rsp_timeout_idle (env : Env) (s : Engine) :
  TimerExpired (now env) (thRespTimeOut s) = false ->
  UpdateModemState_rsp_timeout env s = s.
Proof. intros H. unfold UpdateModemState_rsp_timeout. rewrite H. reflexivity. Qed.

Lemma UpdateModemState_rsp_timeout_fired (env : Env) (s : Engine) :
  TimerExpired (now env) (thRespTimeOut s) = true ->
  let s1 := UpdateModemState_rsp_timeout env s in
  ATCmdState s1 = AT_CMD_TIMED_OUT
  /\ cisPort s1 = DATA_PORT
  /\ thRespTimeOut s1 = StopTimer
  /\ thCISRespTimeOut s1 = thCISRespTimeOut s
  /\ errorCodeRsp s1 =
       match subState s with
       | SEND_STATUS_CMD | SEND_CSQ_CMD => errorCodeRsp s
       | _ => MEC_RSP_TIMED_OUT
       end
  /\ byMTStatus (modemInfo s1) =
       match subState s with
       | SEND_STATUS_CMD => FAILED_MSG
       | _ => byMTStatus (modemInfo s)
       end.
Proof.
  intros H. unfold UpdateModemState_rsp_timeout. rewrite H.
  destruct s as [st sub]. cbn. destruct sub; cbn; repeat split; reflexivity.
Qed.

Lemma UpdateModemState_rsp_timeout_result (env : Env) (s : Engine) :
  UpdateModemState_rsp_timeout env s = s
  \/ exchange_ended (UpdateModemState_rsp_timeout env s).
Proof.
  destruct (TimerExpired (now env) (thRespTimeOut s)) eqn:H.
  - right. destruct (UpdateModemState_rsp_timeout_fired env s H) as (H1 & H2 & _).
    split; [left; exact H1 | exact H2].
  - left. apply UpdateModemState_rsp_timeout_idle. exact H.
Qed.

Lemma UpdateModemState_cis_power_other (env : Env) (s : Engine) :
  ATCmdState s <> AT_CMD_PGMING -> UpdateModemState_cis_power env s = s.
Proof.
  intros H. unfold UpdateModemState_cis_power.
  destruct (CISPowered env); cbn [negb]; [reflexivity|].
  destruct (ATCmdState s); first [ reflexivity | contradiction H; reflexivity ].
Qed.

Lemma UpdateModemState_cis_power_result (env : Env) (s : Engine) :
  UpdateModemState_cis_power env s = s
  \/ exchange_ended (UpdateModemState_cis_power env s).
Proof.
  unfold UpdateModemState_cis_power, exchange_ended.
  destruct (CISPowered env); cbn [negb]; [left; reflexivity|].
  destruct (ATCmdState s); first [ left; reflexivity | right; split; [right|]; reflexivity ].
Qed.

Lemma UpdateModemState_cis_timeout_idle (env : Env) (s : Engine) :
  TimerExpired (now env) (thCISRespTimeOut s) = false ->
  UpdateModemState_cis_timeout env s = s.
Proof. intros H. unfold UpdateModemState_cis_timeout. rewrite H. reflexivity. Qed.

Lemma UpdateModemState_cis_timeout_fired (env : Env) (s : Engine) :
  TimerExpired (now env) (thCISRespTimeOut s) = true ->
  let s1 := UpdateModemState_cis_timeout env s in
  ATCmdState s1 = AT_CMD_TIMED_OUT
  /\ cisPort s1 = DATA_PORT
  /\ thRespTimeOut s1 = thRespTimeOut s
  /\ thCISRespTimeOut s1 = StopTimer
  /\ errorCodeRsp s1 = MEC_RSP_TIMED_OUT
  /\ modemInfo s1 = modemInfo s.
Proof.
  intros H. unfold UpdateModemState_cis_timeout. rewrite H.
  destruct s. cbn. repeat split; reflexivity.
Qed.

Lemma UpdateModemState_cis_timeout_result (env : Env) (s : Engine) :
  UpdateModemState_cis_timeout env s = s
  \/ exchange_ended (UpdateModemState_cis_timeout env s).
Proof.
  destruct (TimerExpired (now env) (thCISRespTimeOut s)) eqn:H.
  - right. destruct (UpdateModemState_cis_timeout_fired env s H) as (H1 & H2 & _).
    split; [left; exact H1 | exact H2].
  - left. apply UpdateModemState_cis_timeout_idle. exact H.
Qed.

(** The head of a tick leaves the engine as it was, or ends the exchange
    with the routing restored. *)
Lemma UpdateModemState_supervise_result (env : Env) (s : Engine) :
  UpdateModemState_supervise env s = s
  \/ exchange_ended (UpdateModemState_supervise env s).
Proof.
  unfold UpdateModemState_supervise. cbv zeta.
  assert (Hthen : forall (f : Engine -> Engine) (s0 : Engine),
             (forall x, f x = x \/ exchange_ended (f x)) ->
             s0 = s \/ exchange_ended s0 -> f s0 = s \/ exchange_ended (f s0)).
  { intros f s0 Hf [E | E].
    - subst s0. apply Hf.
    - destruct (Hf s0) as [E' | E']; [rewrite E'; right; exact E | right; exact E']. }
  apply Hthen; [apply UpdateModemState_cis_timeout_result|].
  apply Hthen; [apply UpdateModemState_cis_power_result|].
  apply Hthen; [apply UpdateModemState_rsp_timeout_result|].
  apply UpdateModemState_modem_power_result.
Qed.

(** ** Time-out of the modem response timer (C5) *)




(** ** Routing restored after an aux-board exchange (C6) *)

Lemma SendCISPortCmd_result (env : Env) (s : Engine) :
  ATCmdState (snd (SendCISPortCmd env s)) = AT_CMD_PGMING \/ snd (SendCISPortCmd env s) = s.
Proof.
  unfold SendCISPortCmd. destruct (CISPowered env); cbn [negb snd]; [left|right]; reflexivity.
Qed.

Lemma SendCISLoadConfigLineCmd_result (env : Env) (s : Engine) :
  SendCISLoadConfigLineCmd env s = (false, s)
  \/ (fst (SendCISLoadConfigLineCmd env s) = true
      /\ ATCmdState (snd (SendCISLoadConfigLineCmd env s)) = AT_CMD_PGMING).
Proof.
  unfold SendCISLoadConfigLineCmd. destruct (GetCISConfigLine env); [right|left].
  - split; reflexivity.
  - reflexivity.
Qed.

Ltac stay K H := left; rewrite (proj1 K); exact H.

Lemma on_cis_response_routing (s : Engine) (r : MODEM_RESPONSES * Engine) :
  ATCmdState s = AT_CMD_PGMING -> keeps s (snd r) -> routing_ok (on_cis_response r).
Proof.
  intros H K. destruct r as [[| | |] s1]; cbn [snd] in K; cbn [on_cis_response];
    first [ right; reflexivity | stay K H ].
Qed.

Lemma UpdateModemState_PGMING_routing (env : Env) (s : Engine) :
  ATCmdState s = AT_CMD_PGMING -> routing_ok (UpdateModemState_PGMING env s).
Proof.
  intros H. unfold UpdateModemState_PGMING.
  destruct (subState s); try (left; exact H).
  - apply (on_cis_response_routing s); [exact H | apply GetCISPortRsp_keeps].
  - apply (on_cis_response_routing s); [exact H | apply GetRingerStatusRsp_keeps].
  - apply (on_cis_response_routing s); [exact H | apply GetRelayStatusRsp_keeps].
  - pose proof (GetCISPortRsp_keeps s) as K.
    destruct (GetCISPortRsp s) as [[| | |] s1]; cbn [snd] in K;
      first [ right; reflexivity | stay K H | left; cbn; rewrite (proj1 K); exact H ].
  - pose proof (CaptureCISOutput_keeps s) as K.
    destruct (CaptureCISOutput s) as [[|] s1]; cbn [snd] in K;
      first [ right; reflexivity | stay K H ].
  - pose proof (GetCISVersionStatusRsp_keeps s) as K.
    destruct (GetCISVersionStatusRsp s) as [[| | |] s1]; cbn [snd] in K;
      try (right; reflexivity); try (stay K H).
    left.
    match goal with
    | |- context [SendCISPortCmd env ?s0] =>
        destruct (SendCISPortCmd_result env s0) as [R | R];
        destruct (SendCISPortCmd env s0) as [b s2]; cbn [snd] in R
    end.
    + cbn. exact R.
    + subst s2. cbn. rewrite (proj1 K). exact H.
  - pose proof (GetCISPortRsp_keeps s) as K.
    destruct (GetCISPortRsp s) as [[| | |] s1]; cbn [snd] in K;
      first [ right; reflexivity | stay K H | left; cbn; rewrite (proj1 K); exact H ].
  - destruct (SendCISLoadConfigLineCmd_result env s) as [R | [R1 R2]].
    + rewrite R. cbn [negb]. right. reflexivity.
    + destruct (SendCISLoadConfigLineCmd env s) as [b s2]; cbn [fst snd] in R1, R2.
      subst b. cbn [negb]. left. exact R2.
  - destruct (GetModemPortChar s) as [[b s1]|] eqn:E; [|left; exact H].
    pose proof (GetModemPortChar_keeps _ _ _ E) as K.
    assert (Hcancel : forall s0, ATCmdState s0 = AT_CMD_PGMING ->
              routing_ok
                (let s0 := RecoverFromBadCISCmd env s0 in
                 let s0 := upd_modemInfo (set_cmdEnum CIS_CMD_LOAD_FLASH) s0 in
                 let '(_, s0) := SendCISPortCmd env s0 in
                 set_subState START_CIS_PGMING_CMD s0)).
    { intros s0 H0. cbv zeta. left.
      match goal with
      | |- context [SendCISPortCmd env ?s3] =>
          destruct (SendCISPortCmd_result env s3) as [R | R];
          destruct (SendCISPortCmd env s3) as [b0 s2]; cbn [snd] in R
      end.
      - cbn. exact R.
      - subst s2. cbn. exact H0. }
    assert (H1 : ATCmdState s1 = AT_CMD_PGMING) by (rewrite (proj1 K); exact H).
    assert (Hpassed : routing_ok
              match GetModemPortChar s1 with
              | Some (PROG_CIS_UPLOAD_SUCCESSFUL, s2) => end_cis_exchange AT_CMD_SUCCESS s2
              | Some (_, s2) => set_subState CIS_PGMING_CMD s2
              | None => set_subState CIS_PGMING_CMD s1
              end).
    { destruct (GetModemPortChar s1) as [[b2 s2]|] eqn:E2.
      - pose proof (GetModemPortChar_keeps _ _ _ E2) as K2.
        repeat break_match; first [ right; reflexivity | left; cbn; rewrite (proj1 K2); exact H1 ].
      - left. cbn. exact H1. }
    pose proof (Hcancel s1 H1) as Hcancelled.
    match type of Hcancelled with
    | routing_ok ?t => set (cancelled := t) in *; clearbody cancelled
    end.
    match type of Hpassed with
    | routing_ok ?t => set (passed := t) in *; clearbody passed
    end.
    repeat break_match; subst;
      first [ left; exact H1
            | right; reflexivity
            | exact Hcancelled
            | exact Hpassed ].
Qed.

Lemma voice_call_gate_keeps (env : Env) (s : Engine) : keeps s (snd (voice_call_gate env s)).
Proof. unfold voice_call_gate. repeat break_match; keeps_now. Qed.

Lemma UpdateModemState_POWERED_DOWN_port (env : Env) (s : Engine) :
  cisPort s = DATA_PORT -> cisPort (UpdateModemState_POWERED_DOWN env s) = DATA_PORT.
Proof.
  intros H. unfold UpdateModemState_POWERED_DOWN.
  destruct (IsModemRunning env); [|exact H].
  pose proof (voice_call_gate_keeps env s) as K.
  destruct (voice_call_gate env s) as [[|] s1]; cbn [snd] in K.
  - destruct K as (_ & _ & Kp & _). rewrite Kp. exact H.
  - unfold SendCommand. repeat break_match; reflexivity.
Qed.

(** The head of a tick, started in PGMING: the engine stays in PGMING with
    nothing decided, or the exchange was ended with the routing restored. *)
Lemma supervise_from_PGMING (env : Env) (s : Engine) :
  ATCmdState s = AT_CMD_PGMING ->
  let s1 := UpdateModemState_supervise env s in
  ATCmdState s1 = AT_CMD_PGMING
  \/ ((ATCmdState s1 = AT_CMD_TIMED_OUT \/ ATCmdState s1 = AT_CMD_POWERED_DOWN)
      /\ cisPort s1 = DATA_PORT).
Proof.
  intros H. cbv zeta.
  destruct (UpdateModemState_supervise_result env s) as [E | E].
  - left. rewrite E. exact H.
  - right. exact E.
Qed.

Lemma UpdateModemState_from_PGMING (env : Env) (d : Driver) :
  ATCmdState (eng d) = AT_CMD_PGMING -> routing_ok (eng (UpdateModemState env d)).
Proof.
  intros H. unfold UpdateModemState.
  destruct (supervise_from_PGMING env (eng d) H) as [Hpg | [[Hto | Hpd] Hport]];
    cbv zeta in *; unfold upd_eng at 1 2; cbn [eng set_eng].
  - rewrite Hpg. unfold upd_eng. cbn [eng set_eng].
    apply UpdateModemState_PGMING_routing. exact Hpg.
  - rewrite Hto. cbn [eng set_eng]. right. exact Hport.
  - rewrite Hpd. unfold upd_eng. cbn [eng set_eng]. right.
    apply UpdateModemState_POWERED_DOWN_port. exact Hport.
Qed.

(** C6: whatever ends an aux-board exchange (an answer analysed by a tick, a
    time-out, the loss of power, an acknowledgement or a reset from the upper
    layer), once the engine has left PGMING the routing is on DATA_PORT. *)
Theorem C6_routing_restored (ev : EVENT) (d : Driver) :
  ATCmdState (eng d) = AT_CMD_PGMING ->
  ATCmdState (eng (step ev d)) <> AT_CMD_PGMING ->
  cisPort (eng (step ev d)) = DATA_PORT.
Proof.
  intros H Hleft.
  assert (Hr : routing_ok (eng (step ev d))).
  { destruct ev as [env op | env | bytes | | | env]; cbn [step].
    - left. unfold upd_eng. cbn [eng set_eng].
      rewrite (dispatch_refused env op (eng d)); [exact H|]. rewrite H. reflexivity.
    - apply UpdateModemState_from_PGMING. exact H.
    - left. exact H.
    - right. reflexivity.
    - right. reflexivity.
    - unfold upd_eng, ResetModem. cbn [eng set_eng].
      repeat break_match; cbn [snd]; first [ left; exact H | right; reflexivity ]. }
  destruct Hr as [Hpg | Hport]; [contradiction | exact Hport].
Qed.

Lemma C6_routing_restored_witness :
  let d := Driver_waiting_for_ringer_status in
  cisPort (eng d) = PROGRAMMING_PORT
  /\ ATCmdState (eng (step (Ev_tick (Env_calm 5000)) d)) = AT_CMD_TIMED_OUT
  /\ cisPort (eng (step (Ev_tick (Env_calm 5000)) d)) = DATA_PORT.
Proof.
  intros d.
  assert (H : ATCmdState (eng d) = AT_CMD_PGMING) by (vm_compute; reflexivity).
  assert (Hto : ATCmdState (eng (step (Ev_tick (Env_calm 5000)) d)) = AT_CMD_TIMED_OUT)
    by (vm_compute; reflexivity).
  split; [vm_compute; reflexivity|]. split; [exact Hto|].
  apply (C6_routing_restored (Ev_tick (Env_calm 5000)) d H).
  rewrite Hto. discriminate.
Defined.

(** ** The SBDIX analyser (C2) *)






(** ** The SBDSX analyser (C7) *)

Lemma GetResponseBuffer_loop_modemInfo (EOL : Z) (pending : list Z) :
  forall s, modemInfo (snd (GetResponseBuffer_loop EOL pending s)) = modemInfo s.
Proof.
  induction pending as [|b q IH]; intros s; cbn [GetResponseBuffer_loop].
  - reflexivity.
  - destruct (MAX_CMD_LINE_LEN <=? wRxIndex s); destruct (b =? EOL);
      first [ reflexivity | rewrite IH; reflexivity ].
Qed.

Lemma GetResponseBuffer_modemInfo (EOL : Z) (s : Engine) :
  modemInfo (snd (GetResponseBuffer EOL s)) = modemInfo s.
Proof. apply GetResponseBuffer_loop_modemInfo. Qed.

(** C7, as the code has it.  Once the [+SBDSX:] line is assembled, the
    analyser stores the RA flag, and stores the queued count as MT queue
    number when the RA flag is not 1 and the MT queue number was zero; it
    also overwrites the MO and MT sequence-number texts with the second and
    fourth fields of the line.  Every other field of modemInfo is left as it
    was.  The answer is SUCCESS when, afterwards, the RA flag is 1 or the MT
    queue number is not zero, and FAILED otherwise. *)
Theorem C7_SBDSX_effect (s s1 : Engine) (buf : list Z) :
  GetResponseBuffer LINE_FEED s = (true, s1) ->
  response_after_header (AT_RSPS AT_RSP_SBD_STATUS) s1 = Some buf ->
  let ra := to_BYTE (StringToInt (StringTok_field buf 4)) in
  let queued := to_BYTE (StringToInt (StringTok_field buf 5)) in
  let r := fst (GetSBDStatusRsp s) in
  let mi := modemInfo s in
  let mi' := modemInfo (snd (GetSBDStatusRsp s)) in
  mi' = set_szMOMSN (StringTok_field buf 1)
          (set_szMTMSN (StringTok_field buf 3)
             (set_byRAFlag ra
                (set_byMTQueueNbr
                   (if (ra =? 1) || negb (byMTQueueNbr mi =? 0)
                    then byMTQueueNbr mi else queued) mi)))
  /\ (r = MR_SUCCESS <-> byRAFlag mi' = 1 \/ byMTQueueNbr mi' <> 0)
  /\ (r = MR_FAILED <-> ~ (byRAFlag mi' = 1 \/ byMTQueueNbr mi' <> 0)).
Proof.
  intros Hline Hhdr. cbv zeta.
  assert (Hmi : modemInfo s1 = modemInfo s).
  { pose proof (GetResponseBuffer_modemInfo LINE_FEED s) as E.
    rewrite Hline in E. exact E. }
  unfold GetSBDStatusRsp. rewrite Hline. cbn [negb]. rewrite Hhdr.
  set (ra := to_BYTE (StringToInt (StringTok_field buf 4))). clearbody ra.
  set (queued := to_BYTE (StringToInt (StringTok_field buf 5))). clearbody queued.
  set (momsn := StringTok_field buf 1). clearbody momsn.
  set (mtmsn := StringTok_field buf 3). clearbody mtmsn.
  rewrite <- Hmi. clear Hline Hhdr Hmi.
  destruct s1 as [st sub err rxb rxi pvs t1 t2 msg ck mi]. destruct mi as [a b c d e q].
  cbn -[Z.eqb]. unfold AT_RSP_SBD_STATUS_RA.
  destruct (ra =? 1) eqn:Era; cbn -[Z.eqb];
    [ apply Z.eqb_eq in Era | apply Z.eqb_neq in Era ].
  - split; [reflexivity|]. split; split; intros H; try reflexivity; try discriminate.
    + left. exact Era.
    + exfalso. apply H. left. exact Era.
  - destruct (q =? 0) eqn:Eq; cbn -[Z.eqb];
      [ apply Z.eqb_eq in Eq | apply Z.eqb_neq in Eq ].
    + destruct (queued =? 0) eqn:Equ; cbn -[Z.eqb];
        [ apply Z.eqb_eq in Equ | apply Z.eqb_neq in Equ ].
      * subst q queued. split; [reflexivity|].
        split; split; intros H; try reflexivity; try discriminate.
        -- destruct H as [H | H]; [contradiction | contradiction H; reflexivity].
        -- intros [H' | H']; [contradiction | contradiction H'; reflexivity].
      * split; [reflexivity|].
        split; split; intros H; try reflexivity; try discriminate.
        -- right. exact Equ.
        -- exfalso. apply H. right. exact Equ.
    + split; [reflexivity|].
      split; split; intros H; try reflexivity; try discriminate.
      * right. exact Eq.
      * exfalso. apply H. right. exact Eq.
Qed.

Lemma C7_SBDSX_effect_witness :
  let s := Engine_with_SBDSX_answer "+SBDSX: 0, 124, 0, -1, 0, 0" in
  fst (GetSBDStatusRsp s) = MR_FAILED
  /\ szMOMSN (modemInfo (snd (GetSBDStatusRsp s))) = str " 124"
  /\ szMTMSN (modemInfo (snd (GetSBDStatusRsp s))) = str " -1".
Proof.
  intros s.
  set (s1 := snd (GetResponseBuffer LINE_FEED s)).
  set (buf := StringMidCpy (byRxBuffer s1) 7 (wRxIndex s1)).
  assert (Hline : GetResponseBuffer LINE_FEED s = (true, s1)) by (vm_compute; reflexivity).
  assert (Hhdr : response_after_header (AT_RSPS AT_RSP_SBD_STATUS) s1 = Some buf)
    by (vm_compute; reflexivity).
  destruct (C7_SBDSX_effect s s1 buf Hline Hhdr) as (Hmi & _ & Hfailed).
  split; [|split].
  - apply Hfailed. rewrite Hmi. vm_compute. intros [H | H]; [discriminate H | apply H; reflexivity].
  - rewrite Hmi. vm_compute. reflexivity.
  - rewrite Hmi. vm_compute. reflexivity.
Defined.

(** The sequence numbers recorded from the SBDIX answer are replaced by the
    texts of the SBDSX line. *)
Lemma C7_SBDSX_overwrites_sequence_numbers :
  let s := Engine_with_SBDSX_answer "+SBDSX: 0, 124, 0, -1, 0, 0" in
  szMOMSN (modemInfo s) = str " 00123"
  /\ szMTMSN (modemInfo s) = str " 00042"
  /\ szMOMSN (modemInfo (snd (GetSBDStatusRsp s))) = str " 124"
  /\ szMTMSN (modemInfo (snd (GetSBDStatusRsp s))) = str " -1".
Proof. vm_compute. repeat split; reflexivity. Qed.

(** ** The binary payload and its checksum (C4) *)

Lemma checksum_loop_sum (P : list Z) :
  forall w, 0 <= w < 65536 -> checksum_loop P w = (w + fold_right Z.add 0 P) mod 65536.
Proof.
  induction P as [|b t IH]; intros w Hw; cbn [checksum_loop fold_right].
  - rewrite Z.add_0_r, Z.mod_small by lia. reflexivity.
  - rewrite IH by (unfold to_WORD; apply Z.mod_pos_bound; lia).
    unfold to_WORD. rewrite Zplus_mod_idemp_l. f_equal. lia.
Qed.

Lemma checksum_loop_spec (P : list Z) : checksum_loop P 0 = spec_checksum P.
Proof. rewrite checksum_loop_sum by lia. reflexivity. Qed.

Lemma HIBYTE_high_half (w : Z) : 0 <= w < 65536 -> HIBYTE w = w / 256.
Proof.
  intros Hw. unfold HIBYTE. rewrite Z.shiftr_div_pow2 by lia.
  change (2 ^ 8) with 256. apply Z.mod_small.
  split; [apply Z.div_pos; lia | apply Z.div_lt_upper_bound; lia].
Qed.

Lemma LOBYTE_low_half (w : Z) : LOBYTE w = w mod 256.
Proof. unfold LOBYTE. change 255 with (Z.ones 8). apply Z.land_ones. lia. Qed.

Lemma spec_checksum_range (P : list Z) : 0 <= spec_checksum P < 65536.
Proof. unfold spec_checksum. apply Z.mod_pos_bound. reflexivity. Qed.

Lemma GetResponseBuffer_loop_byBinMsgBuffer (EOL : Z) (pending : list Z) :
  forall s, byBinMsgBuffer (snd (GetResponseBuffer_loop EOL pending s)) = byBinMsgBuffer s.
Proof.
  induction pending as [|b q IH]; intros s; cbn [GetResponseBuffer_loop].
  - reflexivity.
  - destruct (MAX_CMD_LINE_LEN <=? wRxIndex s); destruct (b =? EOL);
      first [ reflexivity | rewrite IH; reflexivity ].
Qed.

(** The READY analyser leaves the outgoing message alone. *)
Lemma GetWriteBinaryMsgRsp_payload (s : Engine) :
  let s' := snd (GetWriteBinaryMsgRsp s) in
  byBinMsgBuffer s' = byBinMsgBuffer s /\ modemInfo s' = modemInfo s /\ tx s' = tx s.
Proof.
  cbv zeta. unfold GetWriteBinaryMsgRsp.
  pose proof (GetResponseBuffer_loop_byBinMsgBuffer LINE_FEED (rxq s) s) as Hb.
  pose proof (GetResponseBuffer_modemInfo LINE_FEED s) as Hm.
  pose proof (GetResponseBuffer_keeps LINE_FEED s) as (_ & _ & _ & _ & _ & Ht).
  fold (GetResponseBuffer LINE_FEED s) in Hb.
  destruct (GetResponseBuffer LINE_FEED s) as [c s1]. cbn [snd] in Hb, Hm, Ht.
  repeat break_match; cbn [snd]; repeat split; assumption.
Qed.

Lemma SendBinaryDataBuffer_tx (env : Env) (s : Engine) :
  let sent := firstn (Z.to_nat (to_WORD (dwTxMsgLen (modemInfo s)))) (byBinMsgBuffer s) in
  tx (SendBinaryDataBuffer env s) =
  tx s ++ sent ++ [HIBYTE (checksum_loop sent 0); LOBYTE (checksum_loop sent 0)].
Proof.
  cbv zeta. unfold SendBinaryDataBuffer. cbv zeta.
  unfold ModemPortSendBuffer, ClearBuffers, FlushModemSerialRxQueue, SetCISPort.
  destruct s. cbn -[firstn checksum_loop to_WORD Z.to_nat HIBYTE LOBYTE zeros].
  change (Z.to_nat 2) with 2%nat. cbn [firstn].
  rewrite <- app_assoc. reflexivity.
Qed.

(** A dispatch of SendBinaryBuffer from idle, for a size that fits a WORD. *)
Lemma SendBinaryBuffer_accepts (env : Env) (P : list Z) (n : Z) (s : Engine) :
  ATCmdState s = AT_CMD_IDLE ->
  0 < n <= 65535 ->
  let r := SendBinaryBuffer env P n s in
  fst r = true
  /\ ATCmdState (snd r) = AT_CMD_SENDING
  /\ subState (snd r) = SEND_READY_CMD
  /\ thRespTimeOut (snd r) = StartTimer (now env) STANDARD_RSP_TIMEOUT
  /\ thCISRespTimeOut (snd r) = thCISRespTimeOut s
  /\ dwTxMsgLen (modemInfo (snd r)) = Z.min n MAX_FILE_LEN
  /\ byBinMsgBuffer (snd r) = MemCpy (zeros MAX_FILE_LEN) P (Z.min n MAX_FILE_LEN)
  /\ errorCodeRsp (snd r) = (if MAX_FILE_LEN <? n then MEC_TRUNCATED_FILE else errorCodeRsp s).
Proof.
  intros Hidle Hn. cbv zeta. unfold SendBinaryBuffer. rewrite Hidle.
  unfold SendWriteBinaryMsgCmd, ModemPortSendBuffer, ClearBuffers, FlushModemSerialRxQueue,
    SetCISPort, upd_modemInfo.
  destruct s as [st sub err rxb rxi pvs t1 t2 msg ck mi]. destruct mi.
  cbn -[zeros MemCpy IntToString StringNCat StringLen Z.ltb Z.leb to_WORD firstn Z.to_nat
        MAX_FILE_LEN StartTimer].
  destruct (MAX_FILE_LEN <? n) eqn:Hbig;
    cbn -[zeros MemCpy IntToString StringNCat StringLen Z.ltb Z.leb to_WORD firstn Z.to_nat
          MAX_FILE_LEN StartTimer].
  - apply Z.ltb_lt in Hbig.
    rewrite Z.min_r by lia.
    unfold to_WORD. rewrite (Z.mod_small MAX_FILE_LEN) by (unfold MAX_FILE_LEN; lia).
    repeat split; reflexivity.
  - apply Z.ltb_ge in Hbig.
    destruct (n <=? 0) eqn:Hz; [apply Z.leb_le in Hz; lia|].
    cbn -[zeros MemCpy IntToString StringNCat StringLen Z.ltb Z.leb to_WORD firstn Z.to_nat
          MAX_FILE_LEN StartTimer].
    rewrite Z.min_l by lia.
    unfold to_WORD. rewrite (Z.mod_small n) by lia.
    repeat split; reflexivity.
Qed.

(** Nothing fires at the head of a tick when the modem has power, no timer
    has expired and the engine is not in PGMING. *)
Lemma UpdateModemState_supervise_quiet (env : Env) (s : Engine) :
  IsModemRunning env = true ->
  TimerExpired (now env) (thRespTimeOut s) = false ->
  TimerExpired (now env) (thCISRespTimeOut s) = false ->
  ATCmdState s <> AT_CMD_PGMING ->
  UpdateModemState_supervise env s = s.
Proof.
  intros Hrun Hresp Hcis Hpg. unfold UpdateModemState_supervise. cbv zeta.
  assert (E1 : UpdateModemState_modem_power env s = s)
    by (unfold UpdateModemState_modem_power; rewrite Hrun; reflexivity).
  rewrite E1, (UpdateModemState_rsp_timeout_idle env s Hresp),
    (UpdateModemState_cis_power_other env s Hpg).
  apply UpdateModemState_cis_timeout_idle. exact Hcis.
Qed.

(** C4, as the code has it.  A buffer [P] of 1 to 65535 bytes is dispatched
    from idle and accepted; the modem's answer is analysed as READY by the
    next tick (made before the 5 s response time is over, the modem having
    power).  That tick transmits the first MAX_FILE_LEN bytes of [P] followed
    by the two bytes of their 16-bit sum, high byte first.  When [P] has no
    more than MAX_FILE_LEN bytes this is [P] and the checksum of [P]; a
    longer buffer is accepted as well, cut to MAX_FILE_LEN bytes, with
    MEC_TRUNCATED_FILE recorded. *)
Theorem C4_payload_then_checksum (env env2 : Env) (P reply : list Z) (d : Driver) :
  ATCmdState (eng d) = AT_CMD_IDLE ->
  0 < Z.of_nat (List.length P) <= 65535 ->
  let wMsgSize := Z.of_nat (List.length P) in
  let d2 := run [Ev_dispatch env (Call_SendBinaryBuffer P wMsgSize); Ev_reply reply] d in
  fst (GetWriteBinaryMsgRsp (eng d2)) = MR_SUCCESS ->
  IsModemRunning env2 = true ->
  now env2 < now env + STANDARD_RSP_TIMEOUT ->
  TimerExpired (now env2) (thCISRespTimeOut (eng d)) = false ->
  let sent := firstn (Z.to_nat MAX_FILE_LEN) P in
  fst (SendBinaryBuffer env P wMsgSize (eng d)) = true
  /\ tx (eng (step (Ev_tick env2) d2)) = tx (eng d2) ++ sent ++ spec_checksum_bytes sent
  /\ (wMsgSize <= MAX_FILE_LEN -> sent = P)
  /\ (MAX_FILE_LEN < wMsgSize ->
      List.length sent = Z.to_nat MAX_FILE_LEN
      /\ errorCodeRsp (eng d2) = MEC_TRUNCATED_FILE).
Proof.
  intros Hidle Hn. cbv zeta. intros Hready Hrun Hnow Hcis.
  destruct d as [s a]. cbn [eng] in *.
  destruct (SendBinaryBuffer_accepts env P (Z.of_nat (List.length P)) s Hidle Hn)
    as (Hok & Hst & Hsub & Htm & Htc & Hlen & Hbuf & Herr).
  cbv zeta in *.
  unfold run in *. cbn [fold_left step dispatch] in *.
  unfold upd_eng in *. cbn [eng set_eng] in *. unfold set_eng in *. cbn [eng] in *.
  set (s1 := snd (SendBinaryBuffer env P (Z.of_nat (List.length P)) s)) in *.
  clearbody s1.
  set (s2 := ModemIsr_receive reply s1) in *.
  assert (F2 : ATCmdState s2 = AT_CMD_SENDING /\ subState s2 = SEND_READY_CMD
               /\ thRespTimeOut s2 = thRespTimeOut s1
               /\ thCISRespTimeOut s2 = thCISRespTimeOut s1
               /\ modemInfo s2 = modemInfo s1 /\ byBinMsgBuffer s2 = byBinMsgBuffer s1
               /\ errorCodeRsp s2 = errorCodeRsp s1).
  { subst s2. unfold ModemIsr_receive. destruct s1. cbn in *. repeat split; assumption. }
  destruct F2 as (Hst2 & Hsub2 & Htm2 & Htc2 & Hmi2 & Hbuf2 & Herr2).
  clearbody s2.
  set (sent := firstn (Z.to_nat MAX_FILE_LEN) P).
  assert (Hsent : firstn (Z.to_nat (to_WORD (dwTxMsgLen (modemInfo s2)))) (byBinMsgBuffer s2)
                  = sent).
  { rewrite Hmi2, Hbuf2, Hlen, Hbuf. unfold to_WORD, MemCpy.
    rewrite Z.mod_small by (unfold MAX_FILE_LEN; lia).
    rewrite firstn_app, firstn_firstn, Nat.min_id.
    rewrite length_firstn.
    replace (Z.to_nat (Z.min (Z.of_nat (List.length P)) MAX_FILE_LEN)
             - Nat.min (Z.to_nat (Z.min (Z.of_nat (List.length P)) MAX_FILE_LEN))
                 (List.length P))%nat with 0%nat by lia.
    cbn [firstn]. rewrite app_nil_r.
    subst sent. destruct (Z.le_gt_cases (Z.of_nat (List.length P)) MAX_FILE_LEN) as [Hle | Hgt].
    - rewrite Z.min_l by lia. rewrite Nat2Z.id.
      rewrite firstn_all. symmetry. apply firstn_all2. lia.
    - rewrite Z.min_r by lia. reflexivity. }
  split; [exact Hok|]. split; [|split].
  - unfold UpdateModemState, upd_eng. cbn [eng set_eng]. unfold set_eng. cbn [eng].
    rewrite UpdateModemState_supervise_quiet; cycle 1.
    + exact Hrun.
    + rewrite Htm2, Htm. cbn [StartTimer TimerExpired]. apply Z.leb_gt. exact Hnow.
    + rewrite Htc2, Htc. exact Hcis.
    + rewrite Hst2. discriminate.
    + cbn [eng]. rewrite Hst2. cbn [eng].
      unfold UpdateModemState_SENDING. rewrite Hsub2.
      destruct (GetWriteBinaryMsgRsp_payload s2) as (Hb3 & Hm3 & Ht3). cbv zeta in *.
      destruct (GetWriteBinaryMsgRsp s2) as [r s3]. cbn [fst snd] in *. subst r.
      change (tx (set_subState SEND_DATA (SendBinaryDataBuffer env2 s3)))
        with (tx (SendBinaryDataBuffer env2 s3)).
      rewrite SendBinaryDataBuffer_tx. cbv zeta.
      rewrite Hm3, Hb3, Hsent, Ht3.
      rewrite checksum_loop_spec, LOBYTE_low_half,
        (HIBYTE_high_half _ (spec_checksum_range sent)).
      reflexivity.
  - intros Hle. subst sent. apply firstn_all2. lia.
  - intros Hgt. split.
    + subst sent. rewrite length_firstn. lia.
    + rewrite Herr2, Herr.
      destruct (MAX_FILE_LEN <? Z.of_nat (List.length P)) eqn:E; [reflexivity|].
      apply Z.ltb_ge in E. lia.
Qed.


Lemma C4_payload_then_checksum_witness :
  let d2 := run [Ev_dispatch (Env_calm 0) (Call_SendBinaryBuffer [1; 2; 3] 3);
                 Ev_reply (text_line "READY")] Driver_idle in
  tx (eng (step (Ev_tick (Env_calm 10)) d2)) = tx (eng d2) ++ [1; 2; 3] ++ [0; 6].
Proof.
  intros d2.
  assert (Hidle : ATCmdState (eng Driver_idle) = AT_CMD_IDLE) by reflexivity.
  assert (Hn : 0 < Z.of_nat (List.length [1; 2; 3]) <= 65535) by (simpl; lia).
  assert (Hready : fst (GetWriteBinaryMsgRsp
                          (eng (run [Ev_dispatch (Env_calm 0)
                                       (Call_SendBinaryBuffer [1; 2; 3]
                                          (Z.of_nat (List.length [1; 2; 3])));
                                     Ev_reply (text_line "READY")] Driver_idle)))
                   = MR_SUCCESS) by (vm_compute; reflexivity).
  assert (Hrun : IsModemRunning (Env_calm 10) = true) by reflexivity.
  assert (Hnow : now (Env_calm 10) < now (Env_calm 0) + STANDARD_RSP_TIMEOUT)
    by (vm_compute; reflexivity).
  assert (Hcis : TimerExpired (now (Env_calm 10)) (thCISRespTimeOut (eng Driver_idle)) = false)
    by (vm_compute; reflexivity).
  destruct (C4_payload_then_checksum (Env_calm 0) (Env_calm 10) [1; 2; 3]
              (text_line "READY") Driver_idle Hidle Hn Hready Hrun Hnow Hcis)
    as (_ & Htx & _).
  exact Htx.
Defined.

(** A buffer of 1961 bytes is accepted; after READY the engine transmits its
    first 1960 bytes and their checksum, not the buffer and its checksum. *)
Lemma C4_long_payload_is_cut :
  let P := repeat 1 1961 in
  let d2 := run [Ev_dispatch (Env_calm 0) (Call_SendBinaryBuffer P 1961);
                 Ev_reply (text_line "READY")] Driver_idle in
  let d3 := step (Ev_tick (Env_calm 10)) d2 in
  fst (SendBinaryBuffer (Env_calm 0) P 1961 (eng Driver_idle)) = true
  /\ tx (eng d3) = tx (eng d2) ++ repeat 1 1960 ++ [7; 168]
  /\ tx (eng d3) <> tx (eng d2) ++ P ++ spec_checksum_bytes P.
Proof.
  cbv zeta. split; [vm_compute; reflexivity|]. split; [vm_compute; reflexivity|].
  intros H. apply (f_equal (@List.length Z)) in H. vm_compute in H. discriminate H.
Qed.

(** ** The mobile-terminated read (C3) *)

Lemma list_set_length {A : Type} (l : list A) :
  forall i v, List.length (list_set i v l) = List.length l.
Proof.
  induction l as [|h t IH]; intros [|i] v; cbn [list_set List.length];
    try reflexivity. rewrite IH. reflexivity.
Qed.

Lemma list_set_nth_same {A : Type} (l : list A) :
  forall i v d, (i < List.length l)%nat -> nth i (list_set i v l) d = v.
Proof.
  induction l as [|h t IH]; intros [|i] v d Hi; cbn [list_set nth List.length] in *;
    try lia; try reflexivity. apply IH. lia.
Qed.

Lemma list_set_nth_other {A : Type} (l : list A) :
  forall i j v d, i <> j -> nth j (list_set i v l) d = nth j l d.
Proof.
  induction l as [|h t IH]; intros [|i] [|j] v d Hij; cbn [list_set nth];
    try reflexivity; try contradiction. apply IH. lia.
Qed.









Lemma GetRxBinaryData_save_result (env : Env) (mtmReturn : MTMDIR_RETURN_TYPE)
  (modemResponse : MODEM_RESPONSES) (d : Driver) :
  fileOpen_ok env = true -> fileWrite_ok env = true ->
  fst (GetRxBinaryData_save env mtmReturn modemResponse d) = modemResponse.
Proof.
  intros Ho Hw. unfold GetRxBinaryData_save. rewrite Ho, Hw. reflexivity.
Qed.



Lemma AddNewDataToQueue_eng (env : Env) (cmd : MODEM_COMMANDS) (d : Driver) :
  eng (AddNewDataToQueue env cmd d) = eng d.
Proof. unfold AddNewDataToQueue. destruct (in_queue_buffer cmd (modemQBuff d)); reflexivity. Qed.












(** ** The signal-quality probe of the IDLE state (C8) *)

Lemma quiet_refl (d : Driver) : quiet d d.
Proof. unfold quiet. repeat split; reflexivity. Qed.

Lemma quiet_trans (d1 d2 d3 : Driver) : quiet d1 d2 -> quiet d2 d3 -> quiet d1 d3.
Proof.
  unfold quiet. intros (A1 & A2 & A3 & A4 & A5) (B1 & B2 & B3 & B4 & B5).
  repeat split; congruence.
Qed.

Lemma SetModemStateBusy_busy (cmd : MODEM_COMMANDS) (d : Driver) :
  busy_with cmd (SetModemStateBusy cmd d).
Proof. unfold busy_with. split; reflexivity. Qed.

Lemma GetSBDStatus_state (s : Engine) :
  fst (GetSBDStatus s) = byMTStatus (modemInfo s)
  /\ ATCmdState (snd (GetSBDStatus s)) = ATCmdState s.
Proof.
  unfold GetSBDStatus. cbv zeta. cbn [fst snd]. split; [reflexivity|].
  repeat break_match; reflexivity.
Qed.

(** A dispatch that is refused leaves the engine as it was. *)
Ltac refused_dispatch :=
  match goal with
  | |- fst (?f ?env ?s) = false -> snd (?f ?env ?s) = ?s =>
      unfold f; destruct (ATCmdState s); cbn [fst snd]; intros H;
      first [ reflexivity | discriminate H ]
  end.

Lemma SendReadBinaryFileCmd_refused (env : Env) (s : Engine) :
  fst (SendReadBinaryFileCmd env s) = false -> snd (SendReadBinaryFileCmd env s) = s.
Proof. refused_dispatch. Qed.

Lemma SendCLCCCmd_refused (env : Env) (s : Engine) :
  fst (SendCLCCCmd env s) = false -> snd (SendCLCCCmd env s) = s.
Proof. refused_dispatch. Qed.

Lemma SendCSQCmd_refused (env : Env) (s : Engine) :
  fst (SendCSQCmd env s) = false -> snd (SendCSQCmd env s) = s.
Proof. refused_dispatch. Qed.

Lemma CheckGateway_refused (env : Env) (s : Engine) :
  fst (CheckGateway env s) = false -> snd (CheckGateway env s) = s.
Proof. refused_dispatch. Qed.

Lemma GetMailboxStatus_result (env : Env) (d : Driver) :
  (fst (GetMailboxStatus env d) = false /\ quiet d (snd (GetMailboxStatus env d)))
  \/ (fst (GetMailboxStatus env d) = true
      /\ busy_with RXING_FILE (snd (GetMailboxStatus env d))).
Proof.
  unfold GetMailboxStatus, on_eng.
  destruct (GetSBDStatus_state (eng d)) as [_ Hst].
  destruct (GetSBDStatus (eng d)) as [mt s1]. cbn [fst snd] in Hst.
  destruct (mt =? SUCCESSFUL_MSG).
  - change (eng (set_eng s1 d)) with s1.
    pose proof (SendReadBinaryFileCmd_refused env s1) as Hr.
    destruct (SendReadBinaryFileCmd env s1) as [[|] s2]; cbn [fst snd] in *.
    + right. split; [reflexivity | apply SetModemStateBusy_busy].
    + left. split; [reflexivity|]. rewrite (Hr eq_refl).
      unfold quiet. cbn. repeat split; exact Hst.
  - left. cbn [fst snd]. split; [reflexivity|].
    unfold quiet. cbn. repeat split; exact Hst.
Qed.

Lemma GetMailboxStatus_nothing (env : Env) (d : Driver) :
  byMTStatus (modemInfo (eng d)) <> SUCCESSFUL_MSG ->
  fst (GetMailboxStatus env d) = false.
Proof.
  intros H. unfold GetMailboxStatus, on_eng.
  destruct (GetSBDStatus_state (eng d)) as [Hmt _].
  destruct (GetSBDStatus (eng d)) as [mt s1]. cbn [fst] in Hmt. subst mt.
  destruct (byMTStatus (modemInfo (eng d)) =? SUCCESSFUL_MSG) eqn:E;
    [apply Z.eqb_eq in E; contradiction | reflexivity].
Qed.

Lemma SendCallStatusCmd_result (env : Env) (d : Driver) :
  quiet d (snd (SendCallStatusCmd env d))
  \/ busy_with CALL_STATUS (snd (SendCallStatusCmd env d)).
Proof.
  unfold SendCallStatusCmd, on_eng.
  destruct (negb (TimerExpired (now env) (thCheckCallStatus (api d))));
    [left; apply quiet_refl|].
  pose proof (SendCLCCCmd_refused env (eng d)) as Hr.
  destruct (SendCLCCCmd env (eng d)) as [[|] s2]; cbn [fst snd] in *.
  - right. split; reflexivity.
  - left. rewrite (Hr eq_refl). unfold quiet. cbn. repeat split; reflexivity.
Qed.

Ltac break_if :=
  match goal with
  | |- context [if ?c then _ else _] => destruct c; cbv beta iota
  end.

Lemma SendBinaryFile_refused (env : Env) (s : Engine) :
  fst (SendBinaryFile env s) = false ->
  ATCmdState (snd (SendBinaryFile env s)) = ATCmdState s.
Proof.
  unfold SendBinaryFile.
  destruct (ATCmdState s) eqn:E; try (intros _; cbn [snd]; exact E).
  cbv zeta. repeat break_if; cbn [fst snd]; intros H;
    first [ discriminate H | exact E ].
Qed.

Lemma SendFileToModem_send_result (env : Env) (d : Driver) :
  quiet d (snd (SendFileToModem_send env d))
  \/ busy_with TXING_FILE (snd (SendFileToModem_send env d)).
Proof.
  unfold SendFileToModem_send, on_eng.
  pose proof (SendBinaryFile_refused env (eng d)) as Hr.
  destruct (SendBinaryFile env (eng d)) as [[|] s1]; cbn [fst snd] in *.
  - right. apply SetModemStateBusy_busy.
  - left. specialize (Hr eq_refl).
    destruct (deleteFile_ok env); cbn [snd]; unfold quiet; cbn; repeat split; exact Hr.
Qed.

Lemma SendFileToModem_file_result (env : Env) (d : Driver) :
  quiet d (snd (SendFileToModem_file env d))
  \/ busy_with TXING_FILE (snd (SendFileToModem_file env d)).
Proof.
  unfold SendFileToModem_file.
  assert (Hthen : forall d1, quiet d d1 ->
            quiet d (snd (SendFileToModem_send env d1))
            \/ busy_with TXING_FILE (snd (SendFileToModem_send env d1))).
  { intros d1 Hq. destruct (SendFileToModem_send_result env d1) as [H | H];
      [left; eapply quiet_trans; eassumption | right; exact H]. }
  repeat break_match; cbn [snd];
    first [ left; apply quiet_refl
          | left; unfold quiet; cbn; repeat split; reflexivity
          | apply Hthen; unfold quiet; cbn; repeat split; reflexivity ].
Qed.

Lemma SendBinaryBuffer_refused (env : Env) (P : list Z) (n : Z) (s : Engine) :
  fst (SendBinaryBuffer env P n s) = false ->
  ATCmdState (snd (SendBinaryBuffer env P n s)) = ATCmdState s.
Proof.
  unfold SendBinaryBuffer.
  destruct (ATCmdState s) eqn:E; try (intros _; cbn [snd]; exact E).
  cbv zeta. repeat break_if; cbn [fst snd]; intros H;
    first [ discriminate H | exact E ].
Qed.

Lemma SendFileToModem_result (env : Env) (d : Driver) :
  quiet d (snd (SendFileToModem env d))
  \/ busy_with TXING_FILE (snd (SendFileToModem env d))
  \/ busy_with TXING_BUFFER (snd (SendFileToModem env d)).
Proof.
  unfold SendFileToModem, on_eng.
  destruct (bPCMCIAError (options d)).
  - match goal with
    | |- context [SendBinaryBuffer env ?P ?n (eng d)] =>
        pose proof (SendBinaryBuffer_refused env P n (eng d)) as Hr;
        destruct (SendBinaryBuffer env P n (eng d)) as [[|] s1]; cbn [fst snd] in *
    end.
    + right. right. split; reflexivity.
    + specialize (Hr eq_refl).
      destruct (SendFileToModem_file_result env (set_eng s1 d)) as [H | H].
      * left. eapply quiet_trans; [|exact H]. unfold quiet. cbn. repeat split; exact Hr.
      * right. left. exact H.
  - destruct (SendFileToModem_file_result env d) as [H | H]; [left | right; left]; exact H.
Qed.

Lemma Process_IDLE_edges_quiet (env : Env) (d : Driver) :
  quiet d (Process_IDLE_edges env d).
Proof.
  unfold Process_IDLE_edges. cbv zeta.
  repeat break_if; unfold quiet; cbn; repeat split; reflexivity.
Qed.

Lemma SendCSQCmd_accepted (env : Env) (s : Engine) :
  fst (SendCSQCmd env s) = true ->
  ATCmdState (snd (SendCSQCmd env s)) = AT_CMD_SENDING
  /\ subState (snd (SendCSQCmd env s)) = SEND_CSQ_CMD.
Proof.
  unfold SendCSQCmd. destruct (ATCmdState s); cbn [fst snd]; intros H;
    first [ discriminate H | split; reflexivity ].
Qed.

Lemma SendCSQCmd_from_idle (env : Env) (s : Engine) :
  ATCmdState s = AT_CMD_IDLE -> fst (SendCSQCmd env s) = true.
Proof. intros H. unfold SendCSQCmd. rewrite H. reflexivity. Qed.

(** The probe block: it dispatches the probe, with the poll timer found
    expired and re-armed for the poll rate, or it dispatches nothing. *)
Lemma Process_IDLE_csq_result (env : Env) (d : Driver) :
  let r := Process_IDLE_csq env d in
  (fst r = true
   /\ TimerExpired (now env) (thCheckCSQ (api d)) = true
   /\ busy_with GETTING_CSQ (snd r)
   /\ thCheckCSQ (api (snd r))
      = ResetTimer (now env) (dwCheckSigStrengthRate (configurables d))
   /\ ModemRsp (options (snd r)) GETTING_CSQ = MR_WAITING
   /\ ATCmdState (eng (snd r)) = AT_CMD_SENDING
   /\ subState (eng (snd r)) = SEND_CSQ_CMD
   /\ bSendingEnabled (options (snd r)) = bSendingEnabled (options d))
  \/ (fst r = false /\ quiet d (snd r)
      /\ (TimerExpired (now env) (thCheckCSQ (api d)) = true ->
          ATCmdState (eng d) <> AT_CMD_IDLE)).
Proof.
  cbv zeta. unfold Process_IDLE_csq, on_eng.
  destruct (TimerExpired (now env) (thCheckCSQ (api d))) eqn:Ht.
  - pose proof (SendCSQCmd_refused env (eng d)) as Hr.
    pose proof (SendCSQCmd_accepted env (eng d)) as Ha.
    pose proof (SendCSQCmd_from_idle env (eng d)) as Hi.
    destruct (SendCSQCmd env (eng d)) as [[|] s1]; cbn [fst snd] in *.
    + left. destruct (Ha eq_refl) as [A1 A2].
      split; [reflexivity|]. split; [reflexivity|]. split; [split; reflexivity|].
      split; [reflexivity|]. split.
      * cbn. destruct (MODEM_COMMANDS_eq_dec GETTING_CSQ GETTING_CSQ) as [_ | N];
          [reflexivity | contradiction N; reflexivity].
      * split; [exact A1|]. split; [exact A2 | reflexivity].
    + right. rewrite (Hr eq_refl). split; [reflexivity|]. split.
      * unfold quiet. cbn. repeat split; reflexivity.
      * intros _ Hidle. specialize (Hi Hidle). discriminate Hi.
  - right. cbn [fst snd]. split; [reflexivity|]. split; [apply quiet_refl|].
    intros H. discriminate H.
Qed.

(** The sending block never leaves the driver busy with the probe. *)
Lemma Process_IDLE_send_result (env : Env) (d : Driver) :
  let d' := Process_IDLE_send env d in
  quiet d d'
  \/ busy_with TXING_FILE d' \/ busy_with TXING_BUFFER d' \/ busy_with GATEWAY_CHECK d'.
Proof.
  cbv zeta. unfold Process_IDLE_send.
  destruct (bSendingEnabled (options d)); [|left; apply quiet_refl].
  pose proof (SendFileToModem_result env d) as Hs.
  destruct (SendFileToModem env d) as [sending d1]. cbn [snd] in Hs.
  assert (Hgw : quiet d
                  (if TimerExpired (now env) (thCheckGateway (api d1))
                   then
                     let '(sent, d2) := on_eng (CheckGateway env) d1 in
                     if sent
                     then upd_api (set_thCheckGateway
                                     (ResetTimer (now env) DEFAULT_SBD_STATUS_DELAY))
                            (SetModemStateBusy GATEWAY_CHECK d2)
                     else d2
                   else d1)
                \/ busy_with TXING_FILE
                     (if TimerExpired (now env) (thCheckGateway (api d1))
                      then
                        let '(sent, d2) := on_eng (CheckGateway env) d1 in
                        if sent
                        then upd_api (set_thCheckGateway
                                        (ResetTimer (now env) DEFAULT_SBD_STATUS_DELAY))
                               (SetModemStateBusy GATEWAY_CHECK d2)
                        else d2
                      else d1)
                \/ busy_with TXING_BUFFER
                     (if TimerExpired (now env) (thCheckGateway (api d1))
                      then
                        let '(sent, d2) := on_eng (CheckGateway env) d1 in
                        if sent
                        then upd_api (set_thCheckGateway
                                        (ResetTimer (now env) DEFAULT_SBD_STATUS_DELAY))
                               (SetModemStateBusy GATEWAY_CHECK d2)
                        else d2
                      else d1)
                \/ busy_with GATEWAY_CHECK
                     (if TimerExpired (now env) (thCheckGateway (api d1))
                      then
                        let '(sent, d2) := on_eng (CheckGateway env) d1 in
                        if sent
                        then upd_api (set_thCheckGateway
                                        (ResetTimer (now env) DEFAULT_SBD_STATUS_DELAY))
                               (SetModemStateBusy GATEWAY_CHECK d2)
                        else d2
                      else d1)).
  { destruct (TimerExpired (now env) (thCheckGateway (api d1)));
      [| destruct Hs as [H | [H | H]]; [left | right; left | right; right; left]; exact H].
    unfold on_eng.
    pose proof (CheckGateway_refused env (eng d1)) as Hr.
    destruct (CheckGateway env (eng d1)) as [[|] s2]; cbn [fst snd] in *.
    - right. right. right. split; reflexivity.
    - rewrite (Hr eq_refl).
      assert (E : set_eng (eng d1) d1 = d1) by (destruct d1; reflexivity).
      rewrite E.
      destruct Hs as [H | [H | H]]; [left | right; left | right; right; left]; exact H. }
  destruct sending.
  - exact Hgw.
  - exact Hgw.
  - destruct Hs as [H | [H | H]]; [left | right; left | right; right; left]; exact H.
Qed.

(** The work of the IDLE state dispatches the probe only when the poll timer
    [thCheckCSQ] has expired, and the timer is then re-armed for the poll
    rate; with the engine idle, no message waiting in the modem and no voice
    call, an expired poll timer is enough. *)
Lemma Process_IDLE_work_probe (env : Env) (d : Driver) :
  modemState (options d) = MODEM_IDLE ->
  let d' := Process_IDLE_work env d in
  (busy_with GETTING_CSQ d' ->
   TimerExpired (now env) (thCheckCSQ (api d)) = true
   /\ thCheckCSQ (api d')
      = ResetTimer (now env) (dwCheckSigStrengthRate (configurables d))
   /\ ATCmdState (eng d') = AT_CMD_SENDING
   /\ subState (eng d') = SEND_CSQ_CMD)
  /\ (ATCmdState (eng d) = AT_CMD_IDLE ->
      byMTStatus (modemInfo (eng d)) <> SUCCESSFUL_MSG ->
      InVoiceCall env = false ->
      TimerExpired (now env) (thCheckCSQ (api d)) = true ->
      busy_with GETTING_CSQ d'
      /\ ModemRsp (options d') GETTING_CSQ = MR_WAITING
      /\ bSendingEnabled (options d') = bSendingEnabled (options d)).
Proof.
  intros Hidle. cbv zeta. unfold Process_IDLE_work.
  assert (Hother : forall c dx, busy_with c dx -> c <> GETTING_CSQ ->
                                busy_with GETTING_CSQ dx -> False).
  { intros c dx [_ H1] Hc [_ H2]. congruence. }
  assert (Hstill : forall dx, quiet d dx -> busy_with GETTING_CSQ dx -> False).
  { intros dx (H1 & _) [H2 _]. rewrite H1, Hidle in H2. discriminate H2. }
  pose proof (GetMailboxStatus_nothing env d) as Hnothing.
  destruct (GetMailboxStatus_result env d) as [[Hf Hq1] | [Ht Hb]];
    destruct (GetMailboxStatus env d) as [pending d1]; cbn [fst snd] in *; subst pending.
  2:{ split.
      - intros Hc. exfalso. apply (Hother _ _ Hb); [discriminate | exact Hc].
      - intros _ Hmt. specialize (Hnothing Hmt). discriminate Hnothing. }
  destruct (InVoiceCall env) eqn:Hvoice.
  { split; [|intros _ _ H; discriminate H].
    intros Hc. exfalso.
    destruct (SendCallStatusCmd_result env d1) as [H | H];
      destruct (SendCallStatusCmd env d1) as [b d2]; cbn [snd] in H.
    - apply (Hstill d2); [eapply quiet_trans; eassumption|].
      destruct (negb (bPrevHookState (options d2))); exact Hc.
    - apply (Hother CALL_STATUS d2 H); [discriminate|].
      destruct (negb (bPrevHookState (options d2))); exact Hc. }
  cbv zeta.
  pose proof (Process_IDLE_edges_quiet env d1) as Hq2.
  set (d2 := Process_IDLE_edges env d1) in *. clearbody d2.
  assert (Hq : quiet d d2) by (eapply quiet_trans; eassumption).
  destruct Hq as (Q1 & Q2 & Q3 & Q4 & Q5).
  destruct (Process_IDLE_csq_result env d2)
    as [(Hs & Hexp & Hbusy & Htm & Hrsp & Hst & Hsub & Hen) | (Hs & Hq3 & Hwhy)];
    cbv zeta in *;
    destruct (Process_IDLE_csq env d2) as [sent d3]; cbn [fst snd] in *; subst sent.
  - split.
    + intros _. rewrite <- Q2, <- Q3. repeat split; assumption.
    + intros _ _ _ _. split; [exact Hbusy|]. split; [exact Hrsp|].
      rewrite <- Q4. exact Hen.
  - split.
    + intros Hc. exfalso.
      assert (Hq' : quiet d d3)
        by (eapply quiet_trans; [|exact Hq3]; unfold quiet; repeat split; assumption).
      destruct (Process_IDLE_send_result env d3) as [H | [H | [H | H]]]; cbv zeta in H.
      * apply (Hstill _ (quiet_trans _ _ _ Hq' H) Hc).
      * apply (Hother _ _ H); [discriminate | exact Hc].
      * apply (Hother _ _ H); [discriminate | exact Hc].
      * apply (Hother _ _ H); [discriminate | exact Hc].
    + intros Hi _ _ Hexp. exfalso. rewrite <- Q2 in Hexp. apply (Hwhy Hexp).
      rewrite Q5. exact Hi.
Qed.

Lemma api_kept_refl (d : Driver) : api_kept d d.
Proof. unfold api_kept. repeat split; reflexivity. Qed.

Lemma api_kept_trans (d1 d2 d3 : Driver) : api_kept d1 d2 -> api_kept d2 d3 -> api_kept d1 d3.
Proof.
  unfold api_kept. intros (A1 & A2 & A3 & A4 & A5 & A6) (B1 & B2 & B3 & B4 & B5 & B6).
  repeat split; congruence.
Qed.

Lemma api_kept_set_eng (s : Engine) (d : Driver) : api_kept d (set_eng s d).
Proof. unfold api_kept. repeat split; reflexivity. Qed.

Lemma api_kept_AddNewDataToQueue (env : Env) (cmd : MODEM_COMMANDS) (d : Driver) :
  api_kept d (AddNewDataToQueue env cmd d).
Proof.
  unfold AddNewDataToQueue.
  destruct (in_queue_buffer cmd (modemQBuff d)); [apply api_kept_refl|].
  unfold api_kept. repeat split; reflexivity.
Qed.

(** An aux-board command asked for while the engine is receiving is queued:
    the engine is as it was and the API layer keeps its state. *)
Lemma aux_command_while_receiving (env : Env) (cmd : MODEM_COMMANDS) (op : DISPATCH)
  (d : Driver) :
  ATCmdState (eng d) = AT_CMD_RCVING ->
  let d' :=
    snd (let '(sent, d) :=
           if idle_or_powered_down d then on_eng (dispatch env op) d else (false, d) in
         if sent then (true, SetModemStateBusy cmd d)
         else (false, AddNewDataToQueue env cmd d)) in
  api_kept d d' /\ eng d' = eng d.
Proof.
  intros Hst. cbv zeta. unfold on_eng.
  rewrite (dispatch_refused env op (eng d)) by (rewrite Hst; reflexivity).
  assert (E : set_eng (eng d) d = d) by (destruct d; reflexivity).
  rewrite E.
  destruct (idle_or_powered_down d); cbn [snd];
    (split; [apply api_kept_AddNewDataToQueue | apply AddNewDataToQueue_eng]).
Qed.

Lemma ToggleRelayState_while_receiving (env : Env) (n : Z) (b : bool) (d : Driver) :
  ATCmdState (eng d) = AT_CMD_RCVING ->
  api_kept d (snd (ToggleRelayState env n b d)).
Proof.
  intros Hst. unfold ToggleRelayState. cbv zeta.
  exact (proj1 (aux_command_while_receiving env _ (Call_SendSetRelayCmd n b) d Hst)).
Qed.

Lemma UploadCISConfig_while_receiving (env : Env) (d : Driver) :
  ATCmdState (eng d) = AT_CMD_RCVING ->
  api_kept d (snd (UploadCISConfig env d)).
Proof.
  intros Hst. unfold UploadCISConfig. cbv zeta.
  eapply api_kept_trans;
    [|exact (proj1 (aux_command_while_receiving env UPLOAD_CIS_CONFIG Call_SendDownloadCISCmd
                      (upd_options (set_bCISActionComplete false) d) Hst))].
  unfold api_kept. repeat split; reflexivity.
Qed.

Lemma GetRxBinaryData_loop_state (pending : list Z) :
  forall s, ATCmdState (snd (GetRxBinaryData_loop pending s)) = ATCmdState s.
Proof.
  induction pending as [|b q IH]; intros s; cbn [GetRxBinaryData_loop].
  - destruct s; reflexivity.
  - destruct (wRxDataCount s <? wMTLength (modemInfo s) + WORD_SIZE * 2);
      [|destruct s; reflexivity].
    cbv zeta. rewrite IH.
    destruct ((WORD_SIZE <=? wRxDataCount s)
              && (wRxDataCount s <? wMTLength (modemInfo s) + WORD_SIZE));
      destruct s; reflexivity.
Qed.

Lemma GetRxBinaryData_check_state (s : Engine) :
  ATCmdState (snd (GetRxBinaryData_check s)) = ATCmdState s.
Proof.
  unfold GetRxBinaryData_check, set_wRxMsgLen, add_log. cbv zeta.
  destruct s. cbn -[WORD_of_bytes array_get array_set Z.ltb Z.eqb HIBYTE LOBYTE].
  repeat match goal with
         | |- context [if ?c then _ else _] => destruct c
         end; reflexivity.
Qed.

Lemma GetRxBinaryData_save_api_kept (env : Env) (m : MTMDIR_RETURN_TYPE)
  (r : MODEM_RESPONSES) (d : Driver) :
  ATCmdState (eng d) = AT_CMD_RCVING ->
  api_kept d (snd (GetRxBinaryData_save env m r d)).
Proof.
  intros Hst. unfold GetRxBinaryData_save.
  assert (Hrelay : forall dx : Driver,
            api_kept d dx -> ATCmdState (eng dx) = AT_CMD_RCVING ->
            api_kept d
              match notify_relay env with
              | Some bOn =>
                  if negb (GetRelayStatus TXT_MSG_RELAY (eng dx) =? BOOL_of bOn)
                  then snd (ToggleRelayState env TXT_MSG_RELAY bOn dx) else dx
              | None => dx
              end).
  { intros dx K S. destruct (notify_relay env) as [bOn|]; [|exact K].
    destruct (negb (GetRelayStatus TXT_MSG_RELAY (eng dx) =? BOOL_of bOn)); [|exact K].
    eapply api_kept_trans; [exact K|]. apply ToggleRelayState_while_receiving. exact S. }
  destruct (negb (fileOpen_ok env)); [|destruct (negb (fileWrite_ok env))];
    cbv beta iota zeta; cbn [snd].
  - apply Hrelay; [unfold api_kept; repeat split; reflexivity | exact Hst].
  - apply Hrelay; [unfold api_kept; repeat split; reflexivity | exact Hst].
  - destruct r; try destruct m; try destruct (FileCpy_ok env);
      (apply Hrelay; [unfold api_kept; repeat split; reflexivity | exact Hst]).
Qed.

(** The analyser of the mobile-terminated read leaves the API layer its
    state: what it asks of the aux board is queued. *)
Lemma GetRxBinaryDataBufferRsp_api_kept (env : Env) (d : Driver) :
  ATCmdState (eng d) = AT_CMD_RCVING ->
  api_kept d (snd (GetRxBinaryDataBufferRsp env d)).
Proof.
  intros Hst. unfold GetRxBinaryDataBufferRsp.
  pose proof (GetRxBinaryData_loop_state (rxq (eng d)) (eng d)) as H1.
  destruct (GetRxBinaryData_loop (rxq (eng d)) (eng d)) as [complete s1]. cbn [snd] in H1.
  destruct complete; cbn [negb]; cbv beta iota zeta; [|apply api_kept_set_eng].
  change (eng (upd_eng (fun s : Engine => snd (GetLastRsp s)) (set_eng s1 d)))
    with (snd (GetLastRsp s1)).
  pose proof (GetLastRsp_keeps s1) as (H2 & _).
  pose proof (GetRxBinaryData_check_state (snd (GetLastRsp s1))) as H3.
  destruct (GetRxBinaryData_check (snd (GetLastRsp s1))) as [r s3]. cbn [snd] in H3.
  cbv beta iota.
  set (d3 := set_eng s3 (upd_eng (fun s : Engine => snd (GetLastRsp s)) (set_eng s1 d))).
  assert (K3 : api_kept d d3) by (unfold api_kept; repeat split; reflexivity).
  assert (S3 : ATCmdState (eng d3) = AT_CMD_RCVING).
  { change (eng d3) with s3. rewrite H3, H2, H1. exact Hst. }
  clearbody d3.
  assert (Hfin : forall dx, api_kept d3 dx ->
                   api_kept d (upd_eng (upd_modemInfo (set_wMTLength 0)) dx)).
  { intros dx K. eapply api_kept_trans; [exact K3|]. eapply api_kept_trans; [exact K|].
    unfold api_kept. repeat split; reflexivity. }
  destruct (negb (wMTLength (modemInfo (eng d3)) =? 0)); cbn [snd];
    [|apply Hfin; apply api_kept_refl].
  unfold DefineMsgTypeDestPath.
  destruct (mt_class env (wMTType (eng d3))) as [| | |[|]].
  - destruct r; cbn [snd]; apply Hfin; unfold api_kept; repeat split; reflexivity.
  - pose proof (UploadCISConfig_while_receiving env d3 S3) as K4.
    destruct r; cbn [snd]; apply Hfin; (eapply api_kept_trans; [exact K4|]);
      unfold api_kept; repeat split; reflexivity.
  - destruct r; cbn [snd]; apply Hfin; unfold api_kept; repeat split; reflexivity.
  - pose proof (GetRxBinaryData_save_api_kept env COPY_PORT3 r d3 S3) as K5.
    destruct (GetRxBinaryData_save env COPY_PORT3 r d3) as [rx d5]. cbn [snd] in *.
    apply Hfin. exact K5.
  - pose proof (GetRxBinaryData_save_api_kept env SAVE_TO_FILE r d3 S3) as K5.
    destruct (GetRxBinaryData_save env SAVE_TO_FILE r d3) as [rx d5]. cbn [snd] in *.
    apply Hfin. exact K5.
Qed.

(** The tick of the engine leaves the API layer its state. *)
Lemma UpdateModemState_api_kept (env : Env) (d : Driver) :
  api_kept d (UpdateModemState env d).
Proof.
  unfold UpdateModemState. cbv zeta.
  set (d0 := upd_eng (UpdateModemState_supervise env) d).
  assert (K0 : api_kept d d0) by (unfold api_kept; repeat split; reflexivity).
  clearbody d0.
  destruct (ATCmdState (eng d0)) eqn:E; try exact K0;
    try (eapply api_kept_trans; [exact K0|]; unfold api_kept; repeat split; reflexivity).
  eapply api_kept_trans; [exact K0|]. unfold UpdateModemState_RCVING.
  destruct (subState (eng d0)); try apply api_kept_refl.
  pose proof (GetRxBinaryDataBufferRsp_api_kept env d0 E) as K.
  destruct (GetRxBinaryDataBufferRsp env d0) as [r dx]. cbn [snd] in K.
  destruct r; try exact K;
    (eapply api_kept_trans; [exact K|]; unfold api_kept; repeat split; reflexivity).
Qed.

(** A dispatch that is refused leaves the engine in the state it was in. *)
Lemma dispatch_refused_state (env : Env) (op : DISPATCH) (s : Engine) :
  is_aux_dispatch op = true \/ op = Call_SendCallHangupCmd ->
  fst (dispatch env op s) = false ->
  ATCmdState (snd (dispatch env op s)) = ATCmdState s.
Proof.
  intros Hop.
  destruct op; cbn in Hop; try (destruct Hop as [Hop | Hop]; discriminate Hop); clear Hop;
    cbn [dispatch];
    unfold SendCallHangupCmd, SendDownloadCISCmd, SendProgramCISCmd, SendCISResetCmd,
      SendSetRingerCmd, SendGetRingerStatusCmd, SendSetRelayCmd, SendGetRelayStatusCmd,
      SendCISPortCmd;
    destruct (ATCmdState s) eqn:E; cbv zeta; cbn [fst snd];
    try (intros _; exact E);
    repeat match goal with
           | |- context [if ?c then _ else _] => destruct c
           end;
    cbn [fst snd]; intros H; first [ discriminate H | exact E ].
Qed.

(** An aux-board command asked of the API layer is dispatched, which leaves
    the layer busy with it, or queued, which leaves both layers in their
    states. *)
Lemma aux_command_result (env : Env) (cmd : MODEM_COMMANDS) (op : DISPATCH) (d : Driver) :
  is_aux_dispatch op = true \/ op = Call_SendCallHangupCmd ->
  let d' :=
    snd (let '(sent, d) :=
           if idle_or_powered_down d then on_eng (dispatch env op) d else (false, d) in
         if sent then (true, SetModemStateBusy cmd d)
         else (false, AddNewDataToQueue env cmd d)) in
  (api_kept d d' /\ ATCmdState (eng d') = ATCmdState (eng d)) \/ busy_with cmd d'.
Proof.
  intros Hop. cbv zeta. unfold on_eng.
  destruct (idle_or_powered_down d).
  - pose proof (dispatch_refused_state env op (eng d) Hop) as Hr.
    destruct (dispatch env op (eng d)) as [[|] s1]; cbn [fst snd] in *.
    + right. apply SetModemStateBusy_busy.
    + left. split.
      * eapply api_kept_trans; [apply (api_kept_set_eng s1)|].
        apply api_kept_AddNewDataToQueue.
      * rewrite AddNewDataToQueue_eng. exact (Hr eq_refl).
  - cbn [snd]. left. split; [apply api_kept_AddNewDataToQueue|].
    rewrite AddNewDataToQueue_eng. reflexivity.
Qed.

Lemma SaveCISCurrentState_kept (env : Env) (d : Driver) :
  api_kept d (SaveCISCurrentState env d) /\ eng (SaveCISCurrentState env d) = eng d.
Proof.
  unfold SaveCISCurrentState. cbv zeta.
  repeat match goal with
         | |- context [if ?c then _ else _] => destruct c
         end;
    (split;
     [ repeat (eapply api_kept_trans; [|apply api_kept_AddNewDataToQueue]); apply api_kept_refl
     | rewrite !AddNewDataToQueue_eng; reflexivity ]).
Qed.

(** Draining the queue dispatches an aux-board command or the hang-up,
    which leaves the API layer busy with it, or it leaves both layers in
    their states: it never starts the signal-quality probe. *)
Lemma HandleQueuedCommands_result (env : Env) (d : Driver) :
  let d' := snd (HandleQueuedCommands env d) in
  (api_kept d d' /\ ATCmdState (eng d') = ATCmdState (eng d))
  \/ exists cmd, cmd <> GETTING_CSQ /\ busy_with cmd d'.
Proof.
  cbv zeta. unfold HandleQueuedCommands.
  destruct (wWriteIndex (QueuedCISCmd (api d)) =? wReadIndex (QueuedCISCmd (api d)));
    [left; split; [apply api_kept_refl | reflexivity]|].
  assert (Ht : api_kept d (snd (HandleQueuedCommands_take d))
               /\ eng (snd (HandleQueuedCommands_take d)) = eng d).
  { unfold HandleQueuedCommands_take, GetDataFromQueue, api_kept. cbn.
    repeat split; reflexivity. }
  destruct (HandleQueuedCommands_take d) as [c d1]. cbn [snd] in Ht.
  destruct Ht as [K1 E1].
  assert (Hfrom : forall (cmd : MODEM_COMMANDS) (dx : Driver),
            cmd <> GETTING_CSQ ->
            (api_kept d1 dx /\ ATCmdState (eng dx) = ATCmdState (eng d1)) \/ busy_with cmd dx ->
            (api_kept d dx /\ ATCmdState (eng dx) = ATCmdState (eng d))
            \/ exists cmd, cmd <> GETTING_CSQ /\ busy_with cmd dx).
  { intros cmd dx Hc [[K S] | B].
    - left. split; [eapply api_kept_trans; eassumption | rewrite S, E1; reflexivity].
    - right. exists cmd. split; assumption. }
  assert (Hkeep : (api_kept d d1 /\ ATCmdState (eng d1) = ATCmdState (eng d))
                  \/ exists cmd, cmd <> GETTING_CSQ /\ busy_with cmd d1)
    by (left; split; [exact K1 | rewrite E1; reflexivity]).
  destruct c; cbn [snd]; try exact Hkeep.
  - (* CALL_HANGUP *)
    destruct (modemState (options d1)) eqn:Em; cbn [snd]; try exact Hkeep;
      unfold HangupCall, on_eng;
      pose proof (dispatch_refused_state env Call_SendCallHangupCmd (eng d1)
                    (or_intror eq_refl)) as Hr;
      cbn [dispatch] in Hr;
      (destruct (SendCallHangupCmd env (eng d1)) as [[|] s1]; cbn [fst snd] in *;
       [ right; exists CALL_HANGUP; split; [discriminate | apply SetModemStateBusy_busy]
       | left; split;
         [ eapply api_kept_trans; [exact K1|];
           eapply api_kept_trans; [apply (api_kept_set_eng s1)|];
           apply api_kept_AddNewDataToQueue
         | rewrite AddNewDataToQueue_eng; cbn [eng set_eng]; rewrite (Hr eq_refl), E1;
           reflexivity ] ]).
  - apply (Hfrom RINGER_ON); [discriminate|].
    exact (aux_command_result env RINGER_ON (Call_SendSetRingerCmd true) d1
             (or_introl eq_refl)).
  - apply (Hfrom RINGER_OFF); [discriminate|].
    exact (aux_command_result env RINGER_OFF (Call_SendSetRingerCmd false) d1
             (or_introl eq_refl)).
  - apply (Hfrom RELAY1_ON); [discriminate|].
    exact (aux_command_result env RELAY1_ON (Call_SendSetRelayCmd RELAY_1 true) d1
             (or_introl eq_refl)).
  - apply (Hfrom RELAY1_OFF); [discriminate|].
    exact (aux_command_result env RELAY1_OFF (Call_SendSetRelayCmd RELAY_1 false) d1
             (or_introl eq_refl)).
  - apply (Hfrom RELAY2_ON); [discriminate|].
    exact (aux_command_result env RELAY2_ON (Call_SendSetRelayCmd RELAY_2 true) d1
             (or_introl eq_refl)).
  - apply (Hfrom RELAY2_OFF); [discriminate|].
    exact (aux_command_result env RELAY2_OFF (Call_SendSetRelayCmd RELAY_2 false) d1
             (or_introl eq_refl)).
  - apply (Hfrom RINGER_STATUS); [discriminate|].
    exact (aux_command_result env RINGER_STATUS Call_SendGetRingerStatusCmd d1
             (or_introl eq_refl)).
  - apply (Hfrom RELAY1_STATUS); [discriminate|].
    exact (aux_command_result env RELAY1_STATUS (Call_SendGetRelayStatusCmd RELAY_1) d1
             (or_introl eq_refl)).
  - apply (Hfrom RELAY2_STATUS); [discriminate|].
    exact (aux_command_result env RELAY2_STATUS (Call_SendGetRelayStatusCmd RELAY_2) d1
             (or_introl eq_refl)).
  - (* RESET_CIS *)
    unfold ResetCIS, on_eng.
    pose proof (dispatch_refused_state env Call_SendCISResetCmd (eng d1)
                  (or_introl eq_refl)) as Hr.
    cbn [dispatch] in Hr.
    destruct (idle_or_powered_down d1);
      [destruct (SendCISResetCmd env (eng d1)) as [[|] s1]|]; cbn [fst snd] in *.
    + right. exists RESET_CIS. split; [discriminate | apply SetModemStateBusy_busy].
    + left. split.
      * eapply api_kept_trans; [exact K1|].
        eapply api_kept_trans; [apply (api_kept_set_eng s1)|].
        apply api_kept_AddNewDataToQueue.
      * rewrite AddNewDataToQueue_eng. cbn [eng set_eng]. rewrite (Hr eq_refl), E1.
        reflexivity.
    + left. split.
      * eapply api_kept_trans; [exact K1|]. apply api_kept_AddNewDataToQueue.
      * rewrite AddNewDataToQueue_eng, E1. reflexivity.
  - (* UPLOAD_CIS_CONFIG *)
    unfold UploadCISConfig. cbv zeta.
    set (d2 := upd_options (set_bCISActionComplete false) d1).
    assert (K2 : api_kept d d2 /\ eng d2 = eng d)
      by (split; [eapply api_kept_trans; [exact K1|]; unfold api_kept; repeat split; reflexivity
                 | exact E1]).
    destruct (aux_command_result env UPLOAD_CIS_CONFIG Call_SendDownloadCISCmd d2
                (or_introl eq_refl)) as [[K S] | B]; cbv zeta in *.
    + left. destruct K2 as [K2 E2]. split; [eapply api_kept_trans; eassumption|].
      exact (eq_trans S (f_equal ATCmdState E2)).
    + right. exists UPLOAD_CIS_CONFIG. split; [discriminate | exact B].
  - (* CONFIGURE_CIS *)
    unfold ProgramCIS. cbv zeta.
    set (d2 := upd_options (set_bCISActionComplete false) d1).
    assert (K2 : api_kept d d2 /\ eng d2 = eng d)
      by (split; [eapply api_kept_trans; [exact K1|]; unfold api_kept; repeat split; reflexivity
                 | exact E1]).
    destruct (aux_command_result env CONFIGURE_CIS Call_SendProgramCISCmd d2
                (or_introl eq_refl)) as [[K S] | B]; cbv zeta in *.
    + left. destruct K2 as [K2 E2]. split; [eapply api_kept_trans; eassumption|].
      exact (eq_trans S (f_equal ATCmdState E2)).
    + right. exists CONFIGURE_CIS. split; [discriminate | exact B].
Qed.

(** With the modem powered, no timer of the engine expired and the engine
    idle, the tick of the engine changes nothing. *)
Lemma UpdateModemState_idle (env : Env) (d : Driver) :
  ATCmdState (eng d) = AT_CMD_IDLE ->
  IsModemRunning env = true ->
  TimerExpired (now env) (thRespTimeOut (eng d)) = false ->
  TimerExpired (now env) (thCISRespTimeOut (eng d)) = false ->
  UpdateModemState env d = d.
Proof.
  intros Hst Hrun Hresp Hcis. unfold UpdateModemState, upd_eng. cbv zeta.
  rewrite (UpdateModemState_supervise_quiet env (eng d) Hrun Hresp Hcis)
    by (rewrite Hst; discriminate).
  assert (E : set_eng (eng d) d = d) by (destruct d; reflexivity).
  rewrite E, Hst. reflexivity.
Qed.

(** C8, as the code has it.  In a tick of the API layer that starts in
    MODEM_IDLE the signal-quality probe is dispatched only when the poll
    timer [thCheckCSQ] has expired, and the timer is then re-armed for the
    poll rate.  Whether sending is enabled plays no part: outside
    transparent mode, with the modem powered, the engine idle and none of its
    timers expired, no command waiting in the queue of the aux board, no
    message waiting in the modem and no voice call, an expired poll timer is
    enough. *)
Theorem C8_CSQ_probe (env : Env) (d : Driver) :
  modemState (options d) = MODEM_IDLE ->
  let d' := ProcessModemStateMachine env d in
  (busy_with GETTING_CSQ d' ->
   TimerExpired (now env) (thCheckCSQ (api d)) = true
   /\ thCheckCSQ (api d')
      = ResetTimer (now env) (dwCheckSigStrengthRate (configurables d))
   /\ ATCmdState (eng d') = AT_CMD_SENDING
   /\ subState (eng d') = SEND_CSQ_CMD)
  /\ (bInTransparentMode (options d) = false ->
      ATCmdState (eng d) = AT_CMD_IDLE ->
      IsModemRunning env = true ->
      TimerExpired (now env) (thRespTimeOut (eng d)) = false ->
      TimerExpired (now env) (thCISRespTimeOut (eng d)) = false ->
      wWriteIndex (QueuedCISCmd (api d)) = wReadIndex (QueuedCISCmd (api d)) ->
      byMTStatus (modemInfo (eng d)) <> SUCCESSFUL_MSG ->
      InVoiceCall env = false ->
      TimerExpired (now env) (thCheckCSQ (api d)) = true ->
      busy_with GETTING_CSQ d'
      /\ ModemRsp (options d') GETTING_CSQ = MR_WAITING
      /\ (TimerExpired (now env) (thWaitForCalls (api d)) = false ->
          bSendingEnabled (options d') = bSendingEnabled (options d))).
Proof.
  intros Hidle. cbv zeta. split.
  - (* only when *)
    unfold ProcessModemStateMachine.
    destruct (bInTransparentMode (options d)) eqn:Htr;
      [intros [Hb _]; rewrite Hidle in Hb; discriminate Hb|].
    cbv zeta.
    destruct (UpdateModemState_api_kept env d) as (K1 & K2 & K3 & K4 & K5 & K6).
    set (d1 := UpdateModemState env d) in *. clearbody d1.
    rewrite Hidle in K1. unfold GetModemAtState.
    destruct (ATCmdState (eng d1)) eqn:Est; rewrite ?K1; cbv beta iota.
    + (* the engine has lost power *)
      intros Hb. exfalso.
      set (d2 := reset_ModemRsp
                   (api_log (RecordModemLogError MODEMLOG_MODEM_POWERED_DOWN)
                      (upd_options (set_modemState MODEM_POWERED_DOWN) d1))) in *.
      change (modemState (options d2)) with MODEM_POWERED_DOWN in Hb.
      cbv beta iota in Hb. unfold Process_POWERED_DOWN in Hb.
      destruct (HandleQueuedCommands_result env d2) as [[(Q1 & _) _] | (c & Hc & B1 & B2)];
        cbv zeta in *;
        destruct (HandleQueuedCommands env d2) as [b dq]; cbn [snd] in *;
        destruct Hb as [Hb1 Hb2]; cbn in Hb1, Hb2.
      * change (modemState (modemOptions (api dq))) with (modemState (options dq)) in Hb1.
        rewrite Q1 in Hb1. discriminate Hb1.
      * change (ModemCmd (modemOptions (api dq))) with (ModemCmd (options dq)) in Hb2.
        apply Hc. rewrite <- B2. exact Hb2.
    + intros [Hb _]. exfalso. unfold Process_IDLE, revert_to_init in Hb. cbn in Hb.
      discriminate Hb.
    + (* the engine is idle *)
      unfold Process_IDLE.
      destruct (HandleQueuedCommands_result env d1)
        as [[(Q1 & Q2 & Q3 & Q4 & Q5 & Q6) _] | (c & Hc & B1 & B2)];
        cbv zeta in *;
        destruct (HandleQueuedCommands env d1) as [b dq]; cbn [snd] in *.
      * set (dw := if TimerExpired (now env) (thWaitForCalls (api dq))
                   then upd_options (set_bSendingEnabled true)
                          (upd_api (set_thWaitForCalls StopTimer) dq)
                   else dq).
        assert (W : modemState (options dw) = MODEM_IDLE
                    /\ thCheckCSQ (api dw) = thCheckCSQ (api d)
                    /\ configurables dw = configurables d).
        { unfold dw. destruct (TimerExpired (now env) (thWaitForCalls (api dq)));
            (split; [|split]);
            first [ exact (eq_trans Q1 K1) | exact (eq_trans Q4 K4) | exact (eq_trans Q6 K6) ]. }
        destruct W as (W1 & W2 & W3). clearbody dw. rewrite W1.
        intros Hb. destruct (Process_IDLE_work_probe env dw W1) as [Honly _].
        rewrite <- W2, <- W3. apply Honly. exact Hb.
      * intros [Hb1 Hb2]. exfalso.
        set (dw := if TimerExpired (now env) (thWaitForCalls (api dq))
                   then upd_options (set_bSendingEnabled true)
                          (upd_api (set_thWaitForCalls StopTimer) dq)
                   else dq) in *.
        assert (W : modemState (options dw) = MODEM_BUSY /\ ModemCmd (options dw) = c).
        { unfold dw. destruct (TimerExpired (now env) (thWaitForCalls (api dq)));
            split; first [ exact B1 | exact B2 ]. }
        destruct W as [W1 W2]. clearbody dw. rewrite W1 in Hb1, Hb2.
        apply Hc. rewrite <- W2. exact Hb2.
    + intros [Hb _]. exfalso. unfold Process_IDLE, revert_to_init in Hb. cbn in Hb.
      discriminate Hb.
    + intros [Hb _]. exfalso. unfold Process_IDLE, revert_to_init in Hb. cbn in Hb.
      discriminate Hb.
    + intros [Hb _]. exfalso. unfold Process_IDLE, revert_to_init in Hb. cbn in Hb.
      discriminate Hb.
    + intros [Hb _]. exfalso. unfold Process_IDLE, revert_to_init in Hb. cbn in Hb.
      discriminate Hb.
    + intros [Hb _]. exfalso. unfold Process_IDLE, revert_to_init in Hb. cbn in Hb.
      discriminate Hb.
    + intros [Hb _]. exfalso. unfold Process_IDLE, revert_to_init in Hb. cbn in Hb.
      discriminate Hb.
  - (* enough *)
    intros Htr Hst Hrun Hresp Hcis Hempty Hmt Hvoice Hexp.
    unfold ProcessModemStateMachine. rewrite Htr. cbv zeta.
    rewrite (UpdateModemState_idle env d Hst Hrun Hresp Hcis).
    unfold GetModemAtState. rewrite Hst, Hidle. cbv beta iota.
    unfold Process_IDLE, HandleQueuedCommands.
    apply Z.eqb_eq in Hempty. rewrite Hempty.
    set (dw := if TimerExpired (now env) (thWaitForCalls (api d))
               then upd_options (set_bSendingEnabled true)
                      (upd_api (set_thWaitForCalls StopTimer) d)
               else d).
    assert (W : modemState (options dw) = MODEM_IDLE
                /\ thCheckCSQ (api dw) = thCheckCSQ (api d)
                /\ eng dw = eng d
                /\ (TimerExpired (now env) (thWaitForCalls (api d)) = false -> dw = d)).
    { unfold dw. destruct (TimerExpired (now env) (thWaitForCalls (api d)));
        (split; [exact Hidle|]); (split; [reflexivity|]); (split; [reflexivity|]);
        intros H; first [ discriminate H | reflexivity ]. }
    destruct W as (W1 & W2 & W3 & W4). clearbody dw. rewrite W1.
    destruct (Process_IDLE_work_probe env dw W1) as [_ Hif]. cbv zeta in Hif.
    rewrite W3, W2 in Hif.
    destruct (Hif Hst Hmt Hvoice Hexp) as (Hb & Hr & Hs).
    split; [exact Hb|]. split; [exact Hr|].
    intros Hw. rewrite Hs, (W4 Hw). reflexivity.
Qed.

Lemma C8_CSQ_probe_witness :
  let d := Driver_idle_sending_disabled in
  let d' := ProcessModemStateMachine (Env_calm 1) d in
  bSendingEnabled (options d') = false
  /\ busy_with GETTING_CSQ d'
  /\ thCheckCSQ (api d') = ResetTimer 1 (dwCheckSigStrengthRate (configurables d)).
Proof.
  intros d d'.
  assert (Htr : bInTransparentMode (options d) = false) by reflexivity.
  assert (Hidle : modemState (options d) = MODEM_IDLE) by reflexivity.
  destruct (C8_CSQ_probe (Env_calm 1) d Hidle) as [Honly Hif].
  assert (Hst : ATCmdState (eng d) = AT_CMD_IDLE) by reflexivity.
  assert (Hrun : IsModemRunning (Env_calm 1) = true) by reflexivity.
  assert (Hresp : TimerExpired (now (Env_calm 1)) (thRespTimeOut (eng d)) = false)
    by reflexivity.
  assert (Hcis : TimerExpired (now (Env_calm 1)) (thCISRespTimeOut (eng d)) = false)
    by reflexivity.
  assert (Hempty : wWriteIndex (QueuedCISCmd (api d)) = wReadIndex (QueuedCISCmd (api d)))
    by reflexivity.
  assert (Hmt : byMTStatus (modemInfo (eng d)) <> SUCCESSFUL_MSG)
    by (vm_compute; discriminate).
  assert (Hvoice : InVoiceCall (Env_calm 1) = false) by reflexivity.
  assert (Hexp : TimerExpired (now (Env_calm 1)) (thCheckCSQ (api d)) = true)
    by reflexivity.
  destruct (Hif Htr Hst Hrun Hresp Hcis Hempty Hmt Hvoice Hexp) as (Hbusy & _ & Hen).
  destruct (Honly Hbusy) as (_ & Htm & _).
  split; [exact (eq_trans (Hen eq_refl) eq_refl)|]. split; [exact Hbusy | exact Htm].
Defined.

(** Sending is disabled and the poll timer has expired: the tick of the API
    layer sends the probe. *)
Lemma C8_probe_sent_with_sending_disabled :
  let d := Driver_idle_sending_disabled in
  let d' := ProcessModemStateMachine (Env_calm 1) d in
  bSendingEnabled (options d) = false
  /\ modemState (options d') = MODEM_BUSY
  /\ ModemCmd (options d') = GETTING_CSQ
  /\ ATCmdState (eng d') = AT_CMD_SENDING
  /\ subState (eng d') = SEND_CSQ_CMD
  /\ tx (eng d') = str "AT+CSQF" ++ [CARRIAGE_RETURN]
  /\ bSendingEnabled (options d') = false.
Proof. vm_compute. repeat split; reflexivity. Qed.

(** ** The queue of aux-board commands (C9) *)

Lemma list_set_nth {A : Type} (l : list A) (k i : nat) (v d : A) :
  (i < List.length l)%nat ->
  nth i (list_set k v l) d = if Nat.eq_dec i k then v else nth i l d.
Proof.
  intros Hi. destruct (Nat.eq_dec i k) as [-> | Hne].
  - apply list_set_nth_same. exact Hi.
  - apply list_set_nth_other. intros E. apply Hne. symmetry. exact E.
Qed.

Lemma no_duplicates_clear (l : list MODEM_COMMANDS) (k : nat) :
  no_duplicates l -> no_duplicates (list_set k NO_CMD l).
Proof.
  intros H i j Hij. rewrite list_set_length in Hij.
  rewrite !list_set_nth by lia.
  destruct (Nat.eq_dec i k); [intros N; contradiction N; reflexivity|].
  destruct (Nat.eq_dec j k); [intros N; exact N|].
  apply H. exact Hij.
Qed.

Lemma no_duplicates_store (l : list MODEM_COMMANDS) (k : nat) (v : MODEM_COMMANDS) :
  no_duplicates l ->
  (forall i, (i < List.length l)%nat -> nth i l NO_CMD <> v) ->
  no_duplicates (list_set k v l).
Proof.
  intros H Hv i j Hij. rewrite list_set_length in Hij.
  rewrite !list_set_nth by lia.
  destruct (Nat.eq_dec i k); destruct (Nat.eq_dec j k); try lia.
  - intros _ E. apply (Hv j); [lia | symmetry; exact E].
  - intros _. apply Hv. lia.
  - apply H. exact Hij.
Qed.

Lemma array_set_length {A : Type} (l : list A) (i : Z) (v : A) :
  List.length (array_set l i v) = List.length l.
Proof. unfold array_set. destruct (i <? 0); [reflexivity | apply list_set_length]. Qed.

Lemma MODEM_COMMANDS_eqb_eq (a b : MODEM_COMMANDS) : MODEM_COMMANDS_eqb a b = true <-> a = b.
Proof.
  unfold MODEM_COMMANDS_eqb. destruct (MODEM_COMMANDS_eq_dec a b); split; intros H;
    first [ assumption | reflexivity | discriminate H | contradiction ].
Qed.

Lemma in_queue_buffer_In (cmd : MODEM_COMMANDS) (buff : list MODEM_COMMANDS) :
  List.length buff = Z.to_nat MDM_Q_LEN ->
  in_queue_buffer cmd buff = true <-> In cmd buff.
Proof.
  intros Hlen. unfold in_queue_buffer. rewrite <- Hlen, firstn_all.
  rewrite existsb_exists. split.
  - intros (x & Hx & E). apply MODEM_COMMANDS_eqb_eq in E. subst x. exact Hx.
  - intros H. exists cmd. split; [exact H | apply MODEM_COMMANDS_eqb_eq; reflexivity].
Qed.


Lemma AddDataToQueue_ok (env : Env) (cmd : MODEM_COMMANDS) (q : COMMQUEUE) :
  queue_ok q -> ~ In cmd (pBuff q) -> queue_ok (AddDataToQueue env cmd q).
Proof.
  intros Hq Hnew. pose proof Hq as (Hlen & Hnd & Hsz & Hr & Hw). unfold AddDataToQueue.
  destruct (queue_full q && negb (queue_overwrites env)); [exact Hq|].
  unfold queue_ok, set_wWriteIndex, set_pBuff. cbn [pBuff wWriteIndex wReadIndex wSize].
  split; [rewrite array_set_length; exact Hlen|]. split.
  - unfold array_set. destruct (wWriteIndex q <? 0); [exact Hnd|].
    apply no_duplicates_store; [exact Hnd|].
    intros i Hi E. apply Hnew. rewrite <- E. apply nth_In. exact Hi.
  - split; [exact Hsz|]. split; [exact Hr|].
    rewrite Hsz. apply Z.mod_pos_bound. reflexivity.
Qed.

(** Admission keeps the ring free of duplicates. *)
Lemma AddNewDataToQueue_inv (env : Env) (cmd : MODEM_COMMANDS) (d : Driver) :
  queue_inv d -> queue_inv (AddNewDataToQueue env cmd d).
Proof.
  intros Hok. unfold AddNewDataToQueue.
  destruct (in_queue_buffer cmd (modemQBuff d)) eqn:E; [exact Hok|].
  unfold queue_inv. cbn -[AddDataToQueue].
  apply AddDataToQueue_ok; [exact Hok|].
  intros Hin. apply (in_queue_buffer_In cmd _ (proj1 Hok)) in Hin.
  unfold modemQBuff in E. rewrite Hin in E. discriminate E.
Qed.

Lemma HandleQueuedCommands_take_inv (d : Driver) :
  queue_inv d -> queue_inv (snd (HandleQueuedCommands_take d)).
Proof.
  intros (Hlen & Hnd & Hsz & Hr & Hw).
  unfold HandleQueuedCommands_take, GetDataFromQueue, queue_inv, queue_ok.
  cbn -[array_set Z.to_nat Z.modulo]. split; [rewrite array_set_length; exact Hlen|]. split.
  - unfold array_set. destruct (wReadIndex (QueuedCISCmd (api d)) <? 0); [exact Hnd|].
    apply no_duplicates_clear. exact Hnd.
  - split; [exact Hsz|]. split; [|exact Hw].
    rewrite Hsz. apply Z.mod_pos_bound. reflexivity.
Qed.

(** The lemmas on the functions of the API layer, tried by [queue_step];
    the list grows with the development. *)
Ltac queue_lemma := fail.

(** The steps that leave the ring alone. *)
Lemma queue_inv_set_eng (e : Engine) (d : Driver) : queue_inv d -> queue_inv (set_eng e d).
Proof. exact (fun H => H). Qed.

Lemma queue_inv_upd_eng (f : Engine -> Engine) (d : Driver) :
  queue_inv d -> queue_inv (upd_eng f d).
Proof. exact (fun H => H). Qed.

Lemma queue_inv_api_log (e : LogEvent) (d : Driver) : queue_inv d -> queue_inv (api_log e d).
Proof. exact (fun H => H). Qed.

Lemma queue_inv_api_ModemLog (c : MODEMLOG_ERR_CODE) (d : Driver) :
  queue_inv d -> queue_inv (api_ModemLog c d).
Proof. exact (fun H => H). Qed.

Lemma queue_inv_upd_options (f : MODEM_OPTIONS -> MODEM_OPTIONS) (d : Driver) :
  queue_inv d -> queue_inv (upd_options f d).
Proof. exact (fun H => H). Qed.

Lemma queue_inv_upd_flags (f : MODEM_FLAGS -> MODEM_FLAGS) (d : Driver) :
  queue_inv d -> queue_inv (upd_flags f d).
Proof. exact (fun H => H). Qed.

Lemma queue_inv_SetModemStateBusy (cmd : MODEM_COMMANDS) (d : Driver) :
  queue_inv d -> queue_inv (SetModemStateBusy cmd d).
Proof. exact (fun H => H). Qed.

Lemma queue_inv_reset_ModemRsp (d : Driver) : queue_inv d -> queue_inv (reset_ModemRsp d).
Proof. exact (fun H => H). Qed.

Lemma queue_inv_timer (f : API -> API) (d : Driver) :
  (forall a, QueuedCISCmd (f a) = QueuedCISCmd a) ->
  queue_inv d -> queue_inv (upd_api f d).
Proof. intros Hf H. unfold queue_inv, upd_api. cbn. rewrite Hf. exact H. Qed.

(** Peels a state built by the API layer down to the state it started from:
    admissions keep the invariant, every other step leaves the ring alone. *)
Ltac queue_step :=
  match goal with
  | H : queue_inv ?d |- queue_inv ?d => exact H
  | E : ?x = (_, ?d1) |- queue_inv ?d1 =>
      let H := fresh "H" in
      assert (H : queue_inv (snd x)); [clear E | rewrite E in H; exact H]
  | |- queue_inv (AddNewDataToQueue _ _ _) => apply AddNewDataToQueue_inv
  | |- queue_inv (snd (HandleQueuedCommands_take _)) => apply HandleQueuedCommands_take_inv
  | |- queue_inv (snd (on_eng ?f ?d)) =>
      unfold on_eng; destruct (f (eng d)); cbn [snd]
  | |- queue_inv (if ?c then _ else _) => destruct c
  | |- queue_inv (match ?x with _ => _ end) => destruct x eqn:?
  | |- queue_inv (snd (if ?c then _ else _)) => destruct c
  | |- queue_inv (snd (match ?x with _ => _ end)) => destruct x eqn:?
  | |- queue_inv (snd (_, _)) => cbn [snd]
  | |- queue_inv (set_eng _ _) => apply queue_inv_set_eng
  | |- queue_inv (upd_eng _ _) => apply queue_inv_upd_eng
  | |- queue_inv (api_log _ _) => apply queue_inv_api_log
  | |- queue_inv (api_ModemLog _ _) => apply queue_inv_api_ModemLog
  | |- queue_inv (upd_options _ _) => apply queue_inv_upd_options
  | |- queue_inv (upd_flags _ _) => apply queue_inv_upd_flags
  | |- queue_inv (SetModemStateBusy _ _) => apply queue_inv_SetModemStateBusy
  | |- queue_inv (reset_ModemRsp _) => apply queue_inv_reset_ModemRsp
  | |- queue_inv (upd_api _ _) => apply queue_inv_timer; [intros a; reflexivity|]
  | |- queue_inv _ => queue_lemma
  end.

Ltac queue_solve := cbv zeta; repeat queue_step.

Lemma aux_command_inv (env : Env) (cmd : MODEM_COMMANDS)
  (send : Engine -> bool * Engine) (d : Driver) :
  queue_inv d ->
  queue_inv
    (snd (let '(sent, d) :=
            if idle_or_powered_down d then on_eng send d else (false, d) in
          if sent then (true, SetModemStateBusy cmd d)
          else (false, AddNewDataToQueue env cmd d))).
Proof.
  intros H. unfold on_eng.
  destruct (idle_or_powered_down d); [destruct (send (eng d)) as [[|] s]|];
    cbn [snd]; repeat queue_step.
Qed.

Lemma TogglePhoneRinger_inv (env : Env) (b : bool) (d : Driver) :
  queue_inv d -> queue_inv (snd (TogglePhoneRinger env b d)).
Proof. intros H. unfold TogglePhoneRinger. cbv zeta. apply aux_command_inv. exact H. Qed.

Lemma ToggleRelayState_inv (env : Env) (n : Z) (b : bool) (d : Driver) :
  queue_inv d -> queue_inv (snd (ToggleRelayState env n b d)).
Proof. intros H. unfold ToggleRelayState. cbv zeta. apply aux_command_inv. exact H. Qed.

Lemma SendPhoneRingerStatusCmd_inv (env : Env) (d : Driver) :
  queue_inv d -> queue_inv (snd (SendPhoneRingerStatusCmd env d)).
Proof. intros H. unfold SendPhoneRingerStatusCmd. apply aux_command_inv. exact H. Qed.

Lemma SendOutputRelayStatusCmd_inv (env : Env) (n : Z) (d : Driver) :
  queue_inv d -> queue_inv (snd (SendOutputRelayStatusCmd env n d)).
Proof. intros H. unfold SendOutputRelayStatusCmd. cbv zeta. apply aux_command_inv. exact H. Qed.

Lemma UploadCISConfig_inv (env : Env) (d : Driver) :
  queue_inv d -> queue_inv (snd (UploadCISConfig env d)).
Proof.
  intros H. unfold UploadCISConfig. cbv zeta. apply aux_command_inv.
  repeat queue_step.
Qed.

Lemma ProgramCIS_inv (env : Env) (d : Driver) :
  queue_inv d -> queue_inv (snd (ProgramCIS env d)).
Proof.
  intros H. unfold ProgramCIS. cbv zeta. apply aux_command_inv.
  repeat queue_step.
Qed.

Lemma SaveCISCurrentState_inv (env : Env) (d : Driver) :
  queue_inv d -> queue_inv (SaveCISCurrentState env d).
Proof. intros H. unfold SaveCISCurrentState. cbv zeta. repeat queue_step. Qed.

Lemma ResetCIS_inv (env : Env) (d : Driver) :
  queue_inv d -> queue_inv (snd (ResetCIS env d)).
Proof.
  intros H. unfold ResetCIS, on_eng.
  destruct (idle_or_powered_down d); [destruct (SendCISResetCmd env (eng d)) as [[|] s]|];
    cbn [snd]; cbv zeta; repeat queue_step.
  apply SaveCISCurrentState_inv. repeat queue_step.
Qed.

Lemma HangupCall_inv (env : Env) (d : Driver) :
  queue_inv d -> queue_inv (snd (HangupCall env d)).
Proof.
  intros H. unfold HangupCall, on_eng.
  destruct (SendCallHangupCmd env (eng d)) as [[|] s]; cbn [snd]; repeat queue_step.
Qed.

(** Draining keeps the ring free of duplicates, whatever the command taken
    does when it is carried out. *)
Lemma HandleQueuedCommands_inv (env : Env) (d : Driver) :
  queue_inv d -> queue_inv (snd (HandleQueuedCommands env d)).
Proof.
  intros H. unfold HandleQueuedCommands.
  destruct (wWriteIndex (QueuedCISCmd (api d)) =? wReadIndex (QueuedCISCmd (api d)));
    [exact H|].
  pose proof (HandleQueuedCommands_take_inv d H) as Ht.
  destruct (HandleQueuedCommands_take d) as [c d1]. cbn [snd] in Ht.
  destruct c; cbn [snd];
    first [ exact Ht
          | apply TogglePhoneRinger_inv; exact Ht
          | apply ToggleRelayState_inv; exact Ht
          | apply SendPhoneRingerStatusCmd_inv; exact Ht
          | apply SendOutputRelayStatusCmd_inv; exact Ht
          | apply ResetCIS_inv; exact Ht
          | apply ProgramCIS_inv; exact Ht
          | apply UploadCISConfig_inv; exact Ht
          | idtac ].
  destruct (modemState (options d1)); cbn [snd];
    first [ exact Ht | apply HangupCall_inv; exact Ht ].
Qed.

Ltac queue_lemma_1 :=
  match goal with
  | |- queue_inv (snd (TogglePhoneRinger _ _ _)) => apply TogglePhoneRinger_inv
  | |- queue_inv (snd (ToggleRelayState _ _ _ _)) => apply ToggleRelayState_inv
  | |- queue_inv (snd (SendPhoneRingerStatusCmd _ _)) => apply SendPhoneRingerStatusCmd_inv
  | |- queue_inv (snd (SendOutputRelayStatusCmd _ _ _)) => apply SendOutputRelayStatusCmd_inv
  | |- queue_inv (snd (UploadCISConfig _ _)) => apply UploadCISConfig_inv
  | |- queue_inv (snd (ProgramCIS _ _)) => apply ProgramCIS_inv
  | |- queue_inv (snd (ResetCIS _ _)) => apply ResetCIS_inv
  | |- queue_inv (snd (HangupCall _ _)) => apply HangupCall_inv
  | |- queue_inv (snd (HandleQueuedCommands _ _)) => apply HandleQueuedCommands_inv
  | |- queue_inv (SaveCISCurrentState _ _) => apply SaveCISCurrentState_inv
  end.

Ltac queue_lemma ::= queue_lemma_1.

(** *** The invariant along the ticks of both layers *)

Lemma GetRxBinaryDataBufferRsp_inv (env : Env) (d : Driver) :
  queue_inv d -> queue_inv (snd (GetRxBinaryDataBufferRsp env d)).
Proof.
  intros H.
  unfold GetRxBinaryDataBufferRsp, DefineMsgTypeDestPath, GetRxBinaryData_save.
  queue_solve.
Qed.

Lemma UpdateModemState_inv (env : Env) (d : Driver) :
  queue_inv d -> queue_inv (UpdateModemState env d).
Proof.
  intros H. unfold UpdateModemState, UpdateModemState_RCVING.
  queue_solve; apply GetRxBinaryDataBufferRsp_inv; queue_solve.
Qed.

Lemma GetMailboxStatus_inv (env : Env) (d : Driver) :
  queue_inv d -> queue_inv (snd (GetMailboxStatus env d)).
Proof. intros H. unfold GetMailboxStatus. queue_solve. Qed.

Lemma SendFileToModem_inv (env : Env) (d : Driver) :
  queue_inv d -> queue_inv (snd (SendFileToModem env d)).
Proof.
  intros H. unfold SendFileToModem, SendFileToModem_file, SendFileToModem_send.
  queue_solve.
Qed.

Lemma SendCallStatusCmd_inv (env : Env) (d : Driver) :
  queue_inv d -> queue_inv (snd (SendCallStatusCmd env d)).
Proof. intros H. unfold SendCallStatusCmd. queue_solve. Qed.

Lemma HandleTimeouts_inv (env : Env) (st : AT_CMD_STATES) (d : Driver) :
  queue_inv d -> queue_inv (HandleTimeouts env st d).
Proof. intros H. unfold HandleTimeouts. queue_solve. Qed.

Lemma WaitForIncommingCalls_inv (env : Env) (d : Driver) :
  queue_inv d -> queue_inv (WaitForIncommingCalls env d).
Proof. intros H. unfold WaitForIncommingCalls. queue_solve. Qed.

Ltac queue_lemma_2 :=
  first
    [ queue_lemma_1
    | match goal with
      | |- queue_inv (UpdateModemState _ _) => apply UpdateModemState_inv
      | |- queue_inv (snd (GetMailboxStatus _ _)) => apply GetMailboxStatus_inv
      | |- queue_inv (snd (SendFileToModem _ _)) => apply SendFileToModem_inv
      | |- queue_inv (snd (SendCallStatusCmd _ _)) => apply SendCallStatusCmd_inv
      | |- queue_inv (HandleTimeouts _ _ _) => apply HandleTimeouts_inv
      | |- queue_inv (WaitForIncommingCalls _ _) => apply WaitForIncommingCalls_inv
      end ].

Ltac queue_lemma ::= queue_lemma_2.

Lemma wait_unless_mailbox_inv (env : Env) (d : Driver) :
  queue_inv d -> queue_inv (wait_unless_mailbox env d).
Proof. intros H. unfold wait_unless_mailbox. queue_solve. Qed.

Lemma return_from_cis_cmd_inv (d : Driver) :
  queue_inv d -> queue_inv (return_from_cis_cmd d).
Proof. intros H. unfold return_from_cis_cmd. queue_solve. Qed.

Lemma dispose_sent_file_inv (env : Env) (d : Driver) :
  queue_inv d -> queue_inv (dispose_sent_file env d).
Proof. intros H. unfold dispose_sent_file. queue_solve. Qed.

Ltac queue_lemma_3 :=
  first
    [ queue_lemma_2
    | match goal with
      | |- queue_inv (wait_unless_mailbox _ _) => apply wait_unless_mailbox_inv
      | |- queue_inv (return_from_cis_cmd _) => apply return_from_cis_cmd_inv
      | |- queue_inv (dispose_sent_file _ _) => apply dispose_sent_file_inv
      end ].

Ltac queue_lemma ::= queue_lemma_3.

Lemma CleanUpOnIdle_inv (env : Env) (st : AT_CMD_STATES) (d : Driver) :
  queue_inv d -> queue_inv (CleanUpOnIdle env st d).
Proof.
  intros H. unfold CleanUpOnIdle. cbv zeta.
  match goal with
  | |- context [ModemCmd (options ?d0)] =>
      assert (H1 : queue_inv d0) by queue_solve;
      set (d1 := d0) in *; clearbody d1
  end.
  clear H d. destruct (ModemCmd (options d1)); destruct st; queue_solve.
Qed.

Lemma revert_to_init_inv (unexpected : bool) (d : Driver) :
  queue_inv d -> queue_inv (revert_to_init unexpected d).
Proof. intros H. unfold revert_to_init, CleanUpOnUnexpectedRsp. queue_solve. Qed.

Ltac queue_lemma_4 :=
  first
    [ queue_lemma_3
    | match goal with
      | |- queue_inv (CleanUpOnIdle _ _ _) => apply CleanUpOnIdle_inv
      | |- queue_inv (revert_to_init _ _) => apply revert_to_init_inv
      end ].

Ltac queue_lemma ::= queue_lemma_4.

Lemma Process_INITTING_inv (env : Env) (st : AT_CMD_STATES) (d : Driver) :
  queue_inv d -> queue_inv (Process_INITTING env st d).
Proof. intros H. unfold Process_INITTING. destruct st; queue_solve. Qed.

Lemma Process_IDLE_edges_inv (env : Env) (d : Driver) :
  queue_inv d -> queue_inv (Process_IDLE_edges env d).
Proof. intros H. unfold Process_IDLE_edges. queue_solve. Qed.

Lemma Process_IDLE_csq_inv (env : Env) (d : Driver) :
  queue_inv d -> queue_inv (snd (Process_IDLE_csq env d)).
Proof. intros H. unfold Process_IDLE_csq. queue_solve. Qed.

Lemma Process_IDLE_send_inv (env : Env) (d : Driver) :
  queue_inv d -> queue_inv (Process_IDLE_send env d).
Proof. intros H. unfold Process_IDLE_send. queue_solve. Qed.

Ltac queue_lemma_5 :=
  first
    [ queue_lemma_4
    | match goal with
      | |- queue_inv (Process_INITTING _ _ _) => apply Process_INITTING_inv
      | |- queue_inv (Process_IDLE_edges _ _) => apply Process_IDLE_edges_inv
      | |- queue_inv (snd (Process_IDLE_csq _ _)) => apply Process_IDLE_csq_inv
      | |- queue_inv (Process_IDLE_send _ _) => apply Process_IDLE_send_inv
      end ].

Ltac queue_lemma ::= queue_lemma_5.

Lemma Process_IDLE_work_inv (env : Env) (d : Driver) :
  queue_inv d -> queue_inv (Process_IDLE_work env d).
Proof. intros H. unfold Process_IDLE_work. queue_solve. Qed.

Lemma Process_IDLE_inv (env : Env) (st : AT_CMD_STATES) (d : Driver) :
  queue_inv d -> queue_inv (Process_IDLE env st d).
Proof.
  intros H. unfold Process_IDLE. cbv zeta.
  match goal with
  | |- context [modemState (options ?d0)] =>
      assert (H1 : queue_inv d0) by (destruct st; queue_solve);
      set (d1 := d0) in *; clearbody d1
  end.
  destruct (modemState (options d1)); first [ exact H1 | apply Process_IDLE_work_inv; exact H1 ].
Qed.

Lemma Process_BUSY_inv (env : Env) (st : AT_CMD_STATES) (d : Driver) :
  queue_inv d -> queue_inv (Process_BUSY env st d).
Proof. intros H. unfold Process_BUSY. destruct st; queue_solve. Qed.

Lemma Process_POWERED_DOWN_inv (env : Env) (st : AT_CMD_STATES) (d : Driver) :
  queue_inv d -> queue_inv (Process_POWERED_DOWN env st d).
Proof. intros H. unfold Process_POWERED_DOWN. destruct st; queue_solve. Qed.

Ltac queue_lemma_6 :=
  first
    [ queue_lemma_5
    | match goal with
      | |- queue_inv (Process_IDLE _ _ _) => apply Process_IDLE_inv
      | |- queue_inv (Process_BUSY _ _ _) => apply Process_BUSY_inv
      | |- queue_inv (Process_POWERED_DOWN _ _ _) => apply Process_POWERED_DOWN_inv
      end ].

Ltac queue_lemma ::= queue_lemma_6.


(** *** Any sequence of calls into the API layer *)








(** * Further properties of the code *)

Lemma seconds_kept_as_ms (s : Z) :
  0 <= s -> s * 1000 < 2 ^ 32 -> to_DWORD (s * 1000) / 1000 = s.
Proof.
  intros H0 H1. unfold to_DWORD. rewrite Z.mod_small by lia. apply Z.div_mul. discriminate.
Qed.

(** A delay given in seconds is read back unchanged as long as its value in
    milliseconds fits a DWORD; the two setters that test their argument keep
    the previous value when given 0. *)
Theorem settings_in_seconds_round_trip (s : Z) (d : Driver) :
  0 <= s -> s * 1000 < 2 ^ 32 ->
  GetMsgRetryDelay (SetMsgRetryDelay s d) = s
  /\ GetModemIncomingCallDelay (SetModemIncomingCallDelay s d) = s
  /\ GetModemTimeoutWait (SetModemTimeoutWait s d) = s
  /\ GetSignalStrengthPollRate (SetSignalStrengthPollRate s d)
     = (if s =? 0 then GetSignalStrengthPollRate d else s)
  /\ GetCSQRetryDelay (SetCSQRetryDelay s d) = (if s =? 0 then GetCSQRetryDelay d else s).
Proof.
  intros H0 H1. pose proof (seconds_kept_as_ms s H0 H1) as E.
  unfold GetMsgRetryDelay, SetMsgRetryDelay, GetModemIncomingCallDelay,
    SetModemIncomingCallDelay, GetModemTimeoutWait, SetModemTimeoutWait,
    GetSignalStrengthPollRate, SetSignalStrengthPollRate, GetCSQRetryDelay, SetCSQRetryDelay.
  destruct (s =? 0); cbn; repeat split; first [exact E | reflexivity].
Qed.

(** A retry delay of 3 s is read back as 3 s. *)
Lemma settings_in_seconds_round_trip_witness :
  GetMsgRetryDelay (SetMsgRetryDelay 3 Driver_idle) = 3.
Proof.
  apply (settings_in_seconds_round_trip 3 Driver_idle); [lia | reflexivity].
Defined.

(** Switching report sending on or off is recorded in the modem log only
    when it changes something, a second call in a row changes nothing, and
    switching off also stops the timer that would switch sending back on. *)
Theorem report_sending_switch (d : Driver) :
  IsModemSendingEnabled (EnableReportSending d) = true
  /\ IsModemSendingEnabled (DisableReportSending d) = false
  /\ thWaitForCalls (api (DisableReportSending d)) = StopTimer
  /\ log (eng (EnableReportSending d))
     = log (eng d) ++ (if IsModemSendingEnabled d then []
                       else [RecordModemLogError MODEMLOG_SEND_ENABLED])
  /\ log (eng (DisableReportSending d))
     = log (eng d) ++ (if IsModemSendingEnabled d
                       then [RecordModemLogError MODEMLOG_SEND_DISABLED] else [])
  /\ EnableReportSending (EnableReportSending d) = EnableReportSending d
  /\ DisableReportSending (DisableReportSending d) = DisableReportSending d.
Proof.
  destruct d as [s [t1 t2 t3 t4 t5 t6 q f [o1 o2 o3 o4 o5 o6 o7 on o9 o10 o11] c]].
  unfold IsModemSendingEnabled, EnableReportSending, DisableReportSending.
  destruct on; cbn; rewrite ?app_nil_r; repeat split; reflexivity.
Qed.

Lemma set_eng_same (d : Driver) : set_eng (eng d) d = d.
Proof. destruct d. reflexivity. Qed.

Lemma CheckMailbox_refused (env : Env) (s : Engine) :
  fst (CheckMailbox env s) = false -> snd (CheckMailbox env s) = s.
Proof. unfold CheckMailbox. destruct (ATCmdState s); cbn; first [reflexivity | discriminate]. Qed.

Lemma SendWriteTextMsgCmd_refused (env : Env) (text : list Z) (s : Engine) :
  fst (SendWriteTextMsgCmd env text s) = false -> snd (SendWriteTextMsgCmd env text s) = s.
Proof.
  unfold SendWriteTextMsgCmd. destruct (ATCmdState s); cbn; first [reflexivity | discriminate].
Qed.

Lemma SendBinaryBuffer_refused_unchanged (env : Env) (buf : list Z) (n : Z) (s : Engine) :
  0 < n -> fst (SendBinaryBuffer env buf n s) = false -> snd (SendBinaryBuffer env buf n s) = s.
Proof.
  intros Hn. unfold SendBinaryBuffer.
  destruct (ATCmdState s); try (cbn; reflexivity).
  unfold upd_modemInfo. cbn [modemInfo set_modemInfo dwTxMsgLen set_dwTxMsgLen].
  destruct (MAX_FILE_LEN <? n); [cbn; discriminate|].
  destruct (n <=? 0) eqn:E; [apply Z.leb_le in E; lia|].
  cbn. discriminate.
Qed.

(** The shape shared by the two functions once the API layer is idle and no
    call is up: an engine command, and the busy state if it was taken. *)
Lemma dispatch_or_unchanged (cmd : MODEM_COMMANDS) (send : Engine -> bool * Engine)
  (d : Driver) :
  (fst (send (eng d)) = false -> snd (send (eng d)) = eng d) ->
  let r := (let '(sent, d) := on_eng send d in
            if sent then (true, SetModemStateBusy cmd d) else (false, d)) in
  fst r = false -> snd r = d.
Proof.
  intros Hs. unfold on_eng. destruct (send (eng d)) as [[|] s]; cbn in *.
  - discriminate.
  - intros _. rewrite Hs by reflexivity. apply set_eng_same.
Qed.

(** A message the API layer does not take leaves the driver as it was:
    whenever SendTextMsgToModem or SendBinMsgToModem answers FALSE, neither
    layer has changed. *)
Theorem refused_message_changes_nothing (env : Env) (buf : option (list Z)) (wMsgLen : Z)
  (d : Driver) :
  0 <= wMsgLen < 65536 ->
  (fst (SendTextMsgToModem env buf wMsgLen d) = false ->
   snd (SendTextMsgToModem env buf wMsgLen d) = d)
  /\ (fst (SendBinMsgToModem env buf wMsgLen d) = false ->
      snd (SendBinMsgToModem env buf wMsgLen d) = d).
Proof.
  intros Hlen. unfold SendTextMsgToModem, SendBinMsgToModem.
  destruct (modemState (options d)); try (split; reflexivity).
  destruct (InVoiceCall env); [split; reflexivity|].
  destruct (wMsgLen =? 0) eqn:E0.
  - split; apply (dispatch_or_unchanged MAILBOX_CHECK (CheckMailbox env));
      apply CheckMailbox_refused.
  - apply Z.eqb_neq in E0. split.
    + destruct buf as [[|c text]|]; try reflexivity.
      apply (dispatch_or_unchanged TXING_TEXT (SendWriteTextMsgCmd env (c :: text))).
      apply SendWriteTextMsgCmd_refused.
    + destruct buf as [bytes|]; [|reflexivity].
      apply (dispatch_or_unchanged TXING_BUFFER (SendBinaryBuffer env bytes wMsgLen)).
      apply SendBinaryBuffer_refused_unchanged. lia.
Qed.

(** A binary message of 5 bytes without a buffer: whenever it is refused the
    idle driver is as before. *)
Lemma refused_message_changes_nothing_witness :
  0 <= 5 < 65536
  /\ (fst (SendBinMsgToModem (Env_calm 0) None 5 Driver_idle) = false ->
      snd (SendBinMsgToModem (Env_calm 0) None 5 Driver_idle) = Driver_idle).
Proof.
  split; [lia|].
  exact (proj2 (refused_message_changes_nothing (Env_calm 0) None 5 Driver_idle ltac:(lia))).
Defined.

(** What taking a binary message does: the engine starts the AT+SBDWB
    exchange for the message cut to the modem's limit, the API layer is busy
    with TXING_BUFFER, and the answer polled by GetBinMsgRspFromModem is
    MR_WAITING while the answers of the other commands are as before. *)
Theorem binary_message_taken (env : Env) (bytes : list Z) (wMsgLen : Z) (d : Driver) :
  modemState (options d) = MODEM_IDLE ->
  InVoiceCall env = false ->
  ATCmdState (eng d) = AT_CMD_IDLE ->
  0 < wMsgLen < 65536 ->
  let r := SendBinMsgToModem env (Some bytes) wMsgLen d in
  fst r = true
  /\ GetCurrentModemState (snd r) = MODEM_BUSY
  /\ ModemCmd (options (snd r)) = TXING_BUFFER
  /\ prevModemState (options (snd r)) = MODEM_IDLE
  /\ GetBinMsgRspFromModem (snd r) = MR_WAITING
  /\ (forall cmd, cmd <> TXING_BUFFER -> GetModemCmdRsp cmd (snd r) = GetModemCmdRsp cmd d)
  /\ ATCmdState (eng (snd r)) = AT_CMD_SENDING
  /\ subState (eng (snd r)) = SEND_READY_CMD
  /\ thRespTimeOut (eng (snd r)) = StartTimer (now env) STANDARD_RSP_TIMEOUT
  /\ dwTxMsgLen (modemInfo (eng (snd r))) = Z.min wMsgLen MAX_FILE_LEN.
Proof.
  intros Hidle Hcall Hs Hlen r. subst r. unfold SendBinMsgToModem.
  rewrite Hidle, Hcall.
  destruct (wMsgLen =? 0) eqn:E0; [apply Z.eqb_eq in E0; lia|].
  pose proof (SendBinaryBuffer_accepts env bytes wMsgLen (eng d) Hs ltac:(lia))
    as (Hacc & Hst & Hsub & Ht & _ & Hl & _).
  unfold on_eng. destruct (SendBinaryBuffer env bytes wMsgLen (eng d)) as [sent s1].
  cbn [fst snd] in *. subst sent.
  destruct d as [s0 [t1 t2 t3 t4 t5 t6 q f [o1 o2 o3 o4 o5 o6 o7 on o9 o10 o11] c]].
  cbn in Hidle. subst o10.
  unfold GetCurrentModemState, GetBinMsgRspFromModem, GetModemCmdRsp. cbn.
  repeat split; try assumption; try reflexivity.
  intros cmd Hne. destruct (MODEM_COMMANDS_eq_dec cmd TXING_BUFFER); [contradiction|reflexivity].
Qed.

(** Three bytes handed to the idle driver: the answer reads MR_WAITING. *)
Lemma binary_message_taken_witness :
  GetBinMsgRspFromModem (snd (SendBinMsgToModem (Env_calm 0) (Some [1; 2; 3]) 3 Driver_idle))
  = MR_WAITING.
Proof.
  exact (proj1 (proj2 (proj2 (proj2 (proj2
    (binary_message_taken (Env_calm 0) [1; 2; 3] 3 Driver_idle
       eq_refl eq_refl eq_refl ltac:(lia))))))).
Defined.

(** In transparent mode the state machine stands still: the calls of
    ProcessModemStateMachine made between EnteredTransparentModemMode( TRUE )
    and EnteredTransparentModemMode( FALSE ) change neither layer, so the
    bytes waiting in the receive queue are left to the transparent reader and
    the driver resumes from the state it was in. *)
Theorem transparent_mode_freezes_the_driver (envs : list Env) (d : Driver) :
  let frozen := EnteredTransparentModemMode true d in
  api_run (map Api_ProcessModemStateMachine envs) frozen = frozen
  /\ rxq (eng (api_run (map Api_ProcessModemStateMachine envs) frozen)) = rxq (eng d)
  /\ (bInTransparentMode (options d) = false ->
      EnteredTransparentModemMode false
        (api_run (map Api_ProcessModemStateMachine envs) frozen) = d).
Proof.
  intros frozen.
  assert (Hrun : api_run (map Api_ProcessModemStateMachine envs) frozen = frozen).
  { unfold api_run. induction envs as [|env envs IH]; [reflexivity|].
    cbn [map fold_left api_step].
    assert (E : ProcessModemStateMachine env frozen = frozen).
    { unfold ProcessModemStateMachine, frozen, EnteredTransparentModemMode.
      destruct d as [s [t1 t2 t3 t4 t5 t6 q f [o1 o2 o3 o4 o5 o6 o7 on o9 o10 o11] c]].
      reflexivity. }
    rewrite E. exact IH. }
  rewrite Hrun. split; [reflexivity|]. split.
  - destruct d as [s a]. reflexivity.
  - intros Hoff. unfold frozen, EnteredTransparentModemMode.
    destruct d as [s [t1 t2 t3 t4 t5 t6 q f [o1 o2 o3 o4 o5 o6 o7 on o9 o10 o11] c]].
    cbn in Hoff. subst o3. reflexivity.
Qed.


(** ** Assembling a response line (GetResponseBuffer) *)

(** The receive queue plays no part in the loop: it is set when the loop
    ends. *)
Lemma set_rxq_set_rxq (p q : list Z) (s : Engine) : set_rxq p (set_rxq q s) = set_rxq p s.
Proof. destruct s; reflexivity. Qed.

Lemma set_wRxIndex_set_rxq (v : Z) (q : list Z) (s : Engine) :
  set_wRxIndex v (set_rxq q s) = set_rxq q (set_wRxIndex v s).
Proof. destruct s; reflexivity. Qed.

Lemma set_byRxBuffer_set_rxq (v q : list Z) (s : Engine) :
  set_byRxBuffer v (set_rxq q s) = set_rxq q (set_byRxBuffer v s).
Proof. destruct s; reflexivity. Qed.

Lemma set_errorCodeRsp_set_rxq (v : MODEM_ERROR_CODE_RSP) (q : list Z) (s : Engine) :
  set_errorCodeRsp v (set_rxq q s) = set_rxq q (set_errorCodeRsp v s).
Proof. destruct s; reflexivity. Qed.

Lemma wRxIndex_set_rxq (q : list Z) (s : Engine) : wRxIndex (set_rxq q s) = wRxIndex s.
Proof. destruct s; reflexivity. Qed.

Lemma byRxBuffer_set_rxq (q : list Z) (s : Engine) : byRxBuffer (set_rxq q s) = byRxBuffer s.
Proof. destruct s; reflexivity. Qed.

Lemma GetResponseBuffer_loop_rxq (EOL : Z) (pending q : list Z) (s : Engine) :
  GetResponseBuffer_loop EOL pending (set_rxq q s) = GetResponseBuffer_loop EOL pending s.
Proof.
  revert s. induction pending as [|b pending IH]; intros s; cbn [GetResponseBuffer_loop].
  - rewrite set_rxq_set_rxq. reflexivity.
  - rewrite wRxIndex_set_rxq.
    destruct (MAX_CMD_LINE_LEN <=? wRxIndex s); destruct (b =? EOL);
      rewrite ?set_errorCodeRsp_set_rxq, ?set_wRxIndex_set_rxq, ?wRxIndex_set_rxq,
        ?byRxBuffer_set_rxq, ?set_byRxBuffer_set_rxq, ?set_wRxIndex_set_rxq,
        ?set_rxq_set_rxq;
      first [ reflexivity | apply IH ].
Qed.

Lemma GetResponseBuffer_loop_app (EOL : Z) (a b : list Z) (s : Engine) :
  ~ In EOL a ->
  fst (GetResponseBuffer_loop EOL a s) = false
  /\ GetResponseBuffer_loop EOL (a ++ b) s
     = GetResponseBuffer_loop EOL b (snd (GetResponseBuffer_loop EOL a s)).
Proof.
  revert s. induction a as [|c a IH]; intros s Hno.
  - cbn [GetResponseBuffer_loop app fst snd]. split; [reflexivity|].
    symmetry. apply GetResponseBuffer_loop_rxq.
  - cbn [GetResponseBuffer_loop app].
    destruct (c =? EOL) eqn:E.
    + apply Z.eqb_eq in E. exfalso. apply Hno. left. exact E.
    + apply IH. intros H. apply Hno. right. exact H.
Qed.

(** A line that reaches the engine in two pieces is assembled exactly as if
    it had come at once: what the first call stores of a piece without the
    end-of-line character is what the second call continues from. *)
Theorem response_line_in_two_pieces (EOL : Z) (first rest : list Z) (s : Engine) :
  rxq s = first ->
  ~ In EOL first ->
  fst (GetResponseBuffer EOL s) = false
  /\ rxq (snd (GetResponseBuffer EOL s)) = []
  /\ GetResponseBuffer EOL (ModemIsr_receive rest (snd (GetResponseBuffer EOL s)))
     = GetResponseBuffer EOL (ModemIsr_receive rest s).
Proof.
  intros Hq Hno. unfold GetResponseBuffer, ModemIsr_receive.
  rewrite Hq.
  pose proof (GetResponseBuffer_loop_app EOL first rest s Hno) as [Hf Happ].
  assert (Hempty : rxq (snd (GetResponseBuffer_loop EOL first s)) = []).
  { clear Hf Happ Hq. revert s. induction first as [|c a IH]; intros s.
    - destruct s; reflexivity.
    - cbn [GetResponseBuffer_loop]. destruct (c =? EOL) eqn:E.
      + apply Z.eqb_eq in E. exfalso. apply Hno. left. exact E.
      + apply IH. intros H. apply Hno. right. exact H. }
  split; [exact Hf|]. split; [exact Hempty|].
  rewrite Hempty. cbn [app].
  replace (rxq (set_rxq rest (snd (GetResponseBuffer_loop EOL first s)))) with rest
    by (destruct (snd (GetResponseBuffer_loop EOL first s)); reflexivity).
  replace (rxq (set_rxq (first ++ rest) s)) with (first ++ rest) by (destruct s; reflexivity).
  rewrite !GetResponseBuffer_loop_rxq. symmetry. exact Happ.
Qed.

(** The first four characters of a +CSQ line, the end still to come: no line
    is reported yet. *)
Lemma response_line_in_two_pieces_witness :
  rxq (ModemIsr_receive (str "+CSQ") Engine_idle) = str "+CSQ"
  /\ ~ In LINE_FEED (str "+CSQ")
  /\ fst (GetResponseBuffer LINE_FEED (ModemIsr_receive (str "+CSQ") Engine_idle)) = false.
Proof.
  assert (Hq : rxq (ModemIsr_receive (str "+CSQ") Engine_idle) = str "+CSQ") by reflexivity.
  assert (Hno : ~ In LINE_FEED (str "+CSQ")).
  { vm_compute. intros [H|[H|[H|[H|[]]]]]; discriminate H. }
  split; [exact Hq|]. split; [exact Hno|].
  exact (proj1 (response_line_in_two_pieces LINE_FEED (str "+CSQ") (str "F:3")
                  (ModemIsr_receive (str "+CSQ") Engine_idle) Hq Hno)).
Defined.

Lemma array_set_nth (l : list Z) (i : Z) (v : Z) (k : nat) :
  0 <= i -> (k < List.length l)%nat ->
  nth k (array_set l i v) 0 = if Nat.eq_dec k (Z.to_nat i) then v else nth k l 0.
Proof.
  intros Hi Hk. unfold array_set.
  destruct (i <? 0) eqn:E; [apply Z.ltb_lt in E; lia|].
  apply list_set_nth. exact Hk.
Qed.

(** However many bytes are waiting, the loop leaves the index inside
    [0, MAX_CMD_LINE_LEN] and the buffer at its length, so that every byte it
    stores lands inside the buffer; the only trace of an overflow is the
    error code. *)
Lemma GetResponseBuffer_loop_bounds (EOL : Z) (pending : list Z) :
  forall s,
  0 <= wRxIndex s <= MAX_CMD_LINE_LEN ->
  List.length (byRxBuffer s) = Z.to_nat MAX_CMD_LINE_LEN ->
  let r := GetResponseBuffer_loop EOL pending s in
  0 <= wRxIndex (snd r) <= MAX_CMD_LINE_LEN
  /\ List.length (byRxBuffer (snd r)) = Z.to_nat MAX_CMD_LINE_LEN
  /\ (errorCodeRsp (snd r) = errorCodeRsp s \/ errorCodeRsp (snd r) = MEC_RX_BUFFER_OVERFLOW)
  /\ (fst r = true ->
      0 < wRxIndex (snd r)
      /\ nth (Z.to_nat (wRxIndex (snd r) - 1)) (byRxBuffer (snd r)) 0 = NUL)
  /\ (fst r = false -> rxq (snd r) = []).
Proof.
  induction pending as [|b pending IH]; intros s Hi Hlen; cbn [GetResponseBuffer_loop].
  - cbv zeta. cbn [fst snd].
    replace (wRxIndex (set_rxq [] s)) with (wRxIndex s) by (destruct s; reflexivity).
    replace (byRxBuffer (set_rxq [] s)) with (byRxBuffer s) by (destruct s; reflexivity).
    replace (errorCodeRsp (set_rxq [] s)) with (errorCodeRsp s) by (destruct s; reflexivity).
    replace (rxq (set_rxq [] s)) with (@nil Z) by (destruct s; reflexivity).
    repeat split; first [lia | exact Hlen | left; reflexivity | discriminate | idtac].
  - set (s0 := if MAX_CMD_LINE_LEN <=? wRxIndex s
               then set_wRxIndex 0 (set_errorCodeRsp MEC_RX_BUFFER_OVERFLOW s) else s).
    assert (H0 : 0 <= wRxIndex s0 < MAX_CMD_LINE_LEN
                 /\ byRxBuffer s0 = byRxBuffer s
                 /\ (errorCodeRsp s0 = errorCodeRsp s
                     \/ errorCodeRsp s0 = MEC_RX_BUFFER_OVERFLOW)).
    { unfold s0. destruct (MAX_CMD_LINE_LEN <=? wRxIndex s) eqn:E.
      - destruct s. cbn. repeat split; first [lia | reflexivity | right; reflexivity].
      - apply Z.leb_gt in E. repeat split; first [lia | left; reflexivity]. }
    destruct H0 as (Hi0 & Hb0 & He0). clearbody s0.
    destruct (b =? EOL).
    + cbv zeta. cbn [fst snd].
      set (s1 := set_wRxIndex (wRxIndex (set_byRxBuffer (array_set (byRxBuffer s0)
                   (wRxIndex s0) NUL) s0) + 1)
                   (set_byRxBuffer (array_set (byRxBuffer s0) (wRxIndex s0) NUL) s0)).
      assert (H1 : wRxIndex (set_rxq pending s1) = wRxIndex s0 + 1
                   /\ byRxBuffer (set_rxq pending s1)
                      = array_set (byRxBuffer s0) (wRxIndex s0) NUL
                   /\ errorCodeRsp (set_rxq pending s1) = errorCodeRsp s0).
      { unfold s1. destruct s0. cbn. repeat split; reflexivity. }
      destruct H1 as (E1 & E2 & E3). rewrite E1, E2, E3.
      rewrite array_set_length, Hb0.
      repeat split; first [lia | exact Hlen | exact He0 | discriminate | idtac].
      replace (wRxIndex s0 + 1 - 1) with (wRxIndex s0) by lia.
      rewrite array_set_nth by (rewrite ?Hlen; unfold MAX_CMD_LINE_LEN in *; lia).
      destruct (Nat.eq_dec (Z.to_nat (wRxIndex s0)) (Z.to_nat (wRxIndex s0)));
        [reflexivity | contradiction].
    + set (s1 := set_wRxIndex (wRxIndex (set_byRxBuffer (array_set (byRxBuffer s0)
                   (wRxIndex s0) b) s0) + 1)
                   (set_byRxBuffer (array_set (byRxBuffer s0) (wRxIndex s0) b) s0)).
      assert (H1 : wRxIndex s1 = wRxIndex s0 + 1
                   /\ byRxBuffer s1 = array_set (byRxBuffer s0) (wRxIndex s0) b
                   /\ errorCodeRsp s1 = errorCodeRsp s0).
      { unfold s1. destruct s0. cbn. repeat split; reflexivity. }
      destruct H1 as (E1 & E2 & E3). clearbody s1.
      specialize (IH s1). cbv zeta in IH. rewrite E1, E2, E3, array_set_length, Hb0 in IH.
      destruct (IH ltac:(lia) Hlen) as (A & B & C & D & F).
      split; [exact A|]. split; [exact B|]. split; [|split; [exact D | exact F]].
      destruct C as [C|C]; [|right; exact C].
      destruct He0 as [He0|He0]; [left; congruence | right; congruence].
Qed.

(** GetResponseBuffer never stores outside the line buffer: whatever is
    waiting in the receive queue, the index stays within [0, MAX_CMD_LINE_LEN] and the
    buffer keeps its length; a line is reported only with its terminator
    stored just below the index, an unfinished one only with the queue
    emptied, and the error code changes only to MEC_RX_BUFFER_OVERFLOW. *)
Theorem response_buffer_never_overrun (EOL : Z) (s : Engine) :
  0 <= wRxIndex s <= MAX_CMD_LINE_LEN ->
  List.length (byRxBuffer s) = Z.to_nat MAX_CMD_LINE_LEN ->
  let r := GetResponseBuffer EOL s in
  0 <= wRxIndex (snd r) <= MAX_CMD_LINE_LEN
  /\ List.length (byRxBuffer (snd r)) = Z.to_nat MAX_CMD_LINE_LEN
  /\ (errorCodeRsp (snd r) = errorCodeRsp s \/ errorCodeRsp (snd r) = MEC_RX_BUFFER_OVERFLOW)
  /\ (fst r = true ->
      0 < wRxIndex (snd r)
      /\ nth (Z.to_nat (wRxIndex (snd r) - 1)) (byRxBuffer (snd r)) 0 = NUL)
  /\ (fst r = false -> rxq (snd r) = []).
Proof. intros Hi Hlen. apply GetResponseBuffer_loop_bounds; assumption. Qed.

(** A whole +CSQ line into the empty buffer. *)
Lemma response_buffer_never_overrun_witness :
  0 <= wRxIndex (ModemIsr_receive (str "+CSQF:3" ++ [LINE_FEED]) Engine_idle)
    <= MAX_CMD_LINE_LEN
  /\ 0 < wRxIndex (snd (GetResponseBuffer LINE_FEED
                          (ModemIsr_receive (str "+CSQF:3" ++ [LINE_FEED]) Engine_idle))).
Proof.
  split; [vm_compute; split; discriminate|].
  refine (proj1 ((proj1 (proj2 (proj2 (proj2
    (response_buffer_never_overrun LINE_FEED
       (ModemIsr_receive (str "+CSQF:3" ++ [LINE_FEED]) Engine_idle) _ _))))) _)).
  - vm_compute. split; discriminate.
  - reflexivity.
  - vm_compute. reflexivity.
Defined.

Lemma GetResponseBuffer_loop_line (EOL : Z) (line rest : list Z) :
  forall (i : nat) (s : Engine),
  wRxIndex s = Z.of_nat i ->
  (i + List.length line < Z.to_nat MAX_CMD_LINE_LEN)%nat ->
  List.length (byRxBuffer s) = Z.to_nat MAX_CMD_LINE_LEN ->
  ~ In EOL line ->
  let r := GetResponseBuffer_loop EOL (line ++ EOL :: rest) s in
  fst r = true
  /\ wRxIndex (snd r) = Z.of_nat (i + List.length line + 1)
  /\ rxq (snd r) = rest
  /\ errorCodeRsp (snd r) = errorCodeRsp s
  /\ List.length (byRxBuffer (snd r)) = Z.to_nat MAX_CMD_LINE_LEN
  /\ (forall j, (j < List.length line)%nat ->
        nth (i + j) (byRxBuffer (snd r)) 0 = nth j line 0)
  /\ nth (i + List.length line) (byRxBuffer (snd r)) 0 = NUL
  /\ (forall k, (k < i \/ i + List.length line < k)%nat ->
        nth k (byRxBuffer (snd r)) 0 = nth k (byRxBuffer s) 0).
Proof.
  induction line as [|c line IH]; intros i s Hi Hroom Hlen Hno;
    cbn [GetResponseBuffer_loop app List.length] in *.
  - assert (E : (MAX_CMD_LINE_LEN <=? wRxIndex s) = false).
    { apply Z.leb_gt. rewrite Hi. unfold MAX_CMD_LINE_LEN in *. lia. }
    rewrite E, Z.eqb_refl. cbv zeta. cbn [fst snd].
    set (buf := array_set (byRxBuffer s) (wRxIndex s) NUL).
    assert (H1 : wRxIndex (set_rxq rest (set_wRxIndex (wRxIndex (set_byRxBuffer buf s) + 1)
                                          (set_byRxBuffer buf s))) = wRxIndex s + 1
                 /\ byRxBuffer (set_rxq rest (set_wRxIndex (wRxIndex (set_byRxBuffer buf s) + 1)
                                               (set_byRxBuffer buf s))) = buf
                 /\ errorCodeRsp (set_rxq rest (set_wRxIndex
                                     (wRxIndex (set_byRxBuffer buf s) + 1)
                                     (set_byRxBuffer buf s))) = errorCodeRsp s
                 /\ rxq (set_rxq rest (set_wRxIndex (wRxIndex (set_byRxBuffer buf s) + 1)
                                         (set_byRxBuffer buf s))) = rest).
    { destruct s. cbn. repeat split; reflexivity. }
    destruct H1 as (E1 & E2 & E3 & E4). rewrite E1, E2, E3, E4. unfold buf.
    rewrite array_set_length.
    split; [reflexivity|]. split; [lia|]. split; [reflexivity|]. split; [reflexivity|].
    split; [exact Hlen|]. split; [intros j Hj; lia|]. split.
    + rewrite array_set_nth by lia. rewrite Hi, Nat2Z.id.
      destruct (Nat.eq_dec (i + 0) i); [reflexivity | lia].
    + intros k Hk. destruct (Nat.lt_ge_cases k (List.length (byRxBuffer s))) as [Hin|Hout].
      * rewrite array_set_nth by lia. rewrite Hi, Nat2Z.id.
        destruct (Nat.eq_dec k i); [lia | reflexivity].
      * rewrite !nth_overflow; [reflexivity | exact Hout | rewrite array_set_length; exact Hout].
  - assert (E : (MAX_CMD_LINE_LEN <=? wRxIndex s) = false).
    { apply Z.leb_gt. rewrite Hi. unfold MAX_CMD_LINE_LEN in *. lia. }
    rewrite E.
    assert (Ec : (c =? EOL) = false).
    { apply Z.eqb_neq. intros H. apply Hno. left. exact H. }
    rewrite Ec.
    set (buf := array_set (byRxBuffer s) (wRxIndex s) c).
    set (s1 := set_wRxIndex (wRxIndex (set_byRxBuffer buf s) + 1) (set_byRxBuffer buf s)).
    assert (H1 : wRxIndex s1 = Z.of_nat (S i) /\ byRxBuffer s1 = buf
                 /\ errorCodeRsp s1 = errorCodeRsp s).
    { unfold s1. destruct s. cbn in *. repeat split; try reflexivity. lia. }
    destruct H1 as (E1 & E2 & E3). clearbody s1.
    assert (Hlen1 : List.length (byRxBuffer s1) = Z.to_nat MAX_CMD_LINE_LEN).
    { rewrite E2. unfold buf. rewrite array_set_length. exact Hlen. }
    destruct (IH (S i) s1 E1 ltac:(lia) Hlen1 ltac:(intros H; apply Hno; right; exact H))
      as (A & B & C & D & F & G & K & L).
    split; [exact A|]. split; [rewrite B; f_equal; lia|]. split; [exact C|].
    split; [congruence|]. split; [exact F|]. split; [|split].
    + intros j Hj. destruct j as [|j].
      * rewrite L by lia. rewrite E2. unfold buf.
        rewrite array_set_nth by lia. rewrite Hi, Nat2Z.id.
        destruct (Nat.eq_dec (i + 0) i); [reflexivity | lia].
      * replace (i + S j)%nat with (S i + j)%nat by lia. rewrite G by lia. reflexivity.
    + replace (i + S (List.length line))%nat with (S i + List.length line)%nat by lia.
      exact K.
    + intros k Hk. rewrite L by lia. rewrite E2. unfold buf.
      destruct (Nat.lt_ge_cases k (List.length (byRxBuffer s))) as [Hin|Hout].
      * rewrite array_set_nth by lia. rewrite Hi, Nat2Z.id.
        destruct (Nat.eq_dec k i); [lia | reflexivity].
      * rewrite !nth_overflow; [reflexivity | exact Hout | rewrite array_set_length; exact Hout].
Qed.

(** A line that fits is stored as it came: with [i] bytes already in the
    buffer and room for the line and its terminator, the bytes that precede
    the end-of-line character go to the positions from [i] on, a NUL follows
    them, the index ends one past the NUL, the bytes after the end-of-line
    character stay in the queue, and the rest of the buffer and the error
    code are untouched. *)
Theorem response_line_assembled (EOL : Z) (line rest : list Z) (i : nat) (s : Engine) :
  wRxIndex s = Z.of_nat i ->
  (i + List.length line < Z.to_nat MAX_CMD_LINE_LEN)%nat ->
  List.length (byRxBuffer s) = Z.to_nat MAX_CMD_LINE_LEN ->
  ~ In EOL line ->
  rxq s = line ++ EOL :: rest ->
  let r := GetResponseBuffer EOL s in
  fst r = true
  /\ wRxIndex (snd r) = Z.of_nat (i + List.length line + 1)
  /\ rxq (snd r) = rest
  /\ errorCodeRsp (snd r) = errorCodeRsp s
  /\ List.length (byRxBuffer (snd r)) = Z.to_nat MAX_CMD_LINE_LEN
  /\ (forall j, (j < List.length line)%nat ->
        nth (i + j) (byRxBuffer (snd r)) 0 = nth j line 0)
  /\ nth (i + List.length line) (byRxBuffer (snd r)) 0 = NUL
  /\ (forall k, (k < i \/ i + List.length line < k)%nat ->
        nth k (byRxBuffer (snd r)) 0 = nth k (byRxBuffer s) 0).
Proof.
  intros Hi Hroom Hlen Hno Hq. unfold GetResponseBuffer. rewrite Hq.
  apply GetResponseBuffer_loop_line; assumption.
Qed.

(** A +CSQ line followed by the final result code: the line and its NUL take
    eight positions, the result code stays in the queue. *)
Lemma response_line_assembled_witness :
  let s := ModemIsr_receive (str "+CSQF:3" ++ [LINE_FEED; 48; 13]) Engine_idle in
  wRxIndex s = Z.of_nat 0
  /\ (0 + List.length (str "+CSQF:3") < Z.to_nat MAX_CMD_LINE_LEN)%nat
  /\ ~ In LINE_FEED (str "+CSQF:3")
  /\ wRxIndex (snd (GetResponseBuffer LINE_FEED s)) = 8
  /\ rxq (snd (GetResponseBuffer LINE_FEED s)) = [48; 13].
Proof.
  intros s.
  assert (Hi : wRxIndex s = Z.of_nat 0) by reflexivity.
  assert (Hroom : (0 + List.length (str "+CSQF:3") < Z.to_nat MAX_CMD_LINE_LEN)%nat)
    by (vm_compute; lia).
  assert (Hno : ~ In LINE_FEED (str "+CSQF:3")).
  { vm_compute. intros H. repeat (destruct H as [H|H]; [discriminate H|]). exact H. }
  split; [exact Hi|]. split; [exact Hroom|]. split; [exact Hno|].
  destruct (response_line_assembled LINE_FEED (str "+CSQF:3") [48; 13] 0 s Hi Hroom
              eq_refl Hno eq_refl) as (_ & B & C & _).
  split; [exact B | exact C].
Defined.

(** ** Reading the mailbox status (GetSBDStatus) *)

(** GetSBDStatus hands the MT status out once: the call returns it and
    leaves NO_MSG and a cleared ring-alert flag behind, so that a second call
    returns NO_MSG and changes nothing.  A failed read with the ring alert
    up is kept as one more message queued at the gateway (counted in a BYTE);
    the MT length is preserved. *)
Theorem mailbox_status_is_read_once (s : Engine) :
  let r := GetSBDStatus s in
  let mi := modemInfo s in
  fst r = byMTStatus mi
  /\ modemInfo (snd r)
     = set_byRAFlag 0
         (set_byMTStatus NO_MSG
            (set_byMTQueueNbr
               (if (byMTStatus mi =? FAILED_MSG) && negb (byRAFlag mi =? 0)
                then to_BYTE (byMTQueueNbr mi + 1) else byMTQueueNbr mi) mi))
  /\ wMTLength (modemInfo (snd r)) = wMTLength mi
  /\ fst (GetSBDStatus (snd r)) = NO_MSG
  /\ snd (GetSBDStatus (snd r)) = snd r.
Proof.
  destruct s as [st sub err rxb rxi pvs t1 t2 msg ck mi bin imei ver have sat cnt eol idx
                   rq txs port lg].
  destruct mi as [mo mt momsn mtmsn len qn ra txl sig cmd cs ring r1 r2 cur].
  unfold GetSBDStatus. cbn -[Z.eqb to_BYTE].
  destruct (mt =? FAILED_MSG); destruct (ra =? 0); cbn -[to_BYTE]; repeat split; reflexivity.
Qed.

(** ** Power-cycling the modem (ResetModem) *)

(** ResetModem goes ahead exactly when no call is up and the power manager
    agrees.  Otherwise the engine is left as it was.  When it goes ahead the
    engine is powered down with a clean line buffer, no error and the
    response timer stopped, the routing is on the modem, and the cached
    ringer and relay states survive while the signal level is forgotten. *)
Theorem modem_reset (env : Env) (s : Engine) :
  let r := ResetModem env s in
  (fst r = true <-> InVoiceCall env = false /\ PowerCycleModem env = true)
  /\ (fst r = false -> snd r = s)
  /\ (fst r = true ->
      ATCmdState (snd r) = AT_CMD_POWERED_DOWN
      /\ subState (snd r) = SUBSTATE_NONE
      /\ errorCodeRsp (snd r) = MEC_NONE
      /\ thRespTimeOut (snd r) = StopTimer
      /\ wRxIndex (snd r) = 0
      /\ rxq (snd r) = []
      /\ cisPort (snd r) = DATA_PORT
      /\ GetRingerStatus (snd r) = GetRingerStatus s
      /\ GetRelayStatus RELAY_1 (snd r) = GetRelayStatus RELAY_1 s
      /\ GetRelayStatus RELAY_2 (snd r) = GetRelayStatus RELAY_2 s
      /\ GetModemSignalStrength (snd r) = -1
      /\ fst (GetSBDStatus (snd r)) = NO_MSG).
Proof.
  unfold ResetModem. destruct (InVoiceCall env); destruct (PowerCycleModem env);
    cbn [negb fst snd];
    try (split; [split; [discriminate | intros [A B]; discriminate]|];
         split; [reflexivity | discriminate]).
  split; [split; [intros _; split; reflexivity | reflexivity]|].
  split; [discriminate|]. intros _.
  destruct s as [st sub err rxb rxi pvs t1 t2 msg ck mi bin imei ver have sat cnt eol idx
                   rq txs port lg].
  destruct mi. cbn. repeat split; reflexivity.
Qed.

(** ** The relay number *)

(** Only relays 0 and 1 exist.  With any other number the engine refuses
    both relay commands without touching its state; the API layer then
    answers FALSE, and what it queues for later is not a command for that
    relay: nothing (NO_CMD) for a switch request, and a status request for
    relay 2 for a status request.  The status polled for such a number is
    that of relay 2 as well. *)
Theorem unknown_relay_number (env : Env) (byRelayNbr : Z) (bRelayState : bool)
  (s : Engine) (d : Driver) :
  byRelayNbr <> RELAY_1 -> byRelayNbr <> RELAY_2 ->
  SendSetRelayCmd env byRelayNbr bRelayState s = (false, s)
  /\ SendGetRelayStatusCmd env byRelayNbr s = (false, s)
  /\ ToggleRelayState env byRelayNbr bRelayState d = (false, AddNewDataToQueue env NO_CMD d)
  /\ SendOutputRelayStatusCmd env byRelayNbr d
     = (false, AddNewDataToQueue env RELAY2_STATUS d)
  /\ eng (snd (ToggleRelayState env byRelayNbr bRelayState d)) = eng d
  /\ eng (snd (SendOutputRelayStatusCmd env byRelayNbr d)) = eng d
  /\ GetOutputRelayStatus byRelayNbr d = GetModemCmdRsp RELAY2_STATUS d.
Proof.
  intros H1 H2. apply Z.eqb_neq in H1. apply Z.eqb_neq in H2.
  assert (G : GetOutputRelayStatus byRelayNbr d = GetModemCmdRsp RELAY2_STATUS d).
  { unfold GetOutputRelayStatus. rewrite H1. reflexivity. }
  assert (A : SendSetRelayCmd env byRelayNbr bRelayState s = (false, s)).
  { unfold SendSetRelayCmd. rewrite H1, H2. destruct (ATCmdState s); reflexivity. }
  assert (B : SendGetRelayStatusCmd env byRelayNbr s = (false, s)).
  { unfold SendGetRelayStatusCmd. rewrite H1, H2. destruct (ATCmdState s); reflexivity. }
  assert (A' : SendSetRelayCmd env byRelayNbr bRelayState (eng d) = (false, eng d)).
  { unfold SendSetRelayCmd. rewrite H1, H2. destruct (ATCmdState (eng d)); reflexivity. }
  assert (B' : SendGetRelayStatusCmd env byRelayNbr (eng d) = (false, eng d)).
  { unfold SendGetRelayStatusCmd. rewrite H1, H2. destruct (ATCmdState (eng d)); reflexivity. }
  assert (C : ToggleRelayState env byRelayNbr bRelayState d
              = (false, AddNewDataToQueue env NO_CMD d)).
  { unfold ToggleRelayState, on_eng. rewrite H1, H2, A'. rewrite set_eng_same.
    destruct (idle_or_powered_down d); reflexivity. }
  assert (D : SendOutputRelayStatusCmd env byRelayNbr d
              = (false, AddNewDataToQueue env RELAY2_STATUS d)).
  { unfold SendOutputRelayStatusCmd, on_eng. rewrite H1, B'. rewrite set_eng_same.
    destruct (idle_or_powered_down d); reflexivity. }
  rewrite C, D. cbn [snd].
  repeat split; try assumption;
    unfold AddNewDataToQueue; destruct (in_queue_buffer _ (modemQBuff d)); reflexivity.
Qed.

(** There is no relay 2. *)
Lemma unknown_relay_number_witness :
  2 <> RELAY_1 /\ 2 <> RELAY_2
  /\ SendSetRelayCmd (Env_calm 0) 2 true Engine_idle = (false, Engine_idle).
Proof.
  split; [discriminate|]. split; [discriminate|].
  exact (proj1 (unknown_relay_number (Env_calm 0) 2 true Engine_idle Driver_idle
                  ltac:(discriminate) ltac:(discriminate))).
Defined.


(** ** Sending a file (SendBinaryFile) *)

Lemma SendWriteBinaryMsgCmd_frame (s : Engine) :
  modemInfo (SendWriteBinaryMsgCmd s) = modemInfo s
  /\ byBinMsgBuffer (SendWriteBinaryMsgCmd s) = byBinMsgBuffer s
  /\ errorCodeRsp (SendWriteBinaryMsgCmd s) = errorCodeRsp s
  /\ log (SendWriteBinaryMsgCmd s) = log s.
Proof. destruct s. cbn. repeat split; reflexivity. Qed.

Lemma start_exchange_frame (st : AT_CMD_STATES) (sub : SUB_STATES) (t : TIMERHANDLE)
  (s : Engine) :
  let s' := set_thRespTimeOut t (set_subState sub (set_ATCmdState st s)) in
  ATCmdState s' = st /\ subState s' = sub /\ thRespTimeOut s' = t
  /\ modemInfo s' = modemInfo s /\ byBinMsgBuffer s' = byBinMsgBuffer s
  /\ errorCodeRsp s' = errorCodeRsp s.
Proof. destruct s. cbn. repeat split; reflexivity. Qed.

(** SendBinaryFile from an idle engine.  The file is sent exactly when its
    length is not 0, it can be opened, and the read delivers the bytes asked
    for (the length, cut to MAX_FILE_LEN).  When it is not sent nothing goes
    to the modem, the engine stays idle with its timer and its receive queue
    as they were, and the error code names the first test that failed.  When
    it is sent the engine waits for READY with the 5 s timer armed, and a
    file that was cut is marked MEC_TRUNCATED_FILE. *)
Theorem file_send_outcomes (env : Env) (s : Engine) :
  ATCmdState s = AT_CMD_IDLE ->
  let r := SendBinaryFile env s in
  let L := FileLength env mod 2 ^ 32 in
  let n := Z.min L MAX_FILE_LEN in
  (fst r = true <->
   L <> 0 /\ fileOpen_ok env = true /\ (Z.to_nat n <= List.length (fileRead env))%nat)
  /\ (fst r = false ->
      tx (snd r) = tx s
      /\ rxq (snd r) = rxq s
      /\ ATCmdState (snd r) = AT_CMD_IDLE
      /\ thRespTimeOut (snd r) = thRespTimeOut s
      /\ errorCodeRsp (snd r)
         = (if L =? 0 then MEC_TX_BIN_DATA_BAD_SIZE
            else if fileOpen_ok env then MEC_FILE_READ_ERR else MEC_FILE_OPEN_ERR))
  /\ (fst r = true ->
      ATCmdState (snd r) = AT_CMD_SENDING
      /\ subState (snd r) = SEND_READY_CMD
      /\ thRespTimeOut (snd r) = StartTimer (now env) STANDARD_RSP_TIMEOUT
      /\ dwTxMsgLen (modemInfo (snd r)) = n
      /\ firstn (Z.to_nat n) (byBinMsgBuffer (snd r)) = firstn (Z.to_nat n) (fileRead env)
      /\ errorCodeRsp (snd r)
         = (if MAX_FILE_LEN <? L then MEC_TRUNCATED_FILE else errorCodeRsp s)).
Proof.
  intros Hidle. cbv zeta.
  pose proof (Z.mod_pos_bound (FileLength env) (2 ^ 32) ltac:(lia)) as HL.
  unfold SendBinaryFile. rewrite Hidle.
  set (L := FileLength env mod 2 ^ 32) in *. clearbody L.
  set (s0 := upd_modemInfo (set_dwTxMsgLen L) s).
  assert (F0 : dwTxMsgLen (modemInfo s0) = L /\ tx s0 = tx s /\ rxq s0 = rxq s
               /\ ATCmdState s0 = AT_CMD_IDLE /\ thRespTimeOut s0 = thRespTimeOut s
               /\ errorCodeRsp s0 = errorCodeRsp s).
  { unfold s0. destruct s. cbn in *. repeat split; first [reflexivity | assumption]. }
  destruct F0 as (F1 & F2 & F3 & F4 & F5 & F6). clearbody s0. rewrite F1.
  (* the state after the size test, when the file is not refused for its size *)
  assert (Hsize : forall s1 : Engine,
            dwTxMsgLen (modemInfo s1) = Z.min L MAX_FILE_LEN ->
            0 < Z.min L MAX_FILE_LEN <= MAX_FILE_LEN ->
            tx s1 = tx s -> rxq s1 = rxq s -> ATCmdState s1 = AT_CMD_IDLE ->
            thRespTimeOut s1 = thRespTimeOut s ->
            errorCodeRsp s1 = (if MAX_FILE_LEN <? L then MEC_TRUNCATED_FILE else errorCodeRsp s) ->
            let r :=
              (let s := set_byBinMsgBuffer (zeros MAX_FILE_LEN) s1 in
               if negb (fileOpen_ok env)
               then
                 let s := set_errorCodeRsp MEC_FILE_OPEN_ERR s in
                 (false,
                  add_log (SystemLog (GetSysLogMsg SYS_LOG_FILE_CANNOT_BE_OPENED_OR_CREATED)) s)
               else
                 let wLen := to_WORD (dwTxMsgLen (modemInfo s)) in
                 let data := firstn (Z.to_nat wLen) (fileRead env) in
                 let s := set_byBinMsgBuffer
                            (MemCpy (byBinMsgBuffer s) data (StringLen data)) s in
                 if negb (StringLen data =? wLen)
                 then
                   let s := set_errorCodeRsp MEC_FILE_READ_ERR s in
                   (false, add_log (SystemLog (GetSysLogMsg SYS_LOG_FILE_CANNOT_BE_READ)) s)
                 else
                   let s := SendWriteBinaryMsgCmd s in
                   let s := set_ATCmdState AT_CMD_SENDING s in
                   let s := set_subState SEND_READY_CMD s in
                   let s := set_thRespTimeOut (StartTimer (now env) STANDARD_RSP_TIMEOUT) s in
                   (true, s)) in
            (fst r = true <->
             fileOpen_ok env = true
             /\ (Z.to_nat (Z.min L MAX_FILE_LEN) <= List.length (fileRead env))%nat)
            /\ (fst r = false ->
                tx (snd r) = tx s /\ rxq (snd r) = rxq s /\ ATCmdState (snd r) = AT_CMD_IDLE
                /\ thRespTimeOut (snd r) = thRespTimeOut s
                /\ errorCodeRsp (snd r)
                   = (if fileOpen_ok env then MEC_FILE_READ_ERR else MEC_FILE_OPEN_ERR))
            /\ (fst r = true ->
                ATCmdState (snd r) = AT_CMD_SENDING
                /\ subState (snd r) = SEND_READY_CMD
                /\ thRespTimeOut (snd r) = StartTimer (now env) STANDARD_RSP_TIMEOUT
                /\ dwTxMsgLen (modemInfo (snd r)) = Z.min L MAX_FILE_LEN
                /\ firstn (Z.to_nat (Z.min L MAX_FILE_LEN)) (byBinMsgBuffer (snd r))
                   = firstn (Z.to_nat (Z.min L MAX_FILE_LEN)) (fileRead env)
                /\ errorCodeRsp (snd r)
                   = (if MAX_FILE_LEN <? L then MEC_TRUNCATED_FILE else errorCodeRsp s))).
  { intros s1 G1 Gn G2 G3 G4 G5 G6. cbv zeta.
    set (n := Z.min L MAX_FILE_LEN) in *. clearbody n.
    replace (dwTxMsgLen (modemInfo (set_byBinMsgBuffer (zeros MAX_FILE_LEN) s1))) with n
      by (destruct s1; exact (eq_sym G1)).
    assert (Hw : to_WORD n = n)
      by (unfold to_WORD; apply Z.mod_small; unfold MAX_FILE_LEN in *; lia).
    rewrite Hw.
    destruct (fileOpen_ok env); cbn [negb].
    - assert (Hlen : (StringLen (firstn (Z.to_nat n) (fileRead env)) =? n) = true
                     <-> (Z.to_nat n <= List.length (fileRead env))%nat).
      { unfold StringLen. rewrite length_firstn. rewrite Z.eqb_eq. lia. }
      destruct (StringLen (firstn (Z.to_nat n) (fileRead env)) =? n) eqn:Eread; cbn [negb].
      + pose proof (proj1 Hlen eq_refl) as Hok.
        pose proof (SendWriteBinaryMsgCmd_frame
                      (set_byBinMsgBuffer
                         (MemCpy (byBinMsgBuffer (set_byBinMsgBuffer (zeros MAX_FILE_LEN) s1))
                            (firstn (Z.to_nat n) (fileRead env))
                            (StringLen (firstn (Z.to_nat n) (fileRead env))))
                         (set_byBinMsgBuffer (zeros MAX_FILE_LEN) s1)))
          as (W1 & W2 & W3 & _).
        set (s2 := SendWriteBinaryMsgCmd _) in *. clearbody s2.
        cbn [fst snd].
        split; [split; [intros _; split; [reflexivity | exact Hok] | reflexivity]|].
        split; [discriminate|]. intros _.
        destruct (start_exchange_frame AT_CMD_SENDING SEND_READY_CMD
                    (StartTimer (now env) STANDARD_RSP_TIMEOUT) s2)
          as (X1 & X2 & X3 & X4 & X5 & X6).
        rewrite X1, X2, X3, X4, X5, X6, W1, W2, W3.
        split; [reflexivity|]. split; [reflexivity|]. split; [reflexivity|].
        split; [destruct s1; exact G1|]. split; [|destruct s1; exact G6].
        replace (byBinMsgBuffer (set_byBinMsgBuffer _ _))
          with (MemCpy (zeros MAX_FILE_LEN) (firstn (Z.to_nat n) (fileRead env))
                  (StringLen (firstn (Z.to_nat n) (fileRead env))))
          by (destruct s1; reflexivity).
        apply Z.eqb_eq in Eread. unfold StringLen in Eread.
        unfold MemCpy, StringLen. rewrite Nat2Z.id, firstn_all.
        rewrite firstn_app.
        replace (Z.to_nat n - List.length (firstn (Z.to_nat n) (fileRead env)))%nat with 0%nat
          by lia.
        cbn [firstn]. rewrite app_nil_r. apply firstn_all2. lia.
      + cbn [fst snd].
        split; [split; [discriminate|]|].
        { intros [_ Hok]. apply Hlen in Hok. discriminate Hok. }
        split; [|discriminate]. intros _.
        destruct s1. cbn in *. repeat split; first [assumption | reflexivity].
    - cbn [fst snd]. split; [split; [discriminate | intros [A _]; discriminate A]|].
      split; [|discriminate]. intros _.
      destruct s1. cbn in *. repeat split; first [assumption | reflexivity]. }
  destruct (MAX_FILE_LEN <? L) eqn:Ebig.
  - apply Z.ltb_lt in Ebig.
    assert (E0 : (L =? 0) = false) by (apply Z.eqb_neq; unfold MAX_FILE_LEN in *; lia).
    rewrite E0.
    specialize (Hsize (set_errorCodeRsp MEC_TRUNCATED_FILE
                         (upd_modemInfo (set_dwTxMsgLen MAX_FILE_LEN) s0))).
    rewrite Z.min_r in * by lia.
    destruct (Hsize ltac:(destruct s0; reflexivity)
                ltac:(unfold MAX_FILE_LEN; lia)
                ltac:(destruct s0; exact F2) ltac:(destruct s0; exact F3)
                ltac:(destruct s0; exact F4) ltac:(destruct s0; exact F5)
                ltac:(destruct s0; reflexivity)) as (A & B & C).
    split; [|split; [exact B | exact C]].
    rewrite A. split; [intros [X Y]; repeat split; first [assumption | lia]
                      | intros (_ & X & Y); split; assumption].
  - apply Z.ltb_ge in Ebig.
    destruct (L <=? 0) eqn:Ezero.
    + apply Z.leb_le in Ezero.
      assert (E0 : (L =? 0) = true) by (apply Z.eqb_eq; lia).
      rewrite E0. cbn [fst snd].
      split; [split; [discriminate | intros (A & _); contradiction A; lia]|].
      split; [|discriminate]. intros _.
      destruct s0. cbn in *. repeat split; first [assumption | reflexivity].
    + apply Z.leb_gt in Ezero.
      assert (E0 : (L =? 0) = false) by (apply Z.eqb_neq; lia).
      rewrite E0. specialize (Hsize s0). rewrite Z.min_l in * by lia.
      destruct (Hsize F1 ltac:(lia) F2 F3 F4 F5 F6) as (A & B & C).
      split; [|split; [exact B | exact C]].
      rewrite A. split; [intros [X Y]; repeat split; first [assumption | lia]
                        | intros (_ & X & Y); split; assumption].
Qed.

(** An empty file is refused with its size as the reason; nothing is sent. *)
Lemma file_send_outcomes_witness :
  ATCmdState Engine_idle = AT_CMD_IDLE
  /\ fst (SendBinaryFile (Env_calm 0) Engine_idle) = false
  /\ errorCodeRsp (snd (SendBinaryFile (Env_calm 0) Engine_idle)) = MEC_TX_BIN_DATA_BAD_SIZE
  /\ tx (snd (SendBinaryFile (Env_calm 0) Engine_idle)) = tx Engine_idle.
Proof.
  split; [reflexivity|].
  assert (Hf : fst (SendBinaryFile (Env_calm 0) Engine_idle) = false) by reflexivity.
  split; [exact Hf|].
  destruct (proj1 (proj2 (file_send_outcomes (Env_calm 0) Engine_idle eq_refl)) Hf)
    as (A & _ & _ & _ & E).
  split; [exact E | exact A].
Defined.

(** ** Every accepted command is watched by a timer *)

Lemma SendCommand_standard (env : Env) (cmd : AT_CMD_LIST) (s : Engine) :
  (AT_CMD_value cmd <? AT_CMD_value AT_CMD_SBD_INITIATE_SESSION) = true ->
  thRespTimeOut (SendCommand env cmd s) = StartTimer (now env) STANDARD_RSP_TIMEOUT
  /\ cisPort (SendCommand env cmd s) = DATA_PORT
  /\ rxq (SendCommand env cmd s) = []
  /\ wRxIndex (SendCommand env cmd s) = 0
  /\ tx (SendCommand env cmd s) = tx s ++ firstn (Z.to_nat (AT_CMDLEN cmd)) (AT_CMDS cmd).
Proof.
  intros H. unfold SendCommand. rewrite H. destruct s. cbn -[AT_CMDS AT_CMDLEN firstn Z.to_nat].
  repeat split; reflexivity.
Qed.

Lemma SendWriteBinaryMsgCmd_port (s : Engine) :
  cisPort (SendWriteBinaryMsgCmd s) = DATA_PORT
  /\ rxq (SendWriteBinaryMsgCmd s) = []
  /\ wRxIndex (SendWriteBinaryMsgCmd s) = 0.
Proof. destruct s. cbn. repeat split; reflexivity. Qed.

Lemma start_exchange_port (st : AT_CMD_STATES) (sub : SUB_STATES) (t : TIMERHANDLE)
  (s : Engine) :
  let s' := set_thRespTimeOut t (set_subState sub (set_ATCmdState st s)) in
  cisPort s' = cisPort s /\ rxq s' = rxq s /\ wRxIndex s' = wRxIndex s.
Proof. destruct s. cbn. repeat split; reflexivity. Qed.

Lemma simple_command_started (env : Env) (cmd : AT_CMD_LIST) (st : AT_CMD_STATES)
  (sub : SUB_STATES) (f : Engine -> Engine) (s : Engine) :
  (AT_CMD_value cmd <? AT_CMD_value AT_CMD_SBD_INITIATE_SESSION) = true ->
  st = AT_CMD_SENDING \/ st = AT_CMD_RCVING ->
  (forall x, thRespTimeOut (f x) = thRespTimeOut x /\ cisPort (f x) = cisPort x
             /\ rxq (f x) = rxq x /\ wRxIndex (f x) = wRxIndex x) ->
  modem_exchange_started env (set_subState sub (set_ATCmdState st (f (SendCommand env cmd s)))).
Proof.
  intros H Hst Hf. destruct (SendCommand_standard env cmd s H) as (A & B & C & D & _).
  destruct (Hf (SendCommand env cmd s)) as (F1 & F2 & F3 & F4).
  rewrite <- F1 in A. rewrite <- F2 in B. rewrite <- F3 in C. rewrite <- F4 in D.
  set (s1 := f (SendCommand env cmd s)) in *. clearbody s1.
  unfold modem_exchange_started. destruct s1. cbn in *.
  repeat split; assumption.
Qed.

Lemma SendCISPortCmd_started (env : Env) (s : Engine) :
  fst (SendCISPortCmd env s) = true ->
  aux_exchange_started env (snd (SendCISPortCmd env s)).
Proof.
  unfold SendCISPortCmd. destruct (CISPowered env); cbn [negb fst snd]; [|discriminate].
  intros _. unfold aux_exchange_started. destruct s. cbn. repeat split; reflexivity.
Qed.

Lemma aux_exchange_started_set_subState (env : Env) (sub : SUB_STATES) (s : Engine) :
  aux_exchange_started env s -> aux_exchange_started env (set_subState sub s).
Proof. unfold aux_exchange_started. destruct s. cbn. intros H. exact H. Qed.

(** Every command the engine accepts is put under a timer of 5 s and starts
    from an empty receive queue and an empty line buffer: a modem command
    arms the response timer with the routing on the modem, an aux-board
    command arms the aux timer with the routing on the aux board. *)
Theorem accepted_command_is_timed (env : Env) (op : DISPATCH) (s : Engine) :
  fst (dispatch env op s) = true ->
  if is_aux_dispatch op
  then aux_exchange_started env (snd (dispatch env op s))
  else modem_exchange_started env (snd (dispatch env op s)).
Proof.
  assert (Hid : forall x : Engine,
            thRespTimeOut x = thRespTimeOut x /\ cisPort x = cisPort x
            /\ rxq x = rxq x /\ wRxIndex x = wRxIndex x)
    by (intros; repeat split; reflexivity).
  destruct op; cbn [dispatch is_aux_dispatch].
  - (* SendWriteTextMsgCmd *)
    unfold SendWriteTextMsgCmd. destruct (ATCmdState s); cbn [fst snd]; try discriminate.
    intros _. unfold modem_exchange_started. destruct s. cbn -[StringNCat firstn Z.to_nat].
    repeat split; first [reflexivity | left; reflexivity].
  - (* SendBinaryFile *)
    intros H. destruct (ATCmdState s) eqn:Hst;
      try (unfold SendBinaryFile in H; rewrite Hst in H; discriminate H).
    revert H. unfold SendBinaryFile. rewrite Hst. cbv zeta.
    repeat break_if; cbn [fst snd]; intros H; try discriminate H.
    all: match goal with
         | |- modem_exchange_started _ (set_thRespTimeOut ?t (set_subState ?sub
                                         (set_ATCmdState ?st (SendWriteBinaryMsgCmd ?x)))) =>
             destruct (SendWriteBinaryMsgCmd_port x) as (A & B & C);
             destruct (start_exchange_port st sub t (SendWriteBinaryMsgCmd x)) as (P1 & P2 & P3);
             destruct (start_exchange_frame st sub t (SendWriteBinaryMsgCmd x))
               as (Q1 & _ & Q3 & _);
             unfold modem_exchange_started;
             rewrite P1, P2, P3, Q1, Q3, A, B, C;
             repeat split; first [reflexivity | left; reflexivity]
         end.
  - (* SendBinaryBuffer *)
    intros H. destruct (ATCmdState s) eqn:Hst;
      try (unfold SendBinaryBuffer in H; rewrite Hst in H; discriminate H).
    revert H. unfold SendBinaryBuffer. rewrite Hst. cbv zeta.
    repeat break_if; cbn [fst snd]; intros H; try discriminate H.
    all: match goal with
         | |- modem_exchange_started _ (set_thRespTimeOut ?t (set_subState ?sub
                                         (set_ATCmdState ?st (SendWriteBinaryMsgCmd ?x)))) =>
             destruct (SendWriteBinaryMsgCmd_port x) as (A & B & C);
             destruct (start_exchange_port st sub t (SendWriteBinaryMsgCmd x)) as (P1 & P2 & P3);
             destruct (start_exchange_frame st sub t (SendWriteBinaryMsgCmd x))
               as (Q1 & _ & Q3 & _);
             unfold modem_exchange_started;
             rewrite P1, P2, P3, Q1, Q3, A, B, C;
             repeat split; first [reflexivity | left; reflexivity]
         end.
  - unfold CheckGateway. destruct (ATCmdState s); cbn [fst snd]; try discriminate. intros _.
    apply (simple_command_started env _ _ _ (fun x => x)); [reflexivity | left; reflexivity | exact Hid].
  - unfold CheckMailbox. destruct (ATCmdState s); cbn [fst snd]; try discriminate. intros _.
    apply (simple_command_started env _ _ _ (fun x => x)); [reflexivity | left; reflexivity | exact Hid].
  - unfold SendCSQCmd. destruct (ATCmdState s); cbn [fst snd]; try discriminate. intros _.
    apply (simple_command_started env _ _ _ (fun x => x)); [reflexivity | left; reflexivity | exact Hid].
  - unfold SendReadBinaryFileCmd. destruct (ATCmdState s); cbn [fst snd]; try discriminate.
    intros _.
    apply (simple_command_started env _ _ _ ClearRxBinaryDataVars);
      [reflexivity | right; reflexivity |].
    intros x. destruct x. cbn. repeat split; reflexivity.
  - unfold SendCLCCCmd. destruct (ATCmdState s); cbn [fst snd]; try discriminate. intros _.
    apply (simple_command_started env _ _ _
             (upd_modemInfo (set_byCallStatus AT_RSP_INVALID_CALL_STATUS)));
      [reflexivity | left; reflexivity |].
    intros x. destruct x. cbn. repeat split; reflexivity.
  - unfold SendCallHangupCmd. destruct (ATCmdState s); cbn [fst snd]; try discriminate.
    intros _.
    apply (simple_command_started env _ _ _ (fun x => x)); [reflexivity | left; reflexivity | exact Hid].
  - unfold SendCREGCmd. destruct (ATCmdState s); cbn [fst snd]; try discriminate. intros _.
    apply (simple_command_started env _ _ _ (fun x => x)); [reflexivity | left; reflexivity | exact Hid].
  - unfold SendDownloadCISCmd.
    destruct (ATCmdState s); cbn [fst snd]; try discriminate;
      (destruct (SendCISPortCmd env _) as [sent s1] eqn:E; cbn [fst snd]; intros H; subst sent;
       apply aux_exchange_started_set_subState;
       pose proof (SendCISPortCmd_started env _ ltac:(rewrite E; reflexivity)) as K;
       rewrite E in K; exact K).
  - unfold SendProgramCISCmd.
    destruct (ATCmdState s); cbn [fst snd]; try discriminate;
      (destruct (SendCISPortCmd env _) as [sent s1] eqn:E; cbn [fst snd]; intros H; subst sent;
       apply aux_exchange_started_set_subState;
       pose proof (SendCISPortCmd_started env _ ltac:(rewrite E; reflexivity)) as K;
       rewrite E in K; exact K).
  - unfold SendCISResetCmd.
    destruct (ATCmdState s); cbn [fst snd]; try discriminate; apply SendCISPortCmd_started.
  - unfold SendSetRingerCmd.
    destruct (ATCmdState s); cbn [fst snd]; try discriminate; apply SendCISPortCmd_started.
  - unfold SendGetRingerStatusCmd.
    destruct (ATCmdState s); cbn [fst snd]; try discriminate;
      (destruct (SendCISPortCmd env _) as [sent s1] eqn:E; cbn [fst snd]; intros H; subst sent;
       apply aux_exchange_started_set_subState;
       pose proof (SendCISPortCmd_started env _ ltac:(rewrite E; reflexivity)) as K;
       rewrite E in K; exact K).
  - unfold SendSetRelayCmd.
    destruct (ATCmdState s); cbn [fst snd]; try discriminate;
      (destruct (byRelayNbr =? RELAY_1);
       [apply SendCISPortCmd_started
       | destruct (byRelayNbr =? RELAY_2); [apply SendCISPortCmd_started | discriminate]]).
  - unfold SendGetRelayStatusCmd.
    destruct (ATCmdState s); cbn [fst snd]; try discriminate;
      (destruct (byRelayNbr =? RELAY_1);
       [|destruct (byRelayNbr =? RELAY_2); [|discriminate]];
       (destruct (SendCISPortCmd env _) as [sent s1] eqn:E; cbn [fst snd]; intros H;
        subst sent; apply aux_exchange_started_set_subState;
        pose proof (SendCISPortCmd_started env _ ltac:(rewrite E; reflexivity)) as K;
        rewrite E in K; exact K)).
Qed.

(** A mailbox check accepted at time 7 is watched until 5007. *)
Lemma accepted_command_is_timed_witness :
  fst (dispatch (Env_calm 7) Call_CheckMailbox Engine_idle) = true
  /\ thRespTimeOut (snd (dispatch (Env_calm 7) Call_CheckMailbox Engine_idle))
     = StartTimer 7 STANDARD_RSP_TIMEOUT.
Proof.
  split; [reflexivity|].
  exact (proj1 (accepted_command_is_timed (Env_calm 7) Call_CheckMailbox Engine_idle eq_refl)).
Defined.


(** ** Runs of ModemLog *)

(* ------------------------------------------------------------------ *)

Lemma distinct_codes_snoc (l : list Z) (c : Z) :
  distinct_codes (l ++ [c])
  = if in_dec Z.eq_dec c (distinct_codes l) then distinct_codes l else distinct_codes l ++ [c].
Proof. unfold distinct_codes. rewrite fold_left_app. reflexivity. Qed.

Lemma distinct_codes_In (l : list Z) (c : Z) : In c (distinct_codes l) <-> In c l.
Proof.
  induction l as [|x l IH] using rev_ind; [reflexivity|].
  rewrite distinct_codes_snoc, in_app_iff. cbn [In].
  destruct (in_dec Z.eq_dec x (distinct_codes l)) as [Hin|Hout].
  - split; [tauto|]. intros [H|[H|[]]]; [tauto | subst; exact Hin].
  - rewrite in_app_iff. cbn [In]. tauto.
Qed.

Lemma distinct_codes_NoDup (l : list Z) : NoDup (distinct_codes l).
Proof.
  induction l as [|x l IH] using rev_ind; [constructor|].
  rewrite distinct_codes_snoc.
  destruct (in_dec Z.eq_dec x (distinct_codes l)) as [Hin|Hout]; [exact IH|].
  apply NoDup_rev in IH. rewrite <- (rev_involutive (distinct_codes l ++ [x])).
  apply NoDup_rev. rewrite rev_app_distr. cbn [rev app]. constructor; [|exact IH].
  rewrite <- in_rev. exact Hout.
Qed.

Lemma distinct_codes_length_snoc (l : list Z) (c : Z) :
  (List.length (distinct_codes l) <= List.length (distinct_codes (l ++ [c])))%nat.
Proof.
  rewrite distinct_codes_snoc. destruct (in_dec Z.eq_dec c (distinct_codes l)); [lia|].
  rewrite length_app. cbn. lia.
Qed.

Lemma find_code_none (c : Z) (l : list ModemLogC.MODEMLOG_STRUCT) :
  forall b, (forall e, In e l -> ModemLogC.byModemLogErrEnum e <> c) ->
  ModemLogC.find_code c l b = None.
Proof.
  induction l as [|e t IH]; intros b H; cbn [ModemLogC.find_code]; [reflexivity|].
  destruct (ModemLogC.byModemLogErrEnum e =? c) eqn:E.
  - apply Z.eqb_eq in E. exfalso. apply (H e); [left; reflexivity | exact E].
  - apply IH. intros e' He'. apply H. right. exact He'.
Qed.

Lemma find_code_first (c : Z) (l : list ModemLogC.MODEMLOG_STRUCT) (k : nat) :
  forall b, (k < List.length l)%nat ->
  ModemLogC.byModemLogErrEnum (nth k l ModemLogC.empty_entry) = c ->
  (forall j, (j < k)%nat -> ModemLogC.byModemLogErrEnum (nth j l ModemLogC.empty_entry) <> c) ->
  ModemLogC.find_code c l b = Some (b + Z.of_nat k).
Proof.
  revert k. induction l as [|e t IH]; intros k b Hk Hc Hbefore; cbn [List.length] in Hk; [lia|].
  cbn [ModemLogC.find_code]. destruct k as [|k].
  - cbn [nth] in Hc. rewrite Hc, Z.eqb_refl. f_equal. lia.
  - destruct (ModemLogC.byModemLogErrEnum e =? c) eqn:E.
    + apply Z.eqb_eq in E. exfalso. apply (Hbefore 0%nat); [lia | exact E].
    + rewrite (IH k (b + 1)); [f_equal; lia | lia | exact Hc |].
      intros j Hj. apply (Hbefore (S j)). lia.
Qed.

Lemma array_set_nth_gen {A : Type} (l : list A) (i : Z) (v d : A) (k : nat) :
  0 <= i -> (k < List.length l)%nat ->
  nth k (array_set l i v) d = if Nat.eq_dec k (Z.to_nat i) then v else nth k l d.
Proof.
  intros Hi Hk. unfold array_set.
  destruct (i <? 0) eqn:E; [apply Z.ltb_lt in E; lia|].
  apply list_set_nth. exact Hk.
Qed.

Lemma ModemLog_table (env : ModemLogC.LogEnv) (f : list Z) (c : Z) (s : Engine)
  (m : ModemLogC.Module_state) :
  let c' := if ModemLogC.MODEMLOG_NBR_CODES <=? c then ModemLogC.MODEMLOG_START_CODES else c in
  ModemLogC.bufferedErrs (snd (ModemLogC.ModemLog env f c s m))
  = ModemLogC.bufferedErrs (ModemLogC.ModemLog_buffer env c' m)
  /\ ModemLogC.wBufferedIndex (snd (ModemLogC.ModemLog env f c s m))
     = ModemLogC.wBufferedIndex (ModemLogC.ModemLog_buffer env c' m).
Proof.
  cbv zeta. unfold ModemLogC.ModemLog, GetErrorCodeRsp, ModemLogC.WriteMdmLogFile. cbv zeta.
  cbn [snd].
  destruct (ModemLogC.bDisplayModemLogErrors _); destruct (negb _);
    cbn; split; reflexivity.
Qed.

Lemma last_stamp_snoc (c : Z) (calls : list (ModemLogC.LogEnv * list Z * Z))
  (call : ModemLogC.LogEnv * list Z * Z) :
  last_stamp c (calls ++ [call])
  = if snd call =? c then ModemLogC.GetGpsTime (fst (fst call)) else last_stamp c calls.
Proof. unfold last_stamp. rewrite fold_left_app. reflexivity. Qed.

Lemma times_logged_snoc (c : Z) (calls : list (ModemLogC.LogEnv * list Z * Z))
  (call : ModemLogC.LogEnv * list Z * Z) :
  times_logged c (calls ++ [call])
  = times_logged c calls + (if snd call =? c then 1 else 0).
Proof.
  unfold times_logged, codes_of. rewrite map_app, count_occ_app. cbn [map].
  destruct (Z.eq_dec (snd call) c) as [E|E].
  - rewrite (proj2 (Z.eqb_eq _ _) E), (count_occ_cons_eq Z.eq_dec [] E). cbn [count_occ].
    rewrite Nat2Z.inj_add. reflexivity.
  - rewrite (proj2 (Z.eqb_neq _ _) E), (count_occ_cons_neq Z.eq_dec [] E). cbn [count_occ].
    rewrite Nat2Z.inj_add. reflexivity.
Qed.

Lemma NoDup_nth_inj (l : list Z) (i j : nat) :
  NoDup l -> (i < List.length l)%nat -> (j < List.length l)%nat ->
  nth i l 0 = nth j l 0 -> i = j.
Proof. intros H Hi Hj E. exact (proj1 (NoDup_nth l 0) H i j Hi Hj E). Qed.

Lemma table_after_run (env0 : ModemLogC.LogEnv) (s : Engine) (m0 : ModemLogC.Module_state)
  (calls : list (ModemLogC.LogEnv * list Z * Z)) :
  Forall (fun c => 0 < c < 28) (codes_of calls) ->
  (List.length (distinct_codes (codes_of calls)) <= 15)%nat ->
  table_after calls (snd (ModemLog_all calls (s, ModemLogC.ModemLogInit env0 m0))).
Proof.
  induction calls as [|[[env f] c] calls IH] using rev_ind; intros Hvalid Hfit.
  - unfold table_after, ModemLog_all. cbn [fold_left snd codes_of map distinct_codes List.length].
    unfold ModemLogC.ModemLogInit, ModemLogC.WriteMdmLogFile. cbv zeta.
    assert (T : forall m, ModemLogC.bufferedErrs
                  (if negb (ModemLogC.log_fileOpen_ok env0) then m
                   else ModemLogC.set_modem_log (ModemLogC.modem_log m ++ [ModemLogC.LogFileHeader]) m)
                = ModemLogC.bufferedErrs m
                /\ ModemLogC.wBufferedIndex
                  (if negb (ModemLogC.log_fileOpen_ok env0) then m
                   else ModemLogC.set_modem_log (ModemLogC.modem_log m ++ [ModemLogC.LogFileHeader]) m)
                = ModemLogC.wBufferedIndex m).
    { intros m. destruct (negb _); cbn; split; reflexivity. }
    destruct (T (ModemLogC.set_bufferedErrs
                   (repeat ModemLogC.empty_entry (Z.to_nat ModemLogC.BUFFERED_DATA_SIZE))
                   (ModemLogC.set_RecordQueue ModemLogC.RecordQueue_init
                      (ModemLogC.set_wBufferedIndex (ModemLogC.BUFFERED_DATA_SIZE - 1)
                         (ModemLogC.set_bDisplayModemLogErrors false m0))))) as [T1 T2].
    rewrite T1, T2. cbn [ModemLogC.set_bufferedErrs ModemLogC.bufferedErrs
                           ModemLogC.wBufferedIndex ModemLogC.set_RecordQueue
                           ModemLogC.set_wBufferedIndex ModemLogC.set_bDisplayModemLogErrors].
    split; [reflexivity|]. split; [reflexivity|]. split; [intros k Hk; lia|].
    intros k Hk. apply nth_repeat.
  - unfold codes_of in Hvalid, Hfit. rewrite map_app in Hvalid, Hfit. cbn [map snd] in Hvalid, Hfit.
    apply Forall_app in Hvalid. destruct Hvalid as [Hvalid Hc].
    apply Forall_inv in Hc.
    pose proof (distinct_codes_length_snoc (map snd calls) c) as Hmono.
    specialize (IH Hvalid (Nat.le_trans _ _ _ Hmono Hfit)).
    unfold ModemLog_all in *. rewrite fold_left_app. cbn [fold_left].
    set (sm := fold_left _ calls _) in *. clearbody sm. destruct sm as [s1 m1]. cbn [fst snd] in *.
    destruct (ModemLog_table env f c s1 m1) as [B W]. cbv zeta in B, W.
    replace (ModemLogC.MODEMLOG_NBR_CODES <=? c) with false in B, W
      by (symmetry; apply Z.leb_gt; unfold ModemLogC.MODEMLOG_NBR_CODES; lia).
    unfold table_after in *. cbv zeta in *. rewrite B, W. clear B W.
    unfold codes_of in *. rewrite map_app. cbn [map snd].
    rewrite distinct_codes_snoc in *.
    set (ds := distinct_codes (map snd calls)) in *.
    pose proof (distinct_codes_NoDup (map snd calls)) as Hnd. fold ds in Hnd.
    assert (Hpos : forall d, In d ds -> 0 < d < 28).
    { intros d Hd. apply (proj1 (Forall_forall _ _) Hvalid).
      apply (proj1 (distinct_codes_In _ _)). exact Hd. }
    destruct IH as (Hlen & Hw & Hused & Hfree).
    assert (Hfn : firstn (Z.to_nat ModemLogC.BUFFERED_DATA_SIZE) (ModemLogC.bufferedErrs m1)
                  = ModemLogC.bufferedErrs m1).
    { apply firstn_all2. rewrite Hlen. cbn. lia. }
    unfold ModemLogC.ModemLog_buffer. rewrite Hfn.
    destruct (in_dec Z.eq_dec c ds) as [Hin|Hout].
    + (* a code already in the table *)
      destruct (In_nth ds c 0 Hin) as (i & Hi & Hic).
      assert (Hfind : ModemLogC.find_code c (ModemLogC.bufferedErrs m1) 0 = Some (Z.of_nat i)).
      { rewrite (find_code_first c _ i 0); [reflexivity | lia | |].
        - rewrite (Hused i Hi), Hic. reflexivity.
        - intros j Hj. rewrite (Hused j ltac:(lia)). cbn. intros E.
          assert (j = i) by (apply (NoDup_nth_inj ds); [exact Hnd | lia | lia | congruence]).
          lia. }
      rewrite Hfind. cbv zeta. cbn [ModemLogC.set_bufferedErrs ModemLogC.bufferedErrs
                                     ModemLogC.wBufferedIndex].
      rewrite array_set_length. split; [exact Hlen|]. split; [exact Hw|]. split.
      * intros k Hk. rewrite array_set_nth_gen by lia. rewrite Nat2Z.id.
        destruct (Nat.eq_dec k i) as [->|Hne].
        -- rewrite (Hused i Hi), Hic. unfold entry_after. cbn.
           rewrite last_stamp_snoc, times_logged_snoc. cbn [fst snd]. rewrite Z.eqb_refl.
           f_equal. unfold to_BYTE. rewrite Zplus_mod_idemp_l. reflexivity.
        -- rewrite (Hused k Hk). unfold entry_after.
           rewrite last_stamp_snoc, times_logged_snoc. cbn [fst snd].
           assert (Hck : c <> nth k ds 0).
           { intros E. apply Hne. apply (NoDup_nth_inj ds); [exact Hnd | lia | lia | congruence]. }
           rewrite (proj2 (Z.eqb_neq _ _) Hck). rewrite Z.add_0_r. reflexivity.
      * intros k Hk. rewrite array_set_nth_gen by lia. rewrite Nat2Z.id.
        destruct (Nat.eq_dec k i); [lia|]. apply Hfree. exact Hk.
    + (* a new code *)
      rewrite length_app in Hfit. cbn [List.length] in Hfit.
      assert (Hfind : ModemLogC.find_code c (ModemLogC.bufferedErrs m1) 0 = None).
      { apply find_code_none. intros e He. destruct (In_nth _ _ ModemLogC.empty_entry He)
          as (k & Hk & <-).
        destruct (Nat.lt_ge_cases k (List.length ds)) as [Hlt|Hge].
        - rewrite (Hused k Hlt). cbn. intros E. apply Hout. rewrite <- E. apply nth_In. exact Hlt.
        - rewrite (Hfree k ltac:(lia)). cbn. lia. }
      rewrite Hfind. cbv zeta. cbn [ModemLogC.set_bufferedErrs ModemLogC.bufferedErrs
                                     ModemLogC.wBufferedIndex ModemLogC.set_wBufferedIndex].
      assert (Hnext : ModemLogC.NEXT_INDEX (ModemLogC.wBufferedIndex m1)
                      = Z.of_nat (List.length ds)).
      { rewrite Hw. unfold ModemLogC.NEXT_INDEX, ModemLogC.BUFFERED_DATA_SIZE.
        destruct (List.length ds) as [|n] eqn:En; [reflexivity|].
        replace (Z.of_nat (S n) + 14) with (Z.of_nat n + 1 * 15) by lia.
        rewrite Z.mod_add by lia. rewrite Z.mod_small by lia.
        destruct (15 <=? Z.of_nat n + 1) eqn:E; [apply Z.leb_le in E; lia | lia]. }
      rewrite Hnext, array_set_length, length_app. cbn [List.length].
      split; [exact Hlen|]. split.
      * replace (Z.of_nat (List.length ds + 1) + 14) with (Z.of_nat (List.length ds) + 1 * 15) by lia.
        rewrite Z.mod_add by lia. rewrite Z.mod_small by lia. reflexivity.
      * split.
        -- intros k Hk. rewrite array_set_nth_gen by lia. rewrite Nat2Z.id.
           destruct (Nat.eq_dec k (List.length ds)) as [->|Hne].
           ++ rewrite app_nth2 by lia. rewrite Nat.sub_diag. cbn [nth].
              unfold entry_after. rewrite last_stamp_snoc, times_logged_snoc. cbn [fst snd].
              rewrite Z.eqb_refl. f_equal.
              unfold times_logged, codes_of.
              rewrite (proj1 (count_occ_not_In Z.eq_dec (map snd calls) c)).
              ** reflexivity.
              ** intros Hc'. apply Hout. apply distinct_codes_In. exact Hc'.
           ++ rewrite app_nth1 by lia. rewrite (Hused k ltac:(lia)). unfold entry_after.
              rewrite last_stamp_snoc, times_logged_snoc. cbn [fst snd].
              assert (Hck : c <> nth k ds 0).
              { intros E. apply Hout. rewrite E. apply nth_In. lia. }
              rewrite (proj2 (Z.eqb_neq _ _) Hck). rewrite Z.add_0_r. reflexivity.
        -- intros k Hk. rewrite array_set_nth_gen by lia. rewrite Nat2Z.id.
           destruct (Nat.eq_dec k (List.length ds)); [lia|]. apply Hfree. lia.
Qed.

(** After ModemLogInit, a run of ModemLog calls with codes from 1 to 27, at
    most 15 of them different, leaves for every code of the run exactly one
    entry of the table: GetModemLogErr finds it at one index below 15, with
    the number of times the code was logged (modulo 256, the count being a
    byte) and the GPS time of the last call that logged it. *)
Theorem modem_log_table_counts (env0 : ModemLogC.LogEnv) (s : Engine)
  (m0 : ModemLogC.Module_state) (calls : list (ModemLogC.LogEnv * list Z * Z)) :
  Forall (fun c => 0 < c < 28) (codes_of calls) ->
  (List.length (distinct_codes (codes_of calls)) <= 15)%nat ->
  let m := snd (ModemLog_all calls (s, ModemLogC.ModemLogInit env0 m0)) in
  forall c, In c (codes_of calls) ->
  exists i, 0 <= i < 15
    /\ ModemLogC.GetModemLogErr i m
       = Some (i, c, times_logged c calls mod 256, last_stamp c calls)
    /\ forall j freq stamp, 0 <= j ->
         ModemLogC.GetModemLogErr j m = Some (j, c, freq, stamp) -> j = i.
Proof.
  intros Hvalid Hfit m c Hc.
  pose proof (table_after_run env0 s m0 calls Hvalid Hfit) as T. fold m in T.
  destruct T as (Hlen & _ & Hused & Hfree).
  set (ds := distinct_codes (codes_of calls)) in *.
  pose proof (distinct_codes_NoDup (codes_of calls)) as Hnd. fold ds in Hnd.
  assert (Hin : In c ds) by (apply distinct_codes_In; exact Hc).
  assert (Hcpos : 0 < c < 28) by (rewrite Forall_forall in Hvalid; apply Hvalid; exact Hc).
  destruct (In_nth ds c 0 Hin) as (i & Hi & Hic).
  assert (Hget : forall k, (k < 15)%nat ->
            ModemLogC.GetModemLogErr (Z.of_nat k) m
            = let e := nth k (ModemLogC.bufferedErrs m) ModemLogC.empty_entry in
              Some (Z.of_nat k, ModemLogC.byModemLogErrEnum e, ModemLogC.byFrequency e,
                    ModemLogC.dwDateTimeStamp e)).
  { intros k Hk. unfold ModemLogC.GetModemLogErr. cbv zeta.
    replace (Z.of_nat k <? 0) with false by (symmetry; apply Z.ltb_ge; lia).
    rewrite Nat2Z.id.
    rewrite (nth_error_nth' _ ModemLogC.empty_entry) by (rewrite Hlen; exact Hk).
    reflexivity. }
  exists (Z.of_nat i). split; [lia|]. split.
  - rewrite (Hget i ltac:(lia)). cbv zeta. rewrite (Hused i Hi), Hic. reflexivity.
  - intros j freq stamp Hj E.
    destruct (Z_lt_ge_dec j 15) as [Hlt|Hge].
    + rewrite <- (Z2Nat.id j) in E by lia. rewrite (Hget (Z.to_nat j) ltac:(lia)) in E.
      cbv zeta in E.
      destruct (Nat.lt_ge_cases (Z.to_nat j) (List.length ds)) as [Hu|Hf].
      * rewrite (Hused _ Hu) in E. cbn in E.
        assert (Hcj : nth (Z.to_nat j) ds 0 = c) by congruence.
        assert (Z.to_nat j = i)
          by (apply (NoDup_nth_inj ds); [exact Hnd | lia | lia | congruence]).
        lia.
      * rewrite (Hfree (Z.to_nat j) ltac:(lia)) in E. cbn in E.
        assert (0 = c) by congruence. lia.
    + exfalso. unfold ModemLogC.GetModemLogErr in E. cbv zeta in E.
      replace (j <? 0) with false in E by (symmetry; apply Z.ltb_ge; lia).
      rewrite (proj2 (nth_error_None _ _)) in E by (rewrite Hlen; lia). discriminate E.
Qed.

(** Code 7 logged at 100 and at 300, code 3 in between: code 7 is found with
    the count 2 and the time 300. *)
Lemma modem_log_table_counts_witness :
  exists i, 0 <= i < 15
    /\ ModemLogC.GetModemLogErr i
         (snd (ModemLog_all [(LogEnv_at 100, [], 7); (LogEnv_at 200, [], 3);
                             (LogEnv_at 300, [], 7)]
                 (Engine_idle, ModemLogC.ModemLogInit (LogEnv_at 0) Module_state_raw)))
       = Some (i, 7, 2, 300).
Proof.
  destruct (modem_log_table_counts (LogEnv_at 0) Engine_idle Module_state_raw
              [(LogEnv_at 100, [], 7); (LogEnv_at 200, [], 3); (LogEnv_at 300, [], 7)])
    with (c := 7) as (i & Hi & Hget & _).
  - repeat constructor.
  - vm_compute. lia.
  - simpl. left. reflexivity.
  - exists i. split; [exact Hi | exact Hget].
Defined.

Lemma nth_before_end (l : list Z) :
  (0 < List.length l)%nat -> nth (List.length l - 1) l 0 = last l 0.
Proof.
  induction l as [|a l IH]; intros H; [cbn in H; lia|].
  destruct l as [|b l']; [reflexivity|].
  transitivity (nth (List.length (b :: l') - 1) (b :: l') 0).
  - simpl List.length.
    replace (S (S (List.length l')) - 1)%nat with (S (S (List.length l') - 1)) by lia.
    reflexivity.
  - rewrite IH by (simpl; lia). reflexivity.
Qed.

(** Read with a negative index, GetModemLogErr gives the entry of the code
    that entered the table last, that is the code logged for the first time
    most recently; this need not be the code that was logged last. *)
Theorem current_entry_is_the_newest_code (env0 : ModemLogC.LogEnv) (s : Engine)
  (m0 : ModemLogC.Module_state) (calls : list (ModemLogC.LogEnv * list Z * Z)) :
  Forall (fun c => 0 < c < 28) (codes_of calls) ->
  (List.length (distinct_codes (codes_of calls)) <= 15)%nat ->
  calls <> [] ->
  let m := snd (ModemLog_all calls (s, ModemLogC.ModemLogInit env0 m0)) in
  let ds := distinct_codes (codes_of calls) in
  let newest := last ds 0 in
  ModemLogC.GetModemLogErr (-1) m
  = Some (Z.of_nat (List.length ds) - 1, newest, times_logged newest calls mod 256,
          last_stamp newest calls).
Proof.
  intros Hvalid Hfit Hne m ds newest.
  pose proof (table_after_run env0 s m0 calls Hvalid Hfit) as T. fold m in T.
  destruct T as (Hlen & Hw & Hused & _). fold ds in Hw, Hused.
  assert (Hds : (0 < List.length ds)%nat).
  { destruct calls as [|[[env f] c] calls']; [contradiction|].
    assert (Hin : In c ds) by (apply distinct_codes_In; left; reflexivity).
    destruct ds; [contradiction | cbn; lia]. }
  assert (Hidx : ModemLogC.wBufferedIndex m = Z.of_nat (List.length ds) - 1).
  { rewrite Hw. fold ds in Hfit.
    replace (Z.of_nat (List.length ds) + 14)
      with (Z.of_nat (List.length ds) - 1 + 1 * 15) by lia.
    rewrite Z.mod_add by lia. apply Z.mod_small. lia. }
  unfold ModemLogC.GetModemLogErr. cbv zeta.
  change (-1 <? 0) with true. cbv iota. rewrite Hidx.
  replace (Z.to_nat (Z.of_nat (List.length ds) - 1)) with (List.length ds - 1)%nat by lia.
  rewrite (nth_error_nth' _ ModemLogC.empty_entry) by (rewrite Hlen; fold ds in Hfit; lia).
  rewrite (Hused (List.length ds - 1)%nat) by lia.
  assert (Hlast : nth (List.length ds - 1) ds 0 = newest).
  { unfold newest. apply nth_before_end. exact Hds. }
  rewrite Hlast. reflexivity.
Qed.

(** Code 7, then 3, then 7 again: the current entry is that of code 3. *)
Lemma current_entry_is_the_newest_code_witness :
  ModemLogC.GetModemLogErr (-1)
    (snd (ModemLog_all [(LogEnv_at 100, [], 7); (LogEnv_at 200, [], 3);
                        (LogEnv_at 300, [], 7)]
            (Engine_idle, ModemLogC.ModemLogInit (LogEnv_at 0) Module_state_raw)))
  = Some (1, 3, 1, 200).
Proof.
  refine (current_entry_is_the_newest_code (LogEnv_at 0) Engine_idle Module_state_raw
            [(LogEnv_at 100, [], 7); (LogEnv_at 200, [], 3); (LogEnv_at 300, [], 7)]
            _ _ _).
  - repeat constructor.
  - vm_compute. lia.
  - discriminate.
Defined.


(** ** The ring of parked codes *)

Ltac mod_lia := Z.div_mod_to_equations; lia.

Lemma valid_codes_bound (P : list Z) :
  NoDup P -> Forall (fun c => 0 < c < 28) P -> (List.length P <= 27)%nat.
Proof.
  intros Hnd Hv.
  assert (Hincl : incl P (map Z.of_nat (seq 1 27))).
  { intros c Hc. rewrite Forall_forall in Hv. specialize (Hv c Hc).
    apply in_map_iff. exists (Z.to_nat c). split; [lia|]. apply in_seq. lia. }
  pose proof (NoDup_incl_length Hnd Hincl) as H. rewrite length_map, length_seq in H. exact H.
Qed.

Lemma slot_dec (r : Z) (n i : nat) :
  (exists k, (k < n)%nat /\ i = Z.to_nat ((r + Z.of_nat k) mod 28))
  \/ (forall k, (k < n)%nat -> i <> Z.to_nat ((r + Z.of_nat k) mod 28)).
Proof.
  induction n as [|n IH]; [right; intros k Hk; lia|].
  destruct IH as [(k & Hk & E)|H]; [left; exists k; split; [lia | exact E]|].
  destruct (Nat.eq_dec i (Z.to_nat ((r + Z.of_nat n) mod 28))) as [E|E].
  - left. exists n. split; [lia | exact E].
  - right. intros k Hk. destruct (Nat.eq_dec k n) as [->|Hne]; [exact E | apply H; lia].
Qed.

Lemma ring_scan_found (q : ModemLogC.RECORDQUEUE) (P : list Z) (c : Z) :
  ring_holds q P -> In c P ->
  existsb (Z.eqb c) (firstn (Z.to_nat ModemLogC.RECORD_Q_LEN) (ModemLogC.byRecordQBuff q)) = true.
Proof.
  intros (Hr & Hw & Hlen & Hused & Hfree & Hnd & Hv) Hc.
  rewrite firstn_all2 by (rewrite Hlen; cbn; lia).
  apply existsb_exists. exists c. split; [|apply Z.eqb_refl].
  destruct (In_nth P c 0 Hc) as (k & Hk & <-). rewrite <- (Hused k Hk).
  apply nth_In. rewrite Hlen. mod_lia.
Qed.

Lemma ring_scan_missed (q : ModemLogC.RECORDQUEUE) (P : list Z) (c : Z) :
  ring_holds q P -> ~ In c P -> c <> 0 ->
  existsb (Z.eqb c) (firstn (Z.to_nat ModemLogC.RECORD_Q_LEN) (ModemLogC.byRecordQBuff q)) = false.
Proof.
  intros (Hr & Hw & Hlen & Hused & Hfree & Hnd & Hv) Hc H0.
  rewrite firstn_all2 by (rewrite Hlen; cbn; lia).
  destruct (existsb _ _) eqn:E; [|reflexivity]. exfalso.
  apply existsb_exists in E. destruct E as (x & Hx & Ex). apply Z.eqb_eq in Ex. subst x.
  destruct (In_nth _ _ 0 Hx) as (i & Hi & Hic). rewrite Hlen in Hi.
  destruct (slot_dec (ModemLogC.rq_wReadIndex q) (List.length P) i) as [(k & Hk & ->)|Hfree'].
  - rewrite (Hused k Hk) in Hic. apply Hc. rewrite <- Hic. apply nth_In. exact Hk.
  - rewrite (Hfree i Hi Hfree') in Hic. congruence.
Qed.

Lemma ring_holds_post (overwrites : bool) (q : ModemLogC.RECORDQUEUE) (P : list Z) (c : Z) :
  ring_holds q P -> 0 < c < 28 -> ~ In c P ->
  ring_holds (ModemLogC.rq_AddDataToQueue overwrites c q) (P ++ [c]).
Proof.
  intros H Hc Hnew. pose proof H as (Hr & Hw & Hlen & Hused & Hfree & Hnd & Hv).
  assert (Hnd' : NoDup (P ++ [c])).
  { apply NoDup_rev in Hnd. rewrite <- (rev_involutive (P ++ [c])). apply NoDup_rev.
    rewrite rev_app_distr. cbn [rev app]. constructor; [|exact Hnd].
    rewrite <- in_rev. exact Hnew. }
  assert (Hv' : Forall (fun c => 0 < c < 28) (P ++ [c])).
  { apply Forall_app. split; [exact Hv|]. constructor; [exact Hc | constructor]. }
  pose proof (valid_codes_bound _ Hnd' Hv') as Hn. rewrite length_app in Hn. cbn [List.length] in Hn.
  unfold ModemLogC.rq_AddDataToQueue, ModemLogC.rq_full, ModemLogC.RECORD_Q_LEN,
    ModemLogC.MODEMLOG_NBR_CODES.
  replace ((ModemLogC.rq_wWriteIndex q + 1) mod 28 =? ModemLogC.rq_wReadIndex q) with false
    by (symmetry; apply Z.eqb_neq; rewrite Hw; mod_lia).
  cbn [andb]. unfold ring_holds. cbn [ModemLogC.rq_wReadIndex ModemLogC.rq_wWriteIndex
                                       ModemLogC.byRecordQBuff].
  rewrite array_set_length, length_app. cbn [List.length].
  split; [exact Hr|]. split; [rewrite Hw; mod_lia|]. split; [exact Hlen|]. split; [|split].
  - intros k Hk. rewrite array_set_nth_gen by (rewrite ?Hlen, ?Hw; mod_lia).
    destruct (Nat.eq_dec _ _) as [E|E].
    + assert (k = List.length P) by (rewrite Hw in E; mod_lia). subst k.
      rewrite app_nth2 by lia. rewrite Nat.sub_diag. reflexivity.
    + assert (k <> List.length P) by (intros ->; apply E; rewrite Hw; reflexivity).
      rewrite app_nth1 by lia. apply Hused. lia.
  - intros i Hi Hfree'. rewrite array_set_nth_gen by (rewrite ?Hlen, ?Hw; mod_lia).
    destruct (Nat.eq_dec _ _) as [E|E].
    + exfalso. apply (Hfree' (List.length P)); [lia|]. rewrite E, Hw. reflexivity.
    + apply Hfree; [exact Hi|]. intros k Hk. apply Hfree'. lia.
  - split; [exact Hnd' | exact Hv'].
Qed.

(** Parking a code in a ring that holds [P]. *)
Lemma RecordModemLogError_holds (overwrites : bool) (m : ModemLogC.Module_state)
  (P : list Z) (c : Z) :
  ring_holds (ModemLogC.RecordQueue m) P -> 0 < c < 28 ->
  let m' := ModemLogC.RecordModemLogError overwrites c m in
  ring_holds (ModemLogC.RecordQueue m') (if in_dec Z.eq_dec c P then P else P ++ [c])
  /\ ModemLogC.modem_log m' = ModemLogC.modem_log m
  /\ ModemLogC.bDisplayModemLogErrors m' = ModemLogC.bDisplayModemLogErrors m.
Proof.
  intros H Hc. cbv zeta. unfold ModemLogC.RecordModemLogError.
  destruct (in_dec Z.eq_dec c P) as [Hin|Hout].
  - rewrite (ring_scan_found _ _ _ H Hin). split; [exact H | split; reflexivity].
  - rewrite (ring_scan_missed _ _ _ H Hout ltac:(lia)).
    cbn [ModemLogC.set_RecordQueue ModemLogC.RecordQueue ModemLogC.modem_log
           ModemLogC.bDisplayModemLogErrors].
    split; [|split; reflexivity]. apply ring_holds_post; assumption.
Qed.

Lemma ModemLog_ring (env : ModemLogC.LogEnv) (f : list Z) (c : Z) (s : Engine)
  (m : ModemLogC.Module_state) :
  let m' := snd (ModemLogC.ModemLog env f c s m) in
  ModemLogC.RecordQueue m' = ModemLogC.RecordQueue m
  /\ ModemLogC.bDisplayModemLogErrors m' = ModemLogC.bDisplayModemLogErrors m
  /\ logged_codes (ModemLogC.modem_log m')
     = logged_codes (ModemLogC.modem_log m)
       ++ (if ModemLogC.log_fileOpen_ok env
           then [if ModemLogC.MODEMLOG_NBR_CODES <=? c then ModemLogC.MODEMLOG_START_CODES else c]
           else []).
Proof.
  cbv zeta. unfold ModemLogC.ModemLog, GetErrorCodeRsp, ModemLogC.WriteMdmLogFile,
    ModemLogC.ModemLog_buffer, logged_codes. cbv zeta. cbn [snd].
  destruct (ModemLogC.find_code _ _ _); cbv zeta;
    destruct (ModemLogC.bDisplayModemLogErrors _) eqn:D; cbn in D; rewrite ?D;
    destruct (ModemLogC.log_fileOpen_ok env); cbn [negb];
    cbn [ModemLogC.set_modem_log ModemLogC.set_mtce_port ModemLogC.set_bufferedErrs
           ModemLogC.set_wBufferedIndex ModemLogC.RecordQueue ModemLogC.modem_log
           ModemLogC.bDisplayModemLogErrors];
    rewrite ?flat_map_app, ?app_nil_r; cbn [flat_map ModemLogC.line_code app];
    repeat split; try reflexivity; try exact D.
Qed.

(** Taking the oldest code out of a ring that holds it. *)
Lemma MonitorModemLogErrors_holds (NO_RPT : list Z) (env : ModemLogC.LogEnv) (s : Engine)
  (m : ModemLogC.Module_state) (c : Z) (P : list Z) :
  ring_holds (ModemLogC.RecordQueue m) (c :: P) ->
  let m' := snd (ModemLogC.MonitorModemLogErrors NO_RPT env s m) in
  ring_holds (ModemLogC.RecordQueue m') P
  /\ logged_codes (ModemLogC.modem_log m')
     = logged_codes (ModemLogC.modem_log m)
       ++ (if ModemLogC.log_fileOpen_ok env then [c] else []).
Proof.
  intros H. pose proof H as (Hr & Hw & Hlen & Hused & Hfree & Hnd & Hv).
  pose proof (valid_codes_bound _ Hnd Hv) as Hn. cbn [List.length] in Hn, Hw, Hused, Hfree.
  assert (Hc : 0 < c < 28) by (apply Forall_inv in Hv; exact Hv).
  cbv zeta. unfold ModemLogC.MonitorModemLogErrors.
  replace (ModemLogC.rq_wWriteIndex (ModemLogC.RecordQueue m)
           =? ModemLogC.rq_wReadIndex (ModemLogC.RecordQueue m)) with false
    by (symmetry; apply Z.eqb_neq; rewrite Hw; mod_lia).
  cbn [negb]. unfold ModemLogC.rq_GetDataFromQueue. cbv zeta.
  cbn [ModemLogC.rq_wReadIndex ModemLogC.rq_wWriteIndex ModemLogC.byRecordQBuff].
  assert (Hhead : nth (Z.to_nat (ModemLogC.rq_wReadIndex (ModemLogC.RecordQueue m)))
                    (ModemLogC.byRecordQBuff (ModemLogC.RecordQueue m)) 0 = c).
  { specialize (Hused 0%nat ltac:(lia)). cbn [nth] in Hused. rewrite <- Hused.
    f_equal. f_equal. mod_lia. }
  rewrite Hhead. replace (to_BYTE c) with c by (unfold to_BYTE; rewrite Z.mod_small; lia).
  match goal with
  | |- context [ModemLogC.ModemLog env NO_RPT c s ?m1] =>
      destruct (ModemLog_ring env NO_RPT c s m1) as (Q & _ & L)
  end.
  cbv zeta in Q, L. rewrite Q, L. clear Q L.
  cbn [ModemLogC.set_RecordQueue ModemLogC.RecordQueue ModemLogC.modem_log].
  replace (ModemLogC.MODEMLOG_NBR_CODES <=? c) with false
    by (symmetry; apply Z.leb_gt; unfold ModemLogC.MODEMLOG_NBR_CODES; lia).
  split; [|reflexivity].
  unfold ring_holds, ModemLogC.RECORD_Q_LEN, ModemLogC.MODEMLOG_NBR_CODES,
    ModemLogC.MODEMLOG_START_CODES.
  cbn [ModemLogC.rq_wReadIndex ModemLogC.rq_wWriteIndex ModemLogC.byRecordQBuff].
  rewrite array_set_length.
  split; [mod_lia|]. split; [rewrite Hw; mod_lia|]. split; [exact Hlen|]. split; [|split].
  - intros k Hk. rewrite array_set_nth_gen by (rewrite ?Hlen; mod_lia).
    destruct (Nat.eq_dec _ _) as [E|E]; [exfalso; mod_lia|].
    specialize (Hused (S k) ltac:(lia)). cbn [nth] in Hused. rewrite <- Hused.
    f_equal. f_equal. mod_lia.
  - intros i Hi Hfree'. rewrite array_set_nth_gen by (rewrite ?Hlen; lia).
    destruct (Nat.eq_dec _ _) as [E|E]; [reflexivity|].
    apply Hfree; [exact Hi|]. intros k Hk. destruct k as [|k].
    + intros ->. apply E. f_equal. mod_lia.
    + specialize (Hfree' k ltac:(lia)). intros ->. apply Hfree'. f_equal. mod_lia.
  - split; [inversion Hnd; assumption | inversion Hv; assumption].
Qed.

(** With nothing parked MonitorModemLogErrors does nothing. *)
Lemma MonitorModemLogErrors_idle (NO_RPT : list Z) (env : ModemLogC.LogEnv) (s : Engine)
  (m : ModemLogC.Module_state) :
  ring_holds (ModemLogC.RecordQueue m) [] ->
  ModemLogC.MonitorModemLogErrors NO_RPT env s m = (s, m).
Proof.
  intros (Hr & Hw & _). cbn [List.length] in Hw. unfold ModemLogC.MonitorModemLogErrors.
  replace (ModemLogC.rq_wWriteIndex (ModemLogC.RecordQueue m)
           =? ModemLogC.rq_wReadIndex (ModemLogC.RecordQueue m)) with true
    by (symmetry; apply Z.eqb_eq; rewrite Hw; mod_lia).
  reflexivity.
Qed.

Lemma ring_idle_holds (m : ModemLogC.Module_state) :
  ring_idle m <-> ring_holds (ModemLogC.RecordQueue m) [].
Proof.
  unfold ring_idle, ring_holds, ModemLogC.RECORD_Q_LEN, ModemLogC.MODEMLOG_NBR_CODES.
  cbv zeta. cbn [List.length]. split.
  - intros (Hr & Hw & Hbuf). rewrite Hbuf.
    split; [exact Hr|]. split; [rewrite Hw; mod_lia|]. split; [apply repeat_length|].
    split; [intros k Hk; lia|]. split; [intros i Hi _; apply nth_repeat|].
    split; constructor.
  - intros (Hr & Hw & Hlen & _ & Hfree & _).
    split; [exact Hr|]. split; [rewrite Hw; mod_lia|].
    apply (nth_ext _ _ 0 0); [rewrite repeat_length; exact Hlen|].
    intros i Hi. rewrite nth_repeat. apply Hfree; [lia|]. intros k Hk. lia.
Qed.

Lemma RecordModemLogError_all_holds (overwrites : bool) (codes : list Z) :
  forall m, ring_idle m -> Forall (fun c => 0 < c < 28) codes ->
  let m' := RecordModemLogError_all overwrites codes m in
  ring_holds (ModemLogC.RecordQueue m') (distinct_codes codes)
  /\ ModemLogC.modem_log m' = ModemLogC.modem_log m.
Proof.
  induction codes as [|c codes IH] using rev_ind; intros m Hidle Hv; cbv zeta.
  - split; [apply ring_idle_holds; exact Hidle | reflexivity].
  - apply Forall_app in Hv. destruct Hv as [Hv Hc]. apply Forall_inv in Hc.
    unfold RecordModemLogError_all. rewrite fold_left_app. cbn [fold_left].
    fold (RecordModemLogError_all overwrites codes m).
    destruct (IH m Hidle Hv) as [H L].
    destruct (RecordModemLogError_holds overwrites _ _ c H Hc) as (H' & L' & _).
    rewrite distinct_codes_snoc. split; [exact H' | rewrite L'; exact L].
Qed.

Lemma MonitorModemLogErrors_all_holds (NO_RPT P : list Z) :
  forall (envs : list ModemLogC.LogEnv) s m,
  ring_holds (ModemLogC.RecordQueue m) P ->
  Forall (fun env => ModemLogC.log_fileOpen_ok env = true) envs ->
  (List.length P <= List.length envs)%nat ->
  let m' := snd (MonitorModemLogErrors_all NO_RPT envs (s, m)) in
  ring_idle m'
  /\ logged_codes (ModemLogC.modem_log m') = logged_codes (ModemLogC.modem_log m) ++ P.
Proof.
  induction P as [|c P IH]; intros envs s m H Hopen Hlen; cbv zeta.
  - assert (E : forall envs s, MonitorModemLogErrors_all NO_RPT envs (s, m) = (s, m)).
    { clear - H. induction envs as [|env envs IHe]; intros s; [reflexivity|].
      unfold MonitorModemLogErrors_all. cbn [fold_left fst snd].
      rewrite (MonitorModemLogErrors_idle NO_RPT env s m H). apply IHe. }
    rewrite E. cbn [snd]. rewrite app_nil_r. split; [apply ring_idle_holds; exact H | reflexivity].
  - destruct envs as [|env envs]; cbn [List.length] in Hlen; [lia|].
    inversion Hopen as [|? ? Ho Hopen']; subst.
    unfold MonitorModemLogErrors_all. cbn [fold_left fst snd].
    destruct (MonitorModemLogErrors_holds NO_RPT env s m c P H) as [H' L]. cbv zeta in H', L.
    destruct (ModemLogC.MonitorModemLogErrors NO_RPT env s m) as [s1 m1] eqn:E. cbn [snd] in H', L.
    fold (MonitorModemLogErrors_all NO_RPT envs (s1, m1)).
    destruct (IH envs s1 m1 H' Hopen' ltac:(lia)) as [I L']. cbv zeta in I, L'.
    split; [exact I|]. rewrite L', L, Ho, <- app_assoc. reflexivity.
Qed.

(** Codes from 1 to 27 parked by RecordModemLogError in an idle ring, in any
    number and with any repetitions, are never lost, whatever the queue
    module does with a full ring: as many calls of MonitorModemLogErrors as
    there are different codes (the log file opening each time) add to the
    log file one line per code, in the order in which the codes were first
    parked, and leave the ring idle again. *)
Theorem parked_codes_are_logged_in_order (overwrites : bool) (NO_RPT codes : list Z)
  (envs : list ModemLogC.LogEnv) (s : Engine) (m : ModemLogC.Module_state) :
  ring_idle m ->
  Forall (fun c => 0 < c < 28) codes ->
  Forall (fun env => ModemLogC.log_fileOpen_ok env = true) envs ->
  (List.length (distinct_codes codes) <= List.length envs)%nat ->
  let m' := snd (MonitorModemLogErrors_all NO_RPT envs
                   (s, RecordModemLogError_all overwrites codes m)) in
  logged_codes (ModemLogC.modem_log m')
  = logged_codes (ModemLogC.modem_log m) ++ distinct_codes codes
  /\ ring_idle m'.
Proof.
  intros Hidle Hv Hopen Hlen. cbv zeta.
  destruct (RecordModemLogError_all_holds overwrites codes m Hidle Hv) as [H L].
  destruct (MonitorModemLogErrors_all_holds NO_RPT _ envs s _ H Hopen Hlen) as [I L'].
  cbv zeta in I, L'. split; [rewrite L', L; reflexivity | exact I].
Qed.

(** Codes 22, 24, 22 and 23 parked, three calls of MonitorModemLogErrors: the
    lines 22, 24, 23. *)
Lemma parked_codes_are_logged_in_order_witness :
  logged_codes
    (ModemLogC.modem_log
       (snd (MonitorModemLogErrors_all [] [LogEnv_at 10; LogEnv_at 20; LogEnv_at 30]
               (Engine_idle,
                RecordModemLogError_all false [22; 24; 22; 23]
                  (ModemLogC.ModemLogInit (LogEnv_at 0) Module_state_raw)))))
  = [22; 24; 23].
Proof.
  refine (proj1 (parked_codes_are_logged_in_order false [] [22; 24; 22; 23]
                   [LogEnv_at 10; LogEnv_at 20; LogEnv_at 30] Engine_idle
                   (ModemLogC.ModemLogInit (LogEnv_at 0) Module_state_raw) _ _ _ _)).
  - unfold ring_idle. vm_compute. repeat split; try reflexivity; discriminate.
  - repeat constructor.
  - repeat constructor.
  - vm_compute. lia.
Defined.


(** ** The control lines *)

Lemma below_16 (P : Z -> Prop) :
  (forall k : nat, (k < 16)%nat -> P (Z.of_nat k)) -> forall n, 0 <= n < 16 -> P n.
Proof. intros H n Hn. rewrite <- (Z2Nat.id n) by lia. apply H. lia. Qed.

Ltac bit_index k :=
  let v := eval compute in (Z.of_nat k) in change (Z.of_nat k) with v.

Ltac line_bits :=
  repeat (rewrite Z.lor_spec || rewrite Z.land_spec);
  repeat match goal with
         | |- context [Z.testbit ?h ?k] =>
             lazymatch h with
             | Zpos _ => fail
             | _ => destruct (Z.testbit h k)
             end
         end;
  reflexivity.

Ltac drives_proof :=
  unfold drives_line; intros r; cbv zeta;
  split; [unfold line_request; cbn [ModemSerial.HSRR0 ModemSerial.HSRR1
                                     ModemSerial.set_HSRR0 ModemSerial.set_HSRR1];
          f_equal; line_bits
         | split; [intros n Hn;
                   cbn [ModemSerial.HSRR0 ModemSerial.HSRR1
                        ModemSerial.set_HSRR0 ModemSerial.set_HSRR1];
                   pattern n; apply below_16; [|exact Hn];
                   let k := fresh "k" in
                   let Hk := fresh "Hk" in
                   intros k Hk;
                   do 16 (destruct k as [|k];
                          [match goal with
                           | |- context [Z.of_nat ?j] => bit_index j
                           end; intros H1 H2; try lia; line_bits|]);
                   lia
                  | destruct r; reflexivity]].

(** Each control line has two bits of its own in the host service request
    registers: its setter writes 01 or 10 there (the power line of the aux
    board the other way round than the modem lines), and changes no other
    bit of the register and no other register. *)
Theorem control_lines_keep_to_their_bits :
  drives_line ModemSerial.SetModemPortRTSLow true 12 (false, true)
  /\ drives_line ModemSerial.SetModemPortRTSHigh true 12 (true, false)
  /\ drives_line ModemSerial.SetModemPortDTRLow false 2 (false, true)
  /\ drives_line ModemSerial.SetModemPortDTRHigh false 2 (true, false)
  /\ drives_line ModemSerial.SetModemPortTXLow false 0 (false, true)
  /\ drives_line ModemSerial.SetModemPortTXHigh false 0 (true, false)
  /\ drives_line ModemSerial.SetCISPowerLow false 4 (true, false)
  /\ drives_line ModemSerial.SetCISPowerHigh false 4 (false, true).
Proof.
  split; [unfold ModemSerial.SetModemPortRTSLow; drives_proof|].
  split; [unfold ModemSerial.SetModemPortRTSHigh; drives_proof|].
  split; [unfold ModemSerial.SetModemPortDTRLow; drives_proof|].
  split; [unfold ModemSerial.SetModemPortDTRHigh; drives_proof|].
  split; [unfold ModemSerial.SetModemPortTXLow; drives_proof|].
  split; [unfold ModemSerial.SetModemPortTXHigh; drives_proof|].
  split; [unfold ModemSerial.SetCISPowerLow; drives_proof|].
  unfold ModemSerial.SetCISPowerHigh; drives_proof.
Qed.

(** ** Opening the port and reading its settings back *)

Lemma to_WORD_range (z : Z) : 0 <= to_WORD z < 65536.
Proof. unfold to_WORD. apply Z.mod_pos_bound. lia. Qed.

(** A configuration that OpenModemSerialPort accepts is read back by
    GetModemSerialPortSettings (the bit rate register not being zero) with
    its parity, but always with 8 data bits: a 9-bit frame comes back as
    8 data bits and 2 stop bits.  The flow control is not read back: the
    field keeps what the caller had there.  The accepted open leaves the
    receive queue empty. *)
Theorem serial_settings_read_back
  (SYS_CLOCK b1200 b2400 b4800 b9600 b19200 b38400 b57600 b115200 : Z)
  (cfgInfo cfg0 : ModemSerial.SERIAL_CFG) (r r' : ModemSerial.Registers) (s s' : Engine) :
  ModemSerial.OpenModemSerialPort SYS_CLOCK cfgInfo r s = Some (true, r', s') ->
  ModemSerial.SCCR0 r' <> 0 ->
  exists cfg',
    ModemSerial.GetModemSerialPortSettings SYS_CLOCK b1200 b2400 b4800 b9600 b19200 b38400
      b57600 b115200 cfg0 r' = Some cfg'
    /\ ModemSerial.wParity cfg' = ModemSerial.wParity cfgInfo
    /\ ModemSerial.wDataBits cfg' = 8
    /\ ModemSerial.wStopBits cfg' = (if ModemSerial.wDataBits cfgInfo =? 9 then 2 else 1)
    /\ ModemSerial.wFlowCntl cfg' = ModemSerial.wFlowCntl cfg0
    /\ rxq s' = [].
Proof.
  intros Hopen Hspeed. unfold ModemSerial.OpenModemSerialPort in Hopen.
  destruct ((ModemSerial.dwSpeed cfgInfo * 32) mod 2 ^ 32 =? 0); [discriminate Hopen|].
  cbv zeta in Hopen.
  assert (Hget : forall w,
            ModemSerial.SCCR0 r' = to_WORD (SYS_CLOCK / ((ModemSerial.dwSpeed cfgInfo * 32) mod 2 ^ 32)) ->
            ModemSerial.SCCR1 r' = w ->
            ModemSerial.GetModemSerialPortSettings SYS_CLOCK b1200 b2400 b4800 b9600 b19200
              b38400 b57600 b115200 cfg0 r'
            = Some (ModemSerial.Build_SERIAL_CFG
                      (ModemSerial.dwSpeed
                         match ModemSerial.GetModemSerialPortSettings SYS_CLOCK b1200 b2400
                                 b4800 b9600 b19200 b38400 b57600 b115200 cfg0 r' with
                         | Some c => c
                         | None => cfg0
                         end)
                      8
                      (if Z.land (Z.land w 0xFFD3) 0x0400 =? 0x0400
                       then if Z.land (Z.land w 0xFFD3) 0x0C00 =? 0x0C00
                            then ModemSerial.PARITY_ODD else ModemSerial.PARITY_EVEN
                       else ModemSerial.PARITY_NONE)
                      (if Z.land (Z.land w 0xFFD3) 0x0200 =? 0x0200 then 2 else 1)
                      (ModemSerial.wFlowCntl cfg0))).
  { intros w H0 H1. unfold ModemSerial.GetModemSerialPortSettings. cbv zeta.
    pose proof (to_WORD_range (SYS_CLOCK / ((ModemSerial.dwSpeed cfgInfo * 32) mod 2 ^ 32))) as Hr.
    rewrite <- H0 in Hr.
    replace ((ModemSerial.SCCR0 r' * 32) mod 2 ^ 32 =? 0) with false
      by (symmetry; apply Z.eqb_neq; rewrite Z.mod_small by lia; lia).
    rewrite H1. reflexivity. }
  destruct (ModemSerial.wDataBits cfgInfo =? 9) eqn:D9;
    [|destruct (ModemSerial.wDataBits cfgInfo =? 8) eqn:D8; [|discriminate Hopen]];
    (destruct (ModemSerial.wParity cfgInfo =? ModemSerial.PARITY_NONE) eqn:P0;
     [|destruct (ModemSerial.wParity cfgInfo =? ModemSerial.PARITY_EVEN) eqn:P1;
       [|destruct (ModemSerial.wParity cfgInfo =? ModemSerial.PARITY_ODD) eqn:P2;
         [|discriminate Hopen]]]);
    cbv zeta in Hopen;
    (destruct (ModemSerial.wFlowCntl cfgInfo =? ModemSerial.NO_FLOW_CNTL);
     [|destruct (ModemSerial.wFlowCntl cfgInfo =? ModemSerial.XON_XOFF_FLOW_CNTL);
       [discriminate Hopen
       |destruct (ModemSerial.wFlowCntl cfgInfo =? ModemSerial.RTS_CTS_FLOW_CNTL);
        [|discriminate Hopen]]]);
    injection Hopen as Hr' Hs'; subst r' s';
    (eexists; split; [apply Hget; reflexivity|]);
    cbn [ModemSerial.wParity ModemSerial.wDataBits ModemSerial.wStopBits ModemSerial.wFlowCntl];
    rewrite ?(proj1 (Z.eqb_eq _ _) P0), ?(proj1 (Z.eqb_eq _ _) P1), ?(proj1 (Z.eqb_eq _ _) P2);
    repeat split; reflexivity.
Qed.

(** 19200 bit/s with 9 data bits and even parity, on a clock of 16777216 Hz. *)
Lemma serial_settings_read_back_witness :
  exists cfg',
    ModemSerial.GetModemSerialPortSettings 16777216 1200 2400 4800 9600 19200 38400 57600
      115200 SERIAL_CFG_9E
      (ModemSerial.set_SCCR1 0x062C (ModemSerial.set_SCCR0 27 Registers_zero)) = Some cfg'
    /\ ModemSerial.wParity cfg' = ModemSerial.PARITY_EVEN
    /\ ModemSerial.wDataBits cfg' = 8
    /\ ModemSerial.wStopBits cfg' = 2.
Proof.
  destruct (serial_settings_read_back 16777216 1200 2400 4800 9600 19200 38400 57600 115200
              SERIAL_CFG_9E SERIAL_CFG_9E Registers_zero
              (ModemSerial.set_SCCR1 0x062C (ModemSerial.set_SCCR0 27 Registers_zero))
              Engine_idle (FlushModemSerialRxQueue Engine_idle))
    as (cfg' & G & P & D & S & _).
  - reflexivity.
  - vm_compute. discriminate.
  - exists cfg'. repeat split; assumption.
Defined.

(** OpenModemSerialPort writes the bit rate register before it looks at the
    rest of the configuration: a configuration it rejects (data bits other
    than 8 or 9, a parity other than none, even or odd, a flow control other
    than none or RTS/CTS) has changed the bit rate, and nothing else. *)
Theorem rejected_serial_settings_change_the_speed (SYS_CLOCK : Z)
  (cfgInfo : ModemSerial.SERIAL_CFG) (r : ModemSerial.Registers) (s : Engine) :
  (ModemSerial.dwSpeed cfgInfo * 32) mod 2 ^ 32 <> 0 ->
  exists ok r' s',
    ModemSerial.OpenModemSerialPort SYS_CLOCK cfgInfo r s = Some (ok, r', s')
    /\ ModemSerial.SCCR0 r'
       = to_WORD (SYS_CLOCK / ((ModemSerial.dwSpeed cfgInfo * 32) mod 2 ^ 32))
    /\ (ok = true <->
        (ModemSerial.wDataBits cfgInfo = 8 \/ ModemSerial.wDataBits cfgInfo = 9)
        /\ (ModemSerial.wParity cfgInfo = ModemSerial.PARITY_NONE
            \/ ModemSerial.wParity cfgInfo = ModemSerial.PARITY_EVEN
            \/ ModemSerial.wParity cfgInfo = ModemSerial.PARITY_ODD)
        /\ (ModemSerial.wFlowCntl cfgInfo = ModemSerial.NO_FLOW_CNTL
            \/ ModemSerial.wFlowCntl cfgInfo = ModemSerial.RTS_CTS_FLOW_CNTL))
    /\ (ok = false ->
        s' = s
        /\ r' = ModemSerial.set_SCCR0
                  (to_WORD (SYS_CLOCK / ((ModemSerial.dwSpeed cfgInfo * 32) mod 2 ^ 32))) r).
Proof.
  intros Hspeed. unfold ModemSerial.OpenModemSerialPort.
  rewrite (proj2 (Z.eqb_neq _ _) Hspeed). cbv zeta.
  unfold ModemSerial.PARITY_NONE, ModemSerial.PARITY_EVEN, ModemSerial.PARITY_ODD,
    ModemSerial.NO_FLOW_CNTL, ModemSerial.XON_XOFF_FLOW_CNTL, ModemSerial.RTS_CTS_FLOW_CNTL.
  destruct (ModemSerial.wDataBits cfgInfo =? 9) eqn:D9;
    [|destruct (ModemSerial.wDataBits cfgInfo =? 8) eqn:D8];
    try (destruct (ModemSerial.wParity cfgInfo =? 0) eqn:P0;
         [|destruct (ModemSerial.wParity cfgInfo =? 1) eqn:P1;
           [|destruct (ModemSerial.wParity cfgInfo =? 2) eqn:P2]]);
    try (destruct (ModemSerial.wFlowCntl cfgInfo =? 0) eqn:F0;
         [|destruct (ModemSerial.wFlowCntl cfgInfo =? 1) eqn:F1;
           [|destruct (ModemSerial.wFlowCntl cfgInfo =? 2) eqn:F2]]);
    rewrite ?Z.eqb_eq, ?Z.eqb_neq in *;
    do 3 eexists; (split; [reflexivity|]);
    (split; [destruct r; reflexivity|]);
    (split; [split; [intros E; try discriminate E; lia | intros E; try reflexivity; exfalso; lia]
            | intros E; try discriminate E; split; reflexivity]).
Qed.

(** Seven data bits are refused; the divisor for 9600 bit/s is in SCCR0 all
    the same. *)
Lemma rejected_serial_settings_change_the_speed_witness :
  exists ok r' s',
    ModemSerial.OpenModemSerialPort 16777216
      (ModemSerial.Build_SERIAL_CFG 9600 7 ModemSerial.PARITY_NONE 1 ModemSerial.NO_FLOW_CNTL)
      Registers_zero Engine_idle = Some (ok, r', s')
    /\ ModemSerial.SCCR0 r' = 54.
Proof.
  destruct (rejected_serial_settings_change_the_speed 16777216
              (ModemSerial.Build_SERIAL_CFG 9600 7 ModemSerial.PARITY_NONE 1
                 ModemSerial.NO_FLOW_CNTL) Registers_zero Engine_idle)
    as (ok & r' & s' & H & H0 & _).
  - vm_compute. discriminate.
  - exists ok, r', s'. split; [exact H | exact H0].
Defined.

(** ** The error code in the log *)

(** ModemLog takes the engine's error code away: the line it composes carries
    the code, the engine is left with MEC_NONE whether or not the log file
    could be opened (when it could not, no line is written and the code is
    lost), and the line of the next call carries MEC_NONE. *)
Theorem modem_log_takes_the_error_code (env env' : ModemLogC.LogEnv)
  (szFileName szFileName' : list Z) (errCode errCode' : Z) (s : Engine)
  (m : ModemLogC.Module_state) :
  let r := ModemLogC.ModemLog env szFileName errCode s m in
  let r' := ModemLogC.ModemLog env' szFileName' errCode' (fst r) (snd r) in
  fst r = set_errorCodeRsp MEC_NONE s
  /\ (if ModemLogC.log_fileOpen_ok env
      then exists line,
          ModemLogC.modem_log (snd r) = ModemLogC.modem_log m ++ [ModemLogC.LogLine line]
          /\ ModemLogC.line_sub_code line = errorCodeRsp s
          /\ ModemLogC.line_file line = szFileName
      else ModemLogC.modem_log (snd r) = ModemLogC.modem_log m)
  /\ (if ModemLogC.log_fileOpen_ok env'
      then exists line,
          ModemLogC.modem_log (snd r') = ModemLogC.modem_log (snd r) ++ [ModemLogC.LogLine line]
          /\ ModemLogC.line_sub_code line = MEC_NONE
          /\ ModemLogC.line_file line = szFileName'
      else ModemLogC.modem_log (snd r') = ModemLogC.modem_log (snd r)).
Proof.
  assert (H : forall env f c s m,
            let r := ModemLogC.ModemLog env f c s m in
            fst r = set_errorCodeRsp MEC_NONE s
            /\ (if ModemLogC.log_fileOpen_ok env
                then exists line,
                    ModemLogC.modem_log (snd r) = ModemLogC.modem_log m ++ [ModemLogC.LogLine line]
                    /\ ModemLogC.line_sub_code line = errorCodeRsp s
                    /\ ModemLogC.line_file line = f
                else ModemLogC.modem_log (snd r) = ModemLogC.modem_log m)).
  { clear. intros env f c s m. cbv zeta.
    unfold ModemLogC.ModemLog, GetErrorCodeRsp, ModemLogC.WriteMdmLogFile,
      ModemLogC.ModemLog_buffer. cbv zeta. cbn [fst snd].
    split; [reflexivity|].
    destruct (ModemLogC.log_fileOpen_ok env); cbn [negb];
      destruct (ModemLogC.find_code _ _ _); cbv zeta;
      destruct (ModemLogC.bDisplayModemLogErrors _) eqn:D; cbn in D; rewrite ?D;
      cbn [ModemLogC.set_modem_log ModemLogC.set_mtce_port ModemLogC.set_bufferedErrs
             ModemLogC.set_wBufferedIndex ModemLogC.modem_log];
      try reflexivity;
      (eexists; split; [reflexivity|]; split; reflexivity). }
  cbv zeta.
  destruct (H env szFileName errCode s m) as [E L]. cbv zeta in E, L.
  split; [exact E|]. split; [exact L|].
  destruct (H env' szFileName' errCode'
              (fst (ModemLogC.ModemLog env szFileName errCode s m))
              (snd (ModemLogC.ModemLog env szFileName errCode s m))) as [_ L'].
  cbv zeta in L'. rewrite E in L'.
  replace (errorCodeRsp (set_errorCodeRsp MEC_NONE s)) with MEC_NONE in L'
    by (destruct s; reflexivity).
  exact L'.
Qed.


(** ** Retries (CleanUpOnIdle) *)

(** What the escalation of time-outs leaves alone. *)
Lemma HandleTimeouts_frame (env : Env) (st : AT_CMD_STATES) (d : Driver) :
  let d' := HandleTimeouts env st d in
  flags d' = flags d
  /\ configurables d' = configurables d
  /\ ModemCmd (options d') = ModemCmd (options d)
  /\ bSendingEnabled (options d') = bSendingEnabled (options d)
  /\ szPathFileBeingSent (options d') = szPathFileBeingSent (options d)
  /\ thCheckRetryDelay (api d') = thCheckRetryDelay (api d)
  /\ thCheckCSQ (api d') = thCheckCSQ (api d)
  /\ thWaitForCalls (api d') = thWaitForCalls (api d)
  /\ (forall c, c <> RESET_CIS -> ModemRsp (options d') c = ModemRsp (options d) c)
  /\ modemInfo (eng d') = modemInfo (eng d)
  /\ exists l, log (eng d') = log (eng d) ++ l.
Proof.
  cbv zeta. unfold HandleTimeouts.
  assert (R : forall x : Driver,
            let x' := upd_api (set_thTimeout
                                 (ResetTimer (now env) (dwTimeoutDelay (configurables d)))) x in
            flags x' = flags x /\ configurables x' = configurables x
            /\ options x' = options x /\ thCheckRetryDelay (api x') = thCheckRetryDelay (api x)
            /\ thCheckCSQ (api x') = thCheckCSQ (api x)
            /\ thWaitForCalls (api x') = thWaitForCalls (api x)
            /\ eng x' = eng x).
  { intros [s a]. destruct a. cbn. repeat split; reflexivity. }
  assert (Q : forall x : Driver,
            let x' := AddNewDataToQueue env RESET_CIS x in
            flags x' = flags x /\ configurables x' = configurables x
            /\ ModemCmd (options x') = ModemCmd (options x)
            /\ bSendingEnabled (options x') = bSendingEnabled (options x)
            /\ szPathFileBeingSent (options x') = szPathFileBeingSent (options x)
            /\ thCheckRetryDelay (api x') = thCheckRetryDelay (api x)
            /\ thCheckCSQ (api x') = thCheckCSQ (api x)
            /\ thWaitForCalls (api x') = thWaitForCalls (api x)
            /\ (forall c, c <> RESET_CIS -> ModemRsp (options x') c = ModemRsp (options x) c)
            /\ eng x' = eng x).
  { intros x. cbv zeta. unfold AddNewDataToQueue.
    destruct (in_queue_buffer RESET_CIS (modemQBuff x)); [repeat split; reflexivity|].
    destruct x as [s a]. destruct a as [t1 t2 t3 t4 t5 t6 q f o c0]. destruct o. cbn.
    repeat split; try reflexivity.
    intros c Hc. destruct (MODEM_COMMANDS_eq_dec c RESET_CIS); [contradiction | reflexivity]. }
  assert (L : forall (e : LogEvent) (x : Driver),
            let x' := api_log e x in
            api x' = api x /\ modemInfo (eng x') = modemInfo (eng x)
            /\ log (eng x') = log (eng x) ++ [e]).
  { intros e [s a]. cbn. repeat split; reflexivity. }
  assert (Same : forall x : Driver,
            (flags x = flags d /\ configurables x = configurables d
             /\ ModemCmd (options x) = ModemCmd (options d)
             /\ bSendingEnabled (options x) = bSendingEnabled (options d)
             /\ szPathFileBeingSent (options x) = szPathFileBeingSent (options d)
             /\ thCheckRetryDelay (api x) = thCheckRetryDelay (api d)
             /\ thCheckCSQ (api x) = thCheckCSQ (api d)
             /\ thWaitForCalls (api x) = thWaitForCalls (api d)
             /\ (forall c, c <> RESET_CIS -> ModemRsp (options x) c = ModemRsp (options d) c)
             /\ modemInfo (eng x) = modemInfo (eng d)
             /\ exists l, log (eng x) = log (eng d) ++ l) ->
            let x' := upd_api (set_thTimeout
                                 (ResetTimer (now env) (dwTimeoutDelay (configurables d)))) x in
            flags x' = flags d /\ configurables x' = configurables d
            /\ ModemCmd (options x') = ModemCmd (options d)
            /\ bSendingEnabled (options x') = bSendingEnabled (options d)
            /\ szPathFileBeingSent (options x') = szPathFileBeingSent (options d)
            /\ thCheckRetryDelay (api x') = thCheckRetryDelay (api d)
            /\ thCheckCSQ (api x') = thCheckCSQ (api d)
            /\ thWaitForCalls (api x') = thWaitForCalls (api d)
            /\ (forall c, c <> RESET_CIS -> ModemRsp (options x') c = ModemRsp (options d) c)
            /\ modemInfo (eng x') = modemInfo (eng d)
            /\ exists l, log (eng x') = log (eng d) ++ l).
  { intros x H. cbv zeta. destruct (R x) as (R1 & R2 & R3 & R4 & R5 & R6 & R7).
    cbv zeta in R1, R2, R3, R4, R5, R6, R7. rewrite R1, R2, R3, R4, R5, R6, R7. exact H. }
  assert (Id : flags d = flags d /\ configurables d = configurables d
               /\ ModemCmd (options d) = ModemCmd (options d)
               /\ bSendingEnabled (options d) = bSendingEnabled (options d)
               /\ szPathFileBeingSent (options d) = szPathFileBeingSent (options d)
               /\ thCheckRetryDelay (api d) = thCheckRetryDelay (api d)
               /\ thCheckCSQ (api d) = thCheckCSQ (api d)
               /\ thWaitForCalls (api d) = thWaitForCalls (api d)
               /\ (forall c, c <> RESET_CIS -> ModemRsp (options d) c = ModemRsp (options d) c)
               /\ modemInfo (eng d) = modemInfo (eng d)
               /\ exists l, log (eng d) = log (eng d) ++ l).
  { repeat split; try reflexivity. exists []. rewrite app_nil_r. reflexivity. }
  assert (Logged : forall e,
            flags (api_log e d) = flags d /\ configurables (api_log e d) = configurables d
            /\ ModemCmd (options (api_log e d)) = ModemCmd (options d)
            /\ bSendingEnabled (options (api_log e d)) = bSendingEnabled (options d)
            /\ szPathFileBeingSent (options (api_log e d)) = szPathFileBeingSent (options d)
            /\ thCheckRetryDelay (api (api_log e d)) = thCheckRetryDelay (api d)
            /\ thCheckCSQ (api (api_log e d)) = thCheckCSQ (api d)
            /\ thWaitForCalls (api (api_log e d)) = thWaitForCalls (api d)
            /\ (forall c, c <> RESET_CIS ->
                  ModemRsp (options (api_log e d)) c = ModemRsp (options d) c)
            /\ modemInfo (eng (api_log e d)) = modemInfo (eng d)
            /\ exists l, log (eng (api_log e d)) = log (eng d) ++ l).
  { intros e. destruct (L e d) as (L1 & L2 & L3). cbv zeta in L1, L2, L3.
    unfold flags, configurables, options. rewrite L1, L2.
    repeat split; try reflexivity. exists [e]. exact L3. }
  destruct st; try (apply Same; exact Id).
  destruct (TimerExpired (now env) (thTimeout (api d))); [|exact Id].
  apply Same.
  destruct (InVoiceCall env); cbn [negb]; [exact Id|].
  destruct (PowerCycleCIS env); cbn [negb]; [apply Logged|].
  destruct (Q (api_log (SystemLog Modem_communications_error) d))
    as (Q1 & Q2 & Q3 & Q4 & Q5 & Q6 & Q7 & Q8 & Q9 & Q10).
  cbv zeta in Q1, Q2, Q3, Q4, Q5, Q6, Q7, Q8, Q9, Q10.
  destruct (Logged (SystemLog Modem_communications_error))
    as (G1 & G2 & G3 & G4 & G5 & G6 & G7 & G8 & G9 & G10 & G11).
  rewrite Q1, Q2, Q3, Q4, Q5, Q6, Q7, Q8, Q10.
  repeat split; try assumption.
Qed.

Lemma CleanUpOnIdle_head (env : Env) (st : AT_CMD_STATES) (d : Driver) :
  let d1 := upd_options
              (fun o => set_ModemRsp_at (ModemCmd o)
                          (match st with AT_CMD_SUCCESS => MR_SUCCESS | _ => MR_FAILED end) o) d in
  let d2 := HandleTimeouts env st d1 in
  flags d2 = flags d
  /\ configurables d2 = configurables d
  /\ ModemCmd (options d2) = ModemCmd (options d)
  /\ bSendingEnabled (options d2) = bSendingEnabled (options d)
  /\ szPathFileBeingSent (options d2) = szPathFileBeingSent (options d)
  /\ thCheckRetryDelay (api d2) = thCheckRetryDelay (api d)
  /\ thCheckCSQ (api d2) = thCheckCSQ (api d)
  /\ thWaitForCalls (api d2) = thWaitForCalls (api d)
  /\ (ModemCmd (options d) <> RESET_CIS ->
      ModemRsp (options d2) (ModemCmd (options d))
      = match st with AT_CMD_SUCCESS => MR_SUCCESS | _ => MR_FAILED end)
  /\ modemInfo (eng d2) = modemInfo (eng d)
  /\ exists l, log (eng d2) = log (eng d) ++ l.
Proof.
  intros d1 d2.
  destruct (HandleTimeouts_frame env st d1)
    as (F1 & F2 & F3 & F4 & F5 & F6 & F7 & F8 & F9 & F10 & F11). fold d2 in F1, F2, F3, F4, F5,
    F6, F7, F8, F9, F10, F11.
  assert (H1 : flags d1 = flags d /\ configurables d1 = configurables d
               /\ ModemCmd (options d1) = ModemCmd (options d)
               /\ bSendingEnabled (options d1) = bSendingEnabled (options d)
               /\ szPathFileBeingSent (options d1) = szPathFileBeingSent (options d)
               /\ (thCheckRetryDelay (api d1) = thCheckRetryDelay (api d)
                   /\ thCheckCSQ (api d1) = thCheckCSQ (api d)
                   /\ thWaitForCalls (api d1) = thWaitForCalls (api d))
               /\ ModemRsp (options d1) (ModemCmd (options d))
                  = match st with AT_CMD_SUCCESS => MR_SUCCESS | _ => MR_FAILED end
               /\ eng d1 = eng d).
  { unfold d1. destruct d as [s a]. destruct a as [t1 t2 t3 t4 t5 t6 q f o c0]. destruct o.
    cbn. repeat split; try reflexivity.
    destruct (MODEM_COMMANDS_eq_dec _ _); [reflexivity | contradiction]. }
  destruct H1 as (A1 & A2 & A3 & A4 & A5 & A6 & A7 & A8).
  rewrite F1, F2, F3, F4, F5, F6, F7, F8, F10, A1, A2, A3, A4, A5.
  destruct A6 as (T1 & T2 & T3). rewrite T1, T2, T3.
  repeat split; try reflexivity.
  - intros Hne. rewrite <- A3 at 1. rewrite F9 by (rewrite A3; exact Hne). rewrite A3. exact A7.
  - destruct F11 as [l Hl]. exists l. rewrite Hl, A8. reflexivity.
Qed.

(** The escalation of time-outs does not touch the error code of the engine. *)
Lemma HandleTimeouts_errorCodeRsp (env : Env) (st : AT_CMD_STATES) (d : Driver) :
  errorCodeRsp (eng (HandleTimeouts env st d)) = errorCodeRsp (eng d).
Proof.
  unfold HandleTimeouts.
  assert (Q : forall x, eng (AddNewDataToQueue env RESET_CIS x) = eng x).
  { intros x. unfold AddNewDataToQueue.
    destruct (in_queue_buffer RESET_CIS (modemQBuff x)); reflexivity. }
  destruct st; try reflexivity.
  destruct (TimerExpired (now env) (thTimeout (api d))); [|reflexivity].
  destruct (InVoiceCall env); cbn [negb]; [reflexivity|].
  destruct (PowerCycleCIS env); cbn [negb]; [reflexivity|].
  cbn [upd_api set_api eng]. rewrite Q. reflexivity.
Qed.

(** When sending a file has failed (the engine ended in any state other than
    AT_CMD_SUCCESS) the API layer goes back to idle with MR_FAILED as the
    answer for TXING_FILE, keeps the name of the file and counts the failure
    in a BYTE.  While the count is below the configured number of tries the
    retry delay is armed and sending stays as it was; otherwise the count
    starts again from 0, the file is given up (the modem log says so as its
    last entry, which takes the error code of the engine, when the file
    could be marked) and sending is switched off for the time of the wait
    for calls. *)
Theorem failed_file_is_tried_again (env : Env) (st : AT_CMD_STATES) (d : Driver) :
  ModemCmd (options d) = TXING_FILE ->
  st <> AT_CMD_SUCCESS ->
  let d' := CleanUpOnIdle env st d in
  let k := incr_BYTE (byFileSendRetryCount (flags d)) in
  GetCurrentModemState d' = MODEM_IDLE
  /\ ModemCmd (options d') = NO_CMD
  /\ GetModemCmdRsp TXING_FILE d' = MR_FAILED
  /\ szPathFileBeingSent (options d') = szPathFileBeingSent (options d)
  /\ (k < GetMsgRetryCount d ->
      byFileSendRetryCount (flags d') = k
      /\ thCheckRetryDelay (api d') = StartTimer (now env) (dwRetryDelay (configurables d))
      /\ IsModemSendingEnabled d' = IsModemSendingEnabled d
      /\ thWaitForCalls (api d') = thWaitForCalls (api d))
  /\ (GetMsgRetryCount d <= k ->
      byFileSendRetryCount (flags d') = 0
      /\ thCheckRetryDelay (api d') = thCheckRetryDelay (api d)
      /\ IsModemSendingEnabled d' = false
      /\ (IsModemSendingEnabled d = true ->
          thWaitForCalls (api d') = StartTimer (now env) (dwWaitForCalls (configurables d)))
      /\ (MarkFileAsError_ok env = true ->
          exists l,
            log (eng d')
            = l ++ [ModemLog MODEMLOG_SEND_FAILURE (errorCodeRsp (eng d))])).
Proof.
  intros Hcmd Hst.
  destruct (CleanUpOnIdle_head env st d)
    as (F1 & F2 & F3 & F4 & F5 & F6 & F7 & F8 & F9 & F10 & F11).
  cbv zeta in F1, F2, F3, F4, F5, F6, F7, F8, F9, F10, F11.
  cbv zeta. unfold CleanUpOnIdle. cbv zeta.
  match goal with
  | |- context [HandleTimeouts env st ?x] =>
      pose proof (HandleTimeouts_errorCodeRsp env st x) as Herr;
      change (errorCodeRsp (eng x)) with (errorCodeRsp (eng d)) in Herr
  end.
  rewrite <- Herr.
  set (d2 := HandleTimeouts env st _) in *. clearbody d2. clear Herr.
  rewrite F3, Hcmd. rewrite Hcmd in F9.
  assert (Hrsp : ModemRsp (options d2) TXING_FILE = MR_FAILED).
  { rewrite F9 by discriminate. destruct st; try reflexivity. contradiction. }
  clear F9.
  assert (Hbranch :
    forall X : Driver,
      match st with
      | AT_CMD_SUCCESS => X
      | _ =>
          let d := upd_options (set_modemState MODEM_IDLE) d2 in
          let d := upd_options (set_ModemCmd NO_CMD) d in
          let d := upd_flags (fun f => set_byFileSendRetryCount
                                         (incr_BYTE (byFileSendRetryCount f)) f) d in
          if byFileSendRetryCount (flags d) <? byMaxRetries (configurables d) then
            upd_api (set_thCheckRetryDelay
                       (StartTimer (now env) (dwRetryDelay (configurables d)))) d
          else
            let d := upd_flags (set_byFileSendRetryCount 0) d in
            let d := WaitForIncommingCalls env d in
            if MarkFileAsError_ok env then api_ModemLog MODEMLOG_SEND_FAILURE d
            else
              let d := api_ModemLog MODEMLOG_MOVE_FAILURE d in
              if deleteFile_ok env then api_log (SystemLog (GetSysLogMsg SYS_LOG_FILE_DELETED)) d
              else api_log (SystemLog (GetSysLogMsg SYS_LOG_FILE_CANNOT_BE_DELETED)) d
      end
      = (let d := upd_options (set_modemState MODEM_IDLE) d2 in
         let d := upd_options (set_ModemCmd NO_CMD) d in
         let d := upd_flags (fun f => set_byFileSendRetryCount
                                        (incr_BYTE (byFileSendRetryCount f)) f) d in
         if byFileSendRetryCount (flags d) <? byMaxRetries (configurables d) then
           upd_api (set_thCheckRetryDelay
                      (StartTimer (now env) (dwRetryDelay (configurables d)))) d
         else
           let d := upd_flags (set_byFileSendRetryCount 0) d in
           let d := WaitForIncommingCalls env d in
           if MarkFileAsError_ok env then api_ModemLog MODEMLOG_SEND_FAILURE d
           else
             let d := api_ModemLog MODEMLOG_MOVE_FAILURE d in
             if deleteFile_ok env then api_log (SystemLog (GetSysLogMsg SYS_LOG_FILE_DELETED)) d
             else api_log (SystemLog (GetSysLogMsg SYS_LOG_FILE_CANNOT_BE_DELETED)) d)).
  { intros X. destruct st; try reflexivity. contradiction. }
  cbv zeta in Hbranch. rewrite Hbranch. clear Hbranch.
  unfold GetCurrentModemState, GetModemCmdRsp, GetMsgRetryCount, IsModemSendingEnabled.
  rewrite <- F1, <- F2, <- F4, <- F5, <- F6, <- F8. clear F1 F2 F4 F5 F6 F7 F8 F10 F11 F3.
  destruct d2 as [s a]. destruct a as [t1 t2 t3 t4 t5 t6 q f o c0].
  destruct o as [o1 o2 o3 o4 o5 o6 o7 on o9 o10 o11]. destruct f as [f1 f2 f3].
  cbn in Hrsp. cbn -[Z.ltb incr_BYTE StartTimer].
  destruct (incr_BYTE f1 <? byMaxRetries c0) eqn:E.
  - apply Z.ltb_lt in E. cbn -[incr_BYTE StartTimer].
    repeat split; try assumption; try reflexivity; intros; lia.
  - apply Z.ltb_ge in E. unfold WaitForIncommingCalls.
    cbn -[incr_BYTE StartTimer].
    destruct on; destruct (MarkFileAsError_ok env); destruct (deleteFile_ok env);
      cbn -[incr_BYTE StartTimer];
      repeat split; try assumption; try reflexivity; try (intros; lia);
        try (intros; discriminate);
        intros _; eexists; reflexivity.
Qed.

(** A file transmission that failed. *)
Lemma failed_file_is_tried_again_witness :
  GetModemCmdRsp TXING_FILE
    (CleanUpOnIdle (Env_calm 0) AT_CMD_FAILED (SetModemStateBusy TXING_FILE Driver_idle))
  = MR_FAILED.
Proof.
  exact (proj1 (proj2 (proj2
    (failed_file_is_tried_again (Env_calm 0) AT_CMD_FAILED
       (SetModemStateBusy TXING_FILE Driver_idle) eq_refl ltac:(discriminate))))).
Defined.

(** A signal-quality probe that fails does not change the signal level at
    once: the failure is counted in a BYTE and the probe is repeated after
    the debounce delay; only when the count reaches the configured number
    is the level forgotten (set to -1), the count cleared and the failure
    written to both logs.  A probe that succeeds clears the count.  Either
    way the API layer is idle again and the answer for GETTING_CSQ tells
    the outcome. *)
Theorem signal_failure_is_debounced (env : Env) (st : AT_CMD_STATES) (d : Driver) :
  ModemCmd (options d) = GETTING_CSQ ->
  let d' := CleanUpOnIdle env st d in
  let k := incr_BYTE (byCSQDebounceCount (flags d)) in
  GetCurrentModemState d' = MODEM_IDLE
  /\ ModemCmd (options d') = NO_CMD
  /\ GetModemCmdRsp GETTING_CSQ d'
     = (match st with AT_CMD_SUCCESS => MR_SUCCESS | _ => MR_FAILED end)
  /\ (st = AT_CMD_SUCCESS ->
      byCSQDebounceCount (flags d') = 0
      /\ GetModemSignalStrength (eng d') = GetModemSignalStrength (eng d)
      /\ thCheckCSQ (api d') = thCheckCSQ (api d))
  /\ (st <> AT_CMD_SUCCESS -> k < GetCSQRetryCount d ->
      byCSQDebounceCount (flags d') = k
      /\ GetModemSignalStrength (eng d') = GetModemSignalStrength (eng d)
      /\ thCheckCSQ (api d') = ResetTimer (now env) (dwCSQDebounceDelay (configurables d)))
  /\ (st <> AT_CMD_SUCCESS -> GetCSQRetryCount d <= k ->
      byCSQDebounceCount (flags d') = 0
      /\ GetModemSignalStrength (eng d') = -1
      /\ thCheckCSQ (api d') = thCheckCSQ (api d)
      /\ exists l, log (eng d')
                   = l ++ [RecordModemLogError MODEMLOG_SIGNALSTRENGTH_FAILURE;
                           ReportSystemLogError SYS_LOG_IRIDIUM_ERROR]).
Proof.
  intros Hcmd.
  destruct (CleanUpOnIdle_head env st d)
    as (F1 & F2 & F3 & F4 & F5 & F6 & F7 & F8 & F9 & F10 & F11).
  cbv zeta in F1, F2, F3, F4, F5, F6, F7, F8, F9, F10, F11.
  cbv zeta. unfold CleanUpOnIdle. cbv zeta.
  set (d2 := HandleTimeouts env st _) in *. clearbody d2.
  rewrite F3, Hcmd. rewrite Hcmd in F9. specialize (F9 ltac:(discriminate)).
  unfold GetCurrentModemState, GetModemCmdRsp, GetCSQRetryCount, GetModemSignalStrength.
  rewrite <- F1, <- F2, <- F7, <- F9, <- F10. clear F1 F2 F3 F4 F5 F6 F7 F8 F9 F10 F11.
  destruct d2 as [s a]. destruct a as [t1 t2 t3 t4 t5 t6 q f o c0].
  destruct o as [o1 o2 o3 o4 o5 o6 o7 on o9 o10 o11]. destruct f as [f1 f2 f3].
  cbn [flags configurables options api eng modemFlags modemOptions modemConfigurables
         byCSQDebounceCount byCSQMaxDebounceRetries thCheckCSQ ModemRsp].
  destruct (incr_BYTE f3 <? byCSQMaxDebounceRetries c0) eqn:E;
    [apply Z.ltb_lt in E | apply Z.ltb_ge in E];
    destruct st;
    cbn -[incr_BYTE ResetTimer Z.ltb];
    rewrite ?(proj2 (Z.ltb_lt _ _) E), ?(proj2 (Z.ltb_ge _ _) E);
    cbn -[incr_BYTE ResetTimer Z.ltb];
    repeat split; try reflexivity; try (intros; discriminate); try (intros; lia);
      try (intros; contradiction);
      intros; eexists; unfold add_log; cbn; rewrite <- app_assoc; reflexivity.
Qed.

(** A signal probe that timed out. *)
Lemma signal_failure_is_debounced_witness :
  GetModemCmdRsp GETTING_CSQ
    (CleanUpOnIdle (Env_calm 0) AT_CMD_TIMED_OUT (SetModemStateBusy GETTING_CSQ Driver_idle))
  = MR_FAILED.
Proof.
  exact (proj1 (proj2 (proj2
    (signal_failure_is_debounced (Env_calm 0) AT_CMD_TIMED_OUT
       (SetModemStateBusy GETTING_CSQ Driver_idle) eq_refl)))).
Defined.


(** ** The answer of a command (CleanUpOnIdle) *)

Lemma SetModemStateBusy_rsp (cmd c : MODEM_COMMANDS) (d : Driver) :
  c <> cmd ->
  ModemRsp (modemOptions (api (SetModemStateBusy cmd d))) c = ModemRsp (modemOptions (api d)) c.
Proof.
  intros Hc. unfold SetModemStateBusy. cbn.
  destruct (MODEM_COMMANDS_eq_dec c cmd); [contradiction | reflexivity].
Qed.

Lemma AddNewDataToQueue_rsp (env : Env) (cmd c : MODEM_COMMANDS) (d : Driver) :
  c <> cmd ->
  ModemRsp (modemOptions (api (AddNewDataToQueue env cmd d))) c
  = ModemRsp (modemOptions (api d)) c.
Proof.
  intros Hc. unfold AddNewDataToQueue. destruct (in_queue_buffer cmd (modemQBuff d)); [reflexivity|].
  cbn. destruct (MODEM_COMMANDS_eq_dec c cmd); [contradiction | reflexivity].
Qed.

Lemma WaitForIncommingCalls_rsp (env : Env) (d : Driver) :
  ModemRsp (modemOptions (api (WaitForIncommingCalls env d))) = ModemRsp (modemOptions (api d)).
Proof. unfold WaitForIncommingCalls. destruct (bSendingEnabled (options d)); reflexivity. Qed.

Lemma GetMailboxStatus_rsp (env : Env) (c : MODEM_COMMANDS) (d : Driver) :
  c <> RXING_FILE ->
  ModemRsp (modemOptions (api (snd (GetMailboxStatus env d)))) c
  = ModemRsp (modemOptions (api d)) c.
Proof.
  intros Hc. unfold GetMailboxStatus, on_eng.
  destruct (GetSBDStatus (eng d)) as [mt s1].
  destruct (mt =? SUCCESSFUL_MSG); [|reflexivity].
  change (eng (set_eng s1 d)) with s1.
  destruct (SendReadBinaryFileCmd env s1) as [[|] s2]; cbn [snd]; [|reflexivity].
  rewrite SetModemStateBusy_rsp by exact Hc. reflexivity.
Qed.

Lemma wait_unless_mailbox_rsp (env : Env) (c : MODEM_COMMANDS) (d : Driver) :
  c <> RXING_FILE ->
  ModemRsp (modemOptions (api (wait_unless_mailbox env d))) c
  = ModemRsp (modemOptions (api d)) c.
Proof.
  intros Hc. unfold wait_unless_mailbox.
  pose proof (GetMailboxStatus_rsp env c d Hc) as H.
  destruct (GetMailboxStatus env d) as [[|] d1]; cbn [snd] in H; [exact H|].
  change (ModemRsp (modemOptions (api (WaitForIncommingCalls env d1))) c
          = ModemRsp (modemOptions (api d)) c).
  rewrite WaitForIncommingCalls_rsp. exact H.
Qed.

Lemma HangupCall_rsp (env : Env) (c : MODEM_COMMANDS) (d : Driver) :
  c <> CALL_HANGUP ->
  ModemRsp (modemOptions (api (snd (HangupCall env d)))) c
  = ModemRsp (modemOptions (api d)) c.
Proof.
  intros Hc. unfold HangupCall, on_eng.
  destruct (SendCallHangupCmd env (eng d)) as [[|] s1]; cbn [snd].
  - rewrite SetModemStateBusy_rsp by exact Hc. reflexivity.
  - rewrite AddNewDataToQueue_rsp by exact Hc. reflexivity.
Qed.

Lemma dispose_sent_file_api (env : Env) (d : Driver) : api (dispose_sent_file env d) = api d.
Proof. unfold dispose_sent_file. repeat break_if; reflexivity. Qed.

Lemma on_eng_api {A : Type} (f : Engine -> A * Engine) (d : Driver) :
  api (snd (on_eng f d)) = api d.
Proof. unfold on_eng. destruct (f (eng d)). reflexivity. Qed.

Lemma not_success_dec (st : AT_CMD_STATES) : {st = AT_CMD_SUCCESS} + {st <> AT_CMD_SUCCESS}.
Proof. destruct st; first [left; reflexivity | right; discriminate]. Qed.

Lemma match_not_success {A : Type} (a b : A) (st : AT_CMD_STATES) :
  st <> AT_CMD_SUCCESS ->
  match st with AT_CMD_SUCCESS => a | _ => b end = b.
Proof. intros H. destruct st; try reflexivity. contradiction. Qed.

Lemma rsp_set_modemState (v : MODEM_STATES) (d : Driver) :
  ModemRsp (modemOptions (api (upd_options (set_modemState v) d)))
  = ModemRsp (modemOptions (api d)).
Proof. reflexivity. Qed.

Lemma rsp_set_ModemCmd (v : MODEM_COMMANDS) (d : Driver) :
  ModemRsp (modemOptions (api (upd_options (set_ModemCmd v) d)))
  = ModemRsp (modemOptions (api d)).
Proof. reflexivity. Qed.

Lemma rsp_upd_flags (f : MODEM_FLAGS -> MODEM_FLAGS) (d : Driver) :
  ModemRsp (modemOptions (api (upd_flags f d))) = ModemRsp (modemOptions (api d)).
Proof. reflexivity. Qed.

Lemma rsp_set_thCheckRetryDelay (t : TIMERHANDLE) (d : Driver) :
  ModemRsp (modemOptions (api (upd_api (set_thCheckRetryDelay t) d)))
  = ModemRsp (modemOptions (api d)).
Proof. reflexivity. Qed.

Lemma rsp_set_thCheckCSQ (t : TIMERHANDLE) (d : Driver) :
  ModemRsp (modemOptions (api (upd_api (set_thCheckCSQ t) d)))
  = ModemRsp (modemOptions (api d)).
Proof. reflexivity. Qed.

Lemma api_api_log (e : LogEvent) (d : Driver) : api (api_log e d) = api d.
Proof. reflexivity. Qed.

Lemma api_api_ModemLog (c : MODEMLOG_ERR_CODE) (d : Driver) : api (api_ModemLog c d) = api d.
Proof. reflexivity. Qed.

Lemma api_upd_eng (f : Engine -> Engine) (d : Driver) : api (upd_eng f d) = api d.
Proof. reflexivity. Qed.

Ltac rsp_step :=
  first
    [ rewrite rsp_set_modemState
    | rewrite rsp_set_ModemCmd
    | rewrite rsp_upd_flags
    | rewrite rsp_set_thCheckRetryDelay
    | rewrite rsp_set_thCheckCSQ
    | rewrite api_api_log
    | rewrite api_api_ModemLog
    | rewrite api_upd_eng
    | rewrite HangupCall_rsp by discriminate
    | rewrite wait_unless_mailbox_rsp by discriminate
    | rewrite WaitForIncommingCalls_rsp
    | rewrite SetModemStateBusy_rsp by discriminate
    | rewrite dispose_sent_file_api
    | match goal with
      | H : api ?y = _ |- context [api ?y] => rewrite H
      end
    | match goal with
      | |- context [on_eng ?f ?x] =>
          let H := fresh "H" in
          pose proof (on_eng_api f x) as H;
          destruct (on_eng f x) as [[|] ?]; cbn [snd] in H
      | |- context [if ?b then _ else _] => destruct b
      end
    | match goal with
      | |- ?a = ?a => reflexivity
      end ].

(** When a file, buffer or text transmission, a call status request, a
    mailbox or gateway check, a signal probe or a hang-up has come to its
    end, the answer polled for that command tells the outcome, whatever
    CleanUpOnIdle starts next: MR_SUCCESS if the engine ended in
    AT_CMD_SUCCESS, MR_FAILED in every other case. *)
Theorem outcome_is_reported (env : Env) (st : AT_CMD_STATES) (d : Driver) :
  settled_by_CleanUpOnIdle (ModemCmd (options d)) = true ->
  GetModemCmdRsp (ModemCmd (options d)) (CleanUpOnIdle env st d)
  = match st with AT_CMD_SUCCESS => MR_SUCCESS | _ => MR_FAILED end.
Proof.
  intros Hcmd.
  destruct (CleanUpOnIdle_head env st d)
    as (_ & _ & F3 & _ & _ & _ & _ & _ & F9 & _ & _).
  cbv zeta in F3, F9.
  destruct (ModemCmd (options d)) eqn:Ecmd; try discriminate Hcmd; clear Hcmd;
    specialize (F9 ltac:(discriminate));
    unfold GetModemCmdRsp, CleanUpOnIdle; cbv zeta;
    set (d2 := HandleTimeouts env st _) in *; clearbody d2;
    set (r := match st with AT_CMD_SUCCESS => MR_SUCCESS | _ => MR_FAILED end) in *;
    clearbody r;
    rewrite <- F9; clear F9;
    rewrite F3; cbv iota; clear F3;
    unfold options;
    (destruct (not_success_dec st) as [-> | Hst];
     [|rewrite ?(match_not_success _ _ st Hst)]);
    repeat rsp_step.
Qed.

(** A mailbox check that succeeded. *)
Lemma outcome_is_reported_witness :
  GetModemCmdRsp MAILBOX_CHECK
    (CleanUpOnIdle (Env_calm 0) AT_CMD_SUCCESS (SetModemStateBusy MAILBOX_CHECK Driver_idle))
  = MR_SUCCESS.
Proof.
  exact (outcome_is_reported (Env_calm 0) AT_CMD_SUCCESS
           (SetModemStateBusy MAILBOX_CHECK Driver_idle) eq_refl).
Defined.


(** ** Loss of modem power (UpdateModemState) *)

(** When the modem has no power and no aux-board exchange is under way, one
    tick takes the engine to AT_CMD_POWERED_DOWN from whatever it was doing:
    no sub-state, no error code, the response timer stopped, the line buffer
    and the receive queue empty, the routing on the modem, the signal level
    and the mailbox state forgotten, the cached ringer and relay states
    kept.  Nothing is sent and the API layer is not touched; further ticks
    without power change nothing more. *)
Theorem modem_power_loss (env : Env) (d : Driver) :
  IsModemRunning env = false ->
  ATCmdState (eng d) <> AT_CMD_PGMING ->
  TimerExpired (now env) (thCISRespTimeOut (eng d)) = false ->
  let d' := UpdateModemState env d in
  api d' = api d
  /\ ATCmdState (eng d') = AT_CMD_POWERED_DOWN
  /\ subState (eng d') = SUBSTATE_NONE
  /\ errorCodeRsp (eng d') = MEC_NONE
  /\ thRespTimeOut (eng d') = StopTimer
  /\ wRxIndex (eng d') = 0
  /\ rxq (eng d') = []
  /\ cisPort (eng d') = DATA_PORT
  /\ tx (eng d') = tx (eng d)
  /\ GetModemSignalStrength (eng d') = -1
  /\ fst (GetSBDStatus (eng d')) = NO_MSG
  /\ GetRingerStatus (eng d') = GetRingerStatus (eng d)
  /\ GetRelayStatus RELAY_1 (eng d') = GetRelayStatus RELAY_1 (eng d)
  /\ GetRelayStatus RELAY_2 (eng d') = GetRelayStatus RELAY_2 (eng d)
  /\ UpdateModemState env d' = d'.
Proof.
  intros Hoff Hpg Hcis.
  assert (Hdown : forall s : Engine,
            ATCmdState s <> AT_CMD_PGMING ->
            TimerExpired (now env) (thCISRespTimeOut s) = false ->
            UpdateModemState_supervise env s
            = set_errorCodeRsp MEC_NONE
                (set_subState SUBSTATE_NONE
                   (set_ATCmdState AT_CMD_POWERED_DOWN
                      (set_thRespTimeOut StopTimer
                         (ClearRxBinaryDataVars (ClearModemInfo (ClearBuffers DATA_PORT s))))))).
  { intros s Hs Ht. unfold UpdateModemState_supervise. cbv zeta.
    assert (E1 : UpdateModemState_modem_power env s
                 = set_errorCodeRsp MEC_NONE
                     (set_subState SUBSTATE_NONE
                        (set_ATCmdState AT_CMD_POWERED_DOWN
                           (set_thRespTimeOut StopTimer
                              (ClearRxBinaryDataVars
                                 (ClearModemInfo (ClearBuffers DATA_PORT s))))))).
    { unfold UpdateModemState_modem_power. rewrite Hoff. cbn [negb].
      destruct (ATCmdState s); try reflexivity. contradiction. }
    rewrite E1.
    set (s1 := set_errorCodeRsp _ _).
    assert (F : thRespTimeOut s1 = StopTimer /\ thCISRespTimeOut s1 = thCISRespTimeOut s
                /\ ATCmdState s1 = AT_CMD_POWERED_DOWN).
    { unfold s1. destruct s. cbn. repeat split; reflexivity. }
    destruct F as (F1 & F2 & F3). clearbody s1.
    rewrite UpdateModemState_rsp_timeout_idle by (rewrite F1; reflexivity).
    rewrite UpdateModemState_cis_power_other by (rewrite F3; discriminate).
    apply UpdateModemState_cis_timeout_idle. rewrite F2. exact Ht. }
  assert (Hstay : forall s : Engine,
            ATCmdState s = AT_CMD_POWERED_DOWN ->
            UpdateModemState_POWERED_DOWN env s = s).
  { intros s _. unfold UpdateModemState_POWERED_DOWN. rewrite Hoff. reflexivity. }
  assert (Htick : forall x : Driver,
            ATCmdState (eng x) <> AT_CMD_PGMING ->
            TimerExpired (now env) (thCISRespTimeOut (eng x)) = false ->
            UpdateModemState env x
            = set_eng
                (set_errorCodeRsp MEC_NONE
                   (set_subState SUBSTATE_NONE
                      (set_ATCmdState AT_CMD_POWERED_DOWN
                         (set_thRespTimeOut StopTimer
                            (ClearRxBinaryDataVars
                               (ClearModemInfo (ClearBuffers DATA_PORT (eng x)))))))) x).
  { intros x Hx Ht. unfold UpdateModemState, upd_eng. cbv zeta.
    rewrite (Hdown (eng x) Hx Ht).
    set (s1 := set_errorCodeRsp _ _).
    assert (F1 : ATCmdState s1 = AT_CMD_POWERED_DOWN) by (unfold s1; destruct (eng x); reflexivity).
    clearbody s1.
    change (eng (set_eng s1 x)) with s1. rewrite F1, (Hstay s1 F1).
    destruct x; reflexivity. }
  cbv zeta. rewrite (Htick d Hpg Hcis).
  set (s1 := set_errorCodeRsp _ _).
  assert (F : ATCmdState s1 = AT_CMD_POWERED_DOWN
              /\ subState s1 = SUBSTATE_NONE
              /\ errorCodeRsp s1 = MEC_NONE
              /\ thRespTimeOut s1 = StopTimer
              /\ thCISRespTimeOut s1 = thCISRespTimeOut (eng d)
              /\ wRxIndex s1 = 0
              /\ rxq s1 = []
              /\ cisPort s1 = DATA_PORT
              /\ tx s1 = tx (eng d)
              /\ GetModemSignalStrength s1 = -1
              /\ fst (GetSBDStatus s1) = NO_MSG
              /\ GetRingerStatus s1 = GetRingerStatus (eng d)
              /\ GetRelayStatus RELAY_1 s1 = GetRelayStatus RELAY_1 (eng d)
              /\ GetRelayStatus RELAY_2 s1 = GetRelayStatus RELAY_2 (eng d)
              /\ set_errorCodeRsp MEC_NONE
                   (set_subState SUBSTATE_NONE
                      (set_ATCmdState AT_CMD_POWERED_DOWN
                         (set_thRespTimeOut StopTimer
                            (ClearRxBinaryDataVars (ClearModemInfo (ClearBuffers DATA_PORT s1))))))
                 = s1).
  { unfold s1. destruct (eng d) as [st sub err rxb rxi pvs t1 t2 msg ck mi bin imei ver have
                                      sat cnt eol idx rq txs port lg].
    destruct mi. do 14 (split; [reflexivity|]). vm_compute. reflexivity. }
  destruct F as (F1 & F2 & F3 & F4 & F5 & F6 & F7 & F8 & F9 & F10 & F11 & F12 & F13 & F14 & F15).
  clearbody s1.
  change (eng (set_eng s1 d)) with s1. change (api (set_eng s1 d)) with (api d).
  repeat split; try assumption.
  rewrite (Htick (set_eng s1 d)).
  - change (eng (set_eng s1 d)) with s1. rewrite F15. destruct d; reflexivity.
  - change (eng (set_eng s1 d)) with s1. rewrite F1. discriminate.
  - change (eng (set_eng s1 d)) with s1. rewrite F5. exact Hcis.
Qed.

(** The idle driver at the time the modem loses its power. *)
Lemma modem_power_loss_witness :
  ATCmdState (eng (UpdateModemState (Env_modem_off 7) Driver_idle)) = AT_CMD_POWERED_DOWN.
Proof.
  exact (proj1 (proj2
    (modem_power_loss (Env_modem_off 7) Driver_idle eq_refl ltac:(discriminate) eq_refl))).
Defined.


(** ** Receiving again (CleanUpOnIdle) *)

Lemma HandleTimeouts_ATCmdState (env : Env) (st : AT_CMD_STATES) (d : Driver) :
  ATCmdState (eng (HandleTimeouts env st d)) = ATCmdState (eng d)
  /\ tx (eng (HandleTimeouts env st d)) = tx (eng d).
Proof.
  unfold HandleTimeouts, AddNewDataToQueue.
  destruct st; try (split; reflexivity).
  destruct (TimerExpired _ _); [|split; reflexivity].
  destruct (InVoiceCall env); cbn [negb]; [split; reflexivity|].
  destruct (PowerCycleCIS env); cbn [negb]; [split; reflexivity|].
  destruct (in_queue_buffer _ _); split; reflexivity.
Qed.

Lemma SendReadBinaryFileCmd_accepted (env : Env) (s : Engine) :
  ATCmdState s = AT_CMD_IDLE ->
  fst (SendReadBinaryFileCmd env s) = true
  /\ ATCmdState (snd (SendReadBinaryFileCmd env s)) = AT_CMD_RCVING.
Proof.
  intros H. unfold SendReadBinaryFileCmd. rewrite H. cbn [fst snd]. split; reflexivity.
Qed.

Lemma WaitForIncommingCalls_off (env : Env) (d : Driver) :
  bSendingEnabled (modemOptions (api (WaitForIncommingCalls env d))) = false
  /\ modemFlags (api (WaitForIncommingCalls env d)) = modemFlags (api d)
  /\ modemState (modemOptions (api (WaitForIncommingCalls env d)))
     = modemState (modemOptions (api d))
  /\ ModemCmd (modemOptions (api (WaitForIncommingCalls env d)))
     = ModemCmd (modemOptions (api d))
  /\ eng (WaitForIncommingCalls env d) = eng d.
Proof.
  unfold WaitForIncommingCalls, options.
  destruct (bSendingEnabled (modemOptions (api d))) eqn:E; repeat split; try reflexivity.
  exact E.
Qed.

(** Only a reception that timed out is tried again.  With RXING_FILE in
    flight, an engine that timed out, the count of tries (a BYTE) still
    below the configured number and the engine idle again, CleanUpOnIdle
    sends the read command once more: the API layer is busy with RXING_FILE
    and its answer is MR_WAITING.  In every other case (success, failure, or
    the last try timed out) the reception is over: the API layer is idle,
    the count is 0, sending is switched off for the wait for calls, nothing
    has been sent and the answer tells the outcome. *)
Theorem timed_out_reception_is_repeated (env : Env) (st : AT_CMD_STATES) (d : Driver) :
  ModemCmd (options d) = RXING_FILE ->
  let d' := CleanUpOnIdle env st d in
  let k := incr_BYTE (byFileReceiveRetryCount (flags d)) in
  let over :=
    GetCurrentModemState d' = MODEM_IDLE
    /\ ModemCmd (options d') = NO_CMD
    /\ byFileReceiveRetryCount (flags d') = 0
    /\ IsModemSendingEnabled d' = false
    /\ tx (eng d') = tx (eng d)
    /\ GetModemCmdRsp RXING_FILE d'
       = match st with AT_CMD_SUCCESS => MR_SUCCESS | _ => MR_FAILED end in
  (st <> AT_CMD_TIMED_OUT -> over)
  /\ (st = AT_CMD_TIMED_OUT -> GetMsgRetryCount d <= k -> over)
  /\ (st = AT_CMD_TIMED_OUT -> k < GetMsgRetryCount d -> ATCmdState (eng d) = AT_CMD_IDLE ->
      GetCurrentModemState d' = MODEM_BUSY
      /\ ModemCmd (options d') = RXING_FILE
      /\ byFileReceiveRetryCount (flags d') = k
      /\ IsModemSendingEnabled d' = IsModemSendingEnabled d
      /\ ATCmdState (eng d') = AT_CMD_RCVING
      /\ GetModemCmdRsp RXING_FILE d' = MR_WAITING).
Proof.
  intros Hcmd.
  destruct (CleanUpOnIdle_head env st d)
    as (F1 & F2 & F3 & F4 & _ & _ & _ & _ & F9 & _ & _).
  cbv zeta in F1, F2, F3, F4, F9.
  destruct (HandleTimeouts_ATCmdState env st
              (upd_options
                 (fun o => set_ModemRsp_at (ModemCmd o)
                             (match st with AT_CMD_SUCCESS => MR_SUCCESS | _ => MR_FAILED end) o)
                 d)) as [G1 G2].
  change (eng (upd_options
                 (fun o => set_ModemRsp_at (ModemCmd o)
                             (match st with AT_CMD_SUCCESS => MR_SUCCESS | _ => MR_FAILED end) o)
                 d)) with (eng d) in G1, G2.
  cbv zeta. unfold CleanUpOnIdle. cbv zeta.
  set (d2 := HandleTimeouts env st _) in *. clearbody d2.
  rewrite F3, Hcmd. cbv iota. rewrite Hcmd in F9. specialize (F9 ltac:(discriminate)).
  unfold GetCurrentModemState, GetModemCmdRsp, GetMsgRetryCount, IsModemSendingEnabled.
  rewrite <- F1, <- F2, <- F4, <- F9, <- G1, <- G2. clear F1 F2 F3 F4 F9 G1 G2.
  assert (Hover : forall x : Driver,
            ModemRsp (modemOptions (api x)) RXING_FILE = ModemRsp (modemOptions (api d2)) RXING_FILE ->
            modemState (modemOptions (api x)) = MODEM_IDLE ->
            ModemCmd (modemOptions (api x)) = NO_CMD ->
            tx (eng x) = tx (eng d2) ->
            let x' := upd_flags (set_byFileReceiveRetryCount 0) (WaitForIncommingCalls env x) in
            modemState (options x') = MODEM_IDLE
            /\ ModemCmd (options x') = NO_CMD
            /\ byFileReceiveRetryCount (flags x') = 0
            /\ bSendingEnabled (options x') = false
            /\ tx (eng x') = tx (eng d2)
            /\ ModemRsp (options x') RXING_FILE = ModemRsp (options d2) RXING_FILE).
  { intros x R S C T. cbv zeta.
    destruct (WaitForIncommingCalls_off env x) as (W1 & W2 & W3 & W4 & W5).
    pose proof (WaitForIncommingCalls_rsp env x) as W6.
    set (y := WaitForIncommingCalls env x) in *. clearbody y.
    unfold options, flags. cbn [upd_flags upd_api api set_api eng modemOptions modemFlags
                                  set_modemFlags byFileReceiveRetryCount
                                  set_byFileReceiveRetryCount].
    rewrite W1, W3, W4, W5, W6. repeat split; assumption. }
  split; [|split].
  - intros Hst.
    assert (E : forall (A B C : Driver),
              match st with AT_CMD_TIMED_OUT => A | _ => B end = B).
    { intros A B C. destruct st; try reflexivity. contradiction. }
    rewrite E by exact d2. apply Hover; reflexivity.
  - intros -> Hk. cbv iota.
    unfold flags, configurables.
    cbn [upd_flags upd_options upd_api api_log upd_eng api set_api set_eng modemFlags
           modemConfigurables set_modemFlags set_modemOptions byFileReceiveRetryCount
           set_byFileReceiveRetryCount].
    replace (incr_BYTE (byFileReceiveRetryCount (modemFlags (api d2)))
             <? byMaxRetries (modemConfigurables (api d2))) with false
      by (symmetry; apply Z.ltb_ge; exact Hk).
    apply Hover; reflexivity.
  - intros -> Hk Hidle. cbv iota.
    unfold flags, configurables.
    cbn [upd_flags upd_options upd_api api_log upd_eng api set_api set_eng modemFlags
           modemConfigurables set_modemFlags set_modemOptions byFileReceiveRetryCount
           set_byFileReceiveRetryCount].
    replace (incr_BYTE (byFileReceiveRetryCount (modemFlags (api d2)))
             <? byMaxRetries (modemConfigurables (api d2))) with true
      by (symmetry; apply Z.ltb_lt; exact Hk).
    unfold on_eng.
    match goal with
    | |- context [SendReadBinaryFileCmd env ?s0] =>
        destruct (SendReadBinaryFileCmd_accepted env s0) as [A1 A2];
        [exact Hidle|];
        destruct (SendReadBinaryFileCmd env s0) as [sent s1]
    end.
    cbn [fst snd] in A1, A2. subst sent.
    unfold options, flags, SetModemStateBusy.
    cbn [upd_flags upd_options upd_api api_log upd_eng api set_api set_eng eng modemFlags
           modemOptions set_modemFlags set_modemOptions byFileReceiveRetryCount
           set_byFileReceiveRetryCount modemState set_modemState ModemCmd set_ModemCmd
           bSendingEnabled set_prevModemState add_log set_log ATCmdState].
    repeat split; try reflexivity; exact A2.
Qed.

(** A reception that timed out, tried again from the idle engine. *)
Lemma timed_out_reception_is_repeated_witness :
  GetModemCmdRsp RXING_FILE
    (CleanUpOnIdle (Env_calm 0) AT_CMD_TIMED_OUT (SetModemStateBusy RXING_FILE Driver_idle))
  = MR_WAITING.
Proof.
  refine (proj2 (proj2 (proj2 (proj2 (proj2
    (proj2 (proj2 (timed_out_reception_is_repeated (Env_calm 0) AT_CMD_TIMED_OUT
                     (SetModemStateBusy RXING_FILE Driver_idle) eq_refl))
       eq_refl _ eq_refl)))))).
  vm_compute. reflexivity.
Defined.

